(** * RiteVM (mruby [src/vm.c]): a shallow embedding of the interpreter core

    The development follows [vm.c] function by function.  C [int]s, symbols
    and pointer offsets are integers of [Z]; a pointer to [mrb_value] cells is
    a block identifier with an offset, so that a pointer kept across a
    [mrb_realloc] is seen to dangle; heap objects ([RProc], [REnv], [RArray],
    exceptions) live in an object heap addressed by non-zero integers, the
    way [value.p] holds them in the C union.  Every access outside a live
    block is undefined behaviour in C and is [None] here.

    Sizes are assumed to stay inside the range of [int]: signed overflow is
    left out of the model. *)

From Stdlib Require Import ZArith List String Ascii DecimalString Lia.
From stdpp Require Import base tactics option list.
Import ListNotations.

Local Open Scope Z_scope.

(** ** Values ([mruby.h], not part of [vm.c])

    Modelled from the spec: the value representation of §3 ("a tagged cell
    of fixed size"), with the tag and the payload union read the way the
    [SET_*_VALUE] macros of [vm.c] write them. *)

Inductive mrb_vtype : Type :=
| MRB_TT_FALSE | MRB_TT_FREE | MRB_TT_TRUE | MRB_TT_FIXNUM | MRB_TT_SYMBOL
| MRB_TT_UNDEF | MRB_TT_FLOAT | MRB_TT_OBJECT | MRB_TT_CLASS | MRB_TT_MODULE
| MRB_TT_PROC | MRB_TT_ARRAY | MRB_TT_HASH | MRB_TT_STRING | MRB_TT_RANGE
| MRB_TT_EXCEPTION | MRB_TT_ENV.

#[global] Instance mrb_vtype_eq_dec : EqDecision mrb_vtype.
Proof. solve_decision. Defined.

(** [value] is the union [{ i; sym; p }] read as one integer: a fixnum, a
    symbol number or the address of a heap object (0 is the null pointer). *)
Record mrb_value : Type := MkValue { tt : mrb_vtype; value : Z }.

#[global] Instance mrb_value_eq_dec : EqDecision mrb_value.
Proof. solve_decision. Defined.

Definition mrb_sym : Type := Z.

(* SET_NIL_VALUE: tt = MRB_TT_FALSE, value.p = 0 *)
Definition mrb_nil_value : mrb_value := MkValue MRB_TT_FALSE 0.
(* SET_FALSE_VALUE: tt = MRB_TT_FALSE, value.i = 1 *)
Definition mrb_false_value : mrb_value := MkValue MRB_TT_FALSE 1.
(* SET_TRUE_VALUE: tt = MRB_TT_TRUE, value.i = 1 *)
Definition mrb_true_value : mrb_value := MkValue MRB_TT_TRUE 1.
(* SET_INT_VALUE *)
Definition mrb_fixnum_value (n : Z) : mrb_value := MkValue MRB_TT_FIXNUM n.
(* SET_SYM_VALUE *)
Definition mrb_symbol_value (s : mrb_sym) : mrb_value := MkValue MRB_TT_SYMBOL s.

(** What [memset (.., 0, ..)] leaves in a cell: the first tag with a zero
    payload, which is [nil]. *)
Definition zero_value : mrb_value := MkValue MRB_TT_FALSE 0.

Definition mrb_test (v : mrb_value) : bool :=
  if decide (tt v = MRB_TT_FALSE) then false else true.

Definition mrb_nil_p (v : mrb_value) : bool :=
  if decide (tt v = MRB_TT_FALSE) then value v =? 0 else false.

(* mrb_object(v): the pointer member of the union *)
Definition mrb_object (v : mrb_value) : Z := value v.

(** ** Pointers to value cells and the memory they point into *)

Record ptr : Type := Ptr { blk : nat; off : Z }.

#[global] Instance ptr_eq_dec : EqDecision ptr.
Proof. solve_decision. Defined.

(** Block 0 is never allocated: [Ptr 0 0] is the null pointer. *)
Definition NULL : ptr := Ptr 0 0.

Definition ptr_add (p : ptr) (n : Z) : ptr := Ptr (blk p) (off p + n).

(* p - q, for two pointers into one block *)
Definition ptr_diff (p q : ptr) : Z := off p - off q.

(** A block is live ([Some cells]) or freed ([None]). *)
Abbreviation memory := (list (option (list mrb_value))).

Definition block_of (M : memory) (b : nat) : option (list mrb_value) :=
  match M !! b with
  | Some (Some cells) => Some cells
  | _ => None
  end.

(** [n] consecutive cells from [p]; a negative [n] is the huge [size_t] a
    negative [int] converts to, and never in bounds. *)
Definition load_n (M : memory) (p : ptr) (n : Z) : option (list mrb_value) :=
  match block_of M (blk p) with
  | Some cells =>
      if decide (0 <= off p /\ 0 <= n /\ off p + n <= Z.of_nat (length cells))
      then Some (take (Z.to_nat n) (drop (Z.to_nat (off p)) cells))
      else None
  | None => None
  end.

Definition store_n (M : memory) (p : ptr) (vs : list mrb_value) : option memory :=
  match block_of M (blk p) with
  | Some cells =>
      if decide (0 <= off p /\ off p + Z.of_nat (length vs) <= Z.of_nat (length cells))
      then Some (<[blk p := Some (take (Z.to_nat (off p)) cells ++ vs ++
                                  drop (Z.to_nat (off p) + length vs) cells)]> M)
      else None
  | None => None
  end.

Definition load (M : memory) (p : ptr) : option mrb_value :=
  match load_n M p 1 with
  | Some [v] => Some v
  | _ => None
  end.

Definition store (M : memory) (p : ptr) (v : mrb_value) : option memory :=
  store_n M p [v].

(* memmove(dst, src, sizeof(mrb_value) * n) *)
Definition memmove (M : memory) (dst src : ptr) (n : Z) : option memory :=
  match load_n M src n with
  | Some vs => store_n M dst vs
  | None => None
  end.

(** [memcpy] is used by [vm.c] only between disjoint regions, where it
    agrees with [memmove]. *)
Definition memcpy (M : memory) (dst src : ptr) (n : Z) : option memory :=
  memmove M dst src n.

(* memset(p, 0, sizeof(mrb_value) * n) *)
Definition memset0 (M : memory) (p : ptr) (n : Z) : option memory :=
  if decide (0 <= n) then store_n M p (replicate (Z.to_nat n) zero_value) else None.

Section Allocation.

(** What a fresh cell holds before it is written: cell [i] of block [b]
    starts as [uninit b i], whatever that is. *)
Variable uninit : nat -> nat -> mrb_value.

Definition fresh_cells (b : nat) (from : nat) (n : nat) : list mrb_value :=
  map (uninit b) (seq from n).

(** The next block identifier; block 0 stays reserved for [NULL]. *)
Definition next_block (M : memory) : memory * nat :=
  match M with
  | [] => ([None], 1%nat)
  | _ => (M, length M)
  end.

(* mrb_malloc(mrb, sizeof(mrb_value) * n) *)
Definition mrb_malloc (M : memory) (n : Z) : option (memory * ptr) :=
  if decide (0 <= n) then
    let '(M0, b) := next_block M in
    Some (M0 ++ [Some (fresh_cells b 0 (Z.to_nat n))], Ptr b 0)
  else None.

(** [mrb_realloc]: the cells move to a new block, the old block is freed,
    and every pointer into the old block dangles from then on. *)
Definition mrb_realloc (M : memory) (p : ptr) (n : Z) : option (memory * ptr) :=
  if decide (p = NULL) then mrb_malloc M n
  else
    match block_of M (blk p) with
    | Some cells =>
        if decide (off p = 0 /\ 0 <= n) then
          let '(M0, b) := next_block M in
          let kept := take (Z.to_nat n) cells in
          let cells' := kept ++ fresh_cells b (length kept) (Z.to_nat n - length kept) in
          Some (<[blk p := None]> M0 ++ [Some cells'], Ptr b 0)
        else None
    | None => None
    end.

End Allocation.

(** ** Arrays indexed by a C integer *)

Definition zlookup {A} (l : list A) (i : Z) : option A :=
  if decide (0 <= i) then l !! Z.to_nat i else None.

Definition zupdate {A} (l : list A) (i : Z) (x : A) : option (list A) :=
  if decide (0 <= i < Z.of_nat (length l)) then Some (<[Z.to_nat i := x]> l) else None.

(** ** Bytecode ([opcode.h] and [mruby/irep.h], not part of [vm.c])

    Modelled from the spec: §6 gives the instruction word as an opcode with
    the operand fields A, B, C / A, Bx / sBx / Ax, and [vm.c] reads them only
    through the [GETARG_*] macros; an instruction is kept decoded, one
    constructor per opcode of [vm.c]'s dispatch table with the operands that
    opcode's case reads.  The packed sub-fields of [Ax] are decoded by
    [vm.c] itself and stay an integer here. *)

Inductive mrb_code : Type :=
| OP_NOP
| OP_MOVE (a b : Z)
| OP_LOADL (a bx : Z)
| OP_LOADI (a sbx : Z)
| OP_LOADSYM (a bx : Z)
| OP_LOADNIL (a : Z)
| OP_LOADSELF (a : Z)
| OP_LOADT (a : Z)
| OP_LOADF (a : Z)
| OP_GETUPVAR (a b c : Z)
| OP_SETUPVAR (a b c : Z)
| OP_JMP (sbx : Z)
| OP_JMPIF (a sbx : Z)
| OP_JMPNOT (a sbx : Z)
| OP_ONERR (sbx : Z)
| OP_RESCUE (a : Z)
| OP_POPERR (a : Z)
| OP_RAISE (a : Z)
| OP_EPUSH (bx : Z)
| OP_EPOP (a : Z)
| OP_SEND (a b c : Z)
| OP_FSEND (a b c : Z)
| OP_VSEND (a b : Z)
| OP_ENTER (ax : Z)
| OP_KARG (a b c : Z)
| OP_KDICT (a c : Z)
| OP_RETURN (a b : Z)
| OP_TAILCALL (a b c : Z)
| OP_LAMBDA (a b c : Z)
| OP_STOP
(* the remaining opcodes hand their work to host tables (globals, constants,
   arrays, strings, hashes, classes, floats); their cases are not modelled *)
| OP_HOSTED.

Definition CALL_MAXARGS : Z := 127.
Definition STACK_INIT_SIZE : Z := 128.
Definition CALLINFO_INIT_SIZE : Z := 32.

(* RETURN's B operand *)
Definition OP_R_NORMAL : Z := 0.
Definition OP_R_BREAK : Z := 1.
Definition OP_R_RETURN : Z := 2.
(* LAMBDA's c operand *)
Definition OP_L_STRICT : Z := 1.
Definition OP_L_CAPTURE : Z := 2.

(** An [mrb_irep*] is the position of the irep in the state's table
    [mrb->irep]; [ir_idx] is the [idx] member the irep carries itself. *)
Record mrb_irep : Type := MkIrep {
  ir_idx : Z;
  ir_nregs : Z;
  ir_iseq : list mrb_code;
  ir_pool : list mrb_value;
  ir_syms : list mrb_sym
}.

(** An [mrb_code*]: null, or instruction [off] of the [iseq] of an irep. *)
Inductive code_ptr : Type :=
| CNull
| CPtr (ir : Z) (off : Z).

#[global] Instance code_ptr_eq_dec : EqDecision code_ptr.
Proof. solve_decision. Defined.

Definition code_add (p : code_ptr) (n : Z) : code_ptr :=
  match p with
  | CNull => CNull
  | CPtr ir o => CPtr ir (o + n)
  end.

(** ** Call frames and heap objects ([mruby.h], [mruby/proc.h], [mruby/array.h]) *)

Record mrb_callinfo : Type := MkCallinfo {
  ci_mid : mrb_sym;
  ci_proc : Z;            (* struct RProc*, 0 when null *)
  ci_stackidx : Z;
  ci_nregs : Z;
  ci_argc : Z;
  ci_pc : code_ptr;
  ci_acc : Z;
  ci_target_class : Z;    (* struct RClass* *)
  ci_ridx : Z;
  ci_eidx : Z;
  ci_env : Z              (* struct REnv*, 0 when null *)
}.

(* memset(ci, 0, sizeof(mrb_callinfo)) *)
Definition zero_callinfo : mrb_callinfo :=
  MkCallinfo 0 0 0 0 0 CNull 0 0 0 0 0.

Definition with_mid (x : mrb_sym) (c : mrb_callinfo) : mrb_callinfo :=
  MkCallinfo x (ci_proc c) (ci_stackidx c) (ci_nregs c) (ci_argc c) (ci_pc c)
             (ci_acc c) (ci_target_class c) (ci_ridx c) (ci_eidx c) (ci_env c).
Definition with_proc (x : Z) (c : mrb_callinfo) : mrb_callinfo :=
  MkCallinfo (ci_mid c) x (ci_stackidx c) (ci_nregs c) (ci_argc c) (ci_pc c)
             (ci_acc c) (ci_target_class c) (ci_ridx c) (ci_eidx c) (ci_env c).
Definition with_stackidx (x : Z) (c : mrb_callinfo) : mrb_callinfo :=
  MkCallinfo (ci_mid c) (ci_proc c) x (ci_nregs c) (ci_argc c) (ci_pc c)
             (ci_acc c) (ci_target_class c) (ci_ridx c) (ci_eidx c) (ci_env c).
Definition with_nregs (x : Z) (c : mrb_callinfo) : mrb_callinfo :=
  MkCallinfo (ci_mid c) (ci_proc c) (ci_stackidx c) x (ci_argc c) (ci_pc c)
             (ci_acc c) (ci_target_class c) (ci_ridx c) (ci_eidx c) (ci_env c).
Definition with_argc (x : Z) (c : mrb_callinfo) : mrb_callinfo :=
  MkCallinfo (ci_mid c) (ci_proc c) (ci_stackidx c) (ci_nregs c) x (ci_pc c)
             (ci_acc c) (ci_target_class c) (ci_ridx c) (ci_eidx c) (ci_env c).
Definition with_pc (x : code_ptr) (c : mrb_callinfo) : mrb_callinfo :=
  MkCallinfo (ci_mid c) (ci_proc c) (ci_stackidx c) (ci_nregs c) (ci_argc c) x
             (ci_acc c) (ci_target_class c) (ci_ridx c) (ci_eidx c) (ci_env c).
Definition with_acc (x : Z) (c : mrb_callinfo) : mrb_callinfo :=
  MkCallinfo (ci_mid c) (ci_proc c) (ci_stackidx c) (ci_nregs c) (ci_argc c) (ci_pc c)
             x (ci_target_class c) (ci_ridx c) (ci_eidx c) (ci_env c).
Definition with_target_class (x : Z) (c : mrb_callinfo) : mrb_callinfo :=
  MkCallinfo (ci_mid c) (ci_proc c) (ci_stackidx c) (ci_nregs c) (ci_argc c) (ci_pc c)
             (ci_acc c) x (ci_ridx c) (ci_eidx c) (ci_env c).
Definition with_ridx (x : Z) (c : mrb_callinfo) : mrb_callinfo :=
  MkCallinfo (ci_mid c) (ci_proc c) (ci_stackidx c) (ci_nregs c) (ci_argc c) (ci_pc c)
             (ci_acc c) (ci_target_class c) x (ci_eidx c) (ci_env c).
Definition with_eidx (x : Z) (c : mrb_callinfo) : mrb_callinfo :=
  MkCallinfo (ci_mid c) (ci_proc c) (ci_stackidx c) (ci_nregs c) (ci_argc c) (ci_pc c)
             (ci_acc c) (ci_target_class c) (ci_ridx c) x (ci_env c).
Definition with_env (x : Z) (c : mrb_callinfo) : mrb_callinfo :=
  MkCallinfo (ci_mid c) (ci_proc c) (ci_stackidx c) (ci_nregs c) (ci_argc c) (ci_pc c)
             (ci_acc c) (ci_target_class c) (ci_ridx c) (ci_eidx c) x.

(** [MRB_PROC_CFUNC_P] and [MRB_PROC_STRICT_P] test two bits of [flags];
    they are kept as the two booleans.  [proc_body] is the union [body]: the
    irep of a bytecode procedure or the function of a native one. *)
Record RProc : Type := MkProc {
  proc_cfunc : bool;
  proc_strict : bool;
  proc_body : Z;
  proc_target_class : Z;
  proc_env : Z
}.

Record REnv : Type := MkEnv {
  env_c : Z;              (* the enclosing environment (the object's class slot) *)
  env_flags : Z;          (* length of the captured window *)
  env_mid : mrb_sym;
  env_cioff : Z;
  env_stack : ptr
}.

Record RArray : Type := MkArray {
  ary_len : Z;
  ary_capa : Z;
  ary_buf : ptr
}.

Inductive RObj : Type :=
| O_free
| O_proc (p : RProc)
| O_env (e : REnv)
| O_array (a : RArray)
| O_exception (cls : Z) (mesg : string)
| O_object (t : mrb_vtype) (cls : Z).

(* the tt member every heap object starts with *)
Definition obj_tt (o : RObj) : mrb_vtype :=
  match o with
  | O_free => MRB_TT_FREE
  | O_proc _ => MRB_TT_PROC
  | O_env _ => MRB_TT_ENV
  | O_array _ => MRB_TT_ARRAY
  | O_exception _ _ => MRB_TT_EXCEPTION
  | O_object t _ => t
  end.

(** ** The interpreter state ([mrb_state]) *)

Record mrb_state : Type := MkState {
  stbase : ptr;
  stend : ptr;
  stack : ptr;
  cibase : list mrb_callinfo;   (* the frame array, as allocated *)
  ciend : Z;   (* mrb->ciend - mrb->cibase *)
  ci : Z;   (* mrb->ci - mrb->cibase *)
  rescue : list code_ptr;   (* the rescue array, as allocated *)
  rsize : Z;
  ensure : list Z;   (* the ensure array, as allocated *)
  esize : Z;
  exc : Z;   (* struct RObject*, 0 when null *)
  irep : list mrb_irep;
  heap : list RObj;
  mem : memory;
  arena_idx : Z;
  jmp : Z;   (* which mrb_run owns the current jmp_buf; 0 when null *)
  object_class : Z;
  (* not a member of the C struct: the procedures ecall has handed to
     mrb_run so far, oldest first, kept to state the order of the calls *)
  ecalled : list Z
}.

Definition set_stbase (x : ptr) (m : mrb_state) : mrb_state :=
  MkState x (stend m) (stack m) (cibase m) (ciend m) (ci m) (rescue m) (rsize m)
          (ensure m) (esize m) (exc m) (irep m) (heap m) (mem m) (arena_idx m)
          (jmp m) (object_class m) (ecalled m).
Definition set_stend (x : ptr) (m : mrb_state) : mrb_state :=
  MkState (stbase m) x (stack m) (cibase m) (ciend m) (ci m) (rescue m)
          (rsize m) (ensure m) (esize m) (exc m) (irep m) (heap m) (mem m)
          (arena_idx m) (jmp m) (object_class m) (ecalled m).
Definition set_stack (x : ptr) (m : mrb_state) : mrb_state :=
  MkState (stbase m) (stend m) x (cibase m) (ciend m) (ci m) (rescue m)
          (rsize m) (ensure m) (esize m) (exc m) (irep m) (heap m) (mem m)
          (arena_idx m) (jmp m) (object_class m) (ecalled m).
Definition set_cibase (x : list mrb_callinfo) (m : mrb_state) : mrb_state :=
  MkState (stbase m) (stend m) (stack m) x (ciend m) (ci m) (rescue m) (rsize m)
          (ensure m) (esize m) (exc m) (irep m) (heap m) (mem m) (arena_idx m)
          (jmp m) (object_class m) (ecalled m).
Definition set_ciend (x : Z) (m : mrb_state) : mrb_state :=
  MkState (stbase m) (stend m) (stack m) (cibase m) x (ci m) (rescue m)
          (rsize m) (ensure m) (esize m) (exc m) (irep m) (heap m) (mem m)
          (arena_idx m) (jmp m) (object_class m) (ecalled m).
Definition set_ci (x : Z) (m : mrb_state) : mrb_state :=
  MkState (stbase m) (stend m) (stack m) (cibase m) (ciend m) x (rescue m)
          (rsize m) (ensure m) (esize m) (exc m) (irep m) (heap m) (mem m)
          (arena_idx m) (jmp m) (object_class m) (ecalled m).
Definition set_rescue (x : list code_ptr) (m : mrb_state) : mrb_state :=
  MkState (stbase m) (stend m) (stack m) (cibase m) (ciend m) (ci m) x (rsize m)
          (ensure m) (esize m) (exc m) (irep m) (heap m) (mem m) (arena_idx m)
          (jmp m) (object_class m) (ecalled m).
Definition set_rsize (x : Z) (m : mrb_state) : mrb_state :=
  MkState (stbase m) (stend m) (stack m) (cibase m) (ciend m) (ci m) (rescue m)
          x (ensure m) (esize m) (exc m) (irep m) (heap m) (mem m) (arena_idx m)
          (jmp m) (object_class m) (ecalled m).
Definition set_ensure (x : list Z) (m : mrb_state) : mrb_state :=
  MkState (stbase m) (stend m) (stack m) (cibase m) (ciend m) (ci m) (rescue m)
          (rsize m) x (esize m) (exc m) (irep m) (heap m) (mem m) (arena_idx m)
          (jmp m) (object_class m) (ecalled m).
Definition set_esize (x : Z) (m : mrb_state) : mrb_state :=
  MkState (stbase m) (stend m) (stack m) (cibase m) (ciend m) (ci m) (rescue m)
          (rsize m) (ensure m) x (exc m) (irep m) (heap m) (mem m) (arena_idx m)
          (jmp m) (object_class m) (ecalled m).
Definition set_exc (x : Z) (m : mrb_state) : mrb_state :=
  MkState (stbase m) (stend m) (stack m) (cibase m) (ciend m) (ci m) (rescue m)
          (rsize m) (ensure m) (esize m) x (irep m) (heap m) (mem m)
          (arena_idx m) (jmp m) (object_class m) (ecalled m).
Definition set_irep (x : list mrb_irep) (m : mrb_state) : mrb_state :=
  MkState (stbase m) (stend m) (stack m) (cibase m) (ciend m) (ci m) (rescue m)
          (rsize m) (ensure m) (esize m) (exc m) x (heap m) (mem m)
          (arena_idx m) (jmp m) (object_class m) (ecalled m).
Definition set_heap (x : list RObj) (m : mrb_state) : mrb_state :=
  MkState (stbase m) (stend m) (stack m) (cibase m) (ciend m) (ci m) (rescue m)
          (rsize m) (ensure m) (esize m) (exc m) (irep m) x (mem m)
          (arena_idx m) (jmp m) (object_class m) (ecalled m).
Definition set_mem (x : memory) (m : mrb_state) : mrb_state :=
  MkState (stbase m) (stend m) (stack m) (cibase m) (ciend m) (ci m) (rescue m)
          (rsize m) (ensure m) (esize m) (exc m) (irep m) (heap m) x
          (arena_idx m) (jmp m) (object_class m) (ecalled m).
Definition set_arena_idx (x : Z) (m : mrb_state) : mrb_state :=
  MkState (stbase m) (stend m) (stack m) (cibase m) (ciend m) (ci m) (rescue m)
          (rsize m) (ensure m) (esize m) (exc m) (irep m) (heap m) (mem m) x
          (jmp m) (object_class m) (ecalled m).
Definition set_jmp (x : Z) (m : mrb_state) : mrb_state :=
  MkState (stbase m) (stend m) (stack m) (cibase m) (ciend m) (ci m) (rescue m)
          (rsize m) (ensure m) (esize m) (exc m) (irep m) (heap m) (mem m)
          (arena_idx m) x (object_class m) (ecalled m).
Definition set_object_class (x : Z) (m : mrb_state) : mrb_state :=
  MkState (stbase m) (stend m) (stack m) (cibase m) (ciend m) (ci m) (rescue m)
          (rsize m) (ensure m) (esize m) (exc m) (irep m) (heap m) (mem m)
          (arena_idx m) (jmp m) x (ecalled m).
Definition set_ecalled (x : list Z) (m : mrb_state) : mrb_state :=
  MkState (stbase m) (stend m) (stack m) (cibase m) (ciend m) (ci m) (rescue m)
          (rsize m) (ensure m) (esize m) (exc m) (irep m) (heap m) (mem m)
          (arena_idx m) (jmp m) (object_class m) x.

(** *** Frames *)

Definition ci_at (m : mrb_state) (k : Z) : option mrb_callinfo := zlookup (cibase m) k.

(* a write through a [mrb_callinfo*] that points at frame k *)
Definition ci_upd (k : Z) (f : mrb_callinfo -> mrb_callinfo) (m : mrb_state)
  : option mrb_state :=
  match ci_at m k with
  | Some c =>
      match zupdate (cibase m) k (f c) with
      | Some l => Some (set_cibase l m)
      | None => None
      end
  | None => None
  end.

(** *** Heap objects *)

Definition obj_at (m : mrb_state) (p : Z) : option RObj :=
  if decide (0 < p) then heap m !! Z.to_nat p else None.

Definition proc_at (m : mrb_state) (p : Z) : option RProc :=
  match obj_at m p with Some (O_proc x) => Some x | _ => None end.

Definition env_at (m : mrb_state) (p : Z) : option REnv :=
  match obj_at m p with Some (O_env x) => Some x | _ => None end.

Definition ary_at (m : mrb_state) (p : Z) : option RArray :=
  match obj_at m p with Some (O_array x) => Some x | _ => None end.

Definition obj_set (p : Z) (o : RObj) (m : mrb_state) : option mrb_state :=
  match obj_at m p with
  | Some _ => Some (set_heap (<[Z.to_nat p := o]> (heap m)) m)
  | None => None
  end.

(* mrb_obj_alloc: a new object at a fresh non-null address *)
Definition obj_alloc (o : RObj) (m : mrb_state) : mrb_state * Z :=
  let h := match heap m with [] => [O_free] | _ :: _ => heap m end in
  (set_heap (h ++ [o]) m, Z.of_nat (length h)).

(* SET_OBJ_VALUE(r, v): tt is read from the object's header *)
Definition obj_value (m : mrb_state) (p : Z) : option mrb_value :=
  match obj_at m p with
  | Some o => Some (MkValue (obj_tt o) p)
  | None => None
  end.

Definition irep_at (m : mrb_state) (ir : Z) : option mrb_irep := zlookup (irep m) ir.

(** ** The host ([mruby.h], [class.c], [symbol.c], [error.c], native methods)

    What [vm.c] calls and does not define.  Fresh memory is part of it: a
    cell, a frame, a rescue or an ensure slot that [mrb_malloc] or
    [mrb_realloc] hands out holds whatever the host's allocator left there. *)

Inductive cfunc_result : Type :=
| CReturned (m : mrb_state) (v : mrb_value)
| CJumped (m : mrb_state).      (* left through longjmp(mrb->jmp) *)

Record mrb_host : Type := MkHost {
  uninit_value : nat -> nat -> mrb_value;
  uninit_callinfo : nat -> mrb_callinfo;
  uninit_code : nat -> code_ptr;
  uninit_proc : nat -> Z;
  (* mrb_class(mrb, v) *)
  mrb_class : mrb_state -> mrb_value -> Z;
  (* mrb_method_search_vm(mrb, &c, mid): the procedure found, 0 when none *)
  mrb_method_search_vm : mrb_state -> Z -> mrb_sym -> Z;
  mrb_intern : string -> mrb_sym;
  mrb_sym2name : mrb_sym -> string;
  (* p->body.func(mrb, self) of the native procedure whose body is f *)
  cfunc_call : Z -> mrb_state -> mrb_value -> cfunc_result;
  E_ARGUMENT_ERROR : Z;
  E_LOCALJUMP_ERROR : Z
}.

(** ** Formatting *)

(* printf's %d *)
Definition fmt_d (n : Z) : string := NilZero.string_of_int (Z.to_int n).

(* snprintf(buf, 256, ...): at most 255 characters are kept *)
Definition snprintf256 (s : string) : string := substring 0 255 s.

(** [contains s t]: [t] occurs in [s]. *)
Definition contains (s t : string) : Prop :=
  exists pre post : string, s = (pre ++ t ++ post)%string.

Section VM.

Variable host : mrb_host.

(** ** Stack growth (vm.c:27-71) *)

Definition stack_init (m : mrb_state) : option mrb_state :=
  match mrb_malloc (uninit_value host) (mem m) STACK_INIT_SIZE with
  | Some (M1, base) =>
      match memset0 M1 base STACK_INIT_SIZE with
      | Some M2 =>
          let frames := map (uninit_callinfo host) (seq 0 (Z.to_nat CALLINFO_INIT_SIZE)) in
          let frames := <[0%nat := with_target_class (object_class m) zero_callinfo]> frames in
          Some (set_ci 0 (set_ciend CALLINFO_INIT_SIZE (set_cibase frames
                 (set_stack base (set_stend (ptr_add base STACK_INIT_SIZE)
                   (set_stbase base (set_mem M2 m)))))))
      | None => None
      end
  | None => None
  end.

Definition stack_extend (m : mrb_state) (room keep : Z) : option mrb_state :=
  let grown :=
    if decide (off (stack m) + room > off (stend m)) then
      let size := ptr_diff (stend m) (stbase m) in
      let off := ptr_diff (stack m) (stbase m) in
      (* double size is enough? *)
      let size := if decide (room <= size) then size * 2 else size + room in
      match mrb_realloc (uninit_value host) (mem m) (stbase m) size with
      | Some (M1, base) =>
          Some (set_stend (ptr_add base size) (set_stack (ptr_add base off)
                 (set_stbase base (set_mem M1 m))))
      | None => None
      end
    else Some m in
  match grown with
  | Some m1 =>
      if decide (room > keep) then
        match memset0 (mem m1) (ptr_add (stack m1) keep) (room - keep) with
        | Some M2 => Some (set_mem M2 m1)
        | None => None
        end
      else Some m1
  | None => None
  end.

Definition mrb_checkstack (m : mrb_state) (size : Z) : option (mrb_state * Z) :=
  match stack_extend m (size + 1) 1 with
  | Some m1 => Some (m1, 0)
  | None => None
  end.

(** ** Upvalues (vm.c:73-102) *)

(* while (up--) e = (struct REnv* )e->c; *)
Fixpoint uvenv_up (m : mrb_state) (up : nat) (e : Z) : option Z :=
  match up with
  | O => Some e
  | S up' =>
      match env_at m e with
      | Some env => uvenv_up m up' (env_c env)
      | None => None
      end
  end.

(* the REnv*, 0 when null *)
Definition uvenv (m : mrb_state) (up : Z) : option Z :=
  match ci_at m (ci m) with
  | Some c =>
      match proc_at m (ci_proc c) with
      | Some p =>
          let e := proc_env p in
          if decide (e = 0) then Some 0
          else if decide (0 <= up) then uvenv_up m (Z.to_nat up) e else None
      | None => None
      end
  | None => None
  end.

Definition uvget (m : mrb_state) (up idx : Z) : option mrb_value :=
  match uvenv m up with
  | Some e =>
      if decide (e = 0) then Some mrb_nil_value
      else
        match env_at m e with
        | Some env => load (mem m) (ptr_add (env_stack env) idx)
        | None => None
        end
  | None => None
  end.

(* mrb_write_barrier only marks the object for the collector, which is not
   modelled *)
Definition uvset (m : mrb_state) (up idx : Z) (v : mrb_value) : option mrb_state :=
  match uvenv m up with
  | Some e =>
      if decide (e = 0) then Some m
      else
        match env_at m e with
        | Some env =>
            match store (mem m) (ptr_add (env_stack env) idx) v with
            | Some M1 => Some (set_mem M1 m)
            | None => None
            end
        | None => None
        end
  | None => None
  end.

(** ** Frames (vm.c:104-130) *)

(* mrb_realloc of the frame array to n frames *)
Definition realloc_callinfo (l : list mrb_callinfo) (n : Z) : list mrb_callinfo :=
  let kept := take (Z.to_nat n) l in
  kept ++ map (uninit_callinfo host) (seq (length kept) (Z.to_nat n - length kept)).

Definition cipush (m : mrb_state) : option mrb_state :=
  match ci_at m (ci m) with
  | Some c =>
      let nregs := ci_nregs c in
      let eidx := ci_eidx c in
      let ridx := ci_ridx c in
      let m1 :=
        if decide (ci m + 1 = ciend m) then
          let size := ci m in
          set_ciend (size * 2) (set_ci size
            (set_cibase (realloc_callinfo (cibase m) (size * 2)) m))
        else m in
      let m2 := set_ci (ci m1 + 1) m1 in
      ci_upd (ci m2)
        (fun f => with_env 0 (with_ridx ridx (with_eidx eidx (with_nregs nregs f)))) m2
  | None => None
  end.

Definition cipop (m : mrb_state) : mrb_state := set_ci (ci m - 1) m.

(** ** Errors raised by the core (vm.c:264-292) *)

(* mrb_exc_new(mrb, c, buf, len): a new exception of class c with message buf *)
Definition mrb_exc_new (m : mrb_state) (c : Z) (buf : string) : mrb_state * mrb_value :=
  let '(m1, p) := obj_alloc (O_exception c buf) m in
  (m1, MkValue MRB_TT_EXCEPTION p).

Definition localjump_error (m : mrb_state) (kind : string) : mrb_state :=
  let buf := snprintf256 ("unexpected " ++ kind) in
  let '(m1, e) := mrb_exc_new m (E_LOCALJUMP_ERROR host) buf in
  set_exc (mrb_object e) m1.

Definition argnum_fmt (name : option string) (argc num : Z) : string :=
  match name with
  | Some s =>
      "'" ++ s ++ "': wrong number of arguments (" ++ fmt_d argc ++ " for " ++ fmt_d num ++ ")"
  | None =>
      "wrong number of arguments (" ++ fmt_d argc ++ " for " ++ fmt_d num ++ ")"
  end.

Definition argnum_error (m : mrb_state) (num : Z) : option mrb_state :=
  match ci_at m (ci m) with
  | Some c =>
      let buf :=
        if decide (ci_mid c <> 0)
        then snprintf256 (argnum_fmt (Some (mrb_sym2name host (ci_mid c))) (ci_argc c) num)
        else snprintf256 (argnum_fmt None (ci_argc c) num) in
      let '(m1, e) := mrb_exc_new m (E_ARGUMENT_ERROR host) buf in
      Some (set_exc (mrb_object e) m1)
  | None => None
  end.

(** ** Host objects the interpreter builds ([proc.c], [array.c])

    Modelled from the spec: [mrb_proc_new] and [mrb_closure_new] (§4.4: a
    procedure created with the capture flag records a pointer to the
    environment of the creating frame, created lazily; §3: the environment
    aliases the frame's register window through [stack] and [cioff], [flags]
    is the length of the window, [mid] the method name, and the class slot
    links to the enclosing environment), and the array primitives
    [mrb_ary_new_capa], [mrb_ary_new_elts], [mrb_ary_unshift] (§6). *)

Definition mrb_proc_new (m : mrb_state) (ir : Z) : option (mrb_state * Z) :=
  c ← ci_at m (ci m);
  Some (obj_alloc (O_proc (MkProc false false ir (ci_target_class c) 0)) m).

Definition mrb_closure_new (m : mrb_state) (ir : Z) : option (mrb_state * Z) :=
  '(m1, p) ← mrb_proc_new m ir;
  c ← ci_at m1 (ci m1);
  '(m2, e) ←
    (if decide (ci_env c = 0) then
       cur ← proc_at m1 (ci_proc c);
       let '(m2, e) :=
         obj_alloc (O_env (MkEnv (proc_env cur) (ci_nregs c) (ci_mid c) (ci m1) (stack m1))) m1 in
       m3 ← ci_upd (ci m2) (with_env e) m2;
       Some (m3, e)
     else Some (m1, ci_env c));
  pr ← proc_at m2 p;
  m3 ← obj_set p (O_proc (MkProc (proc_cfunc pr) (proc_strict pr) (proc_body pr)
                                 (proc_target_class pr) e)) m2;
  Some (m3, p).

Definition mrb_ary_new_elts (m : mrb_state) (n : Z) (elts : ptr)
  : option (mrb_state * mrb_value) :=
  vs ← load_n (mem m) elts n;
  '(M1, buf) ← mrb_malloc (uninit_value host) (mem m) n;
  M2 ← store_n M1 buf vs;
  let '(m1, a) := obj_alloc (O_array (MkArray n n buf)) (set_mem M2 m) in
  Some (m1, MkValue MRB_TT_ARRAY a).

Definition mrb_ary_new_capa (m : mrb_state) (capa : Z) : option (mrb_state * mrb_value) :=
  '(M1, buf) ← mrb_malloc (uninit_value host) (mem m) capa;
  let '(m1, a) := obj_alloc (O_array (MkArray 0 capa buf)) (set_mem M1 m) in
  Some (m1, MkValue MRB_TT_ARRAY a).

(* the array object is changed in place: item becomes its first element *)
Definition mrb_ary_unshift (m : mrb_state) (self item : mrb_value) : option mrb_state :=
  a ← ary_at m (mrb_object self);
  vs ← load_n (mem m) (ary_buf a) (ary_len a);
  '(M1, buf) ← mrb_realloc (uninit_value host) (mem m) (ary_buf a) (ary_len a + 1);
  M2 ← store_n M1 buf (item :: vs);
  obj_set (mrb_object self) (O_array (MkArray (ary_len a + 1) (ary_len a + 1) buf))
          (set_mem M2 m).

(** ** The locals of [mrb_run] (vm.c:354-366)

    [pool] and [syms] are always assigned together with [irep], from it;
    they are read through [l_irep]. *)

Record locals : Type := MkLocals {
  l_proc : Z;
  l_irep : Z;
  l_pc : code_ptr;
  l_regs : ptr;
  l_ai : Z;
  l_prev_jmp : Z
}.

Definition upd_proc (x : Z) (L : locals) : locals :=
  MkLocals x (l_irep L) (l_pc L) (l_regs L) (l_ai L) (l_prev_jmp L).
Definition upd_irep (x : Z) (L : locals) : locals :=
  MkLocals (l_proc L) x (l_pc L) (l_regs L) (l_ai L) (l_prev_jmp L).
Definition upd_pc (x : code_ptr) (L : locals) : locals :=
  MkLocals (l_proc L) (l_irep L) x (l_regs L) (l_ai L) (l_prev_jmp L).
Definition upd_regs (x : ptr) (L : locals) : locals :=
  MkLocals (l_proc L) (l_irep L) (l_pc L) x (l_ai L) (l_prev_jmp L).

(** How a case of the dispatch loop ends: at the next instruction to
    dispatch, or with [mrb_run] returning. *)
Inductive outcome : Type :=
| Dispatch (m : mrb_state) (L : locals)
| Returned (m : mrb_state) (v : mrb_value).

(* NEXT: mrb->arena_idx = ai; i = *++pc *)
Definition NEXT (m : mrb_state) (L : locals) : option outcome :=
  Some (Dispatch (set_arena_idx (l_ai L) m) (upd_pc (code_add (l_pc L) 1) L)).

(* JUMP: i = *pc *)
Definition JUMP (m : mrb_state) (L : locals) : option outcome :=
  Some (Dispatch m L).

(* regs[k] *)
Definition reg (m : mrb_state) (L : locals) (k : Z) : option mrb_value :=
  load (mem m) (ptr_add (l_regs L) k).

(* regs[k] = v *)
Definition set_reg (m : mrb_state) (L : locals) (k : Z) (v : mrb_value) : option mrb_state :=
  M1 ← store (mem m) (ptr_add (l_regs L) k) v;
  Some (set_mem M1 m).

Definition fetch (m : mrb_state) (pc : code_ptr) : option mrb_code :=
  match pc with
  | CNull => None
  | CPtr ir o => i ← irep_at m ir; zlookup (ir_iseq i) o
  end.

(* syms[k] *)
Definition sym_at (m : mrb_state) (L : locals) (k : Z) : option mrb_sym :=
  i ← irep_at m (l_irep L); zlookup (ir_syms i) k.

(* pool[k] *)
Definition pool_at (m : mrb_state) (L : locals) (k : Z) : option mrb_value :=
  i ← irep_at m (l_irep L); zlookup (ir_pool i) k.

(** ** Leaving the loop: L_STOP and L_RAISE (vm.c:975-994, 1554-1559) *)

Definition L_STOP (m : mrb_state) (L : locals) : option outcome :=
  Some (Returned (set_jmp (l_prev_jmp L) m) mrb_nil_value).

(** The [while] of L_RAISE, entered with [ci != cibase]: frames are popped
    while the current one shares its [ridx] with the one below.  The result
    tells whether the loop left for L_STOP. *)
Fixpoint raise_unwind (fuel : nat) (m : mrb_state) : option (mrb_state * bool) :=
  c0 ← ci_at m (ci m);
  c1 ← ci_at m (ci m - 1);
  if decide (ci_ridx c0 = ci_ridx c1) then
    let m1 := cipop m in
    if decide (ci m1 = 0) then
      c ← ci_at m1 (ci m1);
      if decide (ci_ridx c = 0) then Some (m1, true) else Some (m1, false)
    else
      match fuel with
      | O => None
      | S fuel' => raise_unwind fuel' m1
      end
  else Some (m, false).

Definition L_RAISE (m : mrb_state) (L : locals) : option outcome :=
  if decide (ci m = 0) then L_STOP m L
  else
    match raise_unwind (Z.to_nat (ci m)) m with
    | Some (m1, true) => L_STOP m1 L
    | Some (m1, false) =>
        c ← ci_at m1 (ci m1);
        pr ← proc_at m1 (ci_proc c);
        _ ← irep_at m1 (proc_body pr);
        let base := ptr_add (stbase m1) (ci_stackidx c) in
        m2 ← ci_upd (ci m1) (with_ridx (ci_ridx c - 1)) m1;
        pc ← zlookup (rescue m2) (ci_ridx c - 1);
        JUMP (set_stack base m2) (upd_pc pc (upd_regs base (upd_irep (proc_body pr) L)))
    | None => None
    end.

Section Cases.

(** [mrb_run] re-entered from inside a case (by [ecall]); the loop below
    ties the knot. *)
Variable run : mrb_state -> Z -> mrb_value -> option (mrb_state * mrb_value).

(** ** Ensure calls (vm.c:132-150) *)

Definition ecall (m : mrb_state) (i : Z) : option mrb_state :=
  let self := stack m in
  p ← zlookup (ensure m) i;
  m1 ← cipush m;
  let k := ci m1 in
  below ← ci_at m1 (k - 1);
  m2 ← ci_upd k (fun f =>
          with_proc p (with_argc 0 (with_acc (-1) (with_mid (ci_mid below)
            (with_stackidx (ptr_diff (stack m1) (stbase m1)) f))))) m1;
  pr ← proc_at m2 p;
  ir ← irep_at m2 (proc_body pr);
  m3 ← ci_upd k (fun f =>
          with_target_class (proc_target_class pr) (with_nregs (ir_nregs ir) f)) m2;
  let m4 := set_stack (ptr_add (stack m3) (ci_nregs below)) m3 in
  v ← load (mem m4) self;
  r ← run (set_ecalled (ecalled m4 ++ [p]) m4) p v;
  Some (fst r).

(** ** OP_RETURN (vm.c:962-1042) *)

(* vm.c:965-973: the leaving frame's environment takes a copy of its window *)
Definition promote_env (m : mrb_state) : option mrb_state :=
  c ← ci_at m (ci m);
  if decide (ci_env c <> 0) then
    e ← env_at m (ci_env c);
    let len := env_flags e in
    '(M1, p) ← mrb_malloc (uninit_value host) (mem m) len;
    M2 ← memcpy M1 p (env_stack e) len;
    obj_set (ci_env c) (O_env (MkEnv (env_c e) (env_flags e) (env_mid e) (-1) p))
            (set_mem M2 m)
  else Some m.

(* while (eidx > mrb->ci->eidx) ecall(mrb, --eidx); *)
Fixpoint return_ecalls (fuel : nat) (m : mrb_state) (eidx : Z) : option mrb_state :=
  c ← ci_at m (ci m);
  if decide (eidx > ci_eidx c) then
    match fuel with
    | O => None
    | S fuel' => m1 ← ecall m (eidx - 1); return_ecalls fuel' m1 (eidx - 1)
    end
  else Some m.

(* the switch on GETARG_B(i): the frame to leave, or a LocalJumpError *)
Definition return_target (m : mrb_state) (L : locals) (b : Z)
  : option (mrb_state + mrb_state * Z) :=
  if decide (b = OP_R_NORMAL) then Some (inr (m, ci m))
  else if decide (b = OP_R_BREAK) then
    pr ← proc_at m (l_proc L);
    e ← env_at m (proc_env pr);
    if decide (env_cioff e < 0) then Some (inl (localjump_error m "break"))
    else Some (inr (set_ci (env_cioff e + 1) m, env_cioff e + 1))
  else if decide (b = OP_R_RETURN) then
    pr ← proc_at m (l_proc L);
    e ← env_at m (proc_env pr);
    if decide (env_cioff e < 0) then Some (inl (localjump_error m "return"))
    else Some (inr (set_ci (env_cioff e) m, env_cioff e))
  else Some (inr (m, ci m)).

(* vm.c:975-1041: what L_RETURN does once the environment is settled *)
Definition leave_frame (m1 : mrb_state) (L : locals) (a b : Z) : option outcome :=
  if decide (exc m1 <> 0) then L_RAISE m1 L
  else
    c0 ← ci_at m1 (ci m1);
    let eidx := ci_eidx c0 in
    v ← reg m1 L a;
    match return_target m1 L b with
    | Some (inl m2) => L_RAISE m2 L
    | Some (inr (m2, k)) =>
        let m3 := cipop m2 in
        ck ← ci_at m3 k;
        let acc := ci_acc ck in
        let base := ptr_add (stbase m3) (ci_stackidx ck) in
        m5 ← return_ecalls (Z.to_nat eidx) (set_stack base m3) eidx;
        if decide (acc < 0) then Some (Returned (set_jmp (l_prev_jmp L) m5) v)
        else
          c ← ci_at m5 (ci m5);
          pr ← proc_at m5 (ci_proc c);
          _ ← irep_at m5 (proc_body pr);
          M1 ← store (mem m5) (ptr_add base acc) v;
          JUMP (set_mem M1 m5)
               (upd_pc (ci_pc ck) (upd_regs base (upd_irep (proc_body pr)
                  (upd_proc (ci_proc c) L))))
    | None => None
    end.

Definition L_RETURN (m : mrb_state) (L : locals) (a b : Z) : option outcome :=
  m1 ← promote_env m;
  leave_frame m1 L a b.

(** ** Loads, moves, jumps (vm.c:409-472, 550-584) *)

Definition L_OP_MOVE (m : mrb_state) (L : locals) (a b : Z) : option outcome :=
  v ← reg m L b; m1 ← set_reg m L a v; NEXT m1 L.

Definition L_OP_LOADL (m : mrb_state) (L : locals) (a bx : Z) : option outcome :=
  v ← pool_at m L bx; m1 ← set_reg m L a v; NEXT m1 L.

Definition L_OP_LOADI (m : mrb_state) (L : locals) (a sbx : Z) : option outcome :=
  m1 ← set_reg m L a (mrb_fixnum_value sbx); NEXT m1 L.

Definition L_OP_LOADSYM (m : mrb_state) (L : locals) (a bx : Z) : option outcome :=
  s ← sym_at m L bx; m1 ← set_reg m L a (mrb_symbol_value s); NEXT m1 L.

Definition L_OP_LOADNIL (m : mrb_state) (L : locals) (a : Z) : option outcome :=
  m1 ← set_reg m L a mrb_nil_value; NEXT m1 L.

Definition L_OP_LOADSELF (m : mrb_state) (L : locals) (a : Z) : option outcome :=
  v ← load (mem m) (stack m); m1 ← set_reg m L a v; NEXT m1 L.

Definition L_OP_LOADT (m : mrb_state) (L : locals) (a : Z) : option outcome :=
  m1 ← set_reg m L a mrb_true_value; NEXT m1 L.

Definition L_OP_LOADF (m : mrb_state) (L : locals) (a : Z) : option outcome :=
  m1 ← set_reg m L a mrb_false_value; NEXT m1 L.

(* R(A) := uvget(B,C) *)
Definition L_OP_GETUPVAR (m : mrb_state) (L : locals) (a b c : Z) : option outcome :=
  v ← uvget m c b; m1 ← set_reg m L a v; NEXT m1 L.

(* uvset(B,C,R(A)) *)
Definition L_OP_SETUPVAR (m : mrb_state) (L : locals) (a b c : Z) : option outcome :=
  v ← reg m L a; m1 ← uvset m c b v; NEXT m1 L.

Definition L_OP_JMP (m : mrb_state) (L : locals) (sbx : Z) : option outcome :=
  JUMP m (upd_pc (code_add (l_pc L) sbx) L).

Definition L_OP_JMPIF (m : mrb_state) (L : locals) (a sbx : Z) : option outcome :=
  v ← reg m L a;
  if mrb_test v then JUMP m (upd_pc (code_add (l_pc L) sbx) L) else NEXT m L.

Definition L_OP_JMPNOT (m : mrb_state) (L : locals) (a sbx : Z) : option outcome :=
  v ← reg m L a;
  if mrb_test v then NEXT m L else JUMP m (upd_pc (code_add (l_pc L) sbx) L).

(** ** Rescue and ensure opcodes (vm.c:586-643) *)

(* mrb_realloc of the rescue array to n entries *)
Definition realloc_rescue (l : list code_ptr) (n : Z) : list code_ptr :=
  let kept := take (Z.to_nat n) l in
  kept ++ map (uninit_code host) (seq (length kept) (Z.to_nat n - length kept)).

Definition L_OP_ONERR (m : mrb_state) (L : locals) (sbx : Z) : option outcome :=
  c ← ci_at m (ci m);
  let m1 :=
    if decide (rsize m <= ci_ridx c) then
      let n := if decide (rsize m = 0) then 16 else rsize m * 2 in
      set_rescue (realloc_rescue (rescue m) n) (set_rsize n m)
    else m in
  l ← zupdate (rescue m1) (ci_ridx c) (code_add (l_pc L) sbx);
  m2 ← ci_upd (ci m1) (with_ridx (ci_ridx c + 1)) (set_rescue l m1);
  NEXT m2 L.

(* R(A) := exc; clear(exc) *)
Definition L_OP_RESCUE (m : mrb_state) (L : locals) (a : Z) : option outcome :=
  v ← obj_value m (exc m);
  m1 ← set_reg m L a v;
  NEXT (set_exc 0 m1) L.

(* while (a--) mrb->ci->ridx--; *)
Definition L_OP_POPERR (m : mrb_state) (L : locals) (a : Z) : option outcome :=
  c ← ci_at m (ci m);
  m1 ← ci_upd (ci m) (with_ridx (ci_ridx c - a)) m;
  NEXT m1 L.

(* raise(R(A)) *)
Definition L_OP_RAISE (m : mrb_state) (L : locals) (a : Z) : option outcome :=
  v ← reg m L a;
  L_RAISE (set_exc (mrb_object v) m) L.

(* mrb_realloc of the ensure array to n entries *)
Definition realloc_ensure (l : list Z) (n : Z) : list Z :=
  let kept := take (Z.to_nat n) l in
  kept ++ map (uninit_proc host) (seq (length kept) (Z.to_nat n - length kept)).

(* ensure_push(SEQ[Bx]) *)
Definition L_OP_EPUSH (m : mrb_state) (L : locals) (bx : Z) : option outcome :=
  ir ← irep_at m (l_irep L);
  _ ← irep_at m (ir_idx ir + bx);
  '(m1, p) ← mrb_closure_new m (ir_idx ir + bx);
  c ← ci_at m1 (ci m1);
  let m2 :=
    if decide (esize m1 <= ci_eidx c) then
      let n := if decide (esize m1 = 0) then 16 else esize m1 * 2 in
      set_ensure (realloc_ensure (ensure m1) n) (set_esize n m1)
    else m1 in
  l ← zupdate (ensure m2) (ci_eidx c) p;
  m3 ← ci_upd (ci m2) (with_eidx (ci_eidx c + 1)) (set_ensure l m2);
  NEXT m3 L.

(* for (n=0; n<a; n++) ecall(mrb, --mrb->ci->eidx); *)
Fixpoint epop_loop (n : nat) (m : mrb_state) : option mrb_state :=
  match n with
  | O => Some m
  | S n' =>
      c ← ci_at m (ci m);
      m1 ← ci_upd (ci m) (with_eidx (ci_eidx c - 1)) m;
      m2 ← ecall m1 (ci_eidx c - 1);
      epop_loop n' m2
  end.

(* A.times{ensure_pop().call} *)
Definition L_OP_EPOP (m : mrb_state) (L : locals) (a : Z) : option outcome :=
  m1 ← epop_loop (Z.to_nat a) m;
  NEXT m1 L.

(** ** Method calls (vm.c:645-716, 1044-1103) *)

(* vm.c:664-671: the selector joins the arguments of method_missing *)
Definition method_missing_args (m : mrb_state) (L : locals) (a n : Z) (sym : mrb_value)
  : option (mrb_state * Z) :=
  if decide (n = CALL_MAXARGS) then
    v ← reg m L (a + 1);
    m1 ← mrb_ary_unshift m v sym;
    Some (m1, n)
  else
    M1 ← memmove (mem m) (ptr_add (l_regs L) (a + 2)) (ptr_add (l_regs L) (a + 1)) (n + 1);
    M2 ← store M1 (ptr_add (l_regs L) (a + 1)) sym;
    Some (set_mem M2 m, n + 1).

(* vm.c:656-672: the callee, the selector and the argument count to use *)
Definition method_lookup (m : mrb_state) (L : locals) (a n : Z) (mid : mrb_sym)
    (recv : mrb_value) : option (mrb_state * Z * (mrb_sym * Z)) :=
  let c := mrb_class host m recv in
  let mth := mrb_method_search_vm host m c mid in
  if decide (mth = 0) then
    let sym := mrb_symbol_value mid in
    let mid' := mrb_intern host "method_missing" in
    let mth' := mrb_method_search_vm host m c mid' in
    r ← method_missing_args m L a n sym;
    Some (fst r, mth', (mid', snd r))
  else Some (m, mth, (mid, n)).

(* the stack_extend every bytecode call ends with *)
Definition extend_for_callee (m : mrb_state) (nregs argc : Z) : option mrb_state :=
  if decide (argc < 0) then stack_extend m (if decide (nregs < 3) then 3 else nregs) 3
  else stack_extend m nregs (argc + 2).

(* R(A) := call(R(A),Sym(B),R(A+1),... ,R(A+C-1)) *)
Definition L_OP_SEND (m : mrb_state) (L : locals) (a b n : Z) : option outcome :=
  mid ← sym_at m L b;
  recv ← reg m L a;
  match method_lookup m L a n mid recv with
  | Some (m1, mth, (mid, n)) =>
      (* push callinfo *)
      m2 ← cipush m1;
      let k := ci m2 in
      pr ← proc_at m2 mth;
      m3 ← ci_upd k (fun f =>
              with_pc (code_add (l_pc L) 1) (with_target_class (proc_target_class pr)
                (with_argc (if decide (n = CALL_MAXARGS) then -1 else n)
                  (with_stackidx (ptr_diff (stack m2) (stbase m2))
                    (with_proc mth (with_mid mid f)))))) m2;
      (* prepare stack *)
      let m4 := set_stack (ptr_add (stack m3) a) m3 in
      if proc_cfunc pr then
        match cfunc_call host (proc_body pr) m4 recv with
        | CReturned m5 v =>
            M1 ← store (mem m5) (stack m5) v;
            let m6 := set_arena_idx (l_ai L) (set_mem M1 m5) in
            if decide (exc m6 <> 0) then L_RAISE m6 L
            else
              (* pop stackpos *)
              c ← ci_at m6 k;
              NEXT (cipop (set_stack (ptr_add (stbase m6) (ci_stackidx c)) m6)) L
        | CJumped m5 => L_RAISE m5 L
        end
      else
        (* fill callinfo *)
        m5 ← ci_upd k (with_acc a) m4;
        (* setup environment for calling method *)
        m6 ← ci_upd (ci m5) (with_proc mth) m5;
        ir ← irep_at m6 (proc_body pr);
        m7 ← ci_upd k (with_nregs (ir_nregs ir)) m6;
        c ← ci_at m7 k;
        m8 ← extend_for_callee m7 (ir_nregs ir) (ci_argc c);
        JUMP m8 (upd_pc (CPtr (proc_body pr) 0) (upd_regs (stack m8)
                  (upd_irep (proc_body pr) (upd_proc mth L))))
  | None => None
  end.

(* return call(R(A),Sym(B),R(A+1),... ,R(A+C-1)) *)
Definition L_OP_TAILCALL (m : mrb_state) (L : locals) (a b n : Z) : option outcome :=
  mid ← sym_at m L b;
  recv ← reg m L a;
  match method_lookup m L a n mid recv with
  | Some (m1, mth, (mid, n)) =>
      (* replace callinfo: mrb->ci = ci = &mrb->ci[-1] *)
      let m2 := set_ci (ci m1 - 1) m1 in
      let k := ci m2 in
      pr ← proc_at m2 mth;
      let argc := if decide (n = CALL_MAXARGS) then -1 else n in
      m3 ← ci_upd k (fun f =>
              with_argc argc (with_target_class (proc_target_class pr) (with_mid mid f))) m2;
      (* move stack *)
      M1 ← memmove (mem m3) (stack m3) (ptr_add (l_regs L) a) (argc + 1);
      let m4 := set_mem M1 m3 in
      if proc_cfunc pr then
        match cfunc_call host (proc_body pr) m4 recv with
        | CReturned m5 v =>
            M2 ← store (mem m5) (stack m5) v;
            (* goto L_RETURN, with i still the TAILCALL instruction *)
            L_RETURN (set_arena_idx (l_ai L) (set_mem M2 m5)) L a b
        | CJumped m5 => L_RAISE m5 L
        end
      else
        (* setup environment for calling method *)
        ir ← irep_at m4 (proc_body pr);
        m5 ← extend_for_callee m4 (ir_nregs ir) argc;
        JUMP m5 (upd_pc (CPtr (proc_body pr) 0) (upd_regs (stack m5)
                  (upd_irep (proc_body pr) L)))
  | None => None
  end.

(** ** OP_ENTER (vm.c:893-948) *)

(* mrb->ci->proc && MRB_PROC_STRICT_P(mrb->ci->proc) *)
Definition strict_frame (m : mrb_state) (c : mrb_callinfo) : option bool :=
  if decide (ci_proc c = 0) then Some false
  else pr ← proc_at m (ci_proc c); Some (proc_strict pr).

(* vm.c:910-915: the arguments as passed, unpacked when argc < 0 *)
Definition enter_args (m : mrb_state) (L : locals) (argc len : Z)
  : option (mrb_state * ptr * Z) :=
  if decide (argc < 0) then
    v ← reg m L 1;
    ary ← ary_at m (mrb_object v);
    (* save argary in register *)
    m1 ← set_reg m L (len + 2) v;
    Some (m1, ary_buf ary, ary_len ary)
  else Some (m, ptr_add (l_regs L) 1, argc).

(* vm.c:918: the arity test of a strict procedure *)
Definition arity_mismatch (argc m1 o r m2 : Z) : bool :=
  let len := m1 + o + r + m2 in
  (argc <? m1 + m2) || ((r =? 0) && (argc >? len)).

(* vm.c:924-927: a lone array argument is spread over several parameters *)
Definition enter_splat (m : mrb_state) (argv : ptr) (argc len : Z) : option (ptr * Z) :=
  if decide (len > 1 /\ argc = 1) then
    v ← load (mem m) argv;
    if decide (tt v = MRB_TT_ARRAY) then
      ary ← ary_at m (mrb_object v);
      Some (ary_buf ary, ary_len ary)
    else Some (argv, argc)
  else Some (argv, argc).

(* vm.c:928-947: the registers are laid out and pc skips the defaults *)
Definition enter_layout (m : mrb_state) (L : locals) (argv : ptr) (argc m1 o r m2 : Z)
  : option outcome :=
  let len := m1 + o + r + m2 in
  let regs := l_regs L in
  ma ← ci_upd (ci m) (with_argc len) m;
  if decide (argc < len) then
    (* move block *)
    blk ← load (mem ma) (ptr_add argv argc);
    mb ← set_reg ma L (len + 1) blk;
    (* m1 + o *)
    M1 ← memmove (mem mb) (ptr_add regs 1) argv (argc - m2);
    (* m2 *)
    M2 ← memmove M1 (ptr_add regs (len - m2 + 1)) (ptr_add argv (argc - m2)) m2;
    mc ← (if decide (r <> 0) then
            '(md, rest) ← mrb_ary_new_capa (set_mem M2 mb) 0;
            set_reg md L (m1 + o + 1) rest
          else Some (set_mem M2 mb));
    JUMP mc (upd_pc (code_add (l_pc L) (argc - m1 - m2 + 1)) L)
  else
    (* m1 + o *)
    M1 ← memmove (mem ma) (ptr_add regs 1) argv (m1 + o);
    mb ← (if decide (r <> 0) then
            '(md, rest) ← mrb_ary_new_elts (set_mem M1 ma) (argc - m1 - o - m2)
                                           (ptr_add argv (m1 + o));
            set_reg md L (m1 + o + 1) rest
          else Some (set_mem M1 ma));
    M2 ← memmove (mem mb) (ptr_add regs (m1 + o + r + 1)) (ptr_add argv (argc - m2)) m2;
    (* move block *)
    blk ← load M2 (ptr_add argv argc);
    mc ← set_reg (set_mem M2 mb) L (len + 1) blk;
    JUMP mc (upd_pc (code_add (l_pc L) (o + 1)) L).

(* arg setup according to flags (24=5:5:1:5:5:1:1) *)
Definition L_OP_ENTER (m : mrb_state) (L : locals) (ax : Z) : option outcome :=
  let m1 := Z.land (Z.shiftr ax 18) 31 in
  let o := Z.land (Z.shiftr ax 13) 31 in
  let r := Z.land (Z.shiftr ax 12) 1 in
  let m2 := Z.land (Z.shiftr ax 7) 31 in
  let len := m1 + o + r + m2 in
  c ← ci_at m (ci m);
  match enter_args m L (ci_argc c) len with
  | Some (ma, argv, argc) =>
      c ← ci_at ma (ci ma);
      strict ← strict_frame ma c;
      if (strict : bool) then
        if decide (argc >= 0 /\ arity_mismatch argc m1 o r m2 = true) then
          mb ← argnum_error ma (m1 + m2);
          L_RAISE mb L
        else enter_layout ma L argv argc m1 o r m2
      else
        match enter_splat ma argv argc len with
        | Some (argv, argc) => enter_layout ma L argv argc m1 o r m2
        | None => None
        end
  | None => None
  end.

(** ** OP_LAMBDA (vm.c:1423-1437) *)

Definition L_OP_LAMBDA (m : mrb_state) (L : locals) (a b c : Z) : option outcome :=
  ir ← irep_at m (l_irep L);
  _ ← irep_at m (ir_idx ir + b);
  '(m1, p) ← (if decide (Z.land c OP_L_CAPTURE <> 0)
              then mrb_closure_new m (ir_idx ir + b)
              else mrb_proc_new m (ir_idx ir + b));
  m2 ← (if decide (Z.land c OP_L_STRICT <> 0) then
          pr ← proc_at m1 p;
          obj_set p (O_proc (MkProc (proc_cfunc pr) true (proc_body pr)
                                    (proc_target_class pr) (proc_env pr))) m1
        else Some m1);
  v ← obj_value m2 p;
  m3 ← set_reg m2 L a v;
  NEXT m3 L.

(** ** The dispatch table (vm.c:369-390, 408) *)

Definition step (m : mrb_state) (L : locals) : option outcome :=
  i ← fetch m (l_pc L);
  match i with
  | OP_NOP => NEXT m L
  | OP_MOVE a b => L_OP_MOVE m L a b
  | OP_LOADL a bx => L_OP_LOADL m L a bx
  | OP_LOADI a sbx => L_OP_LOADI m L a sbx
  | OP_LOADSYM a bx => L_OP_LOADSYM m L a bx
  | OP_LOADNIL a => L_OP_LOADNIL m L a
  | OP_LOADSELF a => L_OP_LOADSELF m L a
  | OP_LOADT a => L_OP_LOADT m L a
  | OP_LOADF a => L_OP_LOADF m L a
  | OP_GETUPVAR a b c => L_OP_GETUPVAR m L a b c
  | OP_SETUPVAR a b c => L_OP_SETUPVAR m L a b c
  | OP_JMP sbx => L_OP_JMP m L sbx
  | OP_JMPIF a sbx => L_OP_JMPIF m L a sbx
  | OP_JMPNOT a sbx => L_OP_JMPNOT m L a sbx
  | OP_ONERR sbx => L_OP_ONERR m L sbx
  | OP_RESCUE a => L_OP_RESCUE m L a
  | OP_POPERR a => L_OP_POPERR m L a
  | OP_RAISE a => L_OP_RAISE m L a
  | OP_EPUSH bx => L_OP_EPUSH m L bx
  | OP_EPOP a => L_OP_EPOP m L a
  | OP_SEND a b c => L_OP_SEND m L a b c
  | OP_FSEND _ _ _ => NEXT m L
  | OP_VSEND _ _ => NEXT m L
  | OP_ENTER ax => L_OP_ENTER m L ax
  | OP_KARG _ _ _ => NEXT m L
  | OP_KDICT _ _ => NEXT m L
  | OP_RETURN a b => L_RETURN m L a b
  | OP_TAILCALL a b c => L_OP_TAILCALL m L a b c
  | OP_LAMBDA a b c => L_OP_LAMBDA m L a b c
  | OP_STOP => L_STOP m L
  | OP_HOSTED => None
  end.

End Cases.

(** ** mrb_run (vm.c:354-408) *)

(** Up to the first dispatch.  [&c_jmp] is a new address at each entry; it
    is taken one above the buffer it replaces. *)
Definition mrb_run_enter (m : mrb_state) (proc : Z) (self : mrb_value)
  : option (mrb_state * locals) :=
  pr ← proc_at m proc;
  ir ← irep_at m (proc_body pr);
  let prev_jmp := jmp m in
  let ai := arena_idx m in
  let m1 := set_jmp (prev_jmp + 1) m in
  m2 ← (if decide (stack m1 = NULL) then stack_init m1 else Some m1);
  m3 ← ci_upd (ci m2) (fun f => with_nregs (ir_nregs ir + 2) (with_proc proc f)) m2;
  Some (m3, MkLocals proc (proc_body pr) (CPtr (proc_body pr) 0) (stack m3) ai prev_jmp).

(** The loop runs on fuel: one unit per dispatched instruction, shared with
    the runs nested inside it. *)
Fixpoint dispatch (fuel : nat) (m : mrb_state) (L : locals)
  : option (mrb_state * mrb_value) :=
  match fuel with
  | O => None
  | S fuel' =>
      let run m' p self :=
        match mrb_run_enter m' p self with
        | Some (m1, L1) => dispatch fuel' m1 L1
        | None => None
        end in
      match step run m L with
      | Some (Dispatch m' L') => dispatch fuel' m' L'
      | Some (Returned m' v) => Some (m', v)
      | None => None
      end
  end.

Definition mrb_run (fuel : nat) (m : mrb_state) (proc : Z) (self : mrb_value)
  : option (mrb_state * mrb_value) :=
  match mrb_run_enter m proc self with
  | Some (m1, L1) => dispatch fuel m1 L1
  | None => None
  end.

(** ** Calling a block from the host (vm.c:214-250) *)

Definition mrb_yield_with_self (fuel : nat) (m : mrb_state) (b : mrb_value)
    (argv : list mrb_value) (self : mrb_value) : option (mrb_state * mrb_value) :=
  let argc := Z.of_nat (length argv) in
  c ← ci_at m (ci m);
  let mid := ci_mid c in
  let n := ci_nregs c in
  let p := mrb_object b in
  m1 ← cipush m;
  let k := ci m1 in
  pr ← proc_at m1 p;
  m2 ← ci_upd k (fun f =>
          with_acc (-1) (with_nregs (argc + 2) (with_target_class (proc_target_class pr)
            (with_argc argc (with_stackidx (ptr_diff (stack m1) (stbase m1))
              (with_proc p (with_mid mid f))))))) m1;
  m3 ← stack_extend (set_stack (ptr_add (stack m2) n) m2) (argc + 2) 0;
  M1 ← store (mem m3) (stack m3) self;
  M2 ← (if decide (argc > 0) then store_n M1 (ptr_add (stack m3) 1) argv else Some M1);
  M3 ← store M2 (ptr_add (stack m3) (argc + 1)) mrb_nil_value;
  let m4 := set_mem M3 m3 in
  if proc_cfunc pr then
    match cfunc_call host (proc_body pr) m4 self with
    | CReturned m5 v =>
        c ← ci_at m5 k;
        Some (cipop (set_stack (ptr_add (stbase m5) (ci_stackidx c)) m5), v)
    | CJumped m5 => None    (* control leaves through the host's jmp_buf *)
    end
  else mrb_run fuel m4 p self.

End VM.

(** * More of [vm.c]: the host entry points and further cases of the loop

    The cases below are those of opcodes the instruction type above leaves
    to [OP_HOSTED]; each takes the operand fields its C case decodes. *)

(** ** Numbers ([mruby.h], [numeric.h], not part of [vm.c])

    Modelled from the spec: §3 has the fixnum as a "fixed-width integer" and
    §4.1/§9 give it the host's [int] semantics, with no overflow check.
    [mrb_int] is taken to be the 32-bit C [int]: a result outside its range
    is signed overflow, which C leaves undefined, as it does division by
    zero.  A float is known to this development only by its payload; its
    arithmetic is the host's, taken as a parameter. *)

Definition INT_MIN : Z := -2147483648.
Definition INT_MAX : Z := 2147483647.

Definition int_result (z : Z) : option Z :=
  if decide (INT_MIN <= z <= INT_MAX) then Some z else None.

(* the operator a case passes to OP_MATH, OP_MATH_BODY *)
Inductive math_op : Type := MATH_ADD | MATH_SUB | MATH_MUL | MATH_DIV.

(* the operator a case passes to OP_CMP, OP_CMP_BODY *)
Inductive cmp_op : Type := CMP_EQ | CMP_LT | CMP_LE | CMP_GT | CMP_GE.

(* x op y on two [int]s; C's [/] truncates toward zero *)
Definition int_math (op : math_op) (x y : Z) : option Z :=
  match op with
  | MATH_ADD => int_result (x + y)
  | MATH_SUB => int_result (x - y)
  | MATH_MUL => int_result (x * y)
  | MATH_DIV => if decide (y = 0) then None else int_result (Z.quot x y)
  end.

Definition int_cmp (op : cmp_op) (x y : Z) : bool :=
  match op with
  | CMP_EQ => x =? y
  | CMP_LT => x <? y
  | CMP_LE => x <=? y
  | CMP_GT => x >? y
  | CMP_GE => x >=? y
  end.

(** What the further cases call and [vm.c] does not define. *)
Record mrb_host_more : Type := MkHostMore {
  (* (mrb_float)x for an int x, and the double operations, on payloads *)
  float_of_int : Z -> Z;
  float_math : math_op -> Z -> Z -> Z;
  float_cmp : cmp_op -> Z -> Z -> bool;
  (* mrb_str_plus(mrb, a, b) *)
  mrb_str_plus : mrb_state -> mrb_value -> mrb_value -> mrb_state * mrb_value;
  (* mrb_ary_ref(mrb, ary, n) *)
  mrb_ary_ref : mrb_state -> mrb_value -> Z -> mrb_value;
  (* c->super of the class c *)
  class_super : mrb_state -> Z -> Z
}.

Section More.

Variable host : mrb_host.
Variable more : mrb_host_more.

(** ** Calls from the host (vm.c:152-262)

    As in [mrb_yield_with_self], [argv] is the caller's own array, outside
    the operand stack. *)

(* memcpy(dst, argv, sizeof(mrb_value) * n) *)
Definition argv_copy (M : memory) (dst : ptr) (argv : list mrb_value) (n : Z)
  : option memory :=
  if decide (0 <= n <= Z.of_nat (length argv))
  then store_n M dst (take (Z.to_nat n) argv)
  else None.

(* vm.c:170-192: the frame and the registers the callee starts with; [n] is
   the number of registers to step over, [undef] the selector that
   method_missing stands in for (0 when the method was found) *)
Definition funcall_setup (m : mrb_state) (self : mrb_value) (mid : mrb_sym) (p : Z)
    (n argc : Z) (undef : mrb_sym) (argv : list mrb_value) (blk : Z)
  : option (mrb_state * Z * RProc) :=
  m1 ← cipush host m;
  let k := ci m1 in
  pr ← proc_at m1 p;
  m2 ← ci_upd k (fun f =>
          with_acc (-1) (with_nregs (argc + 2) (with_target_class (proc_target_class pr)
            (with_argc argc (with_stackidx (ptr_diff (stack m1) (stbase m1))
              (with_proc p (with_mid mid f))))))) m1;
  m3 ← stack_extend host (set_stack (ptr_add (stack m2) n) m2) (argc + 2) 0;
  M1 ← store (mem m3) (stack m3) self;
  M2 ← (if decide (undef <> 0) then
          M ← store M1 (ptr_add (stack m3) 1) (mrb_symbol_value undef);
          argv_copy M (ptr_add (stack m3) 2) argv (argc - 1)
        else if decide (argc > 0) then argv_copy M1 (ptr_add (stack m3) 1) argv argc
        else Some M1);
  b ← (if decide (blk = 0) then Some mrb_nil_value else obj_value m3 blk);
  M3 ← store M2 (ptr_add (stack m3) (argc + 1)) b;
  Some (set_mem M3 m3, k, pr).

Definition mrb_funcall_with_block (fuel : nat) (m : mrb_state) (self : mrb_value)
    (name : string) (argv : list mrb_value) (blk : Z) : option (mrb_state * mrb_value) :=
  let argc := Z.of_nat (length argv) in
  let mid := mrb_intern host name in
  c0 ← ci_at m (ci m);
  let n := ci_nregs c0 in
  let c := mrb_class host m self in
  let p := mrb_method_search_vm host m c mid in
  let '(undef, mid, p, n, argc) :=
    if decide (p = 0) then
      let missing := mrb_intern host "method_missing" in
      (mid, missing, mrb_method_search_vm host m c missing, n + 1, argc + 1)
    else (0, mid, p, n, argc) in
  '(m4, k, pr) ← funcall_setup m self mid p n argc undef argv blk;
  if proc_cfunc pr then
    match cfunc_call host (proc_body pr) m4 self with
    | CReturned m5 v =>
        c ← ci_at m5 k;
        Some (cipop (set_stack (ptr_add (stbase m5) (ci_stackidx c)) m5), v)
    | CJumped m5 => None    (* control leaves through the host's jmp_buf *)
    end
  else mrb_run host fuel m4 p self.

Definition mrb_funcall_argv (fuel : nat) (m : mrb_state) (self : mrb_value)
    (name : string) (argv : list mrb_value) : option (mrb_state * mrb_value) :=
  mrb_funcall_with_block fuel m self name argv 0.

Definition mrb_yield_argv (fuel : nat) (m : mrb_state) (b : mrb_value)
    (argv : list mrb_value) : option (mrb_state * mrb_value) :=
  self ← load (mem m) (stack m);
  mrb_yield_with_self host fuel m b argv self.

Definition mrb_yield (fuel : nat) (m : mrb_state) (b v : mrb_value)
  : option (mrb_state * mrb_value) :=
  self ← load (mem m) (stack m);
  mrb_yield_with_self host fuel m b [v] self.

(** ** OP_CALL (vm.c:728-775) *)

(* R(A) := self.call(frame.argc, frame.argv) *)
Definition L_OP_CALL (m : mrb_state) (L : locals) : option outcome :=
  recv ← load (mem m) (stack m);
  let p := mrb_object recv in
  pr ← proc_at m p;
  (* replace callinfo *)
  let k := ci m in
  m1 ← ci_upd k (fun f => with_proc p (with_target_class (proc_target_class pr) f)) m;
  m2 ← (if decide (proc_env pr <> 0) then
          e ← env_at m1 (proc_env pr);
          ma ← (if decide (env_mid e <> 0) then ci_upd k (with_mid (env_mid e)) m1
                else Some m1);
          if decide (env_stack e = NULL) then
            obj_set (proc_env pr)
                    (O_env (MkEnv (env_c e) (env_flags e) (env_mid e) (env_cioff e) (stack ma)))
                    ma
          else Some ma
        else Some m1);
  (* prepare stack *)
  if proc_cfunc pr then
    match cfunc_call host (proc_body pr) m2 recv with
    | CReturned m3 v =>
        M1 ← store (mem m3) (stack m3) v;
        let m4 := set_arena_idx (l_ai L) (set_mem M1 m3) in
        if decide (exc m4 <> 0) then L_RAISE m4 L
        else
          (* pop stackpos *)
          c ← ci_at m4 k;
          let base := ptr_add (stbase m4) (ci_stackidx c) in
          NEXT (cipop (set_stack base m4)) (upd_regs base L)
    | CJumped m3 => L_RAISE m3 L
    end
  else
    (* setup environment for calling method *)
    ir ← irep_at m2 (proc_body pr);
    m3 ← ci_upd k (with_nregs (ir_nregs ir)) m2;
    c ← ci_at m3 k;
    m4 ← extend_for_callee host m3 (ir_nregs ir) (ci_argc c);
    (* regs[0] = m->env->stack[0] *)
    env ← env_at m4 (proc_env pr);
    v ← load (mem m4) (env_stack env);
    M1 ← store (mem m4) (stack m4) v;
    JUMP (set_mem M1 m4)
         (upd_pc (CPtr (proc_body pr) 0) (upd_regs (stack m4)
            (upd_irep (proc_body pr) (upd_proc p L)))).

(** ** OP_SUPER (vm.c:777-847) *)

(* R(A) := super(R(A+1),... ,R(A+C-1)) *)
Definition L_OP_SUPER (m : mrb_state) (L : locals) (a n : Z) : option outcome :=
  c0 ← ci_at m (ci m);
  let mid := ci_mid c0 in
  recv ← reg m L 0;
  cur ← proc_at m (ci_proc c0);
  let c := class_super more m (proc_target_class cur) in
  let mth := mrb_method_search_vm host m c mid in
  found ← (if decide (mth = 0) then
             let missing := mrb_intern host "method_missing" in
             let mth' := mrb_method_search_vm host m (proc_target_class cur) missing in
             r ← method_missing_args host m L a n (mrb_symbol_value mid);
             Some (fst r, mth', (missing, snd r))
           else Some (m, mth, (mid, n)));
  let '(m1, mth, (mid, n)) := found in
  (* push callinfo *)
  m2 ← cipush host m1;
  let k := ci m2 in
  pr ← proc_at m2 mth;
  m3 ← ci_upd k (fun f =>
          with_pc (code_add (l_pc L) 1) (with_target_class (proc_target_class pr)
            (with_argc (if decide (n = CALL_MAXARGS) then -1 else n)
              (with_stackidx (ptr_diff (stack m2) (stbase m2))
                (with_proc mth (with_mid mid f)))))) m2;
  (* prepare stack *)
  let m4 := set_stack (ptr_add (stack m3) a) m3 in
  M0 ← store (mem m4) (stack m4) recv;
  let m4 := set_mem M0 m4 in
  if proc_cfunc pr then
    match cfunc_call host (proc_body pr) m4 recv with
    | CReturned m5 v =>
        M1 ← store (mem m5) (stack m5) v;
        let m6 := set_arena_idx (l_ai L) (set_mem M1 m5) in
        if decide (exc m6 <> 0) then L_RAISE m6 L
        else
          (* pop stackpos *)
          c ← ci_at m6 k;
          NEXT (cipop (set_stack (ptr_add (stbase m6) (ci_stackidx c)) m6)) L
    | CJumped m5 => L_RAISE m5 L
    end
  else
    (* fill callinfo *)
    m5 ← ci_upd k (with_acc a) m4;
    (* setup environment for calling method *)
    m6 ← ci_upd k (with_proc mth) m5;
    ir ← irep_at m6 (proc_body pr);
    m7 ← ci_upd k (with_nregs (ir_nregs ir)) m6;
    c ← ci_at m7 k;
    m8 ← extend_for_callee host m7 (ir_nregs ir) (ci_argc c);
    JUMP m8 (upd_pc (CPtr (proc_body pr) 0) (upd_regs (stack m8)
              (upd_irep (proc_body pr) L))).

(** ** OP_ARGARY and OP_BLKPUSH (vm.c:849-891, 1105-1121) *)

(* the arguments of the frame [lv] levels out: regs + 1, or e->stack + 1 of
   the environment uvenv(lv-1) finds *)
Definition args_base (m : mrb_state) (L : locals) (lv : Z) : option ptr :=
  if decide (lv = 0) then Some (ptr_add (l_regs L) 1)
  else
    e ← uvenv m (lv - 1);
    env ← env_at m e;
    Some (ptr_add (env_stack env) 1).

(* R(A) := argument array (16=6:1:5:4) *)
Definition L_OP_ARGARY (m : mrb_state) (L : locals) (a bx : Z) : option outcome :=
  let m1 := Z.land (Z.shiftr bx 10) 63 in
  let r := Z.land (Z.shiftr bx 9) 1 in
  let m2 := Z.land (Z.shiftr bx 4) 31 in
  let lv := Z.land (Z.shiftr bx 0) 15 in
  stack ← args_base m L lv;
  ma ← (if decide (r = 0) then
          '(mb, ary) ← mrb_ary_new_elts host m (m1 + m2) stack;
          set_reg mb L a ary
        else
          x ← load (mem m) (ptr_add stack m1);
          '(pp, len) ← (if decide (tt x = MRB_TT_ARRAY) then
                          ary ← ary_at m (mrb_object x);
                          Some (ary_buf ary, ary_len ary)
                        else Some (NULL, 0));
          '(mb, v) ← mrb_ary_new_capa host m (m1 + len + m2);
          mc ← set_reg mb L a v;
          v' ← reg mc L a;
          rest ← ary_at mc (mrb_object v');
          M1 ← memcpy (mem mc) (ary_buf rest) stack m1;
          M2 ← (if decide (len > 0) then memcpy M1 (ptr_add (ary_buf rest) m1) pp len
                else Some M1);
          M3 ← (if decide (m2 > 0)
                then memcpy M2 (ptr_add (ary_buf rest) (m1 + len)) (ptr_add stack (m1 + 1)) m2
                else Some M2);
          obj_set (mrb_object v') (O_array (MkArray (m1 + len + m2) (ary_capa rest) (ary_buf rest)))
                  (set_mem M3 mc));
  blk ← load (mem ma) (ptr_add stack (m1 + r + m2));
  mb ← set_reg ma L (a + 1) blk;
  NEXT mb L.

(* R(A) := block (16=6:1:5:4) *)
Definition L_OP_BLKPUSH (m : mrb_state) (L : locals) (a bx : Z) : option outcome :=
  let m1 := Z.land (Z.shiftr bx 10) 63 in
  let r := Z.land (Z.shiftr bx 9) 1 in
  let m2 := Z.land (Z.shiftr bx 4) 31 in
  let lv := Z.land (Z.shiftr bx 0) 15 in
  stack ← args_base m L lv;
  v ← load (mem m) (ptr_add stack (m1 + r + m2));
  m' ← set_reg m L a v;
  NEXT m' L.

(** ** Arithmetic and comparison (vm.c:1123-1303) *)

(* OP_MATH(op), without the NEXT that follows it in each case *)
Definition OP_MATH (op : math_op) (m : mrb_state) (L : locals) (a b c : Z) : option outcome :=
  x ← reg m L a;
  y ← reg m L (a + 1);
  match tt x, tt y with
  | MRB_TT_FIXNUM, MRB_TT_FIXNUM =>
      z ← int_math op (value x) (value y);
      m1 ← set_reg m L a (MkValue (tt x) z);
      NEXT m1 L
  | MRB_TT_FIXNUM, MRB_TT_FLOAT =>
      m1 ← set_reg m L a
             (MkValue MRB_TT_FLOAT (float_math more op (float_of_int more (value x)) (value y)));
      NEXT m1 L
  | MRB_TT_FLOAT, MRB_TT_FIXNUM =>
      m1 ← set_reg m L a
             (MkValue (tt x) (float_math more op (value x) (float_of_int more (value y))));
      NEXT m1 L
  | MRB_TT_FLOAT, MRB_TT_FLOAT =>
      m1 ← set_reg m L a (MkValue (tt x) (float_math more op (value x) (value y)));
      NEXT m1 L
  | _, _ => L_OP_SEND host m L a b c
  end.

(* R(A) := R(A)+R(A+1) (Syms[B]=:+,C=1) *)
Definition L_OP_ADD (m : mrb_state) (L : locals) (a b c : Z) : option outcome :=
  x ← reg m L a;
  y ← reg m L (a + 1);
  match tt x, tt y with
  | MRB_TT_STRING, MRB_TT_STRING =>
      let '(m1, s) := mrb_str_plus more m x y in
      m2 ← set_reg m1 L a s;
      NEXT m2 L
  | _, _ => OP_MATH MATH_ADD m L a b c
  end.

(* R(A) := R(A)-R(A+1) (Syms[B]=:-,C=1) *)
Definition L_OP_SUB (m : mrb_state) (L : locals) (a b c : Z) : option outcome :=
  OP_MATH MATH_SUB m L a b c.

(* R(A) := R(A)*R(A+1) (Syms[B]=:*,C=1) *)
Definition L_OP_MUL (m : mrb_state) (L : locals) (a b c : Z) : option outcome :=
  OP_MATH MATH_MUL m L a b c.

(* R(A) := R(A)/R(A+1) (Syms[B]=:/,C=1) *)
Definition L_OP_DIV (m : mrb_state) (L : locals) (a b c : Z) : option outcome :=
  OP_MATH MATH_DIV m L a b c.

(* the body OP_ADDI and OP_SUBI share, up to the operator *)
Definition math_immediate (op : math_op) (m : mrb_state) (L : locals) (a b c : Z)
  : option outcome :=
  x ← reg m L a;
  match tt x with
  | MRB_TT_FIXNUM =>
      z ← int_math op (value x) c;
      m1 ← set_reg m L a (MkValue (tt x) z);
      NEXT m1 L
  | MRB_TT_FLOAT =>
      m1 ← set_reg m L a (MkValue (tt x) (float_math more op (value x) (float_of_int more c)));
      NEXT m1 L
  | _ =>
      m1 ← set_reg m L (a + 1) (mrb_fixnum_value c);
      L_OP_SEND host m1 L a b 1
  end.

(* R(A) := R(A)+C (Syms[B]=:+) *)
Definition L_OP_ADDI (m : mrb_state) (L : locals) (a b c : Z) : option outcome :=
  math_immediate MATH_ADD m L a b c.

(* R(A) := R(A)-C (Syms[B]=:+) *)
Definition L_OP_SUBI (m : mrb_state) (L : locals) (a b c : Z) : option outcome :=
  math_immediate MATH_SUB m L a b c.

(* OP_CMP(op), without the NEXT that follows it in each case *)
Definition OP_CMP (op : cmp_op) (m : mrb_state) (L : locals) (a b c : Z) : option outcome :=
  x ← reg m L a;
  y ← reg m L (a + 1);
  let answer (t : bool) :=
    m1 ← set_reg m L a (if t then mrb_true_value else mrb_false_value);
    NEXT m1 L in
  match tt x, tt y with
  | MRB_TT_FIXNUM, MRB_TT_FIXNUM => answer (int_cmp op (value x) (value y))
  | MRB_TT_FIXNUM, MRB_TT_FLOAT =>
      answer (float_cmp more op (float_of_int more (value x)) (value y))
  | MRB_TT_FLOAT, MRB_TT_FIXNUM =>
      answer (float_cmp more op (value x) (float_of_int more (value y)))
  | MRB_TT_FLOAT, MRB_TT_FLOAT => answer (float_cmp more op (value x) (value y))
  | _, _ => L_OP_SEND host m L a b c
  end.

Definition L_OP_EQ (m : mrb_state) (L : locals) (a b c : Z) : option outcome :=
  OP_CMP CMP_EQ m L a b c.
Definition L_OP_LT (m : mrb_state) (L : locals) (a b c : Z) : option outcome :=
  OP_CMP CMP_LT m L a b c.
Definition L_OP_LE (m : mrb_state) (L : locals) (a b c : Z) : option outcome :=
  OP_CMP CMP_LE m L a b c.
Definition L_OP_GT (m : mrb_state) (L : locals) (a b c : Z) : option outcome :=
  OP_CMP CMP_GT m L a b c.
Definition L_OP_GE (m : mrb_state) (L : locals) (a b c : Z) : option outcome :=
  OP_CMP CMP_GE m L a b c.

(** ** OP_AREF and OP_APOST (vm.c:1331-1394) *)

(* R(A) := R(B)[C] *)
Definition L_OP_AREF (m : mrb_state) (L : locals) (a b c : Z) : option outcome :=
  v ← reg m L b;
  m1 ← (if decide (tt v <> MRB_TT_ARRAY) then
          if decide (c = 0) then set_reg m L a v else set_reg m L a mrb_nil_value
        else set_reg m L a (mrb_ary_ref more m v c));
  NEXT m1 L.

(* while (post--) { SET_NIL_VALUE(regs[a]); a++; } *)
Fixpoint apost_nils (post : nat) (m : mrb_state) (L : locals) (a : Z) : option mrb_state :=
  match post with
  | O => Some m
  | S post' => m1 ← set_reg m L a mrb_nil_value; apost_nils post' m1 L (a + 1)
  end.

(* while (post--) { regs[a++] = ary->buf[len-post-1]; }: [post] counts what
   is left after the decrement *)
Fixpoint apost_tail (post : nat) (m : mrb_state) (L : locals) (p a len : Z)
  : option mrb_state :=
  match post with
  | O => Some m
  | S post' =>
      ary ← ary_at m p;
      x ← load (mem m) (ptr_add (ary_buf ary) (len - Z.of_nat post' - 1));
      m1 ← set_reg m L a x;
      apost_tail post' m1 L p (a + 1) len
  end.

(* for (i=0; i+pre<len; i++) regs[a+i] = ary->buf[pre+i];
   [todo] is the number of rounds left; the result carries the final i *)
Fixpoint apost_head (todo : nat) (m : mrb_state) (L : locals) (p a pre i : Z)
  : option (mrb_state * Z) :=
  match todo with
  | O => Some (m, i)
  | S todo' =>
      ary ← ary_at m p;
      x ← load (mem m) (ptr_add (ary_buf ary) (pre + i));
      m1 ← set_reg m L (a + i) x;
      apost_head todo' m1 L p a pre (i + 1)
  end.

(* *R(A),R(A+1)..R(A+C) := R(A) *)
Definition L_OP_APOST (m : mrb_state) (L : locals) (a pre post : Z) : option outcome :=
  v ← reg m L a;
  if decide (tt v <> MRB_TT_ARRAY) then
    '(m1, rest) ← mrb_ary_new_capa host m 0;
    m2 ← set_reg m1 L a rest;
    m3 ← apost_nils (Z.to_nat post) m2 L (a + 1);
    NEXT m3 L
  else
    ary ← ary_at m (mrb_object v);
    let len := ary_len ary in
    if decide (len > pre + post) then
      '(m1, rest) ← mrb_ary_new_elts host m (len - pre - post) (ptr_add (ary_buf ary) pre);
      m2 ← set_reg m1 L a rest;
      m3 ← apost_tail (Z.to_nat post) m2 L (mrb_object v) (a + 1) len;
      NEXT m3 L
    else
      '(m1, rest) ← mrb_ary_new_capa host m 0;
      m2 ← set_reg m1 L a rest;
      '(m3, i) ← apost_head (Z.to_nat (len - pre)) m2 L (mrb_object v) (a + 1) pre 0;
      m4 ← apost_nils (Z.to_nat (post - i)) m3 L (a + 1 + i);
      NEXT m4 L.

(** ** OP_EXEC (vm.c:1478-1518) *)

(* R(A) := blockexec(R(A),SEQ[Bx]) *)
Definition L_OP_EXEC (m : mrb_state) (L : locals) (a bx : Z) : option outcome :=
  recv ← reg m L a;
  (* prepare stack *)
  m1 ← cipush host m;
  let k := ci m1 in
  v ← reg m1 L a;
  m2 ← ci_upd k (fun f =>
          with_target_class (mrb_object v) (with_argc 0
            (with_stackidx (ptr_diff (stack m1) (stbase m1))
              (with_mid 0 (with_acc a (with_pc (code_add (l_pc L) 1) f)))))) m1;
  ir0 ← irep_at m2 (l_irep L);
  _ ← irep_at m2 (ir_idx ir0 + bx);
  '(m3, p) ← mrb_proc_new m2 (ir_idx ir0 + bx);
  pr0 ← proc_at m3 p;
  m4 ← obj_set p (O_proc (MkProc (proc_cfunc pr0) (proc_strict pr0) (proc_body pr0)
                                 (mrb_object v) (proc_env pr0))) m3;
  m5 ← ci_upd k (with_proc p) m4;
  if proc_cfunc pr0 then
    match cfunc_call host (proc_body pr0) m5 recv with
    | CReturned m6 w =>
        M1 ← store (mem m6) (stack m6) w;
        let m7 := set_arena_idx (l_ai L) (set_mem M1 m6) in
        if decide (exc m7 <> 0) then L_RAISE m7 L
        else
          (* pop stackpos *)
          c ← ci_at m7 k;
          let base := ptr_add (stbase m7) (ci_stackidx c) in
          NEXT (cipop (set_stack base m7)) (upd_regs base L)
    | CJumped m6 => L_RAISE m6 L
    end
  else
    (* setup environment for calling method *)
    ir ← irep_at m5 (proc_body pr0);
    m6 ← stack_extend host (set_stack (ptr_add (stack m5) a) m5) (ir_nregs ir) 1;
    JUMP m6 (upd_pc (CPtr (proc_body pr0) 0) (upd_regs (stack m6)
              (upd_irep (proc_body pr0) L))).

End More.

(** * Statements: the predicates the theorems are phrased with *)

(** The frame array is allocated, [ci] points into it, and it has the room
    [cipush] counts on when it doubles ([CALLINFO_INIT_SIZE] is 32). *)
Definition frames_ok (m : mrb_state) : Prop :=
  0 <= ci m < ciend m /\ ciend m = Z.of_nat (length (cibase m)) /\ 3 <= ciend m.

(** The operand stack is one live block holding [cells], [stbase] at its
    start, [stend] at its end and [stack] inside it. *)
Definition stack_ok (m : mrb_state) (cells : list mrb_value) : Prop :=
  block_of (mem m) (blk (stbase m)) = Some cells /\
  stbase m <> NULL /\ off (stbase m) = 0 /\
  blk (stack m) = blk (stbase m) /\ blk (stend m) = blk (stbase m) /\
  off (stend m) = Z.of_nat (length cells) /\
  0 <= off (stack m) <= off (stend m).

(** [m'] differs from [m] at most in memory and in the object heap. *)
Definition same_frames (m m' : mrb_state) : Prop :=
  m' = set_heap (heap m') (set_mem (mem m') m).

(** The name [argnum_error] prints for the current frame, if it has one. *)
Definition frame_name (host : mrb_host) (c : mrb_callinfo) : option string :=
  if decide (ci_mid c <> 0) then Some (mrb_sym2name host (ci_mid c)) else None.

(** The part of the message every arity error is expected to carry. *)
Definition arity_text (argc num : Z) : string :=
  "wrong number of arguments (" ++ fmt_d argc ++ " for " ++ fmt_d num ++ ")".

(** [contains], decided. *)
Fixpoint containsb (s t : string) : bool :=
  String.prefix t s ||
  match s with
  | EmptyString => false
  | String _ s' => containsb s' t
  end.

(** [n] instructions dispatched one after the other, none of them entering
    a nested run. *)
Fixpoint steps (host : mrb_host) (n : nat) (m : mrb_state) (L : locals)
  : option (mrb_state * locals) :=
  match n with
  | O => Some (m, L)
  | S n' =>
      match step host (fun _ _ _ => None) m L with
      | Some (Dispatch m' L') => steps host n' m' L'
      | _ => None
      end
  end.

(** ** Predicates for the further properties *)

(** The frames [j+1 .. ci] have no handler of their own: each shares its
    [ridx] with the frame below it. *)
Definition no_handler_above (m : mrb_state) (j : Z) : Prop :=
  forall k, j < k <= ci m ->
    exists ck ck', ci_at m k = Some ck /\ ci_at m (k - 1) = Some ck' /\
                   ci_ridx ck = ci_ridx ck'.

(** Frame [j] is where unwinding ends: the base frame, or a frame whose
    [ridx] differs from that of the frame below. *)
Definition unwind_ends_at (m : mrb_state) (j : Z) (c : mrb_callinfo) : Prop :=
  ci_at m j = Some c /\
  (j = 0 \/ exists c', ci_at m (j - 1) = Some c' /\ ci_ridx c <> ci_ridx c').

Section HostCall.
Variable host : mrb_host.

(** How [mrb_funcall_with_block] and [mrb_yield_with_self] go on once the
    callee's frame [k] and registers are set up in [m4] (vm.c:197-205,
    238-246). *)
Definition host_call (fuel : nat) (m4 : mrb_state) (k p : Z) (pr : RProc) (self : mrb_value)
  : option (mrb_state * mrb_value) :=
  if proc_cfunc pr then
    match cfunc_call host (proc_body pr) m4 self with
    | CReturned m5 v =>
        c ← ci_at m5 k;
        Some (cipop (set_stack (ptr_add (stbase m5) (ci_stackidx c)) m5), v)
    | CJumped m5 => None
    end
  else mrb_run host fuel m4 p self.

End HostCall.

(** [m4] is [m] with one more frame, for the procedure [p] called under
    the name [mid] from the host: the new window starts [n] cells above
    the caller's stack pointer and its first registers are [regs]; the
    frame records the caller's stack offset, makes [mrb_run] return to the
    host ([acc = -1]) and counts the registers between R(0) and the block
    as its arguments. *)
Definition callee_entered (m m4 : mrb_state) (c0 : mrb_callinfo) (n : Z) (mid : mrb_sym)
    (p : Z) (pr : RProc) (regs : list mrb_value) : Prop :=
  let nregs := Z.of_nat (length regs) in
  ci m4 = ci m + 1 /\ frames_ok m4 /\ (exists cells4, stack_ok m4 cells4) /\
  (forall j, 0 <= j <= ci m -> ci_at m4 j = ci_at m j) /\
  (exists pc0, ci_at m4 (ci m + 1) =
     Some (MkCallinfo mid p (ptr_diff (stack m) (stbase m)) nregs (nregs - 2) pc0 (-1)
             (proc_target_class pr) (ci_ridx c0) (ci_eidx c0) 0)) /\
  off (stack m4) = off (stack m) + n /\
  load_n (mem m4) (stack m4) nregs = Some regs /\
  (forall j, 0 <= j < off (stack m) + n ->
     load (mem m4) (ptr_add (stbase m4) j) = load (mem m) (ptr_add (stbase m) j)) /\
  heap m4 = heap m /\ exc m4 = exc m /\ irep m4 = irep m /\ jmp m4 = jmp m.

(** The frame OP_CALL leaves for the procedure [p] with environment [e]
    (vm.c:741-763): the frame it ran in, with its procedure, target class,
    method name and register count replaced. *)
Definition call_frame (c0 : mrb_callinfo) (p : Z) (pr : RProc) (e : REnv) (nregs : Z)
  : mrb_callinfo :=
  with_nregs nregs
    (with_mid (if decide (env_mid e <> 0) then env_mid e else ci_mid c0)
       (with_proc p (with_target_class (proc_target_class pr) c0))).

(** ** Predicates for ensure calls and for sends that find no method *)

(** What [ecall] (vm.c:132-150) hands to [mrb_run] for the ensure entry
    [i]: the state on entry, the procedure and the receiver.  The new frame
    is written out field by field: [cipush] gives it the [ridx] and [eidx]
    of the frame below and no environment, [ecall] the rest but [pc]. *)
Definition ensure_entry (host : mrb_host) (m : mrb_state) (i : Z)
  : option (mrb_state * Z * mrb_value) :=
  c ← ci_at m (ci m);
  p ← zlookup (ensure m) i;
  m1 ← cipush host m;
  fresh ← ci_at m1 (ci m + 1);
  pr ← proc_at m p;
  ir ← irep_at m (proc_body pr);
  self ← load (mem m) (stack m);
  let frame :=
    MkCallinfo (ci_mid c) p (ptr_diff (stack m) (stbase m)) (ir_nregs ir) 0
               (ci_pc fresh) (-1) (proc_target_class pr) (ci_ridx c) (ci_eidx c) 0 in
  let m2 := set_cibase (<[Z.to_nat (ci m + 1) := frame]> (cibase m1)) m1 in
  Some (set_ecalled (ecalled m ++ [p]) (set_stack (ptr_add (stack m) (ci_nregs c)) m2),
        p, self).

(** The nested run came back into the frame it was started from: that
    frame is current again with its record as it was, the frame table is
    in order, and the ensure entries below [e] are the same. *)
Definition returned_into (m0 m1 : mrb_state) (e : Z) : Prop :=
  ci m1 = ci m0 /\ frames_ok m1 /\
  ci_at m1 (ci m0) = ci_at m0 (ci m0) /\
  take (Z.to_nat e) (ensure m1) = take (Z.to_nat e) (ensure m0).

(** [ensure_runs host run m ps m']: from [m], the ensure procedures [ps]
    are taken off the current frame one after the other, each from the
    top entry, each run by [run] on what [ecall] hands over, each coming
    back into the frame; [m'] is the state after the last one. *)
Inductive ensure_runs (host : mrb_host)
    (run : mrb_state -> Z -> mrb_value -> option (mrb_state * mrb_value))
  : mrb_state -> list Z -> mrb_state -> Prop :=
| ensure_runs_nil (m : mrb_state) : ensure_runs host run m [] m
| ensure_runs_cons (m m0 m_in m1 m' : mrb_state) (c : mrb_callinfo) (p : Z)
    (self v : mrb_value) (ps : list Z) :
    ci_at m (ci m) = Some c ->
    ci_upd (ci m) (with_eidx (ci_eidx c - 1)) m = Some m0 ->
    ensure_entry host m0 (ci_eidx c - 1) = Some (m_in, p, self) ->
    run m_in p self = Some (m1, v) ->
    returned_into m0 m1 (ci_eidx c - 1) ->
    ensure_runs host run m1 ps m' ->
    ensure_runs host run m (p :: ps) m'.

(** How OP_SEND goes on once the frame and the window of a native callee
    are set up in [m4] (vm.c:687-695): the function is called on the
    receiver, its value goes to the callee's R(0), which is the caller's
    R(A), and the frame is popped, unless an exception is pending. *)
Definition send_native (host : mrb_host) (m4 : mrb_state) (L : locals) (recv : mrb_value)
    (pr : RProc) : option outcome :=
  match cfunc_call host (proc_body pr) m4 recv with
  | CReturned m5 v =>
      M1 ← store (mem m5) (stack m5) v;
      let m6 := set_arena_idx (l_ai L) (set_mem M1 m5) in
      if decide (exc m6 <> 0) then L_RAISE m6 L
      else
        c ← ci_at m6 (ci m4);
        NEXT (cipop (set_stack (ptr_add (stbase m6) (ci_stackidx c)) m6)) L
  | CJumped m5 => L_RAISE m5 L
  end.

(** * Example programs *)

(** A host with one class, whose method table is [methods] and whose symbol
    names are given by [names]; fresh memory holds a recognisable junk
    value. *)
Definition example_host (methods : list (mrb_sym * Z)) (names : mrb_sym -> string)
  : mrb_host :=
  MkHost (fun _ _ => MkValue MRB_TT_FREE 57005)
         (fun _ => MkCallinfo 57005 57005 57005 57005 57005 CNull 57005 57005 57005 57005 57005)
         (fun _ => CNull)
         (fun _ => 57005)
         (fun _ _ => 1)
         (fun _ _ mid =>
            match find (fun e => fst e =? mid) methods with
            | Some e => snd e
            | None => 0
            end)
         (fun s => if String.eqb s "method_missing" then 99 else 98)
         names
         (fun _ m v => CReturned m v)
         20 21.

(** A state no [mrb_run] has touched yet: no stack, no frames; the heap
    holds [objs] from address 1 on. *)
Definition fresh_state (ireps : list mrb_irep) (objs : list RObj) : mrb_state :=
  MkState NULL NULL NULL [] 0 0 [] 0 [] 0 0 ireps (O_free :: objs) [None] 0 0 1 [].

(** Scenario 3 of the spec: ONERR L1; RAISE r1; LOADI r2,42; JMP L2;
    L1: RESCUE r2; L2: RETURN r2.  ONERR and JMP count from their own
    address, as [vm.c] does. *)
Definition rescue_iseq : list mrb_code :=
  [OP_ONERR 4; OP_RAISE 1; OP_LOADI 2 42; OP_JMP 2; OP_RESCUE 2; OP_RETURN 2 OP_R_NORMAL].

Definition rescue_host : mrb_host := example_host [] (fun _ => "main"%string).

(** The procedure is object 1, the exception object 2. *)
Definition rescue_start : mrb_state :=
  fresh_state [MkIrep 0 3 rescue_iseq [] []]
              [O_proc (MkProc false false 0 1 0); O_exception 5 "boom"].

Definition the_exception : mrb_value := MkValue MRB_TT_EXCEPTION 2.

(** The host initialises the stack and preloads r1 of the base frame. *)
Definition rescue_base : option mrb_state :=
  m ← stack_init rescue_host rescue_start;
  M ← store (mem m) (ptr_add (stack m) 1) the_exception;
  Some (set_mem M m).

(** A caller [main] that sends [:f] (symbol 10) to self from register 1,
    and [f], which returns at once. *)
Definition send_ireps : list mrb_irep :=
  [MkIrep 0 4 [OP_LOADSELF 1; OP_SEND 1 0 0; OP_STOP] [] [10];
   MkIrep 1 2 [OP_RETURN 0 OP_R_NORMAL] [] []].

Definition send_host : mrb_host := example_host [(10, 2)] (fun _ => "f"%string).

Definition send_start : mrb_state :=
  fresh_state send_ireps
              [O_proc (MkProc false false 0 1 0); O_proc (MkProc false false 1 1 0)].

(** [f] calls itself in tail position: LOADSELF r1; TAILCALL r1, :f, 0. *)
Definition tail_ireps : list mrb_irep :=
  [MkIrep 0 4 [OP_LOADSELF 1; OP_SEND 1 0 0; OP_STOP] [] [10];
   MkIrep 1 3 [OP_LOADSELF 1; OP_TAILCALL 1 0 0] [] [10]].

Definition tail_start : mrb_state :=
  fresh_state tail_ireps
              [O_proc (MkProc false false 0 1 0); O_proc (MkProc false false 1 1 0)].

(** Scenario 4 of the spec: EPUSH body1; EPUSH body2; EPOP 2; RETURN r0.
    body1 is irep 1, body2 is irep 2. *)
Definition ensure_ireps : list mrb_irep :=
  [MkIrep 0 2 [OP_EPUSH 1; OP_EPUSH 2; OP_EPOP 2; OP_RETURN 0 OP_R_NORMAL] [] [];
   MkIrep 1 2 [OP_RETURN 0 OP_R_NORMAL] [] [];
   MkIrep 2 2 [OP_RETURN 0 OP_R_NORMAL] [] []].

Definition ensure_host : mrb_host := example_host [] (fun _ => "main"%string).

(** Scenario 2 of the spec: a strict procedure declared with m1 = 1
    (Ax = 1 << 18) is sent two arguments under the selector 10. *)
Definition arity_ireps : list mrb_irep :=
  [MkIrep 0 5 [OP_LOADSELF 1; OP_LOADI 2 1; OP_LOADI 3 2; OP_SEND 1 0 2; OP_STOP] [] [10];
   MkIrep 1 4 [OP_ENTER 262144; OP_RETURN 0 OP_R_NORMAL] [] []].

Definition arity_start : mrb_state :=
  fresh_state arity_ireps
              [O_proc (MkProc false false 0 1 0); O_proc (MkProc false true 1 1 0)].

Definition arity_host (name : string) : mrb_host := example_host [(10, 2)] (fun _ => name).

(** A method name of [n] letters. *)
Fixpoint long_name (n : nat) : string :=
  match n with
  | O => EmptyString
  | S n' => String "a" (long_name n')
  end.

(** A small state to instantiate the theorems at: eight stack cells, four
    frames of which the first is current, the heap holding [objs]. *)
Definition small_cells : list mrb_value :=
  [mrb_nil_value; mrb_fixnum_value 1; mrb_fixnum_value 2; mrb_nil_value;
   mrb_nil_value; mrb_nil_value; mrb_nil_value; mrb_nil_value].

Definition small_frame (mid : mrb_sym) (proc argc eidx env : Z) : mrb_callinfo :=
  MkCallinfo mid proc 0 4 argc CNull 0 1 0 eidx env.

Definition small_state (frame : mrb_callinfo) (ens : list Z) (ireps : list mrb_irep)
    (objs : list RObj) : mrb_state :=
  MkState (Ptr 1 0) (Ptr 1 8) (Ptr 1 0)
          [frame; zero_callinfo; zero_callinfo; zero_callinfo] 4 0
          [] 0 ens (Z.of_nat (length ens)) 0 ireps (O_free :: objs)
          [None; Some small_cells] 0 0 1 [].

Definition small_locals : locals := MkLocals 1 0 (CPtr 0 0) (Ptr 1 0) 0 0.

Definition small_main : RObj := O_proc (MkProc false false 0 1 0).


(** The rest of the example host: a float is its own payload, strings and
    array references are not used, and a class is its own superclass. *)
Definition example_more : mrb_host_more :=
  MkHostMore (fun x => x) (fun _ x _ => x) (fun _ _ _ => false)
             (fun m a _ => (m, a)) (fun _ _ _ => mrb_nil_value) (fun _ c => c).

(** A state with the frames [frames], of which frame [cur] is running with
    its window at cell [sp] of the stack [cells]; [resc] is the rescue
    array, the heap holds [objs] from address 1 on and [blocks] are further
    live blocks, from block 2 on. *)
Definition demo_state (frames : list mrb_callinfo) (cur : Z) (cells : list mrb_value)
    (sp : Z) (resc : list code_ptr) (ireps : list mrb_irep) (objs : list RObj)
    (blocks : list (list mrb_value)) : mrb_state :=
  MkState (Ptr 1 0) (Ptr 1 (Z.of_nat (length cells))) (Ptr 1 sp)
          frames (Z.of_nat (length frames)) cur
          resc (Z.of_nat (length resc)) [] 0 0 ireps (O_free :: objs)
          (None :: Some cells :: map Some blocks) 0 0 1 [].

(** A frame of [demo_state]: method [mid] run by procedure [proc], entered
    from a caller whose window starts at [stackidx] and who wants the
    result in its register [acc]. *)
Definition demo_frame (mid : mrb_sym) (proc stackidx acc ridx : Z) (pc : code_ptr)
  : mrb_callinfo :=
  MkCallinfo mid proc stackidx 4 0 pc acc 1 ridx 0 0.

(** A host that knows the method [f] and one that knows only
    [method_missing]; [example_host] interns every other name as 98. *)
Definition funcall_host : mrb_host := example_host [(98, 2)] (fun _ => "f"%string).
Definition missing_host : mrb_host := example_host [(99, 2)] (fun _ => "f"%string).

(** A native procedure, as [example_host] runs it: it returns its self. *)
Definition native_proc : RObj := O_proc (MkProc true false 0 1 0).

(** Four elements for OP_APOST to take apart. *)
Definition four_elts : list mrb_value :=
  [mrb_fixnum_value 10; mrb_fixnum_value 20; mrb_fixnum_value 30; mrb_fixnum_value 40].

Definition array_cells : list mrb_value :=
  [mrb_nil_value; MkValue MRB_TT_ARRAY 2; mrb_nil_value; mrb_nil_value;
   mrb_nil_value; mrb_nil_value; mrb_nil_value; mrb_nil_value].

Definition array_state : mrb_state :=
  demo_state [small_frame 0 1 0 0 0; zero_callinfo; zero_callinfo; zero_callinfo] 0
             array_cells 0 [] ensure_ireps
             [small_main; O_array (MkArray 4 4 (Ptr 2 0))] [four_elts].

(** A closure (object 1) whose environment (object 2) has the window
    [window]; the closure itself is in R(0). *)
Definition closure_cells : list mrb_value :=
  [MkValue MRB_TT_PROC 1; mrb_fixnum_value 1; mrb_nil_value; mrb_nil_value;
   mrb_nil_value; mrb_nil_value; mrb_nil_value; mrb_nil_value].

Definition closure_state (window : ptr) (nregs : Z) : mrb_state :=
  demo_state [small_frame 0 1 0 0 0; zero_callinfo; zero_callinfo; zero_callinfo] 0
             closure_cells 0 [] [MkIrep 0 nregs [OP_RETURN 0 OP_R_NORMAL] [] []]
             [O_proc (MkProc false false 0 1 2); O_env (MkEnv 0 3 0 0 window)]
             [[mrb_fixnum_value 9; mrb_nil_value; mrb_nil_value]].

(** Two frames, the upper one running: [main] (procedure 1) has called a
    block or method (procedure 2), and wants the result in its R(1). *)
Definition two_frames (ridx0 ridx1 : Z) (resc : list code_ptr) (objs : list RObj)
  : mrb_state :=
  demo_state [demo_frame 0 1 0 0 ridx0 CNull; demo_frame 10 2 0 1 ridx1 (CPtr 0 2);
              zero_callinfo; zero_callinfo] 1
             small_cells 1 resc send_ireps
             (small_main :: O_proc (MkProc false false 1 1 0) :: objs) [].

(** Three frames: [main], a method it called, and a block of [main] the
    method yielded to. *)
Definition three_frames (objs : list RObj) : mrb_state :=
  demo_state [demo_frame 0 1 0 0 0 CNull; demo_frame 10 2 0 1 0 (CPtr 0 2);
              demo_frame 0 3 1 0 0 (CPtr 1 0); zero_callinfo] 2
             small_cells 2 [] send_ireps
             (small_main :: O_proc (MkProc false false 1 1 0) :: objs) [].

(** ** Programs with ensure procedures, and sends that find no method *)

(** EPUSH body1; EPUSH body2; EPOP 2; RETURN r0, with bodies that leave
    marks: body1 (irep 1) writes 11 to its r1, body2 (irep 2) writes 22 to
    its r1 and r2.  Both run on the same window, right above the frame of
    the main procedure. *)
Definition order_ireps : list mrb_irep :=
  [MkIrep 0 3 [OP_EPUSH 1; OP_EPUSH 2; OP_EPOP 2; OP_RETURN 0 OP_R_NORMAL] [] [];
   MkIrep 1 3 [OP_LOADI 1 11; OP_RETURN 0 OP_R_NORMAL] [] [];
   MkIrep 2 3 [OP_LOADI 1 22; OP_LOADI 2 22; OP_RETURN 0 OP_R_NORMAL] [] []].

Definition order_start : mrb_state :=
  fresh_state order_ireps [O_proc (MkProc false false 0 1 0)].

(** The main procedure of [order_ireps] entered on the base frame and
    stepped to its EPOP. *)
Definition order_at_epop : option (mrb_state * locals) :=
  '(m, L) ← mrb_run_enter ensure_host order_start 1 mrb_nil_value;
  steps ensure_host 2 m L.

(** A caller [main] that registers body0 (irep 2) and sends [:f] (symbol
    10) to self with its r1 as the argument; [f] registers body1 (irep 3)
    and body2 (irep 4) and pops both.  body0 writes 33 to its r1, body1
    11; body2 writes 22 to its r2 and raises the argument of [f], which
    it reads through its environment. *)
Definition raise_ireps : list mrb_irep :=
  [MkIrep 0 4 [OP_EPUSH 2; OP_LOADSELF 2; OP_MOVE 3 1; OP_SEND 2 0 1; OP_STOP] [] [10];
   MkIrep 1 3 [OP_EPUSH 2; OP_EPUSH 3; OP_EPOP 2; OP_RETURN 0 OP_R_NORMAL] [] [];
   MkIrep 2 3 [OP_LOADI 1 33; OP_RETURN 0 OP_R_NORMAL] [] [];
   MkIrep 3 3 [OP_LOADI 1 11; OP_RETURN 0 OP_R_NORMAL] [] [];
   MkIrep 4 3 [OP_LOADI 2 22; OP_GETUPVAR 1 1 0; OP_RAISE 1] [] []].

(** [main] is object 1, [f] object 2, the exception object 3. *)
Definition raise_start : mrb_state :=
  fresh_state raise_ireps
    [O_proc (MkProc false false 0 1 0); O_proc (MkProc false false 1 1 0);
     O_exception 5 "boom"].

Definition raise_host : mrb_host := example_host [(10, 2)] (fun _ => "f"%string).

(** The host initialises the stack and preloads r1 of the base frame with
    the exception. *)
Definition raise_base : option mrb_state :=
  m ← stack_init raise_host raise_start;
  M ← store (mem m) (ptr_add (stack m) 1) (MkValue MRB_TT_EXCEPTION 3);
  Some (set_mem M m).

(** [main] entered on the base frame and stepped into [f], up to its EPOP. *)
Definition raise_at_epop : option (mrb_state * locals) :=
  m0 ← raise_base;
  '(m, L) ← mrb_run_enter raise_host m0 1 mrb_nil_value;
  steps raise_host 6 m L.

(** A frame whose R(1) is an array reference (object 3, one element, the
    buffer in block 2), as OP_SEND with C = 127 expects it; procedure 2 is
    what [missing_host] finds for method_missing. *)
Definition packed_cells : list mrb_value :=
  [mrb_nil_value; MkValue MRB_TT_ARRAY 3; mrb_nil_value; mrb_nil_value;
   mrb_nil_value; mrb_nil_value; mrb_nil_value; mrb_nil_value].

Definition packed_state : mrb_state :=
  MkState (Ptr 1 0) (Ptr 1 8) (Ptr 1 0)
          [small_frame 0 1 0 0 0; zero_callinfo; zero_callinfo; zero_callinfo] 4 0
          [] 0 [] 0 0 send_ireps
          [O_free; small_main; O_proc (MkProc false false 1 1 0);
           O_array (MkArray 1 1 (Ptr 2 0))]
          [None; Some packed_cells; Some [mrb_fixnum_value 5]] 0 0 1 [].

(** [main] sends [:f] (symbol 10) to self; [f] has 130 registers, loads
    41 into r1, 43 into r2 and 42 into r126, and sends [:g] (symbol 11, no
    method) to its self with the 126 arguments r1..r126.  method_missing
    (symbol 99) is procedure 3, irep 2, with 6 registers. *)
Definition wide_ireps : list mrb_irep :=
  [MkIrep 0 3 [OP_LOADSELF 1; OP_SEND 1 0 0; OP_STOP] [] [10];
   MkIrep 1 130 [OP_LOADI 1 41; OP_LOADI 2 43; OP_LOADI 126 42; OP_SEND 0 0 126;
                 OP_RETURN 0 OP_R_NORMAL] [] [11];
   MkIrep 2 6 [OP_RETURN 1 OP_R_NORMAL] [] []].

Definition wide_start : mrb_state :=
  fresh_state wide_ireps
    [O_proc (MkProc false false 0 1 0); O_proc (MkProc false false 1 1 0);
     O_proc (MkProc false false 2 1 0)].

Definition wide_host : mrb_host := example_host [(10, 2); (99, 3)] (fun _ => "g"%string).

(** [main] entered on the base frame and stepped into [f], up to its SEND. *)
Definition wide_at_send : option (mrb_state * locals) :=
  '(m, L) ← mrb_run_enter wide_host wide_start 1 mrb_nil_value;
  steps wide_host 5 m L.

(** * Lemmas *)

Lemma zlookup_Some {A} (l : list A) (i : Z) (x : A) :
  zlookup l i = Some x <-> 0 <= i /\ l !! Z.to_nat i = Some x.
Proof. unfold zlookup. case_decide; intuition (try discriminate; try lia). Qed.

Lemma zlookup_lt {A} (l : list A) (i : Z) (x : A) :
  zlookup l i = Some x -> 0 <= i < Z.of_nat (length l).
Proof.
  intros [H0 H]%zlookup_Some. apply lookup_lt_Some in H. lia.
Qed.

Lemma zupdate_Some {A} (l l' : list A) (i : Z) (x : A) :
  zupdate l i x = Some l' -> 0 <= i < Z.of_nat (length l) /\ l' = <[Z.to_nat i := x]> l.
Proof. unfold zupdate. case_decide; intros; simplify_eq; auto. Qed.

Lemma zlookup_zupdate {A} (l l' : list A) (i j : Z) (x : A) :
  zupdate l i x = Some l' ->
  zlookup l' j = if decide (j = i) then Some x else zlookup l j.
Proof.
  intros [Hi ->]%zupdate_Some. unfold zlookup.
  destruct (decide (j = i)) as [->|Hne].
  - rewrite decide_True by lia. apply list_lookup_insert_eq. lia.
  - destruct (decide (0 <= j)); [|done]. apply list_lookup_insert_ne. lia.
Qed.

Lemma lookup_splice {A} (cells vs : list A) (n i : nat) :
  (n + length vs <= length cells)%nat ->
  (take n cells ++ vs ++ drop (n + length vs) cells) !! i =
  if decide (n <= i < n + length vs)%nat then vs !! (i - n)%nat else cells !! i.
Proof.
  intros Hlen.
  assert (Htk : length (take n cells) = n) by (rewrite length_take; lia).
  case_decide as Hi.
  - rewrite lookup_app_r by lia. rewrite Htk.
    rewrite lookup_app_l by lia. done.
  - destruct (decide (i < n)%nat).
    + rewrite lookup_app_l by lia. apply lookup_take_lt. lia.
    + rewrite lookup_app_r by lia. rewrite Htk.
      rewrite lookup_app_r by lia. rewrite lookup_drop. f_equal. lia.
Qed.

Lemma length_splice {A} (cells vs : list A) (n : nat) :
  (n + length vs <= length cells)%nat ->
  length (take n cells ++ vs ++ drop (n + length vs) cells) = length cells.
Proof. intros. rewrite !length_app, length_take, length_drop. lia. Qed.

Lemma block_of_insert (M : memory) (b b' : nat) (o : option (list mrb_value)) :
  (b < length M)%nat ->
  block_of (<[b := o]> M) b' = if decide (b' = b) then o else block_of M b'.
Proof.
  intros Hb. unfold block_of. case_decide; subst.
  - rewrite list_lookup_insert_eq by done. by destruct o.
  - rewrite list_lookup_insert_ne by done. done.
Qed.

Lemma block_of_lt (M : memory) (b : nat) cells :
  block_of M b = Some cells -> (b < length M)%nat.
Proof.
  unfold block_of. destruct (M !! b) eqn:E; [|done]. intros _.
  by apply lookup_lt_Some in E.
Qed.

Lemma load_block (M : memory) (p : ptr) :
  load M p = match block_of M (blk p) with
             | Some cells => zlookup cells (off p)
             | None => None
             end.
Proof.
  unfold load, load_n, zlookup. destruct (block_of M (blk p)) as [cells|]; [|done].
  case_decide as H.
  - destruct H as (H0 & _ & H1). case_decide; [|lia].
    destruct (cells !! Z.to_nat (off p)) as [x|] eqn:E.
    + rewrite (drop_S _ _ _ E). done.
    + apply lookup_ge_None in E. lia.
  - case_decide; [|done].
    symmetry. apply lookup_ge_None. lia.
Qed.

Lemma store_n_block (M M' : memory) (p : ptr) (vs : list mrb_value) :
  store_n M p vs = Some M' ->
  exists cells,
    block_of M (blk p) = Some cells /\
    0 <= off p /\ off p + Z.of_nat (length vs) <= Z.of_nat (length cells) /\
    length M' = length M /\
    forall b, block_of M' b =
      if decide (b = blk p)
      then Some (take (Z.to_nat (off p)) cells ++ vs ++
                 drop (Z.to_nat (off p) + length vs) cells)
      else block_of M b.
Proof.
  unfold store_n. destruct (block_of M (blk p)) as [cells|] eqn:E; [|done].
  case_decide as H; [|done]. intros [= <-]. exists cells.
  repeat split; try tauto.
  - by rewrite length_insert.
  - intros b. apply block_of_insert. by eapply block_of_lt.
Qed.

Lemma load_store_n (M M' : memory) (p q : ptr) (vs : list mrb_value) :
  store_n M p vs = Some M' ->
  load M' q =
    if decide (blk q = blk p /\ off p <= off q < off p + Z.of_nat (length vs))
    then vs !! Z.to_nat (off q - off p)
    else load M q.
Proof.
  intros (cells & Hb & H0 & H1 & _ & HM')%store_n_block.
  rewrite !load_block, HM'. destruct (decide (blk q = blk p)) as [Hq|Hq].
  - rewrite Hq, Hb. unfold zlookup.
    destruct (decide (0 <= off q)) as [Hq0|Hq0].
    + rewrite lookup_splice by lia.
      destruct (decide (blk p = blk p /\ off p <= off q < off p + Z.of_nat (length vs))).
      * rewrite decide_True by lia. f_equal. lia.
      * rewrite decide_False by lia. done.
    + rewrite decide_False by lia. done.
  - rewrite decide_False by tauto. done.
Qed.

Lemma load_store (M M' : memory) (p q : ptr) (v : mrb_value) :
  store M p v = Some M' ->
  load M' q = if decide (q = p) then Some v else load M q.
Proof.
  unfold store. intros H. rewrite (load_store_n _ _ _ _ _ H). simpl.
  destruct (decide (q = p)) as [->|Hne].
  - rewrite decide_True by (split; [done|lia]).
    replace (off p - off p) with 0 by lia. done.
  - rewrite decide_False; [done|]. intros [Hb Ho]. apply Hne.
    destruct p, q; simpl in *; f_equal; lia.
Qed.

Lemma store_is_Some (M : memory) (p : ptr) (v w : mrb_value) :
  load M p = Some w -> is_Some (store M p v).
Proof.
  rewrite load_block. unfold store, store_n.
  destruct (block_of M (blk p)) as [cells|]; [|done].
  intros Hl. pose proof (zlookup_lt _ _ _ Hl). simpl.
  case_decide; [eauto|lia].
Qed.

Lemma load_n_Some (M : memory) (p : ptr) (n : Z) (vs : list mrb_value) :
  load_n M p n = Some vs ->
  Z.of_nat (length vs) = n /\
  forall k, 0 <= k < n -> load M (ptr_add p k) = vs !! Z.to_nat k.
Proof.
  unfold load_n. destruct (block_of M (blk p)) as [cells|] eqn:E; [|done].
  case_decide as H; [|done]. intros [= <-]. split.
  - rewrite length_take, length_drop. lia.
  - intros k Hk. rewrite load_block. simpl. rewrite E. unfold zlookup.
    case_decide; [|lia]. rewrite lookup_take_lt by lia. rewrite lookup_drop.
    f_equal. lia.
Qed.


Lemma ci_at_ci_upd (m m' : mrb_state) (k j : Z) (f : mrb_callinfo -> mrb_callinfo) :
  ci_upd k f m = Some m' ->
  ci_at m' j = if decide (j = k) then f <$> ci_at m k else ci_at m j.
Proof.
  unfold ci_upd, ci_at. destruct (zlookup (cibase m) k) as [c|] eqn:E; [|done].
  destruct (zupdate (cibase m) k (f c)) as [l|] eqn:U; [|done].
  intros [= <-]. simpl. rewrite (zlookup_zupdate _ _ _ j _ U).
  destruct (decide (j = k)); done.
Qed.

Lemma ci_upd_Some (m : mrb_state) (k : Z) (f : mrb_callinfo -> mrb_callinfo) c :
  ci_at m k = Some c ->
  ci_upd k f m = Some (set_cibase (<[Z.to_nat k := f c]> (cibase m)) m).
Proof.
  unfold ci_upd, ci_at. intros E. rewrite E.
  pose proof (zlookup_lt _ _ _ E). unfold zupdate. rewrite decide_True by done. done.
Qed.

Lemma ci_upd_frame (m m' : mrb_state) (k : Z) (f : mrb_callinfo -> mrb_callinfo) :
  ci_upd k f m = Some m' ->
  exists c, ci_at m k = Some c /\
    m' = set_cibase (<[Z.to_nat k := f c]> (cibase m)) m.
Proof.
  intros H. destruct (ci_at m k) as [c|] eqn:E.
  - exists c. split; [done|]. rewrite (ci_upd_Some _ _ _ _ E) in H. congruence.
  - unfold ci_upd in H. rewrite E in H. done.
Qed.

Lemma length_realloc_callinfo host (l : list mrb_callinfo) (n : Z) :
  length (realloc_callinfo host l n) = Z.to_nat n.
Proof.
  unfold realloc_callinfo. rewrite length_app, length_map, length_seq, length_take. lia.
Qed.

Lemma lookup_realloc_callinfo host (l : list mrb_callinfo) (n : Z) (i : nat) :
  (i < length l)%nat -> (i < Z.to_nat n)%nat ->
  realloc_callinfo host l n !! i = l !! i.
Proof.
  intros. unfold realloc_callinfo.
  rewrite lookup_app_l by (rewrite length_take; lia).
  apply lookup_take_lt. lia.
Qed.

Lemma cipush_spec host (m : mrb_state) :
  frames_ok m ->
  exists (below fresh : mrb_callinfo) (m' : mrb_state),
    cipush host m = Some m' /\
    ci m' = ci m + 1 /\
    ci_at m (ci m) = Some below /\
    ci_at m' (ci m) = Some below /\
    ci_at m' (ci m') = Some fresh /\
    ci_nregs fresh = ci_nregs below /\
    ci_ridx fresh = ci_ridx below /\
    ci_eidx fresh = ci_eidx below /\
    ci_env fresh = 0 /\
    frames_ok m'.
Proof.
  intros (Hci & Hend & Hcap).
  assert (Hb : exists below, ci_at m (ci m) = Some below).
  { unfold ci_at, zlookup. rewrite decide_True by lia.
    apply lookup_lt_is_Some. lia. }
  destruct Hb as [below Hbelow].
  unfold cipush. rewrite Hbelow.
  set (m1 := if decide (ci m + 1 = ciend m) then _ else m).
  assert (H1 : ci m1 = ci m /\ ci m1 + 1 < ciend m1 /\
               ciend m1 = Z.of_nat (length (cibase m1)) /\
               ci_at m1 (ci m) = Some below /\ 3 <= ciend m1).
  { subst m1. case_decide as Hfull; simpl.
    - rewrite length_realloc_callinfo. repeat split; try lia.
      unfold ci_at, zlookup in *. simpl. rewrite decide_True in * by lia.
      rewrite lookup_realloc_callinfo by lia. done.
    - repeat split; try lia. done. }
  destruct H1 as (Hc1 & Hlt1 & Hend1 & Hb1 & Hcap1).
  assert (Hs : exists slot, ci_at (set_ci (ci m1 + 1) m1) (ci m1 + 1) = Some slot).
  { unfold ci_at, zlookup. simpl. rewrite decide_True by lia.
    apply lookup_lt_is_Some. lia. }
  destruct Hs as [slot Hslot].
  simpl. rewrite (ci_upd_Some _ _ _ _ Hslot).
  pose proof (zlookup_lt _ _ _ Hslot) as Hsl. simpl in Hsl.
  exists below, (with_env 0 (with_ridx (ci_ridx below) (with_eidx (ci_eidx below)
                  (with_nregs (ci_nregs below) slot)))).
  eexists. split; [reflexivity|]. simpl.
  split; [lia|]. split; [done|]. split.
  { unfold ci_at, zlookup in *. simpl. rewrite decide_True in * by lia.
    rewrite list_lookup_insert_ne by lia. done. }
  split.
  { unfold ci_at, zlookup. simpl. rewrite decide_True by lia.
    apply list_lookup_insert_eq. lia. }
  unfold frames_ok. simpl. rewrite length_insert.
  repeat split; try done; lia.
Qed.

Lemma next_block_spec (M : memory) :
  let '(M0, b) := next_block M in
  b = length M0 /\ b <> 0%nat /\ (forall b', block_of M0 b' = block_of M b') /\
  (length M <= length M0)%nat.
Proof.
  destruct M as [|x M]; simpl.
  - repeat split; try lia. intros b'. unfold block_of. by destruct b'.
  - repeat split; try lia; done.
Qed.

Lemma block_of_ge (M : memory) (b : nat) : (length M <= b)%nat -> block_of M b = None.
Proof. intros. unfold block_of. by rewrite lookup_ge_None_2. Qed.

Lemma block_of_app (M : memory) (x : option (list mrb_value)) (b : nat) :
  block_of (M ++ [x]) b = if decide (b = length M) then x else block_of M b.
Proof.
  unfold block_of. destruct (decide (b = length M)) as [->|].
  - rewrite lookup_app_r by lia. rewrite Nat.sub_diag. simpl. by destruct x.
  - destruct (decide (b < length M)%nat).
    + by rewrite lookup_app_l by lia.
    + rewrite !lookup_ge_None_2; [done|lia|rewrite length_app; simpl; lia].
Qed.

Lemma mrb_malloc_spec uninit (M M1 : memory) (n : Z) (p : ptr) :
  mrb_malloc uninit M n = Some (M1, p) ->
  0 <= n /\ off p = 0 /\ blk p <> 0%nat /\ block_of M (blk p) = None /\
  forall b, block_of M1 b =
    if decide (b = blk p) then Some (fresh_cells uninit (blk p) 0 (Z.to_nat n))
    else block_of M b.
Proof.
  unfold mrb_malloc. case_decide; [|done].
  pose proof (next_block_spec M) as HN. destruct (next_block M) as [M0 b].
  destruct HN as (-> & Hnz & Hsame & Hle). intros [= <- <-]. simpl.
  repeat split; try done.
  - rewrite <- Hsame. by apply block_of_ge.
  - intros b. rewrite block_of_app. case_decide; [done|]. apply Hsame.
Qed.

Lemma mrb_realloc_spec uninit (M M1 : memory) (n : Z) (p q : ptr) :
  p <> NULL ->
  mrb_realloc uninit M p n = Some (M1, q) ->
  exists cells,
    block_of M (blk p) = Some cells /\ off p = 0 /\ 0 <= n /\
    off q = 0 /\ blk q <> 0%nat /\ block_of M (blk q) = None /\
    forall b, block_of M1 b =
      if decide (b = blk q)
      then Some (take (Z.to_nat n) cells ++
                 fresh_cells uninit (blk q) (length (take (Z.to_nat n) cells))
                   (Z.to_nat n - length (take (Z.to_nat n) cells)))
      else if decide (b = blk p) then None else block_of M b.
Proof.
  intros Hp. unfold mrb_realloc. rewrite decide_False by done.
  destruct (block_of M (blk p)) as [cells|] eqn:E; [|done].
  case_decide as H; [|done].
  pose proof (next_block_spec M) as HN. destruct (next_block M) as [M0 b].
  destruct HN as (-> & Hnz & Hsame & Hle). intros [= <- <-]. simpl.
  exists cells. repeat split; try tauto.
  - rewrite <- Hsame. by apply block_of_ge.
  - intros b. rewrite <- length_insert with (i := blk p) (x := None).
    rewrite block_of_app. rewrite length_insert.
    case_decide; [done|].
    rewrite block_of_insert.
    + case_decide; [done|]. apply Hsame.
    + apply block_of_lt in E. lia.
Qed.

Lemma length_fresh_cells uninit b from n : length (fresh_cells uninit b from n) = n.
Proof. unfold fresh_cells. by rewrite length_map, length_seq. Qed.


Lemma memset0_spec (M : memory) (p : ptr) (n : Z) (cells : list mrb_value) :
  block_of M (blk p) = Some cells ->
  0 <= off p -> 0 <= n -> off p + n <= Z.of_nat (length cells) ->
  exists M',
    memset0 M p n = Some M' /\
    forall b, block_of M' b =
      if decide (b = blk p)
      then Some (take (Z.to_nat (off p)) cells ++ replicate (Z.to_nat n) zero_value ++
                 drop (Z.to_nat (off p) + Z.to_nat n) cells)
      else block_of M b.
Proof.
  intros Hb H0 Hn Hlen. unfold memset0. rewrite decide_True by done.
  unfold store_n. rewrite Hb. rewrite length_replicate.
  rewrite decide_True by lia. eexists. split; [done|].
  intros b. apply block_of_insert. by eapply block_of_lt.
Qed.

Section Growth.
Variable host : mrb_host.

Lemma stack_grow (m : mrb_state) (cells : list mrb_value) (room : Z) :
  stack_ok m cells -> 0 <= room ->
  let size := ptr_diff (stend m) (stbase m) in
  let size' := if decide (room <= size) then size * 2 else size + room in
  off (stack m) + room > off (stend m) ->
  exists M1 base,
    mrb_realloc (uninit_value host) (mem m) (stbase m) size' = Some (M1, base) /\
    exists cells1,
      stack_ok (set_stend (ptr_add base size') (set_stack (ptr_add base (ptr_diff (stack m) (stbase m)))
                 (set_stbase base (set_mem M1 m)))) cells1 /\
      off (stack m) + room <= Z.of_nat (length cells1) /\
      block_of M1 (blk (stbase m)) = None /\
      (forall j, (j < length cells)%nat -> cells1 !! j = cells !! j).
Proof.
  intros (Hb & Hnn & Hb0 & Hsk & Hse & Hend & Hrng) Hroom size size' Hgrow.
  assert (Hsz : size = Z.of_nat (length cells)) by (unfold size, ptr_diff; lia).
  assert (Hsz' : Z.of_nat (length cells) <= size' /\ off (stack m) + room <= size').
  { unfold size'. case_decide; lia. }
  unfold mrb_realloc. rewrite decide_False by done. rewrite Hb.
  rewrite decide_True by lia.
  pose proof (next_block_spec (mem m)) as HN. destruct (next_block (mem m)) as [M0 b].
  destruct HN as (-> & Hnz & Hsame & Hle).
  eexists _, _. split; [reflexivity|].
  rewrite take_ge by lia.
  eexists. split; [|split; [|split]].
  - unfold stack_ok. simpl.
    rewrite <- length_insert with (i := blk (stbase m)) (x := None) at 1.
    rewrite block_of_app. rewrite length_insert. rewrite decide_True by done.
    split; [reflexivity|]. split.
    { unfold NULL. intros [= H]. lia. }
    rewrite length_app, length_fresh_cells. unfold ptr_diff. repeat split; lia.
  - rewrite length_app, length_fresh_cells. lia.
  - rewrite <- length_insert with (i := blk (stbase m)) (x := None).
    rewrite block_of_app. rewrite length_insert.
    pose proof (block_of_lt _ _ _ Hb).
    rewrite decide_False by lia. rewrite block_of_insert by lia.
    by rewrite decide_True.
  - intros j Hj. by rewrite lookup_app_l by lia.
Qed.

(** C8: [stack_extend m room keep], on a well-formed stack, always succeeds.
    When [stack + room] does not pass [stend] the buffer is the one it was
    ([stbase], [stend] and [stack] unchanged); otherwise the old block is
    given up for one whose capacity is twice the old size when
    [room <= size] and [size + room] otherwise, and [stack] sits at its old
    offset from the new base.  Either way the slots [keep, room) of the
    window read as zero afterwards, and every other cell of the old buffer
    (the slots below [keep] among them) reads as before. *)
Theorem stack_extend_grows_and_clears (m : mrb_state) (cells : list mrb_value) (room keep : Z) :
  stack_ok m cells -> 0 <= keep -> 0 <= room ->
  exists (m' : mrb_state) (cells' : list mrb_value),
    stack_extend host m room keep = Some m' /\
    stack_ok m' cells' /\
    ptr_diff (stack m') (stbase m') = ptr_diff (stack m) (stbase m) /\
    (off (stack m) + room <= off (stend m) ->
       stbase m' = stbase m /\ stend m' = stend m /\ stack m' = stack m) /\
    (off (stack m) + room > off (stend m) ->
       let size := ptr_diff (stend m) (stbase m) in
       ptr_diff (stend m') (stbase m') = (if decide (room <= size) then size * 2 else size + room) /\
       block_of (mem m') (blk (stbase m)) = None) /\
    (forall k, keep <= k < room ->
       load (mem m') (ptr_add (stack m') k) = Some zero_value) /\
    (forall j, 0 <= j < Z.of_nat (length cells) ->
       ~ (off (stack m) + keep <= j < off (stack m) + room) ->
       load (mem m') (ptr_add (stbase m') j) = load (mem m) (ptr_add (stbase m) j)).
Proof.
  intros Hok Hkeep Hroom.
  (* the buffer after the first [if] *)
  assert (Hg : exists m1 cells1,
    (if decide (off (stack m) + room > off (stend m)) then
       let size := ptr_diff (stend m) (stbase m) in
       let off := ptr_diff (stack m) (stbase m) in
       let size := if decide (room <= size) then size * 2 else size + room in
       match mrb_realloc (uninit_value host) (mem m) (stbase m) size with
       | Some (M1, base) =>
           Some (set_stend (ptr_add base size) (set_stack (ptr_add base off)
                  (set_stbase base (set_mem M1 m))))
       | None => None
       end
     else Some m) = Some m1 /\
    stack_ok m1 cells1 /\
    off (stack m1) = off (stack m) /\
    ptr_diff (stack m1) (stbase m1) = ptr_diff (stack m) (stbase m) /\
    off (stack m) + room <= Z.of_nat (length cells1) /\
    (forall j, (j < length cells)%nat -> cells1 !! j = cells !! j) /\
    (off (stack m) + room <= off (stend m) ->
       stbase m1 = stbase m /\ stend m1 = stend m /\ stack m1 = stack m) /\
    (off (stack m) + room > off (stend m) ->
       let size := ptr_diff (stend m) (stbase m) in
       ptr_diff (stend m1) (stbase m1) = (if decide (room <= size) then size * 2 else size + room) /\
       block_of (mem m1) (blk (stbase m)) = None)).
  { destruct (decide (off (stack m) + room > off (stend m))) as [Hgrow|Hfit].
    - destruct (stack_grow m cells room Hok Hroom Hgrow)
        as (M1 & base & Hre & cells1 & Hok1 & Hlen1 & Hfreed & Hkeep1).
      simpl. rewrite Hre. eexists _, cells1. split; [reflexivity|].
      destruct Hok as (Hb & Hnn & Hb0 & Hsk & Hse & Hend & Hrng).
      pose proof Hok1 as (_ & _ & Hb0' & _). simpl in Hb0'.
      split; [done|]. simpl. unfold ptr_diff in *. simpl.
      repeat split; try done; try lia.
    - exists m, cells. destruct Hok as (Hb & Hnn & Hb0 & Hsk & Hse & Hend & Hrng).
      repeat split; try done; try lia. }
  destruct Hg as (m1 & cells1 & Hgrown & Hok1 & Hoff1 & Hdiff1 & Hlen1 & Hsame1 & HA & HB).
  unfold stack_extend. cbv zeta in Hgrown |- *. rewrite Hgrown.
  destruct Hok as (Hb & Hnn & Hb0 & Hsk & Hse & Hend & Hrng).
  pose proof Hok1 as (Hb1 & Hnn1 & Hb01 & Hsk1 & Hse1 & Hend1 & Hrng1).
  assert (Hold : forall j, 0 <= j < Z.of_nat (length cells) ->
            load (mem m) (ptr_add (stbase m) j) = cells !! Z.to_nat j).
  { intros j Hj. rewrite load_block. simpl. rewrite Hb. unfold zlookup.
    rewrite decide_True by lia. f_equal. lia. }
  destruct (decide (room > keep)) as [Hz|Hz].
  - destruct (memset0_spec (mem m1) (ptr_add (stack m1) keep) (room - keep) cells1)
      as (M2 & Hset & HM2); simpl; try lia.
    { by rewrite Hsk1. }
    rewrite Hset. exists (set_mem M2 m1). eexists.
    split; [reflexivity|]. split.
    { unfold stack_ok. simpl. rewrite HM2. simpl. rewrite decide_True by done.
      split; [reflexivity|]. rewrite !length_app, length_take, length_replicate, length_drop.
      repeat split; try done; lia. }
    split; [done|]. split; [done|]. split.
    { intros Hgrow. destruct (HB Hgrow) as [Hsz Hfreed]. split; [exact Hsz|].
      simpl. rewrite HM2. simpl.
      destruct (decide (blk (stbase m) = blk (stack m1))) as [Heq|Hne]; [|exact Hfreed].
      rewrite Heq, Hsk1, Hb1 in Hfreed. done. }
    split.
    + intros k Hk. rewrite load_block. simpl. rewrite HM2. simpl.
      rewrite decide_True by done. unfold zlookup. rewrite decide_True by lia.
      replace (Z.to_nat (off (stack m1) + keep) + Z.to_nat (room - keep))%nat
        with (Z.to_nat (off (stack m1) + keep) + length (replicate (Z.to_nat (room - keep)) zero_value))%nat
        by (rewrite length_replicate; lia).
      rewrite lookup_splice by (rewrite length_replicate; lia).
      rewrite length_replicate. rewrite decide_True by lia.
      apply lookup_replicate_2. lia.
    + intros j Hj Hout. rewrite Hold by done.
      rewrite load_block. simpl. rewrite HM2. simpl.
      rewrite decide_True by done. unfold zlookup. rewrite decide_True by lia.
      replace (Z.to_nat (off (stack m1) + keep) + Z.to_nat (room - keep))%nat
        with (Z.to_nat (off (stack m1) + keep) + length (replicate (Z.to_nat (room - keep)) zero_value))%nat
        by (rewrite length_replicate; lia).
      rewrite lookup_splice by (rewrite length_replicate; lia).
      rewrite length_replicate. rewrite decide_False by lia.
      rewrite Hb01. rewrite <- Hsame1 by lia. f_equal; lia.
  - exists m1, cells1. split; [reflexivity|]. split; [done|].
    split; [done|]. split; [done|]. split; [done|]. split.
    + intros k Hk. lia.
    + intros j Hj Hout. rewrite Hold by done.
      rewrite load_block. simpl. rewrite Hb1. unfold zlookup.
      rewrite decide_True by lia. rewrite Hb01. rewrite <- Hsame1 by lia. f_equal; lia.
Qed.

End Growth.

Lemma obj_at_obj_set (m m' : mrb_state) (p q : Z) (o : RObj) :
  obj_set p o m = Some m' ->
  obj_at m' q = if decide (q = p) then Some o else obj_at m q.
Proof.
  unfold obj_set. destruct (obj_at m p) as [o0|] eqn:E; [|done]. intros [= <-].
  unfold obj_at in *. simpl.
  destruct (decide (0 < p)) as [Hp|]; [|done].
  apply lookup_lt_Some in E.
  destruct (decide (q = p)) as [->|Hne].
  - rewrite decide_True by done. by apply list_lookup_insert_eq.
  - destruct (decide (0 < q)); [|done]. apply list_lookup_insert_ne. lia.
Qed.

Lemma obj_set_is_Some (m : mrb_state) (p : Z) (o o0 : RObj) :
  obj_at m p = Some o0 ->
  obj_set p o m = Some (set_heap (<[Z.to_nat p := o]> (heap m)) m).
Proof. intros E. unfold obj_set. by rewrite E. Qed.


Lemma store_n_fresh (M : memory) (p : ptr) (vs cells : list mrb_value) :
  block_of M (blk p) = Some cells -> off p = 0 -> length cells = length vs ->
  exists M', store_n M p vs = Some M' /\
    forall b, block_of M' b = if decide (b = blk p) then Some vs else block_of M b.
Proof.
  intros Hb H0 Hlen. unfold store_n. rewrite Hb, H0. simpl.
  rewrite decide_True by lia. eexists. split; [done|].
  intros b. rewrite block_of_insert by (by eapply block_of_lt).
  case_decide; [|done]. f_equal. simpl.
  rewrite drop_ge by lia. by rewrite app_nil_r.
Qed.

Lemma load_n_same_block (M M' : memory) (p : ptr) (n : Z) :
  block_of M' (blk p) = block_of M (blk p) -> load_n M' p n = load_n M p n.
Proof. intros H. unfold load_n. by rewrite H. Qed.

Section Promotion.
Variable host : mrb_host.
Variable run : mrb_state -> Z -> mrb_value -> option (mrb_state * mrb_value).



End Promotion.

Lemma store_n_is_Some (M : memory) (p : ptr) (vs cells : list mrb_value) :
  block_of M (blk p) = Some cells ->
  0 <= off p -> off p + Z.of_nat (length vs) <= Z.of_nat (length cells) ->
  is_Some (store_n M p vs).
Proof.
  intros Hb H0 H1. unfold store_n. rewrite Hb. rewrite decide_True by lia. eauto.
Qed.

Lemma load_is_Some_block (M : memory) (p : ptr) :
  is_Some (load M p) ->
  exists cells, block_of M (blk p) = Some cells /\ 0 <= off p < Z.of_nat (length cells).
Proof.
  rewrite load_block. destruct (block_of M (blk p)) as [cells|]; [|by intros [? ?]].
  intros [v Hv]. exists cells. split; [done|]. by eapply zlookup_lt.
Qed.

Lemma load_n_block (M : memory) (p : ptr) (n : Z) (vs : list mrb_value) :
  load_n M p n = Some vs ->
  exists cells, block_of M (blk p) = Some cells /\
    0 <= off p /\ 0 <= n /\ off p + n <= Z.of_nat (length cells) /\
    vs = take (Z.to_nat n) (drop (Z.to_nat (off p)) cells).
Proof.
  unfold load_n. destruct (block_of M (blk p)) as [cells|]; [|done].
  case_decide; [|done]. intros [= <-]. exists cells. repeat split; tauto || lia.
Qed.

Lemma mrb_realloc_is_Some uninit (M : memory) (p : ptr) (n : Z) (cells : list mrb_value) :
  p <> NULL -> block_of M (blk p) = Some cells -> off p = 0 -> 0 <= n ->
  exists M1 q, mrb_realloc uninit M p n = Some (M1, q).
Proof.
  intros Hp Hb H0 Hn.
  unfold mrb_realloc. rewrite decide_False by done. rewrite Hb.
  rewrite decide_True by done. destruct (next_block M). eauto.
Qed.

Lemma ary_at_obj (m : mrb_state) (p : Z) (a : RArray) :
  ary_at m p = Some a -> obj_at m p = Some (O_array a).
Proof.
  unfold ary_at. destruct (obj_at m p) as [[]|]; intros; simplify_eq; done.
Qed.

Section MethodMissing.
Variable host : mrb_host.

Lemma method_missing_shift (m : mrb_state) (L : locals) (a n : Z) (sym : mrb_value)
    (args : list mrb_value) :
  n <> CALL_MAXARGS ->
  load_n (mem m) (ptr_add (l_regs L) (a + 1)) (n + 1) = Some args ->
  is_Some (reg m L (a + n + 2)) ->
  exists m',
    method_missing_args host m L a n sym = Some (m', n + 1) /\
    reg m' L (a + 1) = Some sym /\
    (forall k, 0 <= k <= n -> reg m' L (a + 2 + k) = reg m L (a + 1 + k)) /\
    (forall k, k < a + 1 \/ a + n + 2 < k -> reg m' L k = reg m L k) /\
    (forall q, blk q <> blk (l_regs L) -> load (mem m') q = load (mem m) q) /\
    set_mem (mem m) m' = m.
Proof.
  intros Hn Hargs Hlast.
  destruct (load_n_block _ _ _ _ Hargs) as (cells & Hb & H0 & Hn0 & Hfit & Hvs).
  destruct (load_n_Some _ _ _ _ Hargs) as [Hlen Hcells].
  destruct (load_is_Some_block _ _ Hlast) as (cells' & Hb' & Hlast').
  simpl in *. rewrite Hb in Hb'. injection Hb' as <-.
  unfold method_missing_args. rewrite decide_False by done.
  unfold memmove. rewrite Hargs. simpl.
  destruct (store_n_is_Some (mem m) (ptr_add (l_regs L) (a + 2)) args cells)
    as [M1 HM1]; simpl; try done; try lia.
  rewrite HM1. simpl.
  assert (Hs : is_Some (store M1 (ptr_add (l_regs L) (a + 1)) sym)).
  { destruct (store_n_block _ _ _ _ HM1) as (c0 & Hc0 & _ & _ & _ & HM1b).
    simpl in Hc0. rewrite Hb in Hc0. injection Hc0 as <-.
    unfold store. eapply store_n_is_Some.
    - rewrite HM1b. simpl. by rewrite decide_True.
    - simpl. lia.
    - simpl. rewrite length_splice; simpl in *; lia. }
  destruct Hs as [M2 HM2]. rewrite HM2. simpl.
  eexists. split; [reflexivity|]. unfold reg. simpl.
  split; [|split; [|split; [|split]]].
  - rewrite (load_store _ _ _ _ _ HM2). by rewrite decide_True.
  - intros k Hk. rewrite (load_store _ _ _ _ _ HM2).
    rewrite decide_False by (unfold ptr_add; intros [=]; lia).
    rewrite (load_store_n _ _ _ _ _ HM1). simpl.
    rewrite decide_True by (split; [done|lia]).
    replace (ptr_add (l_regs L) (a + 1 + k)) with (ptr_add (ptr_add (l_regs L) (a + 1)) k)
      by (unfold ptr_add; simpl; f_equal; lia).
    rewrite Hcells by lia. f_equal. lia.
  - intros k Hk. rewrite (load_store _ _ _ _ _ HM2).
    rewrite decide_False by (unfold ptr_add; intros [=]; lia).
    rewrite (load_store_n _ _ _ _ _ HM1). simpl.
    rewrite decide_False by lia. done.
  - intros q Hq. rewrite (load_store _ _ _ _ _ HM2).
    rewrite decide_False by (intros ->; simpl in Hq; done).
    rewrite (load_store_n _ _ _ _ _ HM1). simpl.
    rewrite decide_False by tauto. done.
  - by destruct m.
Qed.

Lemma method_missing_unshift (m : mrb_state) (L : locals) (a : Z) (sym v : mrb_value)
    (ary : RArray) (elts : list mrb_value) :
  reg m L (a + 1) = Some v ->
  ary_at m (mrb_object v) = Some ary ->
  load_n (mem m) (ary_buf ary) (ary_len ary) = Some elts ->
  ary_buf ary <> NULL -> off (ary_buf ary) = 0 ->
  exists m' buf,
    method_missing_args host m L a CALL_MAXARGS sym = Some (m', CALL_MAXARGS) /\
    ary_at m' (mrb_object v) = Some (MkArray (ary_len ary + 1) (ary_len ary + 1) buf) /\
    load_n (mem m') buf (ary_len ary + 1) = Some (sym :: elts) /\
    block_of (mem m) (blk buf) = None /\
    (forall q, blk q <> blk (ary_buf ary) -> blk q <> blk buf ->
       load (mem m') q = load (mem m) q).
Proof.
  intros Hv Hary Helts Hnn Hoff.
  destruct (load_n_block _ _ _ _ Helts) as (cells & Hb & H0 & Hn0 & Hfit & Hvs).
  destruct (load_n_Some _ _ _ _ Helts) as [Hlen _].
  unfold method_missing_args. rewrite decide_True by done.
  rewrite Hv. simpl. unfold mrb_ary_unshift. rewrite Hary. simpl.
  rewrite Helts. simpl.
  destruct (mrb_realloc_is_Some (uninit_value host) (mem m) (ary_buf ary)
              (ary_len ary + 1) cells) as (M1 & buf & Hre); try done; try lia.
  rewrite Hre. simpl.
  destruct (mrb_realloc_spec _ _ _ _ _ _ Hnn Hre)
    as (cells0 & Hb0 & _ & _ & Hboff & Hbnz & Hfresh & HM1).
  rewrite Hb in Hb0. injection Hb0 as <-.
  destruct (store_n_fresh M1 buf (sym :: elts)
     (take (Z.to_nat (ary_len ary + 1)) cells ++
      fresh_cells (uninit_value host) (blk buf) (length (take (Z.to_nat (ary_len ary + 1)) cells))
        (Z.to_nat (ary_len ary + 1) - length (take (Z.to_nat (ary_len ary + 1)) cells))))
    as (M2 & Hst & HM2).
  { rewrite HM1. by rewrite decide_True. }
  { done. }
  { rewrite length_app, length_fresh_cells, length_take. simpl. lia. }
  rewrite Hst. simpl.
  pose proof (ary_at_obj _ _ _ Hary) as Ho.
  rewrite (obj_set_is_Some _ _ _ (O_array ary)) by exact Ho.
  eexists _, buf. split; [reflexivity|]. simpl.
  split; [|split; [|split]].
  - unfold ary_at, obj_at in *. simpl.
    destruct (decide (0 < mrb_object v)); [|done].
    rewrite list_lookup_insert_eq; [done|]. by apply lookup_lt_Some in Ho.
  - unfold load_n. rewrite HM2. rewrite decide_True by done.
    rewrite Hboff. simpl length.
    rewrite decide_True by lia. simpl drop.
    rewrite take_ge; [done|]. simpl. lia.
  - done.
  - intros q Hq1 Hq2. rewrite !load_block. rewrite HM2.
    rewrite decide_False by done. rewrite HM1.
    rewrite decide_False by done. by rewrite decide_False.
Qed.

End MethodMissing.

Lemma string_app_assoc (s1 s2 s3 : string) :
  ((s1 ++ s2) ++ s3)%string = (s1 ++ s2 ++ s3)%string.
Proof. induction s1 as [|c s1 IH]; simpl; [done|]. by rewrite IH. Qed.

Lemma string_app_nil_r (s : string) : (s ++ "")%string = s.
Proof. induction s as [|c s IH]; simpl; [done|]. by rewrite IH. Qed.

Lemma substring_all (s : string) (n : nat) :
  (String.length s <= n)%nat -> substring 0 n s = s.
Proof.
  revert n. induction s as [|c s IH]; intros [|n] Hn; simpl in *; try done; try lia.
  rewrite IH by lia. done.
Qed.

Lemma snprintf256_short (s : string) :
  (String.length s <= 255)%nat -> snprintf256 s = s.
Proof. apply substring_all. Qed.


Lemma prefix_app (t post : string) : String.prefix t (t ++ post) = true.
Proof.
  induction t as [|c t IH]; simpl.
  - by destruct post.
  - destruct (ascii_dec c c); [done|congruence].
Qed.

Lemma containsb_prefix (s t : string) : String.prefix t s = true -> containsb s t = true.
Proof. intros H. destruct s; cbn [containsb]; by rewrite H. Qed.

Lemma contains_containsb (s t : string) : contains s t -> containsb s t = true.
Proof.
  intros (pre & post & ->). induction pre as [|c pre IH].
  - change (containsb (t ++ post) t = true). apply containsb_prefix, prefix_app.
  - change (containsb (String c (pre ++ t ++ post)) t = true).
    cbn [containsb]. rewrite IH. apply orb_true_r.
Qed.

Lemma contains_suffix (pre t : string) : contains (pre ++ t) t.
Proof. exists pre, ""%string. by rewrite string_app_nil_r. Qed.


Lemma argnum_fmt_contains (name : option string) (argc num : Z) :
  contains (argnum_fmt name argc num) (arity_text argc num).
Proof.
  destruct name as [s|]; unfold argnum_fmt, arity_text.
  - replace ("'" ++ s ++ "': wrong number of arguments (" ++ fmt_d argc ++ " for " ++ fmt_d num ++ ")")%string
      with (("'" ++ s ++ "': ") ++ "wrong number of arguments (" ++ fmt_d argc ++ " for " ++ fmt_d num ++ ")")%string.
    + apply contains_suffix.
    + rewrite !string_app_assoc. done.
  - apply (contains_suffix "").
Qed.

Lemma ci_upd_exc (m m' : mrb_state) k f : ci_upd k f m = Some m' -> exc m' = exc m.
Proof. intros (c & _ & ->)%ci_upd_frame. done. Qed.

Ltac unbind :=
  repeat match goal with
  | H : (_ ≫= _) = Some _ |- _ =>
      let x := fresh "x" in let Hx := fresh "Hx" in
      apply bind_Some in H; destruct H as (x & Hx & H)
  | H : Some _ = Some _ |- _ => apply (inj Some) in H
  | x : (_ * _)%type |- _ => destruct x
  end.

Section Enter.
Variable host : mrb_host.

Lemma set_reg_exc (m m' : mrb_state) L k v : set_reg m L k v = Some m' -> exc m' = exc m.
Proof. unfold set_reg. intros H. unbind. by subst. Qed.

Lemma mrb_ary_new_capa_exc (m m' : mrb_state) n v :
  mrb_ary_new_capa host m n = Some (m', v) -> exc m' = exc m.
Proof. unfold mrb_ary_new_capa. intros H. unbind. simpl in H. by simplify_eq. Qed.

Lemma mrb_ary_new_elts_exc (m m' : mrb_state) n p v :
  mrb_ary_new_elts host m n p = Some (m', v) -> exc m' = exc m.
Proof. unfold mrb_ary_new_elts. intros H. unbind. simpl in H. by simplify_eq. Qed.

Lemma enter_layout_exc (m : mrb_state) (L : locals) (argv : ptr) (argc m1 o r m2 : Z)
    (out : outcome) :
  enter_layout host m L argv argc m1 o r m2 = Some out ->
  exists m' L', out = Dispatch m' L' /\ exc m' = exc m.
Proof.
  unfold enter_layout, JUMP. intros H.
  apply bind_Some in H. destruct H as (ma & Hma & H).
  apply ci_upd_exc in Hma.
  destruct (decide (argc < m1 + o + r + m2)).
  - unbind. subst out. eexists _, _. split; [reflexivity|].
    match goal with H : set_reg ma _ _ _ = Some ?mb |- _ =>
      apply set_reg_exc in H; rename H into Hb end.
    destruct (decide (r <> 0)).
    + unbind.
      match goal with H : mrb_ary_new_capa _ _ _ = Some _ |- _ =>
        apply mrb_ary_new_capa_exc in H; simpl in H end.
      match goal with H : set_reg _ _ _ _ = Some _ |- _ => apply set_reg_exc in H end.
      congruence.
    + simplify_eq. simpl. congruence.
  - unbind. subst out. eexists _, _. split; [reflexivity|].
    match goal with H : set_reg _ _ _ _ = Some _ |- _ =>
      apply set_reg_exc in H; simpl in H; rename H into Hc end.
    destruct (decide (r <> 0)).
    + unbind.
      match goal with H : mrb_ary_new_elts _ _ _ _ = Some _ |- _ =>
        apply mrb_ary_new_elts_exc in H; simpl in H end.
      match goal with H : set_reg _ _ _ _ = Some _ |- _ => apply set_reg_exc in H end.
      congruence.
    + simplify_eq. simpl in *. congruence.
Qed.

End Enter.

Lemma obj_alloc_spec (o : RObj) (m m' : mrb_state) (p : Z) :
  obj_alloc o m = (m', p) ->
  0 < p /\ obj_at m' p = Some o /\
  (forall q o', obj_at m q = Some o' -> obj_at m' q = Some o') /\
  m' = set_heap (heap m') m.
Proof.
  unfold obj_alloc. intros [= <- <-].
  set (h := match heap m with [] => [O_free] | _ :: _ => heap m end).
  assert (Hh : (0 < length h)%nat /\ forall q x, (0 < q)%nat -> heap m !! q = Some x -> h !! q = Some x).
  { subst h. destruct (heap m) eqn:E; simpl; split; try lia; try done. }
  destruct Hh as [Hpos Hkeep]. clearbody h.
  split; [lia|]. split; [|split].
  - unfold obj_at. rewrite decide_True by lia. simpl.
    rewrite Nat2Z.id. rewrite lookup_app_r by lia. by rewrite Nat.sub_diag.
  - intros q o'. unfold obj_at. destruct (decide (0 < q)); [|done]. simpl.
    intros Hq. apply lookup_app_l_Some. apply Hkeep; [lia|done].
  - done.
Qed.

Lemma arity_mismatch_spec (argc m1 o r m2 : Z) :
  arity_mismatch argc m1 o r m2 = true <->
  argc < m1 + m2 \/ (r = 0 /\ argc > m1 + o + r + m2).
Proof.
  unfold arity_mismatch.
  rewrite orb_true_iff, andb_true_iff, Z.ltb_lt, Z.eqb_eq, Z.gtb_ltb, Z.ltb_lt. lia.
Qed.

Section EnterArity.
Variable host : mrb_host.


Lemma argnum_error_spec (m : mrb_state) (c : mrb_callinfo) (num : Z) :
  ci_at m (ci m) = Some c ->
  exists mb,
    argnum_error host m num = Some mb /\
    exc mb <> 0 /\
    obj_at mb (exc mb) =
      Some (O_exception (E_ARGUMENT_ERROR host)
              (snprintf256 (argnum_fmt (frame_name host c) (ci_argc c) num))) /\
    mb = set_exc (exc mb) (set_heap (heap mb) m).
Proof.
  intros Hc. unfold argnum_error, mrb_exc_new. rewrite Hc.
  set (msg := if decide (ci_mid c <> 0) then _ else _).
  assert (Hmsg : msg = snprintf256 (argnum_fmt (frame_name host c) (ci_argc c) num)).
  { unfold msg, frame_name. by case_decide. }
  destruct (obj_alloc (O_exception (E_ARGUMENT_ERROR host) msg) m) as [m1 p] eqn:E.
  destruct (obj_alloc_spec _ _ _ _ E) as (Hp & Hat & _ & Hm1).
  eexists. split; [reflexivity|]. simpl. split; [lia|]. split.
  - unfold mrb_object. simpl. rewrite <- Hmsg.
    unfold obj_at in *. simpl. done.
  - unfold mrb_object. simpl. rewrite Hm1 at 1. done.
Qed.

(** C4 (amended): OP_ENTER in a strict procedure with a non-packed argument
    count.  If [argc < m1+m2], or [r = 0] and [argc > m1+o+r+m2], the
    exception slot is set to a new ArgumentError and L_RAISE is entered;
    its message is the first 255 characters of the text [argnum_error]
    formats, and contains "wrong number of arguments (argc for m1+m2)"
    whenever that text has at most 255 characters.  Otherwise ENTER lays
    out the registers and leaves the exception slot as it was. *)
Theorem enter_strict_arity (m : mrb_state) (L : locals) (ax : Z)
    (c : mrb_callinfo) (pr : RProc) :
  ci_at m (ci m) = Some c ->
  ci_proc c <> 0 ->
  proc_at m (ci_proc c) = Some pr ->
  proc_strict pr = true ->
  0 <= ci_argc c ->
  let argc := ci_argc c in
  let m1 := Z.land (Z.shiftr ax 18) 31 in
  let o := Z.land (Z.shiftr ax 13) 31 in
  let r := Z.land (Z.shiftr ax 12) 1 in
  let m2 := Z.land (Z.shiftr ax 7) 31 in
  let text := argnum_fmt (frame_name host c) argc (m1 + m2) in
  (argc < m1 + m2 \/ (r = 0 /\ argc > m1 + o + r + m2) ->
     exists mb,
       L_OP_ENTER host m L ax = L_RAISE mb L /\
       exc mb <> 0 /\
       obj_at mb (exc mb) = Some (O_exception (E_ARGUMENT_ERROR host) (snprintf256 text)) /\
       ((String.length text <= 255)%nat ->
          contains (snprintf256 text) (arity_text argc (m1 + m2)))) /\
  (~ (argc < m1 + m2 \/ (r = 0 /\ argc > m1 + o + r + m2)) ->
     L_OP_ENTER host m L ax =
       enter_layout host m L (ptr_add (l_regs L) 1) argc m1 o r m2 /\
     forall out, L_OP_ENTER host m L ax = Some out ->
       exists m' L', out = Dispatch m' L' /\ exc m' = exc m).
Proof.
  intros Hc Hproc Hpr Hstrict Hargc argc m1 o r m2 text.
  assert (Hstep : L_OP_ENTER host m L ax =
            if decide (argc >= 0 /\ arity_mismatch argc m1 o r m2 = true)
            then mb ← argnum_error host m (m1 + m2); L_RAISE mb L
            else enter_layout host m L (ptr_add (l_regs L) 1) argc m1 o r m2).
  { unfold L_OP_ENTER. rewrite Hc. cbn [mbind option_bind].
    unfold enter_args. rewrite decide_False by lia.
    rewrite Hc. cbn [mbind option_bind]. unfold strict_frame.
    destruct (decide (ci_proc c = 0)) as [|_]; [done|].
    rewrite Hpr. cbn [mbind option_bind]. rewrite Hstrict. done. }
  split.
  - intros Hbad. apply arity_mismatch_spec in Hbad.
    destruct (argnum_error_spec m c (m1 + m2) Hc) as (mb & Herr & Hnz & Hobj & _).
    exists mb. rewrite Hstep. rewrite decide_True by (split; [lia|done]).
    rewrite Herr. split; [done|]. split; [done|]. split; [done|].
    intros Hfit. rewrite snprintf256_short by done. apply argnum_fmt_contains.
  - intros Hok. rewrite <- arity_mismatch_spec in Hok.
    rewrite Hstep. rewrite decide_False by tauto.
    split; [done|]. intros out Hout. by eapply enter_layout_exc.
Qed.

End EnterArity.


Lemma same_frames_refl m : same_frames m m.
Proof. unfold same_frames. by destruct m. Qed.

Lemma same_frames_trans m1 m2 m3 :
  same_frames m1 m2 -> same_frames m2 m3 -> same_frames m1 m3.
Proof. unfold same_frames. intros H1 H2. rewrite H2, H1. done. Qed.

Section Send.
Variable host : mrb_host.
Variable run : mrb_state -> Z -> mrb_value -> option (mrb_state * mrb_value).

Lemma same_frames_proj (m m' : mrb_state) :
  same_frames m m' ->
  stack m' = stack m /\ stbase m' = stbase m /\ stend m' = stend m /\
  cibase m' = cibase m /\ ci m' = ci m /\ ciend m' = ciend m /\
  exc m' = exc m /\ ensure m' = ensure m /\ irep m' = irep m.
Proof. unfold same_frames. intros ->. done. Qed.

Lemma cipush_same (m m' : mrb_state) :
  cipush host m = Some m' ->
  stack m' = stack m /\ stbase m' = stbase m /\ stend m' = stend m /\
  heap m' = heap m /\ mem m' = mem m /\ exc m' = exc m /\
  ensure m' = ensure m /\ irep m' = irep m /\ ecalled m' = ecalled m.
Proof.
  unfold cipush. destruct (ci_at m (ci m)); [|done]. simpl.
  intros (? & _ & ->)%ci_upd_frame. case_decide; done.
Qed.

Lemma mrb_ary_unshift_frames (m m' : mrb_state) (v item : mrb_value) :
  mrb_ary_unshift host m v item = Some m' -> same_frames m m'.
Proof.
  unfold mrb_ary_unshift, obj_set. intros H. unbind.
  destruct (obj_at _ _); [|done]. simplify_eq. done.
Qed.

Lemma method_missing_args_frames (m m' : mrb_state) L a n sym n' :
  method_missing_args host m L a n sym = Some (m', n') -> same_frames m m'.
Proof.
  unfold method_missing_args. case_decide; intros Hm; unbind; simplify_eq.
  - by eapply mrb_ary_unshift_frames.
  - done.
Qed.

Lemma method_lookup_frames (m m1 : mrb_state) L a n mid recv mth mid' n' :
  method_lookup host m L a n mid recv = Some (m1, mth, (mid', n')) -> same_frames m m1.
Proof.
  unfold method_lookup. case_decide; intros Hm.
  - unbind. simplify_eq. simpl. by eapply method_missing_args_frames.
  - simplify_eq. apply same_frames_refl.
Qed.

Lemma stack_extend_rebase (m m' : mrb_state) (room keep : Z) :
  stack_extend host m room keep = Some m' ->
  cibase m' = cibase m /\ ci m' = ci m /\ ciend m' = ciend m /\
  ptr_diff (stack m') (stbase m') = ptr_diff (stack m) (stbase m) /\
  (blk (stack m) = blk (stbase m) -> blk (stack m') = blk (stbase m')).
Proof.
  unfold stack_extend.
  destruct (decide (off (stack m) + room > off (stend m))).
  - destruct (mrb_realloc _ _ _ _) as [[M1 base]|] eqn:E; [|done].
    assert (Hb : off base = 0).
    { unfold mrb_realloc, mrb_malloc in E.
      repeat case_decide; try done;
        repeat match goal with
        | H : context [next_block ?M] |- _ => destruct (next_block M)
        | H : match ?x with Some _ => _ | None => _ end = Some _ |- _ =>
            destruct x eqn:?; [|done]
        end; repeat case_decide; simplify_eq; done. }
    destruct (decide (room > keep)).
    + destruct (memset0 _ _ _); [|done]. intros [= <-]. simpl.
      unfold ptr_diff. simpl. repeat split; try done; lia.
    + intros [= <-]. simpl. unfold ptr_diff. simpl. repeat split; try done; lia.
  - destruct (decide (room > keep)).
    + destruct (memset0 _ _ _); [|done]. intros [= <-]. done.
    + intros [= <-]. done.
Qed.

Lemma extend_for_callee_rebase (m m' : mrb_state) (nregs argc : Z) :
  extend_for_callee host m nregs argc = Some m' ->
  cibase m' = cibase m /\ ci m' = ci m /\ ciend m' = ciend m /\
  ptr_diff (stack m') (stbase m') = ptr_diff (stack m) (stbase m) /\
  (blk (stack m) = blk (stbase m) -> blk (stack m') = blk (stbase m')).
Proof. unfold extend_for_callee. case_decide; apply stack_extend_rebase. Qed.

Lemma ptr_rebase (p q : ptr) : blk p = blk q -> p = ptr_add q (ptr_diff p q).
Proof. destruct p, q; unfold ptr_add, ptr_diff; simpl. intros ->. f_equal. lia. Qed.

(** C2 (amended): after OP_SEND to a bytecode procedure, the callee frame
    is the next frame up, inside the frame array; its [stackidx] is the
    offset the caller's registers start at, and the stack pointer is that
    base shifted by A: [stack = stbase + ci.stackidx + A]. *)
Theorem send_callee_stackidx (m m' : mrb_state) (L L' : locals) (a b n : Z)
    (mid mid' : mrb_sym) (recv : mrb_value) (m1 : mrb_state) (mth n' : Z) (pr : RProc) :
  frames_ok m ->
  blk (stack m) = blk (stbase m) ->
  sym_at m L b = Some mid ->
  reg m L a = Some recv ->
  method_lookup host m L a n mid recv = Some (m1, mth, (mid', n')) ->
  proc_at m1 mth = Some pr ->
  proc_cfunc pr = false ->
  L_OP_SEND host m L a b n = Some (Dispatch m' L') ->
  exists callee : mrb_callinfo,
    ci m' = ci m + 1 /\
    ci_at m' (ci m') = Some callee /\
    ci_stackidx callee = ptr_diff (stack m) (stbase m) /\
    ci_acc callee = a /\
    stack m' = ptr_add (stbase m') (ci_stackidx callee + a) /\
    l_regs L' = stack m' /\
    0 <= ci m' < ciend m' /\ ciend m' = Z.of_nat (length (cibase m')).
Proof.
  intros Hok Hblk Hsym Hrecv Hlook Hpr Hbc Hsend.
  pose proof (method_lookup_frames _ _ _ _ _ _ _ _ _ _ Hlook) as Hsame.
  destruct (same_frames_proj _ _ Hsame) as (Hst1 & Hsb1 & _ & Hcb1 & Hci1 & Hce1 & _).
  assert (Hok1 : frames_ok m1).
  { unfold frames_ok. rewrite Hci1, Hce1, Hcb1. exact Hok. }
  destruct (cipush_spec host m1 Hok1)
    as (below & fresh & m2 & Hpush & Hci2 & Hbelow & _ & Hfresh & _ & _ & _ & _ & Hok2).
  assert (Hfr2 : stack m2 = stack m /\ stbase m2 = stbase m /\ heap m2 = heap m1).
  { destruct (cipush_same _ _ Hpush) as (-> & -> & _ & -> & _). by rewrite Hst1, Hsb1. }
  destruct Hfr2 as (Hst2 & Hsb2 & Hh2).
  assert (Hpr2 : proc_at m2 mth = Some pr).
  { unfold proc_at, obj_at in *. by rewrite Hh2. }
  unfold L_OP_SEND in Hsend. rewrite Hsym, Hrecv in Hsend. simpl in Hsend.
  rewrite Hlook, Hpush in Hsend. simpl in Hsend. rewrite Hpr2 in Hsend. simpl in Hsend.
  apply bind_Some in Hsend. destruct Hsend as (m3 & H3 & Hsend).
  rewrite Hbc in Hsend.
  apply bind_Some in Hsend. destruct Hsend as (m5 & H5 & Hsend).
  apply bind_Some in Hsend. destruct Hsend as (m6 & H6 & Hsend).
  apply bind_Some in Hsend. destruct Hsend as (ir & Hir & Hsend).
  apply bind_Some in Hsend. destruct Hsend as (m7 & H7 & Hsend).
  apply bind_Some in Hsend. destruct Hsend as (c7 & Hc7 & Hsend).
  apply bind_Some in Hsend. destruct Hsend as (m8 & H8 & Hsend).
  unfold JUMP in Hsend. injection Hsend as <- <-.
  (* the frame at k through the four updates *)
  pose proof (ci_at_ci_upd _ _ _ (ci m2) _ H3) as E3. rewrite decide_True in E3 by done.
  rewrite Hfresh in E3. simpl in E3.
  destruct (ci_upd_frame _ _ _ _ H3) as (? & _ & Hm3).
  destruct (ci_upd_frame _ _ _ _ H5) as (? & _ & Hm5).
  destruct (ci_upd_frame _ _ _ _ H6) as (? & _ & Hm6).
  destruct (ci_upd_frame _ _ _ _ H7) as (? & _ & Hm7).
  pose proof (ci_at_ci_upd _ _ _ (ci m2) _ H5) as E5. rewrite decide_True in E5 by done.
  assert (Hci5 : ci m5 = ci m2) by (rewrite Hm5, Hm3; done).
  pose proof (ci_at_ci_upd _ _ _ (ci m2) _ H6) as E6.
  rewrite Hci5, decide_True in E6 by done.
  pose proof (ci_at_ci_upd _ _ _ (ci m2) _ H7) as E7. rewrite decide_True in E7 by done.
  assert (E4 : ci_at (set_stack (ptr_add (stack m3) a) m3) (ci m2) = ci_at m3 (ci m2)) by done.
  rewrite E6, E5, E4, E3 in E7. simpl in E7.
  rewrite E7 in Hc7. injection Hc7 as <-.
  destruct (extend_for_callee_rebase _ _ _ _ H8) as (Hcb8 & Hci8 & Hce8 & Hdiff8 & Hblk8).
  assert (Hst7 : stack m7 = ptr_add (stack m) a /\ stbase m7 = stbase m /\
                 ci m7 = ci m2 /\ ciend m7 = ciend m2 /\
                 length (cibase m7) = length (cibase m2)).
  { rewrite Hm7, Hm6, Hm5. simpl. rewrite Hm3. simpl.
    rewrite !length_insert. rewrite Hst2, Hsb2. done. }
  destruct Hst7 as (Hs7 & Hb7 & Hci7 & Hce7 & Hlen7).
  eexists. split; [|split; [|split; [|split; [|split; [|split]]]]].
  - rewrite Hci8, Hci7, Hci2, Hci1. done.
  - unfold ci_at. rewrite Hcb8, Hci8, Hci7. exact E7.
  - simpl. rewrite Hst2, Hsb2. done.
  - done.
  - simpl. rewrite Hst2, Hsb2.
    rewrite (ptr_rebase (stack m8) (stbase m8)).
    + rewrite Hdiff8, Hs7, Hb7. unfold ptr_diff, ptr_add. simpl. f_equal. lia.
    + apply Hblk8. rewrite Hs7, Hb7. simpl. done.
  - done.
  - destruct Hok2 as (Hr & He & _).
    rewrite Hci8, Hce8, Hcb8, Hci7, Hce7, Hlen7. split; [lia|done].
Qed.

End Send.





Section Tailcall.
Variable host : mrb_host.
Variable run : mrb_state -> Z -> mrb_value -> option (mrb_state * mrb_value).

Lemma tailcall_drops_frame (m m' : mrb_state) (L L' : locals) (a b n : Z)
    (mid mid' : mrb_sym) (recv : mrb_value) (m1 : mrb_state) (mth n' : Z) (pr : RProc) :
  sym_at m L b = Some mid ->
  reg m L a = Some recv ->
  method_lookup host m L a n mid recv = Some (m1, mth, (mid', n')) ->
  proc_at m1 mth = Some pr ->
  proc_cfunc pr = false ->
  L_OP_TAILCALL host run m L a b n = Some (Dispatch m' L') ->
  ci m' = ci m - 1 /\
  (exists caller,
     ci_at m (ci m - 1) = Some caller /\
     ci_at m' (ci m - 1) =
       Some (with_argc (if decide (n' = CALL_MAXARGS) then -1 else n')
               (with_target_class (proc_target_class pr) (with_mid mid' caller)))) /\
  ci_at m' (ci m) = ci_at m (ci m).
Proof.
  intros Hsym Hrecv Hlook Hpr Hbc Htail.
  pose proof (method_lookup_frames _ _ _ _ _ _ _ _ _ _ _ Hlook) as Hsame.
  destruct (same_frames_proj _ _ Hsame) as (Hst1 & Hsb1 & _ & Hcb1 & Hci1 & Hce1 & _).
  unfold L_OP_TAILCALL in Htail. rewrite Hsym, Hrecv in Htail. simpl in Htail.
  rewrite Hlook in Htail. simpl in Htail.
  assert (Hpr' : proc_at (set_ci (ci m1 - 1) m1) mth = Some pr) by exact Hpr.
  rewrite Hpr' in Htail. simpl in Htail.
  apply bind_Some in Htail. destruct Htail as (m3 & H3 & Htail).
  apply bind_Some in Htail. destruct Htail as (M1 & HM1 & Htail).
  rewrite Hbc in Htail.
  apply bind_Some in Htail. destruct Htail as (ir & Hir & Htail).
  apply bind_Some in Htail. destruct Htail as (m5 & H5 & Htail).
  unfold JUMP in Htail. injection Htail as <- <-.
  destruct (extend_for_callee_rebase _ _ _ _ _ H5) as (Hcb5 & Hci5 & Hce5 & _).
  simpl in Hcb5, Hci5.
  assert (Hat : forall x y k, cibase x = cibase y -> ci_at x k = ci_at y k).
  { intros x y k E. unfold ci_at. by rewrite E. }
  destruct (ci_upd_frame _ _ _ _ H3) as (caller & Hcaller & Hm3).
  change (ci_at m1 (ci m1 - 1) = Some caller) in Hcaller.
  rewrite (Hat m1 m) in Hcaller by done. rewrite Hci1 in Hcaller.
  pose proof (ci_at_ci_upd _ _ _ (ci m - 1) _ H3) as E3.
  change (ci (set_ci (ci m1 - 1) m1)) with (ci m1 - 1) in E3.
  rewrite Hci1, decide_True in E3 by done.
  rewrite (Hat (set_ci (ci m - 1) m1) m) in E3 by done. rewrite Hcaller in E3.
  pose proof (ci_at_ci_upd _ _ _ (ci m) _ H3) as E4.
  change (ci (set_ci (ci m1 - 1) m1)) with (ci m1 - 1) in E4.
  rewrite Hci1, decide_False in E4 by lia.
  rewrite (Hat (set_ci (ci m - 1) m1) m) in E4 by done.
  assert (Hci3 : ci m3 = ci m - 1) by (rewrite Hm3; simpl; lia).
  split; [lia|]. split.
  - exists caller. split; [done|].
    rewrite (Hat m5 m3) by done. exact E3.
  - rewrite (Hat m5 m3) by done. exact E4.
Qed.

End Tailcall.

(** * The claims that need the example programs, and the instances *)

Lemma L_RAISE_in_base_frame (m : mrb_state) (L : locals) :
  ci m = 0 -> L_RAISE m L = L_STOP m L.
Proof. intros H. unfold L_RAISE. by rewrite decide_True. Qed.

(** C1 (the code departs from the claim): L_RAISE stops the VM whenever the
    current frame is the base frame, whether or not a handler was pushed.
    The rescue program, run in the base frame with r1 holding the exception
    object, returns nil with the exception slot still set and the handler
    still on the rescue stack. *)
Theorem raise_in_base_frame_stops :
  (forall m L, ci m = 0 -> L_RAISE m L = L_STOP m L) /\
  exists m0 m' c,
    rescue_base = Some m0 /\
    mrb_run rescue_host 20 m0 1 mrb_nil_value = Some (m', mrb_nil_value) /\
    exc m' = mrb_object the_exception /\
    ci_at m' 0 = Some c /\ ci_ridx c = 1 /\
    zlookup (rescue m') 0 = Some (CPtr 0 4).
Proof.
  split; [exact L_RAISE_in_base_frame|].
  eexists _, _, _. split; [vm_compute; reflexivity|].
  split; [vm_compute; reflexivity|].
  split; [vm_compute; reflexivity|].
  split; [vm_compute; reflexivity|].
  split; vm_compute; reflexivity.
Qed.

(** The same program entered through [mrb_yield_with_self], in a frame
    above the base, does return the exception object and clears the
    slot. *)
Lemma rescue_in_pushed_frame :
  exists m0 m',
    stack_init rescue_host rescue_start = Some m0 /\
    mrb_yield_with_self rescue_host 20 m0 (MkValue MRB_TT_PROC 1) [the_exception]
                        mrb_nil_value = Some (m', the_exception) /\
    exc m' = 0.
Proof.
  eexists _, _. split; [vm_compute; reflexivity|].
  split; vm_compute; reflexivity.
Qed.

(** C2 (as stated, refuted): [main] sends [:f] from register 1; once the
    SEND has completed, the stack pointer is one cell past
    [stbase + ci.stackidx]. *)
Lemma send_leaves_stack_past_stackidx :
  exists m0 L0 m L c,
    mrb_run_enter send_host send_start 1 mrb_nil_value = Some (m0, L0) /\
    steps send_host 2 m0 L0 = Some (m, L) /\
    ci_at m (ci m) = Some c /\
    stack m <> ptr_add (stbase m) (ci_stackidx c).
Proof.
  eexists _, _, _, _, _. split; [vm_compute; reflexivity|].
  split; [vm_compute; reflexivity|].
  split; [vm_compute; reflexivity|].
  vm_compute. discriminate.
Qed.

(** C3 (the code departs from the claim): OP_TAILCALL to a bytecode callee
    moves [mrb->ci] one frame down and writes the callee's [mid],
    [target_class] and [argc] into the caller's frame; the frame that
    executed it is left as it was.  So the depth after the call is one less
    than before, and the self-calling [f] of [tail_ireps] runs into the
    bottom of the frame array on its second TAILCALL: no amount of fuel
    makes the run return. *)
Theorem tailcall_moves_to_caller_frame :
  (forall host run m m' L L' a b n mid mid' recv m1 mth n' pr,
     sym_at m L b = Some mid ->
     reg m L a = Some recv ->
     method_lookup host m L a n mid recv = Some (m1, mth, (mid', n')) ->
     proc_at m1 mth = Some pr ->
     proc_cfunc pr = false ->
     L_OP_TAILCALL host run m L a b n = Some (Dispatch m' L') ->
     ci m' = ci m - 1 /\
     (exists caller,
        ci_at m (ci m - 1) = Some caller /\
        ci_at m' (ci m - 1) =
          Some (with_argc (if decide (n' = CALL_MAXARGS) then -1 else n')
                  (with_target_class (proc_target_class pr) (with_mid mid' caller)))) /\
     ci_at m' (ci m) = ci_at m (ci m)) /\
  (exists m0 L0 m3 L3 m4 L4,
     mrb_run_enter send_host tail_start 1 mrb_nil_value = Some (m0, L0) /\
     steps send_host 3 m0 L0 = Some (m3, L3) /\
     fetch m3 (l_pc L3) = Some (OP_TAILCALL 1 0 0) /\ ci m3 = 1 /\
     steps send_host 1 m3 L3 = Some (m4, L4) /\ ci m4 = 0 /\
     steps send_host 2 m4 L4 = None) /\
  (forall fuel, mrb_run send_host fuel tail_start 1 mrb_nil_value = None).
Proof.
  split; [|split].
  - intros. eapply tailcall_drops_frame; eassumption.
  - eexists _, _, _, _, _, _. split; [vm_compute; reflexivity|].
    split; [vm_compute; reflexivity|].
    split; [vm_compute; reflexivity|].
    split; [vm_compute; reflexivity|].
    split; [vm_compute; reflexivity|].
    split; vm_compute; reflexivity.
  - intros fuel.
    do 6 (destruct fuel as [|fuel]; [vm_compute; reflexivity|]).
    vm_compute. reflexivity.
Qed.

(** C4 (as stated, refuted): the strict procedure with m1 = 1 is sent two
    arguments under a selector whose name has 300 letters; the run ends
    with an ArgumentError in the exception slot whose message, cut to 255
    characters, does not contain "wrong number of arguments (2 for 1)". *)
Lemma long_method_name_hides_arity_text :
  exists m' e msg,
    mrb_run (arity_host (long_name 300)) 20 arity_start 1 mrb_nil_value
      = Some (m', mrb_nil_value) /\
    exc m' = e /\ e <> 0 /\
    obj_at m' e = Some (O_exception (E_ARGUMENT_ERROR (arity_host (long_name 300))) msg) /\
    ~ contains msg (arity_text 2 1).
Proof.
  eexists _, _, _. split; [vm_compute; reflexivity|].
  split; [reflexivity|]. split; [vm_compute; discriminate|].
  split; [vm_compute; reflexivity|].
  intros H%contains_containsb. vm_compute in H. discriminate.
Qed.

(** C9: while the procedure of the current frame has no environment,
    OP_GETUPVAR stores nil in R(A) and goes on to the next instruction, and
    OP_SETUPVAR goes on to the next instruction with memory (the operand
    stack and every environment's buffer), the object heap and the
    exception slot as they were; neither enters L_RAISE or fails. *)
Theorem upvar_without_env (m : mrb_state) (L : locals) (c : mrb_callinfo) (pr : RProc)
    (a b up : Z) (v : mrb_value) :
  ci_at m (ci m) = Some c ->
  proc_at m (ci_proc c) = Some pr ->
  proc_env pr = 0 ->
  reg m L a = Some v ->
  (exists m',
     L_OP_GETUPVAR m L a b up = Some (Dispatch m' (upd_pc (code_add (l_pc L) 1) L)) /\
     reg m' L a = Some mrb_nil_value /\
     (forall k, k <> a -> reg m' L k = reg m L k) /\
     heap m' = heap m /\ exc m' = exc m) /\
  (exists m',
     L_OP_SETUPVAR m L a b up = Some (Dispatch m' (upd_pc (code_add (l_pc L) 1) L)) /\
     mem m' = mem m /\ heap m' = heap m /\ exc m' = exc m).
Proof.
  intros Hc Hp He Hv.
  assert (Hu : uvenv m up = Some 0).
  { unfold uvenv. rewrite Hc, Hp, He. done. }
  split.
  - destruct (store_is_Some (mem m) (ptr_add (l_regs L) a) mrb_nil_value v Hv) as [M1 HM1].
    exists (set_arena_idx (l_ai L) (set_mem M1 m)). split; [|split; [|split]].
    + unfold L_OP_GETUPVAR, uvget, set_reg. rewrite Hu. simpl. rewrite HM1. done.
    + unfold reg. simpl. rewrite (load_store _ _ _ _ _ HM1). by rewrite decide_True.
    + intros k Hk. unfold reg. simpl. rewrite (load_store _ _ _ _ _ HM1).
      rewrite decide_False; [done|]. unfold ptr_add. intros [=]. lia.
    + done.
  - exists (set_arena_idx (l_ai L) m). split; [|done].
    unfold L_OP_SETUPVAR, uvset. rewrite Hv, Hu. done.
Qed.

(** C10: [cipush], on a well-formed frame array, always succeeds; the new
    current frame is one above the old one, which is untouched, and starts
    with the old frame's [nregs], [ridx] and [eidx] and a null [env]: no
    rescue handler, no ensure procedure and no environment of its own. *)
Theorem cipush_inherits (host : mrb_host) (m : mrb_state) :
  frames_ok m ->
  exists (below fresh : mrb_callinfo) (m' : mrb_state),
    cipush host m = Some m' /\
    ci m' = ci m + 1 /\
    ci_at m (ci m) = Some below /\
    ci_at m' (ci m) = Some below /\
    ci_at m' (ci m') = Some fresh /\
    ci_nregs fresh = ci_nregs below /\
    ci_ridx fresh = ci_ridx below /\
    ci_eidx fresh = ci_eidx below /\
    ci_env fresh = 0 /\
    frames_ok m'.
Proof. apply cipush_spec. Qed.

(** * Instances: each theorem applied to a concrete state *)

Lemma send_callee_stackidx_witness :
  exists m' L' callee,
    L_OP_SEND send_host
      (small_state (small_frame 0 1 0 0 0) [] send_ireps
                   [small_main; O_proc (MkProc false false 1 1 0)])
      small_locals 1 0 0 = Some (Dispatch m' L') /\
    ci_at m' (ci m') = Some callee /\
    stack m' = ptr_add (stbase m') (ci_stackidx callee + 1).
Proof.
  set (m := small_state (small_frame 0 1 0 0 0) [] send_ireps
                        [small_main; O_proc (MkProc false false 1 1 0)]).
  eassert (E : L_OP_SEND send_host m small_locals 1 0 0 = Some (Dispatch _ _))
    by (vm_compute; reflexivity).
  match type of E with
  | _ = Some (Dispatch ?m' ?L') =>
      destruct (send_callee_stackidx send_host m m' small_locals L' 1 0 0 10 10
                  (mrb_fixnum_value 1) m 2 0 (MkProc false false 1 1 0))
        as (callee & _ & H2 & _ & _ & H5 & _)
  end.
  - unfold frames_ok. simpl. lia.
  - reflexivity.
  - reflexivity.
  - reflexivity.
  - reflexivity.
  - reflexivity.
  - reflexivity.
  - exact E.
  - eexists _, _, callee. split; [exact E|]. split; [exact H2|exact H5].
Defined.

Lemma enter_strict_arity_witness :
  exists mb,
    L_OP_ENTER (arity_host "foo")
      (small_state (small_frame 10 2 2 0 0) [] arity_ireps
                   [small_main; O_proc (MkProc false true 1 1 0)])
      small_locals 262144 = L_RAISE mb small_locals /\
    exc mb <> 0 /\
    contains (snprintf256 (argnum_fmt (Some "foo"%string) 2 1)) (arity_text 2 1).
Proof.
  set (m := small_state (small_frame 10 2 2 0 0) [] arity_ireps
                        [small_main; O_proc (MkProc false true 1 1 0)]).
  destruct (proj1 (enter_strict_arity (arity_host "foo") m small_locals 262144
                     (small_frame 10 2 2 0 0) (MkProc false true 1 1 0)
                     eq_refl ltac:(discriminate) eq_refl eq_refl ltac:(vm_compute; discriminate)))
    as (mb & H1 & H2 & _ & H4).
  - right. split; [reflexivity|]. vm_compute. reflexivity.
  - exists mb. split; [exact H1|]. split; [exact H2|].
    apply H4. vm_compute. lia.
Defined.


Lemma stack_extend_grows_and_clears_witness :
  exists m',
    stack_extend ensure_host
      (small_state (small_frame 0 1 0 0 0) [] ensure_ireps [small_main]) 12 1 = Some m' /\
    ptr_diff (stend m') (stbase m') = 20 /\
    load (mem m') (ptr_add (stack m') 2) = Some zero_value /\
    load (mem m') (ptr_add (stbase m') 0) = Some mrb_nil_value.
Proof.
  set (m := small_state (small_frame 0 1 0 0 0) [] ensure_ireps [small_main]).
  destruct (stack_extend_grows_and_clears ensure_host m small_cells 12 1)
    as (m' & cells' & H1 & _ & _ & _ & H5 & H6 & H7).
  - unfold stack_ok. simpl. repeat split; try reflexivity; try discriminate; lia.
  - lia.
  - lia.
  - exists m'. split; [exact H1|]. split; [|split].
    + apply H5. simpl. lia.
    + apply H6. lia.
    + rewrite H7; [reflexivity|simpl; lia|simpl; lia].
Defined.

Lemma upvar_without_env_witness :
  exists m',
    L_OP_SETUPVAR (small_state (small_frame 0 1 0 0 0) [] ensure_ireps [small_main])
                  small_locals 1 0 0
      = Some (Dispatch m' (upd_pc (code_add (l_pc small_locals) 1) small_locals)) /\
    mem m' = mem (small_state (small_frame 0 1 0 0 0) [] ensure_ireps [small_main]).
Proof.
  destruct (proj2 (upvar_without_env
                     (small_state (small_frame 0 1 0 0 0) [] ensure_ireps [small_main])
                     small_locals (small_frame 0 1 0 0 0) (MkProc false false 0 1 0)
                     1 0 0 (mrb_fixnum_value 1) eq_refl eq_refl eq_refl eq_refl))
    as (m' & H1 & H2 & _).
  exists m'. split; [exact H1|exact H2].
Defined.

Lemma cipush_inherits_witness :
  exists m',
    cipush ensure_host (small_state (small_frame 0 1 0 0 0) [] ensure_ireps [small_main])
      = Some m' /\
    ci m' = 1.
Proof.
  destruct (cipush_inherits ensure_host
              (small_state (small_frame 0 1 0 0 0) [] ensure_ireps [small_main]))
    as (below & fresh & m' & H1 & H2 & _).
  - unfold frames_ok. simpl. lia.
  - exists m'. split; [exact H1|exact H2].
Defined.

(** * Further properties of [vm.c] *)

Lemma mrb_malloc_is_Some uninit (M : memory) (n : Z) :
  0 <= n -> exists M1 p, mrb_malloc uninit M n = Some (M1, p).
Proof.
  intros Hn. unfold mrb_malloc. rewrite decide_True by done.
  destruct (next_block M) as [M0 b]. eauto.
Qed.

Lemma lookup_replicate_zero (n : nat) (k : Z) :
  0 <= k < Z.of_nat n -> zlookup (replicate n zero_value) k = Some zero_value.
Proof.
  intros Hk. unfold zlookup. rewrite decide_True by lia.
  apply lookup_replicate. split; [done|lia].
Qed.

Ltac st_simpl :=
  cbn [stbase stend stack cibase ciend ci rescue rsize ensure esize exc irep heap mem
       arena_idx jmp object_class ecalled
       set_stbase set_stend set_stack set_cibase set_ciend set_ci set_rescue set_rsize
       set_ensure set_esize set_exc set_irep set_heap set_mem set_arena_idx set_jmp
       set_object_class set_ecalled cipop
       ptr_add blk off] in *.

(** [stack_init] always succeeds.  It gives the interpreter a new operand
    stack of [STACK_INIT_SIZE] cells that all read as nil, with the stack
    pointer at its base, and a frame array of [CALLINFO_INIT_SIZE] entries
    of which the base frame is current and zeroed except for its target
    class, the object class.  No block that was live before, no heap
    object and not the exception slot is touched. *)
Theorem stack_init_establishes (host : mrb_host) (m : mrb_state) :
  exists m',
    stack_init host m = Some m' /\
    stbase m' <> NULL /\ block_of (mem m) (blk (stbase m')) = None /\
    stack m' = stbase m' /\ stend m' = ptr_add (stbase m') STACK_INIT_SIZE /\
    stack_ok m' (replicate (Z.to_nat STACK_INIT_SIZE) zero_value) /\
    (forall k, 0 <= k < STACK_INIT_SIZE ->
       load (mem m') (ptr_add (stack m') k) = Some mrb_nil_value) /\
    ci m' = 0 /\ ciend m' = CALLINFO_INIT_SIZE /\ frames_ok m' /\
    ci_at m' 0 = Some (with_target_class (object_class m) zero_callinfo) /\
    (forall b, b <> blk (stbase m') -> block_of (mem m') b = block_of (mem m) b) /\
    heap m' = heap m /\ exc m' = exc m.
Proof.
  destruct (mrb_malloc_is_Some (uninit_value host) (mem m) STACK_INIT_SIZE)
    as (M1 & base & Hm); [done|].
  destruct (mrb_malloc_spec _ _ _ _ _ Hm) as (_ & Hoff & Hblk & Hfresh & HM1).
  assert (Hcells : block_of M1 (blk base) =
            Some (fresh_cells (uninit_value host) (blk base) 0 (Z.to_nat STACK_INIT_SIZE))).
  { rewrite HM1. by rewrite decide_True. }
  destruct (memset0_spec M1 base STACK_INIT_SIZE _ Hcells) as (M2 & Hset & HM2);
    [lia|done|rewrite length_fresh_cells; lia|].
  assert (Hzero : block_of M2 (blk base) = Some (replicate (Z.to_nat STACK_INIT_SIZE) zero_value)).
  { rewrite HM2, decide_True by done. rewrite Hoff.
    change (Z.to_nat 0) with 0%nat. rewrite take_0, Nat.add_0_l.
    rewrite drop_ge by (rewrite length_fresh_cells; lia).
    by rewrite app_nil_r. }
  eexists. split.
  { unfold stack_init. rewrite Hm, Hset. reflexivity. }
  st_simpl. split.
  { intros E. rewrite E in Hblk. done. }
  split; [done|]. split; [done|]. split; [done|]. split.
  { unfold stack_ok. st_simpl. rewrite length_replicate, Hoff.
    repeat split; try done; try lia.
    intros E. rewrite E in Hblk. done. }
  split.
  { intros k Hk. rewrite load_block. st_simpl. rewrite Hzero, Hoff.
    apply lookup_replicate_zero. lia. }
  split; [done|]. split; [done|]. split.
  { unfold frames_ok. st_simpl. rewrite length_insert, length_map, length_seq. done. }
  split; [done|]. split; [|done].
  intros b Hb. rewrite HM2, decide_False by done. rewrite HM1, decide_False by done. done.
Qed.

Section Room.
Variable host : mrb_host.

Lemma stack_extend_spec (m : mrb_state) (cells : list mrb_value) (room keep : Z) :
  stack_ok m cells -> 0 <= keep -> 0 <= room ->
  exists (m' : mrb_state) (cells' : list mrb_value),
    stack_extend host m room keep = Some m' /\
    stack_ok m' cells' /\
    off (stack m') = off (stack m) /\
    off (stack m') + room <= off (stend m') /\
    (length cells <= length cells')%nat /\
    (forall j : nat, (j < length cells)%nat ->
       ~ (off (stack m) + keep <= Z.of_nat j < off (stack m) + room) ->
       cells' !! j = cells !! j) /\
    (forall j : nat, off (stack m) + keep <= Z.of_nat j < off (stack m) + room ->
       cells' !! j = Some zero_value) /\
    (forall b, b <> blk (stbase m) -> b <> blk (stbase m') ->
       block_of (mem m') b = block_of (mem m) b) /\
    (blk (stbase m') = blk (stbase m) \/
     (block_of (mem m) (blk (stbase m')) = None /\ block_of (mem m') (blk (stbase m)) = None)) /\
    m' = set_stend (stend m') (set_stack (stack m') (set_stbase (stbase m') (set_mem (mem m') m))) /\
    (off (stack m) + room > off (stend m) -> block_of (mem m') (blk (stbase m)) = None) /\
    (off (stack m) + room <= off (stend m) -> stbase m' = stbase m /\ stend m' = stend m).
Proof.
  intros Hok Hkeep Hroom.
  assert (Hg : exists m1 cells1,
    (if decide (off (stack m) + room > off (stend m)) then
       let size := ptr_diff (stend m) (stbase m) in
       let off := ptr_diff (stack m) (stbase m) in
       let size := if decide (room <= size) then size * 2 else size + room in
       match mrb_realloc (uninit_value host) (mem m) (stbase m) size with
       | Some (M1, base) =>
           Some (set_stend (ptr_add base size) (set_stack (ptr_add base off)
                  (set_stbase base (set_mem M1 m))))
       | None => None
       end
     else Some m) = Some m1 /\
    stack_ok m1 cells1 /\
    off (stack m1) = off (stack m) /\
    off (stack m) + room <= Z.of_nat (length cells1) /\
    (length cells <= length cells1)%nat /\
    (forall j, (j < length cells)%nat -> cells1 !! j = cells !! j) /\
    (forall b, b <> blk (stbase m) -> b <> blk (stbase m1) ->
       block_of (mem m1) b = block_of (mem m) b) /\
    (blk (stbase m1) = blk (stbase m) \/
     (block_of (mem m) (blk (stbase m1)) = None /\ block_of (mem m1) (blk (stbase m)) = None)) /\
    m1 = set_stend (stend m1) (set_stack (stack m1) (set_stbase (stbase m1) (set_mem (mem m1) m))) /\
    (off (stack m) + room > off (stend m) -> block_of (mem m1) (blk (stbase m)) = None) /\
    (off (stack m) + room <= off (stend m) -> stbase m1 = stbase m /\ stend m1 = stend m)).
  { destruct (decide (off (stack m) + room > off (stend m))) as [Hgrow|Hfit].
    - destruct (stack_grow host m cells room Hok Hroom Hgrow)
        as (M1 & base & Hre & cells1 & Hok1 & Hlen1 & Hfreed & Hkeep1).
      cbv zeta. rewrite Hre. eexists _, cells1. split; [reflexivity|].
      destruct Hok as (Hb & Hnn & Hb0 & Hsk & Hse & Hend & Hrng).
      pose proof Hok1 as (Hb1 & _ & Hb0' & _). st_simpl.
      destruct (mrb_realloc_spec _ _ _ _ _ _ Hnn Hre)
        as (cells0 & Hc0 & _ & _ & _ & _ & Hnew & HM1).
      split; [done|]. split; [unfold ptr_diff; lia|]. split; [done|].
      split.
      { destruct (decide (length cells <= length cells1)%nat) as [|Hlt]; [done|].
        assert (Hx : (length cells1 < length cells)%nat) by lia.
        specialize (Hkeep1 (length cells1) Hx).
        rewrite lookup_ge_None_2 in Hkeep1 by lia.
        symmetry in Hkeep1. apply lookup_ge_None in Hkeep1. lia. }
      split; [done|]. split.
      { intros b Hb2 Hb3. rewrite HM1. rewrite !decide_False by done. done. }
      split; [right; done|]. split; [by destruct m|]. split; [done|]. intros; lia.
    - exists m, cells. destruct Hok as (Hb & Hnn & Hb0 & Hsk & Hse & Hend & Hrng).
      split; [done|]. split; [done|]. split; [done|]. split; [lia|].
      split; [done|]. split; [done|]. split; [done|]. split; [by left|].
      split; [by destruct m|]. split; [intros; lia|done]. }
  destruct Hg as (m1 & cells1 & Hgrown & Hok1 & Hoff1 & Hlen1 & Hle1 & Hsame1 & Hoth1 & Hblk1 & Hm1
                  & Hgrow1 & Hstay1).
  unfold stack_extend. cbv zeta in Hgrown |- *. rewrite Hgrown.
  destruct Hok as (Hb & Hnn & Hb0 & Hsk & Hse & Hend & Hrng).
  pose proof Hok1 as (Hb1 & Hnn1 & Hb01 & Hsk1 & Hse1 & Hend1 & Hrng1).
  destruct (decide (room > keep)) as [Hz|Hz].
  - destruct (memset0_spec (mem m1) (ptr_add (stack m1) keep) (room - keep) cells1)
      as (M2 & Hset & HM2); st_simpl; try lia.
    { by rewrite Hsk1. }
    rewrite Hset. exists (set_mem M2 m1). eexists.
    split; [reflexivity|].
    assert (Hsplice : forall j : nat,
      (take (Z.to_nat (off (stack m1) + keep)) cells1 ++
       replicate (Z.to_nat (room - keep)) zero_value ++
       drop (Z.to_nat (off (stack m1) + keep) + Z.to_nat (room - keep)) cells1) !! j =
      if decide (off (stack m) + keep <= Z.of_nat j < off (stack m) + room)
      then Some zero_value else cells1 !! j).
    { intros j.
      replace (Z.to_nat (off (stack m1) + keep) + Z.to_nat (room - keep))%nat
        with (Z.to_nat (off (stack m1) + keep) +
              length (replicate (Z.to_nat (room - keep)) zero_value))%nat
        by (rewrite length_replicate; lia).
      rewrite lookup_splice by (rewrite length_replicate; lia).
      rewrite length_replicate.
      destruct (decide (off (stack m) + keep <= Z.of_nat j < off (stack m) + room)).
      - rewrite decide_True by lia. apply lookup_replicate_2. lia.
      - rewrite decide_False by lia. done. }
    split.
    { unfold stack_ok. st_simpl. rewrite HM2. st_simpl. rewrite decide_True by done.
      split; [reflexivity|]. rewrite !length_app, length_take, length_replicate, length_drop.
      repeat split; try done; lia. }
    st_simpl. split; [done|]. split; [lia|]. split.
    { rewrite !length_app, length_take, length_replicate, length_drop. lia. }
    split.
    { intros j Hj Hout. rewrite Hsplice, decide_False by done. by apply Hsame1. }
    split.
    { intros j Hj. by rewrite Hsplice, decide_True. }
    split.
    { intros b Hb2 Hb3. rewrite HM2. st_simpl. rewrite decide_False by congruence.
      by apply Hoth1. }
    split.
    { destruct Hblk1 as [|[H1 H2]]; [by left|right]. split; [done|].
      rewrite HM2. st_simpl.
      destruct (decide (blk (stbase m) = blk (stack m1))) as [Heq|]; [|done].
      rewrite Heq, Hsk1, Hb1 in H2. done. }
    split; [rewrite Hm1 at 1; done|]. split; [|done].
    intros Hgrow. specialize (Hgrow1 Hgrow). rewrite HM2. st_simpl.
    destruct (decide (blk (stbase m) = blk (stack m1))) as [Heq|]; [|done].
    rewrite Heq, Hsk1, Hb1 in Hgrow1. done.
  - exists m1, cells1. split; [reflexivity|]. split; [done|].
    split; [done|]. split; [lia|]. split; [done|]. split.
    { intros j Hj _. by apply Hsame1. }
    split; [intros j Hj; lia|]. done.
Qed.

(** [mrb_checkstack] always answers 0; afterwards [size + 1] cells from the
    stack pointer lie inside the buffer, slot 0 and everything below the
    stack pointer are as before, and the slots 1..size read as nil. *)
Theorem mrb_checkstack_room (m : mrb_state) (cells : list mrb_value) (size : Z) :
  stack_ok m cells -> 0 <= size ->
  exists (m' : mrb_state) (cells' : list mrb_value),
    mrb_checkstack host m size = Some (m', 0) /\
    stack_ok m' cells' /\
    ptr_diff (stack m') (stbase m') = ptr_diff (stack m) (stbase m) /\
    off (stack m') + size + 1 <= off (stend m') /\
    (forall j, 0 <= j <= off (stack m) -> j < Z.of_nat (length cells) ->
       load (mem m') (ptr_add (stbase m') j) = load (mem m) (ptr_add (stbase m) j)) /\
    (forall k, 1 <= k <= size ->
       load (mem m') (ptr_add (stack m') k) = Some mrb_nil_value).
Proof.
  intros Hok Hsize.
  destruct (stack_extend_spec m cells (size + 1) 1 Hok) as
    (m' & cells' & He & Hok' & Hoff & Hroom & Hle & Hkeep & Hzero & _); [lia|lia|].
  exists m', cells'. unfold mrb_checkstack. rewrite He.
  destruct Hok as (Hb & Hnn & Hb0 & Hsk & Hse & Hend & Hrng).
  pose proof Hok' as (Hb' & Hnn' & Hb0' & Hsk' & Hse' & Hend' & Hrng').
  split; [done|]. split; [done|]. split; [unfold ptr_diff; lia|]. split; [lia|]. split.
  - intros j Hj Hlt. rewrite !load_block. st_simpl. rewrite Hb, Hb', Hb0, Hb0'.
    unfold zlookup. rewrite !decide_True by lia. apply Hkeep; lia.
  - intros k Hk. rewrite load_block. st_simpl. rewrite Hsk', Hb'.
    unfold zlookup. rewrite decide_True by lia. apply Hzero. lia.
Qed.

End Room.

Lemma uvenv_up_set_mem (M : memory) (m : mrb_state) (n : nat) (e : Z) :
  uvenv_up (set_mem M m) n e = uvenv_up m n e.
Proof.
  revert e. induction n as [|n IH]; intros e; [done|].
  simpl. unfold env_at, obj_at. st_simpl.
  destruct (decide (0 < e)); [|done].
  destruct (heap m !! Z.to_nat e) as [[]|]; auto.
Qed.

Lemma uvenv_set_mem (M : memory) (m : mrb_state) (up : Z) :
  uvenv (set_mem M m) up = uvenv m up.
Proof.
  unfold uvenv, ci_at, proc_at, obj_at. st_simpl.
  destruct (zlookup (cibase m) (ci m)) as [c|]; [|done].
  destruct (decide (0 < ci_proc c)); [|done].
  destruct (heap m !! Z.to_nat (ci_proc c)) as [[]|]; try done.
  repeat case_decide; auto using uvenv_up_set_mem.
Qed.

(** A value stored with [uvset] is the one [uvget] reads back at the same
    depth and index; every other upvalue slot, at any depth, reads as
    before, and so does every other cell of memory. *)
Theorem uvset_then_uvget (m : mrb_state) (up idx : Z) (v old : mrb_value) (e : Z) (env : REnv) :
  uvenv m up = Some e -> e <> 0 -> env_at m e = Some env ->
  load (mem m) (ptr_add (env_stack env) idx) = Some old ->
  exists m',
    uvset m up idx v = Some m' /\
    uvget m' up idx = Some v /\
    m' = set_mem (mem m') m /\
    (forall q, q <> ptr_add (env_stack env) idx -> load (mem m') q = load (mem m) q) /\
    (forall up' idx' e' env',
       uvenv m up' = Some e' -> env_at m e' = Some env' ->
       ptr_add (env_stack env') idx' <> ptr_add (env_stack env) idx ->
       uvget m' up' idx' = uvget m up' idx').
Proof.
  intros Hu Hnz He Hold.
  destruct (store_is_Some (mem m) _ v old Hold) as [M1 HM1].
  exists (set_mem M1 m). split.
  { unfold uvset. rewrite Hu, decide_False by done. rewrite He. unfold store in HM1 |- *.
    by rewrite HM1. }
  split.
  { unfold uvget. rewrite uvenv_set_mem, Hu, decide_False by done.
    unfold env_at, obj_at in *. st_simpl. rewrite He.
    rewrite (load_store _ _ _ _ _ HM1). by rewrite decide_True. }
  split; [done|]. split.
  { intros q Hq. st_simpl. rewrite (load_store _ _ _ _ _ HM1). by rewrite decide_False. }
  intros up' idx' e' env' Hu' He' Hne.
  unfold uvget. rewrite uvenv_set_mem, Hu'.
  destruct (decide (e' = 0)); [done|].
  unfold env_at, obj_at in *. st_simpl. rewrite He'.
  rewrite (load_store _ _ _ _ _ HM1). by rewrite decide_False.
Qed.

Lemma length_realloc_rescue host (l : list code_ptr) (n : Z) :
  length (realloc_rescue host l n) = Z.to_nat n.
Proof.
  unfold realloc_rescue. rewrite length_app, length_map, length_seq, length_take. lia.
Qed.

Lemma lookup_realloc_rescue host (l : list code_ptr) (n : Z) (i : nat) :
  (i < length l)%nat -> (i < Z.to_nat n)%nat ->
  realloc_rescue host l n !! i = l !! i.
Proof.
  intros Hi Hn. unfold realloc_rescue.
  rewrite lookup_app_l by (rewrite length_take; lia).
  by apply lookup_take_lt.
Qed.

Section Rescue.
Variable host : mrb_host.

(** OP_ONERR records [pc + sBx] at the frame's [ridx] and moves [ridx] up by
    one; the rescue array grows to 16 entries the first time and doubles
    afterwards, the handlers below keep their places, and OP_POPERR 1 puts
    the frame back as it was. *)
Theorem onerr_pushes_poperr_pops (m : mrb_state) (L : locals) (sbx : Z) (c : mrb_callinfo) :
  ci_at m (ci m) = Some c ->
  0 <= ci_ridx c <= rsize m -> rsize m = Z.of_nat (length (rescue m)) ->
  exists m' m'',
    let L' := upd_pc (code_add (l_pc L) 1) L in
    L_OP_ONERR host m L sbx = Some (Dispatch m' L') /\
    ci m' = ci m /\
    ci_at m' (ci m) = Some (with_ridx (ci_ridx c + 1) c) /\
    (forall j, j <> ci m -> ci_at m' j = ci_at m j) /\
    zlookup (rescue m') (ci_ridx c) = Some (code_add (l_pc L) sbx) /\
    (forall k, 0 <= k < ci_ridx c -> zlookup (rescue m') k = zlookup (rescue m) k) /\
    rsize m' = Z.of_nat (length (rescue m')) /\
    rsize m' = (if decide (rsize m <= ci_ridx c)
                then (if decide (rsize m = 0) then 16 else rsize m * 2)
                else rsize m) /\
    L_OP_POPERR m' L' 1 = Some (Dispatch m'' (upd_pc (code_add (l_pc L') 1) L')) /\
    cibase m'' = cibase m /\ ci m'' = ci m /\ rescue m'' = rescue m'.
Proof.
  intros Hc Hr Hsz.
  set (m1 := if decide (rsize m <= ci_ridx c) then
      let n := if decide (rsize m = 0) then 16 else rsize m * 2 in
      set_rescue (realloc_rescue host (rescue m) n) (set_rsize n m)
    else m).
  assert (H1 : ci m1 = ci m /\ cibase m1 = cibase m /\
               rsize m1 = Z.of_nat (length (rescue m1)) /\ ci_ridx c < rsize m1 /\
               (forall k, 0 <= k < ci_ridx c -> zlookup (rescue m1) k = zlookup (rescue m) k) /\
               rsize m1 = (if decide (rsize m <= ci_ridx c)
                           then (if decide (rsize m = 0) then 16 else rsize m * 2)
                           else rsize m)).
  { unfold m1. destruct (decide (rsize m <= ci_ridx c)) as [Hfull|Hfits].
    - cbv zeta. st_simpl. rewrite length_realloc_rescue.
      split; [done|]. split; [done|]. split; [case_decide; lia|].
      split; [case_decide; lia|]. split; [|done].
      intros k Hk. unfold zlookup. destruct (decide (0 <= k)); [|lia].
      apply lookup_realloc_rescue; try case_decide; lia.
    - repeat split; try done; lia. }
  destruct H1 as (Hci1 & Hcb1 & Hsz1 & Hlt1 & Hkeep1 & Hrs1).
  assert (Hc1 : ci_at m1 (ci m1) = Some c).
  { unfold ci_at. rewrite Hci1, Hcb1. exact Hc. }
  set (l := <[Z.to_nat (ci_ridx c) := code_add (l_pc L) sbx]> (rescue m1)).
  assert (Hl : zupdate (rescue m1) (ci_ridx c) (code_add (l_pc L) sbx) = Some l).
  { unfold zupdate. by rewrite decide_True by lia. }
  assert (Hc2 : ci_at (set_rescue l m1) (ci m1) = Some c) by exact Hc1.
  pose proof (ci_upd_Some _ _ (with_ridx (ci_ridx c + 1)) _ Hc2) as Hu.
  set (m2 := set_cibase (<[Z.to_nat (ci m1) := with_ridx (ci_ridx c + 1) c]>
                          (cibase (set_rescue l m1))) (set_rescue l m1)) in Hu.
  assert (Hat2 : forall j, ci_at m2 j = if decide (j = ci m) then Some (with_ridx (ci_ridx c + 1) c)
                                        else ci_at m j).
  { intros j. rewrite (ci_at_ci_upd _ _ _ j _ Hu). rewrite Hci1.
    destruct (decide (j = ci m)) as [->|].
    - rewrite <- Hci1, Hc2. done.
    - unfold ci_at. st_simpl. by rewrite Hcb1. }
  exists (set_arena_idx (l_ai L) m2).
  exists (set_arena_idx (l_ai L) (set_cibase (cibase m) (set_arena_idx (l_ai L) m2))).
  cbv zeta. split.
  { unfold L_OP_ONERR. rewrite Hc. cbn [mbind option_bind]. fold m1.
    rewrite Hl. cbn [mbind option_bind]. rewrite Hu. done. }
  split; [done|]. split.
  { unfold ci_at in *. st_simpl. specialize (Hat2 (ci m)). by rewrite decide_True in Hat2. }
  split.
  { intros j Hj. unfold ci_at in *. st_simpl. specialize (Hat2 j). by rewrite decide_False in Hat2. }
  split.
  { unfold m2. st_simpl. unfold l, zlookup. rewrite decide_True by lia.
    apply list_lookup_insert_eq. lia. }
  split.
  { intros k Hk. unfold m2. st_simpl. rewrite <- Hkeep1 by done. unfold l, zlookup.
    rewrite !decide_True by lia. apply list_lookup_insert_ne. lia. }
  split.
  { unfold m2. st_simpl. unfold l. rewrite length_insert. done. }
  split; [done|]. split; [|done].
  unfold L_OP_POPERR.
  assert (Hc3 : ci_at (set_arena_idx (l_ai L) m2) (ci (set_arena_idx (l_ai L) m2)) =
                Some (with_ridx (ci_ridx c + 1) c)).
  { assert (Hci2 : ci m2 = ci m) by (unfold m2; st_simpl; done).
    unfold ci_at in *. st_simpl. specialize (Hat2 (ci m)). rewrite decide_True in Hat2 by done.
    rewrite Hci2. done. }
  rewrite Hc3. cbn [mbind option_bind].
  rewrite (ci_upd_Some _ _ _ _ Hc3). cbn [mbind option_bind]. unfold NEXT.
  do 3 f_equal. unfold m2. st_simpl.
  f_equal.
  rewrite list_insert_insert_eq.
  replace (with_ridx (ci_ridx (with_ridx (ci_ridx c + 1) c) - 1) (with_ridx (ci_ridx c + 1) c))
    with c by (destruct c; unfold with_ridx; simpl; f_equal; lia).
  rewrite Hcb1, Hci1. apply list_insert_id.
  apply zlookup_Some in Hc. tauto.
Qed.

End Rescue.

Lemma set_ci_same (m : mrb_state) : set_ci (ci m) m = m.
Proof. by destruct m. Qed.

Lemma raise_unwind_spec (fuel : nat) :
  forall (m : mrb_state) (j : Z) (c : mrb_callinfo),
  (Z.to_nat (ci m) <= S fuel)%nat ->
  0 <= j <= ci m -> 0 < ci m ->
  no_handler_above m j -> unwind_ends_at m j c ->
  raise_unwind fuel m =
    Some (set_ci j m, if decide (j = 0 /\ ci_ridx c = 0) then true else false).
Proof.
  induction fuel as [|fuel IH]; intros m j c Hfuel Hj Hpos Habove [Hc Hend].
  - (* at most one frame above the base *)
    assert (Hci : ci m = 1) by lia.
    destruct (decide (j = ci m)) as [->|Hne].
    + destruct Hend as [?|(c' & Hc' & Hr)]; [lia|].
      simpl. rewrite Hc. cbn [mbind option_bind]. rewrite Hc'. cbn [mbind option_bind].
      rewrite decide_False by done. rewrite set_ci_same.
      rewrite decide_False by lia. done.
    + assert (j = 0) by lia. subst j.
      destruct (Habove (ci m)) as (ck & ck' & Hk & Hk' & Hr); [lia|].
      simpl. rewrite Hk. cbn [mbind option_bind]. rewrite Hk'. cbn [mbind option_bind].
      rewrite decide_True by done. unfold cipop. st_simpl.
      rewrite decide_True by lia.
      unfold ci_at in *. st_simpl. replace (ci m - 1) with 0 by lia.
      rewrite Hc. cbn [mbind option_bind].
      destruct (decide (ci_ridx c = 0)).
      * rewrite decide_True by done. done.
      * rewrite decide_False by tauto. done.
  - destruct (decide (j = ci m)) as [->|Hne].
    + destruct Hend as [?|(c' & Hc' & Hr)]; [lia|].
      simpl. rewrite Hc. cbn [mbind option_bind]. rewrite Hc'. cbn [mbind option_bind].
      rewrite decide_False by done. rewrite set_ci_same.
      rewrite decide_False by lia. done.
    + destruct (Habove (ci m)) as (ck & ck' & Hk & Hk' & Hr); [lia|].
      simpl. rewrite Hk. cbn [mbind option_bind]. rewrite Hk'. cbn [mbind option_bind].
      rewrite decide_True by done. unfold cipop. st_simpl.
      destruct (decide (ci m - 1 = 0)) as [H0|Hn0].
      * assert (j = 0) by lia. subst j.
        unfold ci_at in *. st_simpl. rewrite H0, Hc. cbn [mbind option_bind].
        destruct (decide (ci_ridx c = 0)).
        -- rewrite decide_True by done. done.
        -- rewrite decide_False by tauto. done.
      * rewrite (IH (set_ci (ci m - 1) m) j c); st_simpl; try lia; try done.
        -- intros k Hk2. st_simpl. apply (Habove k). lia.
Qed.

(** L_RAISE entered above the base frame pops every frame that shares its
    [ridx] with the frame below and resumes in the first frame that does
    not (or in the base frame, when its [ridx] is not 0): [ridx] of that
    frame goes down by one, [pc] is the handler saved there, [irep] is that
    of the frame's procedure, and the stack pointer is [stbase] plus the
    frame's [stackidx].  The exception slot stays set. *)
Theorem raise_resumes_nearest_handler (m : mrb_state) (L : locals) (j : Z)
    (c : mrb_callinfo) (pr : RProc) (ir : mrb_irep) (pc : code_ptr) :
  0 <= j <= ci m -> 0 < ci m ->
  no_handler_above m j -> unwind_ends_at m j c ->
  (j = 0 -> ci_ridx c <> 0) ->
  proc_at m (ci_proc c) = Some pr ->
  irep_at m (proc_body pr) = Some ir ->
  zlookup (rescue m) (ci_ridx c - 1) = Some pc ->
  exists m',
    L_RAISE m L =
      Some (Dispatch m' (upd_pc pc (upd_regs (stack m') (upd_irep (proc_body pr) L)))) /\
    ci m' = j /\
    ci_at m' j = Some (with_ridx (ci_ridx c - 1) c) /\
    (forall k, k <> j -> ci_at m' k = ci_at m k) /\
    stack m' = ptr_add (stbase m) (ci_stackidx c) /\
    exc m' = exc m /\ mem m' = mem m /\ heap m' = heap m /\ rescue m' = rescue m.
Proof.
  intros Hj Hpos Habove Hend Hbase Hpr Hir Hpc.
  pose proof Hend as [Hc _].
  unfold L_RAISE. rewrite decide_False by lia.
  rewrite (raise_unwind_spec _ m j c) by (try done; lia).
  rewrite decide_False by (intros [-> ?]; by apply Hbase).
  assert (Hcj : ci_at (set_ci j m) (ci (set_ci j m)) = Some c) by exact Hc.
  rewrite Hcj. cbn [mbind option_bind].
  change (proc_at (set_ci j m) (ci_proc c)) with (proc_at m (ci_proc c)). rewrite Hpr.
  cbn [mbind option_bind].
  change (irep_at (set_ci j m) (proc_body pr)) with (irep_at m (proc_body pr)). rewrite Hir.
  cbn [mbind option_bind].
  rewrite (ci_upd_Some _ _ _ _ Hcj). cbn [mbind option_bind]. st_simpl.
  rewrite Hpc. cbn [mbind option_bind]. unfold JUMP.
  exists (set_stack (ptr_add (stbase m) (ci_stackidx c))
            (set_cibase (<[Z.to_nat j := with_ridx (ci_ridx c - 1) c]> (cibase m))
               (set_ci j m))).
  split; [reflexivity|].
  st_simpl. split; [done|]. split.
  { unfold ci_at, zlookup in *. st_simpl. rewrite decide_True by lia.
    apply list_lookup_insert_eq. case_decide; [|done]. apply lookup_lt_Some in Hc. lia. }
  split; [|done].
  intros k Hk. unfold ci_at, zlookup. st_simpl. case_decide; [|done].
  apply list_lookup_insert_ne. lia.
Qed.

(** When no frame down to the base has a handler and the base frame's
    [ridx] is 0, L_RAISE pops every frame and leaves through L_STOP:
    [mrb_run] returns nil with the exception slot still set. *)
Theorem raise_without_handler_stops (m : mrb_state) (L : locals) (c : mrb_callinfo) :
  0 < ci m ->
  no_handler_above m 0 ->
  ci_at m 0 = Some c -> ci_ridx c = 0 ->
  L_RAISE m L = Some (Returned (set_jmp (l_prev_jmp L) (set_ci 0 m)) mrb_nil_value).
Proof.
  intros Hpos Habove Hc Hr.
  unfold L_RAISE. rewrite decide_False by lia.
  rewrite (raise_unwind_spec _ m 0 c); try done; try lia.
  - by rewrite decide_True.
  - split; [done|by left].
Qed.

Section Return.
Variable host : mrb_host.
Variable run : mrb_state -> Z -> mrb_value -> option (mrb_state * mrb_value).

Lemma promote_env_none (m : mrb_state) (c : mrb_callinfo) :
  ci_at m (ci m) = Some c -> ci_env c = 0 -> promote_env host m = Some m.
Proof.
  intros Hc He. unfold promote_env. rewrite Hc. cbn [mbind option_bind].
  rewrite decide_False by lia. done.
Qed.

(** What L_RETURN does once the switch on B has settled on frame [t] as
    the frame to leave. *)
Lemma return_to_spec (m : mrb_state) (L : locals) (a b t : Z)
    (c ct c' : mrb_callinfo) (pr : RProc) (ir : mrb_irep) (v old : mrb_value) :
  exc m = 0 ->
  ci_at m (ci m) = Some c -> ci_env c = 0 -> reg m L a = Some v ->
  return_target host m L b = Some (inr (set_ci t m, t)) ->
  ci_at m t = Some ct -> 0 <= ci_acc ct ->
  ci_at m (t - 1) = Some c' -> ci_eidx c <= ci_eidx c' ->
  proc_at m (ci_proc c') = Some pr -> irep_at m (proc_body pr) = Some ir ->
  load (mem m) (ptr_add (ptr_add (stbase m) (ci_stackidx ct)) (ci_acc ct)) = Some old ->
  exists m',
    L_RETURN host run m L a b =
      Some (Dispatch m' (upd_pc (ci_pc ct) (upd_regs (stack m')
              (upd_irep (proc_body pr) (upd_proc (ci_proc c') L))))) /\
    ci m' = t - 1 /\ cibase m' = cibase m /\
    stack m' = ptr_add (stbase m) (ci_stackidx ct) /\
    load (mem m') (ptr_add (stack m') (ci_acc ct)) = Some v /\
    (forall q, q <> ptr_add (stack m') (ci_acc ct) -> load (mem m') q = load (mem m) q) /\
    heap m' = heap m /\ exc m' = 0 /\ stbase m' = stbase m /\ stend m' = stend m.
Proof.
  intros Hexc Hc Henv Hv Htarget Hct Hacc Hc' Heidx Hpr Hir Hold.
  destruct (store_is_Some (mem m) _ v old Hold) as [M1 HM1].
  exists (set_mem M1 (set_stack (ptr_add (stbase m) (ci_stackidx ct)) (set_ci (t - 1) m))).
  split.
  { unfold L_RETURN. rewrite (promote_env_none m c Hc Henv). cbn [mbind option_bind].
    unfold leave_frame. rewrite decide_False by lia.
    rewrite Hc. cbn [mbind option_bind]. rewrite Hv. cbn [mbind option_bind].
    rewrite Htarget. unfold cipop.
    change (ci_at (set_ci (ci (set_ci t m) - 1) (set_ci t m)) t) with (ci_at m t).
    rewrite Hct. cbn [mbind option_bind].
    assert (Hre : forall fuel, return_ecalls host run fuel
              (set_stack (ptr_add (stbase (set_ci (ci (set_ci t m) - 1) (set_ci t m)))
                                  (ci_stackidx ct))
                 (set_ci (ci (set_ci t m) - 1) (set_ci t m))) (ci_eidx c) =
              Some (set_stack (ptr_add (stbase m) (ci_stackidx ct)) (set_ci (t - 1) m))).
    { intros fuel. destruct fuel; simpl; unfold ci_at in *; st_simpl; rewrite Hc';
        cbn [mbind option_bind]; rewrite decide_False by lia; done. }
    rewrite Hre. cbn [mbind option_bind]. rewrite decide_False by lia.
    unfold ci_at, proc_at, obj_at, irep_at in *. st_simpl. rewrite Hc'.
    cbn [mbind option_bind]. rewrite Hpr. cbn [mbind option_bind].
    rewrite Hir. cbn [mbind option_bind]. rewrite HM1. cbn [mbind option_bind].
    done. }
  st_simpl. split; [done|]. split; [done|]. split; [done|]. split.
  { rewrite (load_store _ _ _ _ _ HM1). by rewrite decide_True. }
  split; [|done].
  intros q Hq. rewrite (load_store _ _ _ _ _ HM1). by rewrite decide_False.
Qed.

Lemma return_normal_spec (m : mrb_state) (L : locals) (a : Z)
    (c c' : mrb_callinfo) (pr : RProc) (ir : mrb_irep) (v old : mrb_value) :
  0 < ci m -> exc m = 0 ->
  ci_at m (ci m) = Some c -> ci_env c = 0 -> 0 <= ci_acc c ->
  ci_at m (ci m - 1) = Some c' -> ci_eidx c <= ci_eidx c' ->
  reg m L a = Some v ->
  proc_at m (ci_proc c') = Some pr -> irep_at m (proc_body pr) = Some ir ->
  load (mem m) (ptr_add (ptr_add (stbase m) (ci_stackidx c)) (ci_acc c)) = Some old ->
  exists m',
    L_RETURN host run m L a OP_R_NORMAL =
      Some (Dispatch m' (upd_pc (ci_pc c) (upd_regs (stack m')
              (upd_irep (proc_body pr) (upd_proc (ci_proc c') L))))) /\
    ci m' = ci m - 1 /\ cibase m' = cibase m /\
    stack m' = ptr_add (stbase m) (ci_stackidx c) /\
    load (mem m') (ptr_add (stack m') (ci_acc c)) = Some v /\
    (forall q, q <> ptr_add (stack m') (ci_acc c) -> load (mem m') q = load (mem m) q) /\
    heap m' = heap m /\ exc m' = 0 /\ stbase m' = stbase m /\ stend m' = stend m.
Proof.
  intros Hpos Hexc Hc Henv Hacc Hc' Heidx Hv Hpr Hir Hold.
  eapply return_to_spec; try eassumption.
  unfold return_target. rewrite decide_True by done. by rewrite set_ci_same.
Qed.

(** OP_RETURN A with B = break or B = return, run by a block whose
    environment is still attached to a live frame ([cioff >= 0]): break
    leaves the frame above the one the environment belongs to, return
    leaves that frame itself.  The frames above are dropped with it, the
    stack pointer goes to [stbase + stackidx] of the frame left, R(A) is
    stored at its [acc], and execution resumes at the [pc] it had saved. *)
Theorem return_break_leaves_home_call (m : mrb_state) (L : locals) (a b : Z)
    (c ct c' : mrb_callinfo) (blk_pr pr : RProc) (e : REnv) (ir : mrb_irep)
    (v old : mrb_value) :
  exc m = 0 ->
  ci_at m (ci m) = Some c -> ci_env c = 0 -> reg m L a = Some v ->
  proc_at m (l_proc L) = Some blk_pr -> env_at m (proc_env blk_pr) = Some e ->
  0 <= env_cioff e ->
  b = OP_R_BREAK \/ b = OP_R_RETURN ->
  let t := if decide (b = OP_R_BREAK) then env_cioff e + 1 else env_cioff e in
  ci_at m t = Some ct -> 0 <= ci_acc ct ->
  ci_at m (t - 1) = Some c' -> ci_eidx c <= ci_eidx c' ->
  proc_at m (ci_proc c') = Some pr -> irep_at m (proc_body pr) = Some ir ->
  load (mem m) (ptr_add (ptr_add (stbase m) (ci_stackidx ct)) (ci_acc ct)) = Some old ->
  exists m',
    L_RETURN host run m L a b =
      Some (Dispatch m' (upd_pc (ci_pc ct) (upd_regs (stack m')
              (upd_irep (proc_body pr) (upd_proc (ci_proc c') L))))) /\
    ci m' = t - 1 /\ cibase m' = cibase m /\
    stack m' = ptr_add (stbase m) (ci_stackidx ct) /\
    load (mem m') (ptr_add (stack m') (ci_acc ct)) = Some v /\
    (forall q, q <> ptr_add (stack m') (ci_acc ct) -> load (mem m') q = load (mem m) q) /\
    heap m' = heap m /\ exc m' = 0.
Proof.
  intros Hexc Hc Henv Hv Hbp He Hlive Hb t Hct Hacc Hc' Heidx Hpr Hir Hold.
  destruct (return_to_spec m L a b t c ct c' pr ir v old) as
    (m' & H1 & H2 & H3 & H4 & H5 & H6 & H7 & H8 & _); try done.
  { unfold return_target, t. destruct Hb as [-> | ->].
    - rewrite decide_False by done. rewrite decide_True by done.
      rewrite Hbp. cbn [mbind option_bind]. rewrite He. cbn [mbind option_bind].
      rewrite decide_False by lia. rewrite decide_True by done. done.
    - rewrite decide_False by done. rewrite decide_False by done.
      rewrite decide_True by done.
      rewrite Hbp. cbn [mbind option_bind]. rewrite He. cbn [mbind option_bind].
      rewrite decide_False by lia. rewrite decide_False by done. done. }
  exists m'. done.
Qed.

(** OP_RETURN A with B = break or B = return, run by a block whose
    environment has been detached ([cioff < 0], the frame it belonged to
    has returned): no frame is left; a LocalJumpError with the message
    "unexpected break" or "unexpected return" is put in the exception slot
    and L_RAISE is entered. *)
Theorem return_from_dead_scope (m : mrb_state) (L : locals) (a b : Z)
    (c : mrb_callinfo) (blk_pr : RProc) (e : REnv) (v : mrb_value) :
  exc m = 0 ->
  ci_at m (ci m) = Some c -> ci_env c = 0 -> reg m L a = Some v ->
  proc_at m (l_proc L) = Some blk_pr -> env_at m (proc_env blk_pr) = Some e ->
  env_cioff e < 0 ->
  b = OP_R_BREAK \/ b = OP_R_RETURN ->
  let kind := if decide (b = OP_R_BREAK) then "break"%string else "return"%string in
  exists mb,
    L_RETURN host run m L a b = L_RAISE mb L /\
    exc mb <> 0 /\
    obj_at mb (exc mb) =
      Some (O_exception (E_LOCALJUMP_ERROR host) ("unexpected " ++ kind)) /\
    mb = set_exc (exc mb) (set_heap (heap mb) m).
Proof.
  intros Hexc Hc Henv Hv Hbp He Hdead Hb kind.
  assert (Hlj : forall k : string, (String.length k <= 200)%nat ->
    exists mb, localjump_error host m k = mb /\ exc mb <> 0 /\
      obj_at mb (exc mb) = Some (O_exception (E_LOCALJUMP_ERROR host) ("unexpected " ++ k)) /\
      mb = set_exc (exc mb) (set_heap (heap mb) m)).
  { intros k Hk. unfold localjump_error, mrb_exc_new.
    destruct (obj_alloc _ m) as [m1 p] eqn:Ealloc.
    destruct (obj_alloc_spec _ _ _ _ Ealloc) as (Hp & Hat & _ & Hm1).
    eexists. split; [reflexivity|]. st_simpl. cbn [mrb_object value].
    split; [lia|]. split.
    - unfold obj_at in *. st_simpl. rewrite Hat. rewrite snprintf256_short; [done|].
      simpl. lia.
    - rewrite Hm1 at 1. done. }
  destruct (Hlj kind) as (mb & Hmb & Hnz & Hobj & Hsame).
  { unfold kind. case_decide; simpl; lia. }
  exists mb. split; [|done].
  unfold L_RETURN. rewrite (promote_env_none m c Hc Henv). cbn [mbind option_bind].
  unfold leave_frame. rewrite decide_False by lia.
  rewrite Hc. cbn [mbind option_bind]. rewrite Hv. cbn [mbind option_bind].
  unfold return_target, kind in *. destruct Hb as [-> | ->].
  - rewrite decide_False by done. rewrite decide_True by done.
    rewrite Hbp. cbn [mbind option_bind]. rewrite He. cbn [mbind option_bind].
    rewrite decide_True by lia. rewrite decide_True in Hmb by done. by rewrite Hmb.
  - rewrite decide_False by done. rewrite decide_False by done.
    rewrite decide_True by done.
    rewrite Hbp. cbn [mbind option_bind]. rewrite He. cbn [mbind option_bind].
    rewrite decide_True by lia. rewrite decide_False in Hmb by done. by rewrite Hmb.
Qed.

End Return.

Lemma ci_upd_same (m m' : mrb_state) (k : Z) (f : mrb_callinfo -> mrb_callinfo) :
  ci_upd k f m = Some m' ->
  stack m' = stack m /\ stbase m' = stbase m /\ stend m' = stend m /\
  heap m' = heap m /\ mem m' = mem m /\ exc m' = exc m /\
  ci m' = ci m /\ ciend m' = ciend m /\ irep m' = irep m /\
  length (cibase m') = length (cibase m).
Proof.
  intros (c & Hc & ->)%ci_upd_frame. st_simpl. rewrite length_insert. done.
Qed.

Lemma ci_upd_ex (m : mrb_state) (k : Z) (f : mrb_callinfo -> mrb_callinfo) (c : mrb_callinfo) :
  ci_at m k = Some c ->
  exists m', ci_upd k f m = Some m' /\ ci_at m' k = Some (f c) /\
    (forall j, j <> k -> ci_at m' j = ci_at m j).
Proof.
  intros Hc. eexists. split; [by apply ci_upd_Some|].
  pose proof (zlookup_lt _ _ _ Hc) as Hk.
  unfold ci_at, zlookup in *. st_simpl. split.
  - rewrite decide_True by lia. apply list_lookup_insert_eq. lia.
  - intros j Hj. destruct (decide (0 <= j)); [|done]. apply list_lookup_insert_ne. lia.
Qed.

Section Frames.
Variable host : mrb_host.

Lemma cipush_frames (m : mrb_state) (below : mrb_callinfo) :
  frames_ok m -> ci_at m (ci m) = Some below ->
  exists (fresh : mrb_callinfo) (m' : mrb_state),
    cipush host m = Some m' /\
    ci m' = ci m + 1 /\ frames_ok m' /\
    (forall j, 0 <= j <= ci m -> ci_at m' j = ci_at m j) /\
    ci_at m' (ci m + 1) = Some fresh /\
    ci_nregs fresh = ci_nregs below /\ ci_ridx fresh = ci_ridx below /\
    ci_eidx fresh = ci_eidx below /\ ci_env fresh = 0.
Proof.
  intros (Hci & Hend & Hcap) Hbelow.
  unfold cipush. rewrite Hbelow.
  set (m1 := if decide (ci m + 1 = ciend m) then _ else m).
  assert (H1 : ci m1 = ci m /\ ci m1 + 1 < ciend m1 /\
               ciend m1 = Z.of_nat (length (cibase m1)) /\
               (forall j, 0 <= j <= ci m -> ci_at m1 j = ci_at m j) /\ 3 <= ciend m1).
  { subst m1. case_decide as Hfull; st_simpl.
    - rewrite length_realloc_callinfo. repeat split; try lia.
      intros j Hj. unfold ci_at, zlookup in *. st_simpl.
      destruct (decide (0 <= j)); [|done].
      rewrite lookup_realloc_callinfo by lia. done.
    - repeat split; try lia. }
  destruct H1 as (Hc1 & Hlt1 & Hend1 & Hb1 & Hcap1).
  assert (Hs : exists slot, ci_at (set_ci (ci m1 + 1) m1) (ci m1 + 1) = Some slot).
  { unfold ci_at, zlookup. st_simpl. rewrite decide_True by lia.
    apply lookup_lt_is_Some. lia. }
  destruct Hs as [slot Hslot].
  cbv zeta.
  destruct (ci_upd_ex (set_ci (ci m1 + 1) m1) (ci m1 + 1)
              (fun f => with_env 0 (with_ridx (ci_ridx below) (with_eidx (ci_eidx below)
                          (with_nregs (ci_nregs below) f)))) slot Hslot)
    as (m' & Hu & Hk & Hoth).
  destruct (ci_upd_same _ _ _ _ Hu) as (_ & _ & _ & _ & _ & _ & Hci' & Hend' & _ & Hlen').
  st_simpl.
  eexists _, m'. split; [exact Hu|].
  split; [lia|]. split.
  { unfold frames_ok. rewrite Hci', Hend', Hlen'. lia. }
  split.
  { intros j Hj. rewrite Hoth by lia. unfold ci_at in *. st_simpl. by apply Hb1. }
  rewrite <- Hc1. split; [exact Hk|]. done.
Qed.

End Frames.

Section SendEnter.
Variable host : mrb_host.

Lemma send_bytecode_spec (m : mrb_state) (L : locals) (a b n : Z) (cells : list mrb_value)
    (c0 : mrb_callinfo) (mid : mrb_sym) (recv : mrb_value) (mth : Z) (pr : RProc)
    (ir : mrb_irep) :
  frames_ok m -> stack_ok m cells -> l_regs L = stack m ->
  ci_at m (ci m) = Some c0 ->
  sym_at m L b = Some mid -> reg m L a = Some recv ->
  mrb_method_search_vm host m (mrb_class host m recv) mid = mth -> mth <> 0 ->
  proc_at m mth = Some pr -> proc_cfunc pr = false ->
  irep_at m (proc_body pr) = Some ir ->
  0 <= a -> 0 <= n -> n <> CALL_MAXARGS -> 0 <= ir_nregs ir ->
  exists (m' : mrb_state) (cells' : list mrb_value),
    L_OP_SEND host m L a b n =
      Some (Dispatch m' (upd_pc (CPtr (proc_body pr) 0) (upd_regs (stack m')
              (upd_irep (proc_body pr) (upd_proc mth L))))) /\
    ci m' = ci m + 1 /\ frames_ok m' /\ stack_ok m' cells' /\
    (forall j, 0 <= j <= ci m -> ci_at m' j = ci_at m j) /\
    ci_at m' (ci m + 1) =
      Some (MkCallinfo mid mth (ptr_diff (stack m) (stbase m)) (ir_nregs ir) n
              (code_add (l_pc L) 1) a (proc_target_class pr)
              (ci_ridx c0) (ci_eidx c0) 0) /\
    off (stack m') = off (stack m) + a /\
    off (stack m') + ir_nregs ir <= off (stend m') /\
    (length cells <= length cells')%nat /\
    (forall j : nat, (j < length cells)%nat ->
       ~ (off (stack m) + a + (n + 2) <= Z.of_nat j < off (stack m) + a + ir_nregs ir) ->
       cells' !! j = cells !! j) /\
    (forall j : nat,
       off (stack m) + a + (n + 2) <= Z.of_nat j < off (stack m) + a + ir_nregs ir ->
       cells' !! j = Some zero_value) /\
    heap m' = heap m /\ exc m' = exc m /\ irep m' = irep m.
Proof.
  intros Hfr Hok Hregs Hc0 Hsym Hrecv Hsearch Hfound Hpr Hbc Hir Ha Hn Hn127 Hnregs.
  destruct (cipush_frames host m c0 Hfr Hc0)
    as (fresh & m2 & Hpush & Hci2 & Hfr2 & Hlow2 & Hfresh & Hf1 & Hf2 & Hf3 & Hf4).
  destruct (cipush_same host _ _ Hpush)
    as (Hst2 & Hsb2 & Hse2 & Hheap2 & Hmem2 & Hexc2 & _ & Hirep2 & _).
  set (k := ci m + 1) in *.
  set (F1 := fun f => with_pc (code_add (l_pc L) 1) (with_target_class (proc_target_class pr)
                (with_argc (if decide (n = CALL_MAXARGS) then -1 else n)
                  (with_stackidx (ptr_diff (stack m2) (stbase m2))
                    (with_proc mth (with_mid mid f)))))).
  destruct (ci_upd_ex m2 k F1 fresh Hfresh) as (m3 & Hu3 & Hk3 & Hoth3).
  destruct (ci_upd_same _ _ _ _ Hu3)
    as (Hst3 & Hsb3 & Hse3 & Hheap3 & Hmem3 & Hexc3 & Hci3 & Hend3 & Hirep3 & Hlen3).
  set (m4 := set_stack (ptr_add (stack m3) a) m3).
  assert (Hk4 : ci_at m4 k = Some (F1 fresh)) by exact Hk3.
  destruct (ci_upd_ex m4 k (with_acc a) _ Hk4) as (m5 & Hu5 & Hk5 & Hoth5).
  destruct (ci_upd_same _ _ _ _ Hu5)
    as (Hst5 & Hsb5 & Hse5 & Hheap5 & Hmem5 & Hexc5 & Hci5 & Hend5 & Hirep5 & Hlen5).
  assert (Hci5' : ci m5 = k) by (rewrite Hci5; unfold m4; st_simpl; lia).
  destruct (ci_upd_ex m5 (ci m5) (with_proc mth) _ ltac:(rewrite Hci5'; exact Hk5))
    as (m6 & Hu6 & Hk6 & Hoth6).
  destruct (ci_upd_same _ _ _ _ Hu6)
    as (Hst6 & Hsb6 & Hse6 & Hheap6 & Hmem6 & Hexc6 & Hci6 & Hend6 & Hirep6 & Hlen6).
  rewrite Hci5' in Hk6, Hoth6.
  destruct (ci_upd_ex m6 k (with_nregs (ir_nregs ir)) _ Hk6) as (m7 & Hu7 & Hk7 & Hoth7).
  destruct (ci_upd_same _ _ _ _ Hu7)
    as (Hst7 & Hsb7 & Hse7 & Hheap7 & Hmem7 & Hexc7 & Hci7 & Hend7 & Hirep7 & Hlen7).
  (* the shifted window is inside the buffer *)
  pose proof Hok as (Hb & Hnn & Hb0 & Hsk & Hsend & Hend & Hrng).
  assert (Hin : off (stack m) + a < Z.of_nat (length cells)).
  { unfold reg in Hrecv. rewrite Hregs in Hrecv.
    destruct (load_is_Some_block (mem m) (ptr_add (stack m) a)) as (cs & Hcs & Hlt);
      [by eexists|].
    st_simpl. rewrite Hsk, Hb in Hcs. simplify_eq. lia. }
  assert (Hstack7 : stack m7 = ptr_add (stack m) a).
  { rewrite Hst7, Hst6, Hst5. unfold m4. st_simpl. by rewrite Hst3, Hst2. }
  assert (Hok7 : stack_ok m7 cells).
  { unfold stack_ok. rewrite Hstack7, Hmem7, Hmem6, Hmem5, Hsb7, Hsb6, Hsb5, Hse7, Hse6, Hse5.
    unfold m4. st_simpl. rewrite Hmem3, Hmem2, Hsb3, Hsb2, Hse3, Hse2.
    repeat split; try done; lia. }
  destruct (stack_extend_spec host m7 cells (ir_nregs ir) (n + 2) Hok7)
    as (m8 & cells8 & Hext & Hok8 & Hoff8 & Hroom8 & Hle8 & Hkeep8 & Hzero8 & _ & _ & Hm8 & _);
    [lia|done|].
  assert (Hfields8 : cibase m8 = cibase m7 /\ ci m8 = ci m7 /\ ciend m8 = ciend m7 /\
                     heap m8 = heap m7 /\ exc m8 = exc m7 /\ irep m8 = irep m7).
  { rewrite Hm8. done. }
  destruct Hfields8 as (Hcb8 & Hci8 & Hend8 & Hheap8 & Hexc8 & Hirep8).
  exists m8, cells8. split.
  { unfold L_OP_SEND. rewrite Hsym. cbn [mbind option_bind]. rewrite Hrecv.
    cbn [mbind option_bind]. unfold method_lookup. cbv zeta. rewrite Hsearch.
    rewrite decide_False by done. rewrite Hpush. cbn [mbind option_bind].
    unfold proc_at, obj_at in *. rewrite Hheap2, Hpr. cbn [mbind option_bind].
    rewrite Hci2. fold k. fold F1. rewrite Hu3. cbn [mbind option_bind].
    rewrite Hbc. fold m4. rewrite Hu5. cbn [mbind option_bind].
    rewrite Hu6. cbn [mbind option_bind].
    unfold irep_at in *. rewrite Hirep6, Hirep5. unfold m4 at 1. st_simpl.
    rewrite Hirep3, Hirep2, Hir. cbn [mbind option_bind].
    rewrite Hu7. cbn [mbind option_bind]. rewrite Hk7. cbn [mbind option_bind].
    assert (Hargc : ci_argc (with_nregs (ir_nregs ir) (with_proc mth (with_acc a (F1 fresh)))) = n).
    { unfold F1. rewrite (decide_False (P := n = CALL_MAXARGS)) by done. reflexivity. }
    rewrite Hargc. unfold extend_for_callee.
    rewrite decide_False by lia. rewrite Hext. cbn [mbind option_bind]. done. }
  split.
  { rewrite Hci8, Hci7, Hci6, Hci5'. done. }
  split.
  { unfold frames_ok in *. rewrite Hci8, Hend8, Hcb8, Hci7, Hend7, Hlen7, Hci6, Hend6, Hlen6,
      Hci5', Hend5, Hlen5. unfold m4. st_simpl. rewrite Hend3, Hlen3. unfold k. lia. }
  split; [done|]. split.
  { intros j Hj. unfold ci_at in *. rewrite Hcb8.
    rewrite Hoth7, Hoth6, Hoth5 by (unfold k; lia). unfold m4. st_simpl.
    rewrite Hoth3 by (unfold k; lia). by apply Hlow2. }
  split.
  { unfold ci_at in *. rewrite Hcb8, Hk7. f_equal. unfold F1.
    rewrite decide_False by done. rewrite Hst2, Hsb2.
    destruct fresh. cbn in Hf1, Hf2, Hf3, Hf4. subst.
    reflexivity. }
  split.
  { rewrite Hoff8, Hstack7. done. }
  split; [done|]. split; [done|].
  rewrite Hstack7 in Hkeep8, Hzero8. st_simpl.
  split.
  { intros j Hj Hout. apply Hkeep8; [done|lia]. }
  split.
  { intros j Hj. apply Hzero8. lia. }
  rewrite Hheap8, Hheap7, Hheap6, Hheap5, Hexc8, Hexc7, Hexc6, Hexc5, Hirep8, Hirep7, Hirep6, Hirep5.
  unfold m4. st_simpl. rewrite Hheap3, Hheap2, Hexc3, Hexc2, Hirep3, Hirep2. done.
Qed.

End SendEnter.

Lemma load_stack_cell (m : mrb_state) (cells : list mrb_value) (k : Z) :
  stack_ok m cells -> 0 <= off (stack m) + k ->
  load (mem m) (ptr_add (stack m) k) = cells !! Z.to_nat (off (stack m) + k).
Proof.
  intros (Hb & Hnn & Hb0 & Hsk & Hsend & Hend & Hrng) Hk.
  rewrite load_block. st_simpl. rewrite Hsk, Hb. unfold zlookup.
  by rewrite decide_True by lia.
Qed.

Section RoundTrip.
Variable host : mrb_host.
Variable run : mrb_state -> Z -> mrb_value -> option (mrb_state * mrb_value).

(** A SEND whose callee returns at once: OP_SEND A B C to a bytecode
    method whose first instruction is OP_RETURN R, normal (R one of the
    callee's receiver, argument or block registers).  After the two
    instructions the caller is current again, the stack pointer is at the
    offset it had, also when the call moved the stack to a new buffer, the
    caller's frame record is as it was, [pc] is the instruction after the
    SEND, and R(A) holds what the callee returned; every other register of
    the caller reads as before, except R(A+C+2) up to R(A+nregs-1), which
    the call has cleared. *)
Theorem send_then_return (m : mrb_state) (L : locals) (a b n ra : Z)
    (cells : list mrb_value) (c0 : mrb_callinfo) (mid : mrb_sym) (recv v : mrb_value)
    (mth : Z) (pr pr0 : RProc) (ir ir0 : mrb_irep) :
  frames_ok m -> stack_ok m cells -> l_regs L = stack m -> exc m = 0 ->
  ci_at m (ci m) = Some c0 ->
  proc_at m (ci_proc c0) = Some pr0 -> irep_at m (proc_body pr0) = Some ir0 ->
  fetch m (l_pc L) = Some (OP_SEND a b n) ->
  sym_at m L b = Some mid -> reg m L a = Some recv ->
  mrb_method_search_vm host m (mrb_class host m recv) mid = mth -> mth <> 0 ->
  proc_at m mth = Some pr -> proc_cfunc pr = false ->
  irep_at m (proc_body pr) = Some ir ->
  zlookup (ir_iseq ir) 0 = Some (OP_RETURN ra OP_R_NORMAL) ->
  0 <= a -> 0 <= n -> n <> CALL_MAXARGS ->
  0 <= ra < n + 2 -> ra < ir_nregs ir ->
  reg m L (a + ra) = Some v ->
  exists m1 L1 m2 L2,
    step host run m L = Some (Dispatch m1 L1) /\
    step host run m1 L1 = Some (Dispatch m2 L2) /\
    ci m2 = ci m /\ ci_at m2 (ci m) = Some c0 /\
    ptr_diff (stack m2) (stbase m2) = ptr_diff (stack m) (stbase m) /\
    l_regs L2 = stack m2 /\ l_pc L2 = code_add (l_pc L) 1 /\
    l_proc L2 = ci_proc c0 /\ l_irep L2 = proc_body pr0 /\
    reg m2 L2 a = Some v /\
    (forall k, 0 <= k -> k <> a -> ~ (a + (n + 2) <= k < a + ir_nregs ir) ->
       is_Some (reg m L k) -> reg m2 L2 k = reg m L k) /\
    exc m2 = 0 /\ heap m2 = heap m.
Proof.
  intros Hfr Hok Hregs Hexc Hc0 Hpr0 Hir0 Hfetch Hsym Hrecv Hsearch Hfound Hpr Hbc Hir
         Hret Ha Hn Hn127 Hra Hra2 Hv.
  destruct (send_bytecode_spec host m L a b n cells c0 mid recv mth pr ir)
    as (m1 & cells1 & Hsend & Hci1 & Hfr1 & Hok1 & Hlow1 & Hcallee & Hoff1 & Hroom1 &
        Hle1 & Hkeep1 & Hzero1 & Hheap1 & Hexc1 & Hirep1); try done; [lia|].
  pose proof Hok as (Hb & Hnn & Hb0 & Hsk & Hsnd & Hend & Hrng).
  pose proof Hok1 as (Hb1 & Hnn1 & Hb01 & Hsk1 & Hsnd1 & Hend1 & Hrng1).
  set (L1 := upd_pc (CPtr (proc_body pr) 0) (upd_regs (stack m1)
               (upd_irep (proc_body pr) (upd_proc mth L)))) in *.
  (* what the caller's registers hold, in terms of the cells *)
  assert (Hold : forall k, 0 <= k -> reg m L k = cells !! Z.to_nat (off (stack m) + k)).
  { intros k Hk. unfold reg. rewrite Hregs. apply load_stack_cell; [done|lia]. }
  assert (Hnew : forall k, 0 <= off (stack m1) + k ->
            load (mem m1) (ptr_add (stack m1) k) = cells1 !! Z.to_nat (off (stack m1) + k)).
  { intros k Hk. by apply load_stack_cell. }
  assert (Hvra : reg m1 L1 ra = Some v).
  { unfold reg, L1. cbn [l_regs upd_pc upd_regs]. rewrite Hnew by lia.
    rewrite Hold in Hv by lia. pose proof (lookup_lt_Some _ _ _ Hv) as Hlt.
    rewrite Hoff1. rewrite Hkeep1 by lia.
    rewrite <- Hv. f_equal. lia. }
  assert (Hrecv' : cells !! Z.to_nat (off (stack m) + a) = Some recv).
  { rewrite <- Hold by done. done. }
  pose proof (lookup_lt_Some _ _ _ Hrecv') as Hlta.
  set (callee := MkCallinfo mid mth (ptr_diff (stack m) (stbase m))
            (ir_nregs ir) n (code_add (l_pc L) 1) a (proc_target_class pr)
            (ci_ridx c0) (ci_eidx c0) 0) in *.
  assert (Hci1' : ci_at m1 (ci m1) = Some callee) by (rewrite Hci1; exact Hcallee).
  assert (Hc0' : ci_at m1 (ci m1 - 1) = Some c0).
  { rewrite Hci1. replace (ci m + 1 - 1) with (ci m) by lia.
    rewrite Hlow1 by (destruct Hfr; lia). done. }
  assert (Hpos1 : 0 < ci m1) by (destruct Hfr; lia).
  assert (Hexc1' : exc m1 = 0) by lia.
  assert (Hpr1 : proc_at m1 (ci_proc c0) = Some pr0).
  { unfold proc_at, obj_at in *. by rewrite Hheap1. }
  assert (Hir1 : irep_at m1 (proc_body pr0) = Some ir0).
  { unfold irep_at in *. by rewrite Hirep1. }
  assert (Htgt : load (mem m1) (ptr_add (ptr_add (stbase m1) (ci_stackidx callee)) (ci_acc callee))
                 = Some recv).
  { rewrite load_block. unfold callee. cbn [ci_stackidx ci_acc]. st_simpl.
    rewrite Hb1, Hb01. unfold zlookup, ptr_diff.
    rewrite decide_True by lia. rewrite Hkeep1 by lia. rewrite <- Hrecv'. f_equal. lia. }
  destruct (return_normal_spec host run m1 L1 ra callee c0 pr0 ir0 v recv
              Hpos1 Hexc1' Hci1' eq_refl Ha Hc0' (Z.le_refl _) Hvra Hpr1 Hir1 Htgt) as
    (m2 & Hreturn & Hci2 & Hcb2 & Hst2 & Hval2 & Hoth2 & Hheap2 & Hexc2 & Hsb2 & Hse2).
  unfold callee in Hreturn, Hst2, Hval2, Hoth2. cbn [ci_acc ci_eidx ci_stackidx ci_pc ci_env] in *.
  exists m1, L1, m2. eexists. split.
  { unfold step. rewrite Hfetch. cbn [mbind option_bind]. exact Hsend. }
  split.
  { unfold step. unfold fetch, L1. cbn [l_pc upd_pc]. unfold irep_at in *.
    rewrite Hirep1, Hir. cbn [mbind option_bind]. rewrite Hret.
    cbn [mbind option_bind]. exact Hreturn. }
  cbn [l_regs l_pc l_proc l_irep upd_pc upd_regs upd_irep upd_proc].
  split; [lia|]. split.
  { unfold ci_at in *. rewrite Hcb2. rewrite <- Hc0'. f_equal. lia. }
  split.
  { rewrite Hst2, Hsb2. unfold ptr_diff. st_simpl. lia. }
  split; [done|]. split; [done|]. split; [done|]. split; [done|].
  assert (Hst2' : stack m2 = ptr_add (stbase m1) (off (stack m) - off (stbase m))) by exact Hst2.
  split.
  { unfold reg. cbn [l_regs upd_regs upd_pc upd_irep upd_proc]. exact Hval2. }
  split.
  { intros k Hk Hka Hzr [w Hw]. unfold reg at 1. cbn [l_regs upd_regs upd_pc upd_irep upd_proc].
    rewrite Hoth2.
    - rewrite Hst2'. rewrite load_block. st_simpl. rewrite Hb1, Hb01. unfold zlookup.
      rewrite decide_True by lia.
      rewrite Hold in Hw by done. pose proof (lookup_lt_Some _ _ _ Hw) as Hltk.
      rewrite Hkeep1 by lia. rewrite Hold by done. f_equal. lia.
    - rewrite Hst2. unfold ptr_add. st_simpl. intros [= E]. lia. }
  split; [done|]. by rewrite Hheap2.
Qed.

End RoundTrip.

Lemma set_reg_spec (m : mrb_state) (L : locals) (k : Z) (v old : mrb_value) :
  reg m L k = Some old ->
  exists m', set_reg m L k v = Some m' /\
    m' = set_mem (mem m') m /\
    reg m' L k = Some v /\
    (forall q, q <> ptr_add (l_regs L) k -> load (mem m') q = load (mem m) q).
Proof.
  intros Hold. unfold reg in Hold.
  destruct (store_is_Some (mem m) _ v old Hold) as [M1 HM1].
  exists (set_mem M1 m). unfold set_reg, reg. rewrite HM1. split; [done|]. split; [done|].
  st_simpl. split.
  - rewrite (load_store _ _ _ _ _ HM1). by rewrite decide_True.
  - intros q Hq. rewrite (load_store _ _ _ _ _ HM1). by rewrite decide_False.
Qed.

Lemma reg_other (m m' : mrb_state) (L : locals) (k j : Z) :
  (forall q, q <> ptr_add (l_regs L) k -> load (mem m') q = load (mem m) q) ->
  j <> k -> reg m' L j = reg m L j.
Proof.
  intros H Hj. unfold reg. apply H. unfold ptr_add. intros [= E]. lia.
Qed.

Section Arith.
Variable host : mrb_host.
Variable more : mrb_host_more.

Lemma math_fixnums (op : math_op) (m : mrb_state) (L : locals) (a b c x y z : Z) :
  reg m L a = Some (mrb_fixnum_value x) ->
  reg m L (a + 1) = Some (mrb_fixnum_value y) ->
  int_math op x y = Some z ->
  exists m',
    OP_MATH host more op m L a b c =
      Some (Dispatch (set_arena_idx (l_ai L) m') (upd_pc (code_add (l_pc L) 1) L)) /\
    m' = set_mem (mem m') m /\
    reg m' L a = Some (mrb_fixnum_value z) /\
    (forall q, q <> ptr_add (l_regs L) a -> load (mem m') q = load (mem m) q).
Proof.
  intros Hx Hy Hz.
  destruct (set_reg_spec m L a (mrb_fixnum_value z) _ Hx) as (m' & Hset & Hm' & Hnew & Hoth).
  exists m'. split; [|done].
  unfold OP_MATH. rewrite Hx, Hy. cbn [mbind option_bind tt value mrb_fixnum_value].
  rewrite Hz. cbn [mbind option_bind]. unfold mrb_fixnum_value in Hset. rewrite Hset. done.
Qed.

(** OP_ADD on two fixnums whose sum is an [int] stores the sum in R(A)
    without any call; OP_SUB with the same R(A+1) then gives R(A) its old
    value back, and every cell of memory reads as before the two
    instructions. *)
Theorem add_then_sub_restores (m : mrb_state) (L : locals) (a b c x y : Z) :
  reg m L a = Some (mrb_fixnum_value x) ->
  reg m L (a + 1) = Some (mrb_fixnum_value y) ->
  INT_MIN <= x <= INT_MAX -> INT_MIN <= x + y <= INT_MAX ->
  exists m1 m2,
    let L1 := upd_pc (code_add (l_pc L) 1) L in
    let L2 := upd_pc (code_add (l_pc L1) 1) L1 in
    L_OP_ADD host more m L a b c = Some (Dispatch m1 L1) /\
    reg m1 L1 a = Some (mrb_fixnum_value (x + y)) /\
    ci m1 = ci m /\ cibase m1 = cibase m /\
    L_OP_SUB host more m1 L1 a b c = Some (Dispatch m2 L2) /\
    (forall q, load (mem m2) q = load (mem m) q) /\
    ci m2 = ci m /\ cibase m2 = cibase m /\ heap m2 = heap m /\ exc m2 = exc m.
Proof.
  intros Hx Hy Hrx Hrs.
  destruct (math_fixnums MATH_ADD m L a b c x y (x + y) Hx Hy) as (m1 & Hadd & Hm1 & Hr1 & Ho1).
  { unfold int_math, int_result. by rewrite decide_True. }
  set (L1 := upd_pc (code_add (l_pc L) 1) L).
  assert (Hy1 : reg (set_arena_idx (l_ai L) m1) L1 (a + 1) = Some (mrb_fixnum_value y)).
  { rewrite <- Hy. apply (reg_other m m1 L a); [done|lia]. }
  destruct (math_fixnums MATH_SUB (set_arena_idx (l_ai L) m1) L1 a b c (x + y) y x Hr1 Hy1)
    as (m2 & Hsub & Hm2 & Hr2 & Ho2).
  { unfold int_math, int_result. replace (x + y - y) with x by lia. by rewrite decide_True. }
  exists (set_arena_idx (l_ai L) m1), (set_arena_idx (l_ai L1) m2). cbv zeta. fold L1.
  split.
  { unfold L_OP_ADD. rewrite Hx, Hy. cbn [mbind option_bind tt mrb_fixnum_value]. exact Hadd. }
  split; [exact Hr1|].
  split; [rewrite Hm1; done|]. split; [rewrite Hm1; done|].
  split; [exact Hsub|]. split.
  { intros q. st_simpl. destruct (decide (q = ptr_add (l_regs L) a)) as [->|Hq].
    - change (load (mem m2) (ptr_add (l_regs L) a)) with (reg m2 L1 a). rewrite Hr2.
      symmetry. exact Hx.
    - rewrite Ho2 by done. st_simpl. by apply Ho1. }
  rewrite Hm2. st_simpl. rewrite Hm1. done.
Qed.

(** OP_ADDI and OP_SUBI with the same C are inverse on a fixnum register,
    as long as the sum is an [int]. *)
Theorem addi_then_subi_restores (m : mrb_state) (L : locals) (a b c x : Z) :
  reg m L a = Some (mrb_fixnum_value x) ->
  INT_MIN <= x <= INT_MAX -> INT_MIN <= x + c <= INT_MAX ->
  exists m1 m2,
    let L1 := upd_pc (code_add (l_pc L) 1) L in
    let L2 := upd_pc (code_add (l_pc L1) 1) L1 in
    L_OP_ADDI host more m L a b c = Some (Dispatch m1 L1) /\
    reg m1 L1 a = Some (mrb_fixnum_value (x + c)) /\
    L_OP_SUBI host more m1 L1 a b c = Some (Dispatch m2 L2) /\
    (forall q, load (mem m2) q = load (mem m) q) /\
    ci m2 = ci m /\ cibase m2 = cibase m /\ heap m2 = heap m /\ exc m2 = exc m.
Proof.
  intros Hx Hrx Hrs.
  destruct (set_reg_spec m L a (mrb_fixnum_value (x + c)) _ Hx) as (m1 & Hs1 & Hm1 & Hr1 & Ho1).
  set (L1 := upd_pc (code_add (l_pc L) 1) L).
  assert (Hr1' : reg (set_arena_idx (l_ai L) m1) L1 a = Some (mrb_fixnum_value (x + c))) by exact Hr1.
  destruct (set_reg_spec _ L1 a (mrb_fixnum_value x) _ Hr1') as (m2 & Hs2 & Hm2 & Hr2 & Ho2).
  exists (set_arena_idx (l_ai L) m1), (set_arena_idx (l_ai L1) m2). cbv zeta. fold L1.
  split.
  { unfold L_OP_ADDI, math_immediate. rewrite Hx.
    cbn [mbind option_bind tt value mrb_fixnum_value]. unfold int_math, int_result.
    rewrite decide_True by done. cbn [mbind option_bind].
    unfold mrb_fixnum_value in Hs1. rewrite Hs1. done. }
  split; [exact Hr1|]. split.
  { unfold L_OP_SUBI, math_immediate. rewrite Hr1'.
    cbn [mbind option_bind tt value mrb_fixnum_value]. unfold int_math, int_result.
    replace (x + c - c) with x by lia.
    rewrite decide_True by done. cbn [mbind option_bind].
    unfold mrb_fixnum_value in Hs2. rewrite Hs2. done. }
  split.
  { intros q. st_simpl. destruct (decide (q = ptr_add (l_regs L) a)) as [->|Hq].
    - change (load (mem m2) (ptr_add (l_regs L) a)) with (reg m2 L1 a). rewrite Hr2.
      symmetry. exact Hx.
    - rewrite Ho2 by done. st_simpl. by apply Ho1. }
  rewrite Hm2. st_simpl. rewrite Hm1. done.
Qed.

(** OP_DIV on two fixnums is C's [int] division: the quotient is rounded
    toward zero (the remainder takes the sign of the dividend), and the
    case has no result when the divisor is 0 or when -2^31 is divided by
    -1; in neither situation is an exception put in the slot. *)
Theorem div_on_fixnums (m : mrb_state) (L : locals) (a b c x y : Z) :
  reg m L a = Some (mrb_fixnum_value x) ->
  reg m L (a + 1) = Some (mrb_fixnum_value y) ->
  INT_MIN <= x <= INT_MAX -> INT_MIN <= y <= INT_MAX ->
  (y = 0 \/ (x = INT_MIN /\ y = -1) -> L_OP_DIV host more m L a b c = None) /\
  (y <> 0 -> ~ (x = INT_MIN /\ y = -1) ->
   exists m' q r,
     L_OP_DIV host more m L a b c =
       Some (Dispatch m' (upd_pc (code_add (l_pc L) 1) L)) /\
     reg m' L a = Some (mrb_fixnum_value q) /\
     x = y * q + r /\ Z.abs r < Z.abs y /\ 0 <= r * x /\
     (forall k, k <> a -> reg m' L k = reg m L k) /\
     ci m' = ci m /\ exc m' = exc m).
Proof.
  intros Hx Hy Hrx Hry. split.
  - intros Hbad. unfold L_OP_DIV, OP_MATH. rewrite Hx, Hy.
    cbn [mbind option_bind tt value mrb_fixnum_value].
    destruct Hbad as [-> | [-> ->]].
    + unfold int_math. by rewrite decide_True.
    + assert (E : int_math MATH_DIV INT_MIN (-1) = None) by (vm_compute; reflexivity).
      by rewrite E.
  - intros Hnz Hnov.
    assert (Hq : INT_MIN <= Z.quot x y <= INT_MAX).
    { unfold INT_MIN, INT_MAX in *.
      pose proof (Z.quot_rem' x y) as E.
      pose proof (Z.rem_bound_abs x y Hnz) as Hr.
      pose proof (Z.rem_sign_mul x y Hnz) as Hs.
      nia. }
    destruct (math_fixnums MATH_DIV m L a b c x y (Z.quot x y) Hx Hy) as (m' & Hd & Hm' & Hr' & Ho').
    { unfold int_math. rewrite decide_False by done. unfold int_result. by rewrite decide_True. }
    exists (set_arena_idx (l_ai L) m'), (Z.quot x y), (Z.rem x y).
    split; [exact Hd|]. split; [exact Hr'|]. split; [apply Z.quot_rem'|].
    split; [by apply Z.rem_bound_abs|]. split.
    { pose proof (Z.rem_sign_mul x y Hnz). lia. }
    split.
    { intros k Hk. apply (reg_other m m' L a); done. }
    rewrite Hm'. done.
Qed.

(** A comparison of two fixnums stores true or false in R(A) and nothing
    else; of OP_LT, OP_EQ and OP_GT exactly one answers true, OP_LE answers
    as OP_GT does not and OP_GE as OP_LT does not. *)
Theorem cmp_on_fixnums (m : mrb_state) (L : locals) (a b c x y : Z) :
  reg m L a = Some (mrb_fixnum_value x) ->
  reg m L (a + 1) = Some (mrb_fixnum_value y) ->
  let answer (t : bool) := if t then mrb_true_value else mrb_false_value in
  (forall op, exists m',
     OP_CMP host more op m L a b c =
       Some (Dispatch m' (upd_pc (code_add (l_pc L) 1) L)) /\
     reg m' L a = Some (answer (int_cmp op x y)) /\
     (forall k, k <> a -> reg m' L k = reg m L k) /\
     ci m' = ci m /\ exc m' = exc m) /\
  (x < y -> int_cmp CMP_LT x y = true /\ int_cmp CMP_EQ x y = false /\ int_cmp CMP_GT x y = false) /\
  (x = y -> int_cmp CMP_LT x y = false /\ int_cmp CMP_EQ x y = true /\ int_cmp CMP_GT x y = false) /\
  (x > y -> int_cmp CMP_LT x y = false /\ int_cmp CMP_EQ x y = false /\ int_cmp CMP_GT x y = true) /\
  int_cmp CMP_LE x y = negb (int_cmp CMP_GT x y) /\
  int_cmp CMP_GE x y = negb (int_cmp CMP_LT x y).
Proof.
  intros Hx Hy answer. split.
  - intros op.
    destruct (set_reg_spec m L a (answer (int_cmp op x y)) _ Hx) as (m' & Hs & Hm' & Hr & Ho).
    exists (set_arena_idx (l_ai L) m'). split.
    { unfold OP_CMP. rewrite Hx, Hy. cbn [mbind option_bind tt value mrb_fixnum_value].
      unfold answer in Hs. rewrite Hs. done. }
    split; [exact Hr|]. split.
    { intros k Hk. apply (reg_other m m' L a); done. }
    rewrite Hm'. done.
  - unfold int_cmp. repeat split; intros; lia.
Qed.

End Arith.

Lemma stack_ok_store_n (m : mrb_state) (cells : list mrb_value) (p : ptr)
    (vs : list mrb_value) (M' : memory) :
  stack_ok m cells -> store_n (mem m) p vs = Some M' ->
  exists cells', stack_ok (set_mem M' m) cells' /\ length cells' = length cells.
Proof.
  intros (Hb & Hnn & Hb0 & Hsk & Hsend & Hend & Hrng) Hst.
  destruct (store_n_block _ _ _ _ Hst) as (cs & Hcs & Hp0 & Hfit & _ & HM').
  destruct (decide (blk (stbase m) = blk p)) as [Heq|Hne].
  - rewrite <- Heq, Hb in Hcs. simplify_eq.
    eexists. split.
    + unfold stack_ok. st_simpl. rewrite HM', decide_True by done.
      split; [reflexivity|]. rewrite length_splice by lia. done.
    + apply length_splice. lia.
  - exists cells. split; [|done]. unfold stack_ok. st_simpl.
    rewrite HM', decide_False by done. done.
Qed.

Lemma stack_store_n (m : mrb_state) (cells : list mrb_value) (k : Z) (vs : list mrb_value) :
  stack_ok m cells -> 0 <= off (stack m) + k ->
  off (stack m) + k + Z.of_nat (length vs) <= off (stend m) ->
  exists M' cells',
    store_n (mem m) (ptr_add (stack m) k) vs = Some M' /\
    stack_ok (set_mem M' m) cells' /\ length cells' = length cells /\
    (forall q, load M' q =
       if decide (blk q = blk (stack m) /\
                  off (stack m) + k <= off q < off (stack m) + k + Z.of_nat (length vs))
       then vs !! Z.to_nat (off q - (off (stack m) + k))
       else load (mem m) q).
Proof.
  intros Hok Hk Hfit. pose proof Hok as (Hb & Hnn & Hb0 & Hsk & Hsend & Hend & Hrng).
  destruct (store_n_is_Some (mem m) (ptr_add (stack m) k) vs cells) as [M' HM'].
  { st_simpl. by rewrite Hsk. }
  { st_simpl. lia. }
  { st_simpl. lia. }
  destruct (stack_ok_store_n m cells _ vs M' Hok HM') as (cells' & Hok' & Hlen).
  exists M', cells'. split; [done|]. split; [done|]. split; [done|].
  intros q. rewrite (load_store_n _ _ _ _ _ HM'). st_simpl. done.
Qed.

Section Funcall.
Variable host : mrb_host.

Lemma take_all_Z {A} (l : list A) : take (Z.to_nat (Z.of_nat (length l))) l = l.
Proof. rewrite Nat2Z.id. apply firstn_all. Qed.

(** What the callee of [mrb_funcall_with_block] and [mrb_yield_with_self]
    starts with. *)
Lemma funcall_setup_spec (m : mrb_state) (self : mrb_value) (mid : mrb_sym) (p n argc : Z)
    (undef : mrb_sym) (argv : list mrb_value) (bp : Z) (cells : list mrb_value)
    (c0 : mrb_callinfo) (pr : RProc) :
  frames_ok m -> stack_ok m cells -> ci_at m (ci m) = Some c0 ->
  proc_at m p = Some pr ->
  0 <= n -> off (stack m) + n <= off (stend m) ->
  argc = Z.of_nat (length argv) + (if decide (undef <> 0) then 1 else 0) ->
  (bp <> 0 -> is_Some (obj_at m bp)) ->
  exists (m4 : mrb_state) (cells4 : list mrb_value) (pc0 : code_ptr),
    funcall_setup host m self mid p n argc undef argv bp = Some (m4, ci m + 1, pr) /\
    ci m4 = ci m + 1 /\ frames_ok m4 /\ stack_ok m4 cells4 /\
    (forall j, 0 <= j <= ci m -> ci_at m4 j = ci_at m j) /\
    ci_at m4 (ci m + 1) =
      Some (MkCallinfo mid p (ptr_diff (stack m) (stbase m)) (argc + 2) argc pc0 (-1)
              (proc_target_class pr) (ci_ridx c0) (ci_eidx c0) 0) /\
    off (stack m4) = off (stack m) + n /\
    off (stack m4) + (argc + 2) <= off (stend m4) /\
    load (mem m4) (stack m4) = Some self /\
    (undef <> 0 -> load (mem m4) (ptr_add (stack m4) 1) = Some (mrb_symbol_value undef)) /\
    (forall i : nat, (i < length argv)%nat ->
       load (mem m4) (ptr_add (stack m4) (argc - Z.of_nat (length argv) + 1 + Z.of_nat i)) =
       argv !! i) /\
    load (mem m4) (ptr_add (stack m4) (argc + 1)) =
      (if decide (bp = 0) then Some mrb_nil_value else obj_value m bp) /\
    (forall j, 0 <= j < off (stack m) + n ->
       load (mem m4) (ptr_add (stbase m4) j) = load (mem m) (ptr_add (stbase m) j)) /\
    heap m4 = heap m /\ exc m4 = exc m /\ irep m4 = irep m /\ jmp m4 = jmp m.
Proof.
  intros Hfr Hok Hc0 Hpr Hn Hwin Hargc Hblk.
  destruct (cipush_frames host m c0 Hfr Hc0)
    as (fresh & m1 & Hpush & Hci1 & Hfr1 & Hlow1 & Hfresh & Hf1 & Hf2 & Hf3 & Hf4).
  destruct (cipush_same host _ _ Hpush)
    as (Hst1 & Hsb1 & Hse1 & Hheap1 & Hmem1 & Hexc1 & _ & Hirep1 & _).
  assert (Hjmp1 : jmp m1 = jmp m).
  { unfold cipush in Hpush. rewrite Hc0 in Hpush. cbv zeta in Hpush.
    apply ci_upd_frame in Hpush as (? & _ & ->). st_simpl. by case_decide. }
  set (k := ci m + 1) in *.
  set (F := fun f => with_acc (-1) (with_nregs (argc + 2)
              (with_target_class (proc_target_class pr)
                (with_argc argc (with_stackidx (ptr_diff (stack m1) (stbase m1))
                  (with_proc p (with_mid mid f))))))).
  destruct (ci_upd_ex m1 k F fresh Hfresh) as (m2 & Hu2 & Hk2 & Hoth2).
  destruct (ci_upd_frame _ _ _ _ Hu2) as (? & _ & Hm2).
  destruct (ci_upd_same _ _ _ _ Hu2)
    as (Hst2 & Hsb2 & Hse2 & Hheap2 & Hmem2 & Hexc2 & Hci2 & Hend2 & Hirep2 & Hlen2).
  assert (Hjmp2 : jmp m2 = jmp m1) by (rewrite Hm2; done).
  pose proof Hok as (Hb & Hnn & Hb0 & Hsk & Hsend & Hend & Hrng).
  set (ms := set_stack (ptr_add (stack m2) n) m2).
  assert (Hoks : stack_ok ms cells).
  { unfold stack_ok, ms. st_simpl. rewrite Hmem2, Hmem1, Hsb2, Hsb1, Hse2, Hse1, Hst2, Hst1.
    st_simpl. repeat split; try done; lia. }
  assert (Hargc0 : 0 <= argc) by (rewrite Hargc; case_decide; lia).
  destruct (stack_extend_spec host ms cells (argc + 2) 0 Hoks)
    as (m3 & cells3 & Hext & Hok3 & Hoff3 & Hroom3 & Hle3 & Hkeep3 & _ & _ & _ & Hm3 & _);
    [lia|lia|].
  assert (Hoffs : off (stack ms) = off (stack m) + n).
  { unfold ms. st_simpl. rewrite Hst2, Hst1. done. }
  pose proof Hok3 as (Hb3 & Hnn3 & Hb03 & Hsk3 & Hsend3 & Hend3 & Hrng3).
  (* stack[0] = self *)
  destruct (stack_store_n m3 cells3 0 [self] Hok3) as (M1 & cs1 & HM1 & Hok1 & Hlen1 & HL1);
    [lia|simpl; lia|].
  rewrite Z.add_0_r in HL1.
  assert (HM1' : store (mem m3) (stack m3) self = Some M1).
  { unfold store. replace (stack m3) with (ptr_add (stack m3) 0); [done|].
    destruct (stack m3). unfold ptr_add. simpl. f_equal. lia. }
  (* the arguments *)
  set (shift := if decide (undef <> 0) then 1 else 0).
  assert (Hlenargv : Z.of_nat (length argv) = argc - shift) by (unfold shift; lia).
  assert (HM2 : exists M2 cs2,
    (if decide (undef <> 0) then
       M ← store M1 (ptr_add (stack m3) 1) (mrb_symbol_value undef);
       argv_copy M (ptr_add (stack m3) 2) argv (argc - 1)
     else if decide (argc > 0) then argv_copy M1 (ptr_add (stack m3) 1) argv argc
          else Some M1) = Some M2 /\
    stack_ok (set_mem M2 m3) cs2 /\
    load M2 (stack m3) = Some self /\
    (undef <> 0 -> load M2 (ptr_add (stack m3) 1) = Some (mrb_symbol_value undef)) /\
    (forall i : nat, (i < length argv)%nat ->
       load M2 (ptr_add (stack m3) (shift + 1 + Z.of_nat i)) = argv !! i) /\
    (forall q, ~ (blk q = blk (stack m3) /\ off (stack m3) <= off q < off (stack m3) + argc + 1) ->
       load M2 q = load (mem m3) q)).
  { assert (Hself1 : load M1 (stack m3) = Some self).
    { rewrite HL1. rewrite decide_True by (simpl; lia).
      replace (off (stack m3) - off (stack m3)) with 0 by lia. done. }
    unfold shift in *. destruct (decide (undef <> 0)) as [Hu|Hu].
    - destruct (stack_store_n (set_mem M1 m3) cs1 1 [mrb_symbol_value undef] Hok1)
        as (Ma & csa & HMa & Hoka & Hlena & HLa); st_simpl; [lia|simpl; lia|].
      destruct (stack_store_n (set_mem Ma m3) csa 2 argv Hoka)
        as (Mb & csb & HMb & Hokb & Hlenb & HLb); st_simpl; [lia|lia|].
      exists Mb, csb. split.
      { unfold store. rewrite HMa. cbn [mbind option_bind]. unfold argv_copy.
        rewrite decide_True by lia. replace (argc - 1) with (Z.of_nat (length argv)) by lia.
        by rewrite take_all_Z. }
      split; [done|]. split.
      { rewrite HLb, decide_False by lia. rewrite HLa, decide_False by (simpl; lia). done. }
      split.
      { intros _. rewrite HLb. st_simpl. rewrite decide_False by lia.
        rewrite HLa. st_simpl. rewrite decide_True by (simpl; lia).
        replace (off (stack m3) + 1 - (off (stack m3) + 1)) with 0 by lia. done. }
      split.
      { intros i Hi. rewrite HLb. st_simpl. rewrite decide_True by lia. f_equal. lia. }
      intros q Hq. rewrite HLb, decide_False by lia. rewrite HLa, decide_False by (simpl; lia).
      rewrite HL1, decide_False by (simpl; lia). done.
    - destruct (decide (argc > 0)) as [Hpos|Hzero].
      + destruct (stack_store_n (set_mem M1 m3) cs1 1 argv Hok1)
          as (Mb & csb & HMb & Hokb & Hlenb & HLb); st_simpl; [lia|lia|].
        exists Mb, csb. split.
        { unfold argv_copy. rewrite decide_True by lia.
          replace argc with (Z.of_nat (length argv)) by lia. by rewrite take_all_Z. }
        split; [done|]. split.
        { rewrite HLb, decide_False by lia. done. }
        split; [done|]. split.
        { intros i Hi. rewrite HLb. st_simpl. rewrite decide_True by lia. f_equal. lia. }
        intros q Hq. rewrite HLb, decide_False by lia.
        rewrite HL1, decide_False by (simpl; lia). done.
      + exists M1, cs1. split; [done|]. split; [done|]. split; [done|]. split; [done|].
        split.
        { intros i Hi. lia. }
        intros q Hq. rewrite HL1, decide_False by (simpl; lia). done. }
  destruct HM2 as (M2 & cs2 & HM2 & Hok2 & Hself2 & Hsym2 & Hargs2 & Hoth2').
  (* the block *)
  assert (Hb' : exists b, (if decide (bp = 0) then Some mrb_nil_value else obj_value m3 bp) = Some b /\
                 Some b = (if decide (bp = 0) then Some mrb_nil_value else obj_value m bp)).
  { assert (Hheap3 : heap m3 = heap m).
    { rewrite Hm3. st_simpl. unfold ms. st_simpl. by rewrite Hheap2, Hheap1. }
    destruct (decide (bp = 0)); [by eexists|].
    destruct (Hblk ltac:(done)) as [o Ho].
    unfold obj_value, obj_at in *. rewrite Hheap3, Ho. by eexists. }
  destruct Hb' as (b & Hb1' & Hb2').
  destruct (stack_store_n (set_mem M2 m3) cs2 (argc + 1) [b] Hok2)
    as (M3 & cs4 & HM3 & Hok4 & Hlen4 & HL4); st_simpl; [lia|simpl; lia|].
  assert (Hfields3 : cibase m3 = cibase ms /\ ci m3 = ci ms /\ ciend m3 = ciend ms /\
                     heap m3 = heap ms /\ exc m3 = exc ms /\ irep m3 = irep ms /\
                     jmp m3 = jmp ms) by (rewrite Hm3; done).
  destruct Hfields3 as (Hcb3 & Hci3 & Hcend3 & Hheap3 & Hexc3 & Hirep3 & Hjmp3).
  exists (set_mem M3 m3), cs4, (ci_pc fresh). split.
  { unfold funcall_setup. rewrite Hpush. cbn [mbind option_bind].
    unfold proc_at, obj_at in *. rewrite Hheap1, Hpr. cbn [mbind option_bind].
    rewrite Hci1. fold k. fold F. rewrite Hu2. cbn [mbind option_bind].
    fold ms. rewrite Hext. cbn [mbind option_bind]. rewrite HM1'. cbn [mbind option_bind].
    rewrite HM2. cbn [mbind option_bind]. rewrite Hb1'. cbn [mbind option_bind].
    unfold store. rewrite HM3. cbn [mbind option_bind]. done. }
  st_simpl. unfold ms in *. st_simpl.
  split; [lia|]. split.
  { unfold frames_ok in *. st_simpl. rewrite Hci3, Hcend3, Hcb3, Hci2, Hend2, Hlen2. lia. }
  split; [done|]. split.
  { intros j Hj. unfold ci_at in *. st_simpl. rewrite Hcb3. st_simpl.
    rewrite Hoth2 by (unfold k; lia). by apply Hlow1. }
  split.
  { unfold ci_at in *. st_simpl. rewrite Hcb3. st_simpl. rewrite Hk2. f_equal. unfold F.
    rewrite Hst1, Hsb1. destruct fresh. cbn in Hf1, Hf2, Hf3, Hf4. subst. reflexivity. }
  split; [lia|]. split; [lia|]. split.
  { rewrite HL4, decide_False by (simpl; lia). done. }
  split.
  { intros Hu. assert (1 <= argc) by (rewrite Hargc, decide_True by done; lia).
    rewrite HL4, decide_False by (simpl; lia). by apply Hsym2. }
  split.
  { intros i Hi. rewrite HL4. st_simpl. rewrite decide_False by (simpl; lia).
    rewrite <- Hargs2 by done. do 2 f_equal. lia. }
  split.
  { rewrite HL4. st_simpl. rewrite decide_True by (simpl; lia).
    replace (off (stack m3) + (argc + 1) - (off (stack m3) + (argc + 1))) with 0 by lia.
    exact Hb2'. }
  split.
  { intros j Hj. rewrite HL4. st_simpl. rewrite Hsk3. rewrite decide_False by (simpl; lia).
    rewrite Hoth2' by (st_simpl; lia).
    rewrite !load_block. st_simpl. rewrite Hb3, Hb, Hb03, Hb0. unfold zlookup.
    rewrite !decide_True by lia.
    destruct (decide (Z.to_nat (0 + j) < length cells)%nat) as [Hin|Hout].
    - apply Hkeep3; [done|]. st_simpl. rewrite Hst2, Hst1. lia.
    - lia. }
  rewrite Hheap3, Hexc3, Hirep3, Hjmp3. st_simpl.
  rewrite Hheap2, Hheap1, Hexc2, Hexc1, Hirep2, Hirep1, Hjmp2, Hjmp1. done.
Qed.

End Funcall.

Section Calls.
Variable host : mrb_host.

Lemma mrb_yield_with_self_setup (fuel : nat) (m : mrb_state) (b : mrb_value)
    (argv : list mrb_value) (self : mrb_value) :
  mrb_yield_with_self host fuel m b argv self =
    (c ← ci_at m (ci m);
     r ← funcall_setup host m self (ci_mid c) (mrb_object b) (ci_nregs c)
           (Z.of_nat (length argv)) 0 argv 0;
     host_call host fuel (fst (fst r)) (snd (fst r)) (mrb_object b) (snd r) self).
Proof.
  unfold mrb_yield_with_self, funcall_setup, host_call.
  destruct (ci_at m (ci m)) as [c|]; [|reflexivity]. cbn [mbind option_bind].
  destruct (cipush host m) as [m1|]; [|reflexivity]. cbn [mbind option_bind].
  destruct (proc_at m1 (mrb_object b)) as [pr|]; [|reflexivity]. cbn [mbind option_bind].
  destruct (ci_upd _ _ m1) as [m2|]; [|reflexivity]. cbn [mbind option_bind].
  destruct (stack_extend _ _ _ _) as [m3|]; [|reflexivity]. cbn [mbind option_bind].
  destruct (store (mem m3) (stack m3) self) as [M1|]; [|reflexivity]. cbn [mbind option_bind].
  unfold argv_copy. rewrite take_all_Z.
  repeat case_decide; try lia; try done.
  - destruct (store_n M1 _ argv) as [M2|]; [|reflexivity]. cbn [mbind option_bind].
    destruct (store M2 _ _) as [M3|]; reflexivity.
  - cbn [mbind option_bind]. destruct (store M1 _ _) as [M3|]; reflexivity.
Qed.

End Calls.

Lemma ptr_add_0 (p : ptr) : ptr_add p 0 = p.
Proof. destruct p. unfold ptr_add. simpl. f_equal. lia. Qed.

Lemma load_n_from_loads (M : memory) (p : ptr) (vs cells : list mrb_value) :
  block_of M (blk p) = Some cells ->
  0 <= off p -> off p + Z.of_nat (length vs) <= Z.of_nat (length cells) ->
  (forall i : nat, (i < length vs)%nat -> load M (ptr_add p (Z.of_nat i)) = vs !! i) ->
  load_n M p (Z.of_nat (length vs)) = Some vs.
Proof.
  intros Hb H0 Hfit Hall. unfold load_n. rewrite Hb, decide_True by lia. f_equal.
  apply list_eq. intros i.
  destruct (decide (i < length vs)%nat) as [Hi|Hi].
  - rewrite <- (Hall i Hi). rewrite load_block. st_simpl. rewrite Hb. unfold zlookup.
    rewrite decide_True by lia. rewrite lookup_take_lt by lia. rewrite lookup_drop.
    f_equal. lia.
  - rewrite lookup_take_ge by lia. symmetry. apply lookup_ge_None. lia.
Qed.

Section HostCalls.
Variable host : mrb_host.

Lemma callee_entered_intro (m m4 : mrb_state) (c0 : mrb_callinfo) (n argc : Z)
    (mid : mrb_sym) (p : Z) (pr : RProc) (regs : list mrb_value) (cells4 : list mrb_value)
    (pc0 : code_ptr) :
  Z.of_nat (length regs) = argc + 2 ->
  ci m4 = ci m + 1 -> frames_ok m4 -> stack_ok m4 cells4 ->
  (forall j, 0 <= j <= ci m -> ci_at m4 j = ci_at m j) ->
  ci_at m4 (ci m + 1) =
    Some (MkCallinfo mid p (ptr_diff (stack m) (stbase m)) (argc + 2) argc pc0 (-1)
            (proc_target_class pr) (ci_ridx c0) (ci_eidx c0) 0) ->
  off (stack m4) = off (stack m) + n ->
  off (stack m4) + (argc + 2) <= off (stend m4) ->
  (forall i : nat, (i < length regs)%nat ->
     load (mem m4) (ptr_add (stack m4) (Z.of_nat i)) = regs !! i) ->
  (forall j, 0 <= j < off (stack m) + n ->
     load (mem m4) (ptr_add (stbase m4) j) = load (mem m) (ptr_add (stbase m) j)) ->
  heap m4 = heap m /\ exc m4 = exc m /\ irep m4 = irep m /\ jmp m4 = jmp m ->
  callee_entered m m4 c0 n mid p pr regs.
Proof.
  intros Hlen Hci Hfr Hok Hlow Hnew Hoff Hroom Hregs Hbelow Hsame.
  unfold callee_entered. cbv zeta. rewrite Hlen.
  split; [done|]. split; [done|]. split; [by exists cells4|]. split; [done|].
  split; [exists pc0; rewrite Hnew; do 3 f_equal; lia|]. split; [done|]. split; [|done].
  rewrite <- Hlen. destruct Hok as (Hb & Hnn & Hb0 & Hsk & Hsend & Hend & Hrng).
  apply (load_n_from_loads _ _ _ cells4); try lia.
  - by rewrite Hsk.
  - done.
Qed.

(** [mrb_yield_argv] and [mrb_yield] take the receiver from R(0) of the
    calling frame; the block is entered [ci->nregs] cells above the
    caller's stack pointer with R(0) the receiver, the arguments after it
    and nil in the block register, in a frame named after the caller's
    method. *)
Theorem yield_enters_block (fuel : nat) (m : mrb_state) (b : mrb_value)
    (argv : list mrb_value) (cells : list mrb_value) (c0 : mrb_callinfo) (pr : RProc)
    (self : mrb_value) :
  frames_ok m -> stack_ok m cells -> ci_at m (ci m) = Some c0 ->
  0 <= ci_nregs c0 -> off (stack m) + ci_nregs c0 <= off (stend m) ->
  load (mem m) (stack m) = Some self ->
  proc_at m (mrb_object b) = Some pr ->
  exists m4,
    mrb_yield_argv host fuel m b argv =
      host_call host fuel m4 (ci m + 1) (mrb_object b) pr self /\
    (forall v, mrb_yield host fuel m b v = mrb_yield_argv host fuel m b [v]) /\
    callee_entered m m4 c0 (ci_nregs c0) (ci_mid c0) (mrb_object b) pr
                   (self :: argv ++ [mrb_nil_value]).
Proof.
  intros Hfr Hok Hc0 Hn Hwin Hself Hpr.
  destruct (funcall_setup_spec host m self (ci_mid c0) (mrb_object b) (ci_nregs c0)
              (Z.of_nat (length argv)) 0 argv 0 cells c0 pr)
    as (m4 & cells4 & pc0 & Hset & Hci & Hfr4 & Hok4 & Hlow & Hnew & Hoff & Hroom & Hr0 & _ &
        Hargs & Hblock & Hbelow & Hsame); try done.
  { rewrite decide_False by (intros H; by apply H). lia. }
  exists m4. split.
  { unfold mrb_yield_argv. rewrite Hself. cbn [mbind option_bind].
    rewrite mrb_yield_with_self_setup, Hc0. cbn [mbind option_bind].
    rewrite Hset. done. }
  split; [done|].
  apply (callee_entered_intro m m4 c0 (ci_nregs c0) (Z.of_nat (length argv)) _ _ _ _ cells4 pc0);
    try done.
  - rewrite length_cons, length_app. simpl. lia.
  - intros i Hi. rewrite length_cons, length_app in Hi. simpl in Hi.
    destruct i as [|i].
    + change (Z.of_nat 0) with 0. rewrite ptr_add_0. exact Hr0.
    + change ((self :: argv ++ [mrb_nil_value]) !! S i) with ((argv ++ [mrb_nil_value]) !! i).
      destruct (decide (i < length argv)%nat) as [Hlt|Hge].
      * rewrite lookup_app_l by done. rewrite <- (Hargs i Hlt). f_equal. f_equal. lia.
      * rewrite lookup_app_r by lia. replace (i - length argv)%nat with 0%nat by lia.
        change ([mrb_nil_value] !! 0%nat) with (Some mrb_nil_value).
        rewrite decide_True in Hblock by done.
        etrans; [|exact Hblock]. f_equal. f_equal. lia.
Qed.

Lemma regs_layout (m4 : mrb_state) (self b : mrb_value) (pre argv : list mrb_value) (argc : Z) :
  argc = Z.of_nat (length pre) + Z.of_nat (length argv) ->
  load (mem m4) (stack m4) = Some self ->
  (forall i : nat, (i < length pre)%nat ->
     load (mem m4) (ptr_add (stack m4) (1 + Z.of_nat i)) = pre !! i) ->
  (forall i : nat, (i < length argv)%nat ->
     load (mem m4) (ptr_add (stack m4) (argc - Z.of_nat (length argv) + 1 + Z.of_nat i)) =
     argv !! i) ->
  load (mem m4) (ptr_add (stack m4) (argc + 1)) = Some b ->
  forall i : nat, (i < length (self :: pre ++ argv ++ [b]))%nat ->
    load (mem m4) (ptr_add (stack m4) (Z.of_nat i)) = (self :: pre ++ argv ++ [b]) !! i.
Proof.
  intros Hargc Hself Hpre Hargs Hblock i Hi.
  rewrite length_cons, !length_app in Hi. simpl in Hi.
  destruct i as [|i].
  - change (Z.of_nat 0) with 0. rewrite ptr_add_0. exact Hself.
  - change ((self :: pre ++ argv ++ [b]) !! S i) with ((pre ++ argv ++ [b]) !! i).
    destruct (decide (i < length pre)%nat) as [Hlt|Hge].
    { rewrite lookup_app_l by done. rewrite <- (Hpre i Hlt). f_equal. f_equal. lia. }
    rewrite lookup_app_r by lia.
    destruct (decide (i - length pre < length argv)%nat) as [Hlt|Hge2].
    { rewrite lookup_app_l by done. rewrite <- (Hargs _ Hlt). f_equal. f_equal. lia. }
    rewrite lookup_app_r by lia.
    replace (i - length pre - length argv)%nat with 0%nat by lia.
    change ([b] !! 0%nat) with (Some b).
    etrans; [|exact Hblock]. f_equal. f_equal. lia.
Qed.

(** [mrb_funcall_with_block] (and [mrb_funcall_argv], which passes no
    block) when the method is found: the callee is entered [ci->nregs]
    cells above the caller's stack pointer with R(0) the receiver, the
    arguments after it and then the block (nil when there is none), in a
    frame for the selector. *)
Theorem funcall_enters_method (fuel : nat) (m : mrb_state) (self : mrb_value)
    (name : string) (argv : list mrb_value) (bp : Z) (cells : list mrb_value)
    (c0 : mrb_callinfo) (p : Z) (pr : RProc) :
  frames_ok m -> stack_ok m cells -> ci_at m (ci m) = Some c0 ->
  0 <= ci_nregs c0 -> off (stack m) + ci_nregs c0 <= off (stend m) ->
  mrb_method_search_vm host m (mrb_class host m self) (mrb_intern host name) = p ->
  p <> 0 -> proc_at m p = Some pr ->
  (bp <> 0 -> is_Some (obj_at m bp)) ->
  exists m4 b,
    mrb_funcall_with_block host fuel m self name argv bp =
      host_call host fuel m4 (ci m + 1) p pr self /\
    mrb_funcall_argv host fuel m self name argv =
      mrb_funcall_with_block host fuel m self name argv 0 /\
    (if decide (bp = 0) then b = mrb_nil_value else obj_value m bp = Some b) /\
    callee_entered m m4 c0 (ci_nregs c0) (mrb_intern host name) p pr (self :: argv ++ [b]).
Proof.
  intros Hfr Hok Hc0 Hn Hwin Hsearch Hfound Hpr Hbp.
  destruct (funcall_setup_spec host m self (mrb_intern host name) p (ci_nregs c0)
              (Z.of_nat (length argv)) 0 argv bp cells c0 pr)
    as (m4 & cells4 & pc0 & Hset & Hci & Hfr4 & Hok4 & Hlow & Hnew & Hoff & Hroom & Hr0 & _ &
        Hargs & Hblock & Hbelow & Hsame); try done.
  { rewrite decide_False by (intros H; by apply H). lia. }
  assert (Hb : exists b, (if decide (bp = 0) then Some mrb_nil_value else obj_value m bp) = Some b).
  { destruct (decide (bp = 0)); [by eexists|].
    destruct (Hbp ltac:(done)) as [o Ho]. unfold obj_value. rewrite Ho. by eexists. }
  destruct Hb as [b Hb]. rewrite Hb in Hblock.
  exists m4, b. split.
  { unfold mrb_funcall_with_block. rewrite Hc0. cbn [mbind option_bind]. cbv zeta.
    rewrite Hsearch. rewrite decide_False by done. rewrite Hset. done. }
  split; [done|]. split.
  { destruct (decide (bp = 0)); simplify_eq; done. }
  apply (callee_entered_intro m m4 c0 (ci_nregs c0) (Z.of_nat (length argv)) _ _ _ _ cells4 pc0);
    try done.
  - rewrite length_cons, length_app. simpl. lia.
  - apply (regs_layout m4 self b [] argv (Z.of_nat (length argv))); try done.
    all: try (simpl; lia).
    all: intros i Hi; simpl in Hi; lia.
Qed.

(** [mrb_funcall_with_block] when the method is not found: the call goes
    to [method_missing] instead, one cell further up, with the selector
    asked for as a symbol in R(1) and the arguments after it. *)
Theorem funcall_method_missing (fuel : nat) (m : mrb_state) (self : mrb_value)
    (name : string) (argv : list mrb_value) (bp : Z) (cells : list mrb_value)
    (c0 : mrb_callinfo) (p : Z) (pr : RProc) :
  frames_ok m -> stack_ok m cells -> ci_at m (ci m) = Some c0 ->
  0 <= ci_nregs c0 -> off (stack m) + (ci_nregs c0 + 1) <= off (stend m) ->
  mrb_method_search_vm host m (mrb_class host m self) (mrb_intern host name) = 0 ->
  mrb_intern host name <> 0 ->
  mrb_method_search_vm host m (mrb_class host m self) (mrb_intern host "method_missing") = p ->
  proc_at m p = Some pr ->
  (bp <> 0 -> is_Some (obj_at m bp)) ->
  exists m4 b,
    mrb_funcall_with_block host fuel m self name argv bp =
      host_call host fuel m4 (ci m + 1) p pr self /\
    (if decide (bp = 0) then b = mrb_nil_value else obj_value m bp = Some b) /\
    callee_entered m m4 c0 (ci_nregs c0 + 1) (mrb_intern host "method_missing") p pr
      (self :: mrb_symbol_value (mrb_intern host name) :: argv ++ [b]).
Proof.
  intros Hfr Hok Hc0 Hn Hwin Hnone Hmid Hsearch Hpr Hbp.
  destruct (funcall_setup_spec host m self (mrb_intern host "method_missing") p
              (ci_nregs c0 + 1) (Z.of_nat (length argv) + 1) (mrb_intern host name)
              argv bp cells c0 pr)
    as (m4 & cells4 & pc0 & Hset & Hci & Hfr4 & Hok4 & Hlow & Hnew & Hoff & Hroom & Hr0 & Hsym &
        Hargs & Hblock & Hbelow & Hsame); try done; try lia.
  { by rewrite decide_True. }
  assert (Hb : exists b, (if decide (bp = 0) then Some mrb_nil_value else obj_value m bp) = Some b).
  { destruct (decide (bp = 0)); [by eexists|].
    destruct (Hbp ltac:(done)) as [o Ho]. unfold obj_value. rewrite Ho. by eexists. }
  destruct Hb as [b Hb]. rewrite Hb in Hblock.
  exists m4, b. split.
  { unfold mrb_funcall_with_block. rewrite Hc0. cbn [mbind option_bind]. cbv zeta.
    rewrite Hnone. rewrite decide_True by done. rewrite Hsearch, Hset. done. }
  split.
  { destruct (decide (bp = 0)); simplify_eq; done. }
  apply (callee_entered_intro m m4 c0 (ci_nregs c0 + 1) (Z.of_nat (length argv) + 1)
           _ _ _ _ cells4 pc0); try done.
  - rewrite !length_cons, length_app. simpl. lia.
  - apply (regs_layout m4 self b [mrb_symbol_value (mrb_intern host name)] argv
             (Z.of_nat (length argv) + 1)); try done.
    all: try (simpl; lia).
    all: intros i Hi; simpl in Hi; replace i with 0%nat by lia; by apply Hsym.
Qed.

(** A native callee entered from the host that comes back with the frames
    as it found them: its value is the result of the call, the frame is
    popped and the stack pointer is back at the caller's offset (from the
    base the callee left, should the stack have moved). *)
Theorem host_call_native_returns (fuel : nat) (m m4 m5 : mrb_state) (c0 : mrb_callinfo)
    (n : Z) (mid : mrb_sym) (p : Z) (pr : RProc) (regs : list mrb_value)
    (self v : mrb_value) :
  callee_entered m m4 c0 n mid p pr regs -> proc_cfunc pr = true ->
  cfunc_call host (proc_body pr) m4 self = CReturned m5 v ->
  ci m5 = ci m4 -> cibase m5 = cibase m4 ->
  exists m',
    host_call host fuel m4 (ci m + 1) p pr self = Some (m', v) /\
    ci m' = ci m /\ cibase m' = cibase m4 /\
    stack m' = ptr_add (stbase m5) (ptr_diff (stack m) (stbase m)) /\
    stbase m' = stbase m5 /\ mem m' = mem m5 /\ heap m' = heap m5 /\ exc m' = exc m5.
Proof.
  intros (Hci & _ & _ & _ & [pc0 Hnew] & _) Hnative Hcall Hci5 Hcb5.
  eexists. split.
  { unfold host_call. rewrite Hnative, Hcall.
    unfold ci_at in *. rewrite Hcb5, Hnew. cbn [mbind option_bind ci_stackidx]. done. }
  unfold cipop. st_simpl. repeat split; try done. lia.
Qed.

End HostCalls.

Lemma load_same_block (M M' : memory) (p : ptr) :
  block_of M' (blk p) = block_of M (blk p) -> load M' p = load M p.
Proof. intros H. rewrite !load_block. by rewrite H. Qed.

Section Call.
Variable host : mrb_host.

Lemma call_frame_setup (m : mrb_state) (c0 : mrb_callinfo) (p : Z) (pr : RProc) (e : REnv)
    (nregs : Z) :
  ci_at m (ci m) = Some c0 ->
  env_at m (proc_env pr) = Some e -> proc_env pr <> 0 -> env_stack e <> NULL ->
  exists m1 m2 m3,
    ci_upd (ci m) (fun f => with_proc p (with_target_class (proc_target_class pr) f)) m = Some m1 /\
    (e' ← env_at m1 (proc_env pr);
     ma ← (if decide (env_mid e' <> 0) then ci_upd (ci m) (with_mid (env_mid e')) m1
           else Some m1);
     if decide (env_stack e' = NULL) then
       obj_set (proc_env pr)
               (O_env (MkEnv (env_c e') (env_flags e') (env_mid e') (env_cioff e') (stack ma)))
               ma
     else Some ma) = Some m2 /\
    ci_upd (ci m) (with_nregs nregs) m2 = Some m3 /\
    ci_at m3 (ci m) = Some (call_frame c0 p pr e nregs) /\
    (forall j, j <> ci m -> ci_at m3 j = ci_at m j) /\
    m3 = set_cibase (cibase m3) m /\ length (cibase m3) = length (cibase m).
Proof.
  intros Hc0 He Hnz Hst.
  destruct (ci_upd_ex m (ci m) (fun f => with_proc p (with_target_class (proc_target_class pr) f))
              c0 Hc0) as (m1 & Hu1 & Hk1 & Ho1).
  destruct (ci_upd_frame _ _ _ _ Hu1) as (? & _ & Hm1).
  assert (He1 : env_at m1 (proc_env pr) = Some e).
  { rewrite Hm1. exact He. }
  assert (Hma : exists ma,
    (if decide (env_mid e <> 0) then ci_upd (ci m) (with_mid (env_mid e)) m1 else Some m1)
      = Some ma /\
    ci_at ma (ci m) = Some (with_mid (if decide (env_mid e <> 0) then env_mid e else ci_mid c0)
                              (with_proc p (with_target_class (proc_target_class pr) c0))) /\
    (forall j, j <> ci m -> ci_at ma j = ci_at m j) /\
    ma = set_cibase (cibase ma) m /\ length (cibase ma) = length (cibase m)).
  { destruct (decide (env_mid e <> 0)).
    - destruct (ci_upd_ex m1 (ci m) (with_mid (env_mid e)) _ Hk1) as (ma & Hua & Hka & Hoa).
      destruct (ci_upd_frame _ _ _ _ Hua) as (? & _ & Hma).
      exists ma. split; [exact Hua|]. split; [exact Hka|]. split.
      { intros j Hj. rewrite Hoa, Ho1 by done. done. }
      split.
      { rewrite Hma, Hm1. reflexivity. }
      rewrite Hma. st_simpl. rewrite length_insert. rewrite Hm1. st_simpl.
      by rewrite length_insert.
    - exists m1. split; [reflexivity|]. split.
      { rewrite Hk1. destruct c0; reflexivity. }
      split; [exact Ho1|]. split; [rewrite Hm1; reflexivity|].
      rewrite Hm1. st_simpl. by rewrite length_insert. }
  destruct Hma as (ma & Hma & Hka & Hoa & Hsa & Hla).
  destruct (ci_upd_ex ma (ci m) (with_nregs nregs) _ Hka) as (m3 & Hu3 & Hk3 & Ho3).
  destruct (ci_upd_frame _ _ _ _ Hu3) as (? & _ & Hm3).
  exists m1, ma, m3. split; [done|]. split.
  { rewrite He1. cbn [mbind option_bind]. rewrite Hma. cbn [mbind option_bind].
    by rewrite decide_False. }
  split; [done|]. split; [done|]. split.
  { intros j Hj. rewrite Ho3, Hoa by done. done. }
  split.
  { rewrite Hm3. rewrite Hsa. reflexivity. }
  rewrite Hm3. st_simpl. by rewrite length_insert.
Qed.

(** OP_CALL with a bytecode procedure in R(0) whose environment has a
    buffer of its own: the current frame is kept and rewritten for the
    procedure (no frame is pushed), the method name is the environment's
    when it has one, the window stays where it is, R(0) becomes slot 0 of
    the environment, the arguments and the block keep their registers and
    the registers after them are cleared. *)
Theorem call_enters_closure (m : mrb_state) (L : locals) (cells : list mrb_value)
    (c0 : mrb_callinfo) (recv v0 : mrb_value) (pr : RProc) (e : REnv) (ir : mrb_irep) :
  stack_ok m cells -> ci_at m (ci m) = Some c0 ->
  load (mem m) (stack m) = Some recv ->
  proc_at m (mrb_object recv) = Some pr -> proc_cfunc pr = false ->
  proc_env pr <> 0 -> env_at m (proc_env pr) = Some e ->
  env_stack e <> NULL -> blk (env_stack e) <> blk (stbase m) ->
  load (mem m) (env_stack e) = Some v0 ->
  irep_at m (proc_body pr) = Some ir -> 0 <= ir_nregs ir -> 0 <= ci_argc c0 ->
  exists (m' : mrb_state) (cells' : list mrb_value),
    L_OP_CALL host m L =
      Some (Dispatch m' (upd_pc (CPtr (proc_body pr) 0) (upd_regs (stack m')
              (upd_irep (proc_body pr) (upd_proc (mrb_object recv) L))))) /\
    ci m' = ci m /\
    ci_at m' (ci m) = Some (call_frame c0 (mrb_object recv) pr e (ir_nregs ir)) /\
    (forall j, j <> ci m -> ci_at m' j = ci_at m j) /\
    stack_ok m' cells' /\ off (stack m') = off (stack m) /\
    load (mem m') (stack m') = Some v0 /\
    (forall k, 1 <= k < ci_argc c0 + 2 -> is_Some (load (mem m) (ptr_add (stack m) k)) ->
       load (mem m') (ptr_add (stack m') k) = load (mem m) (ptr_add (stack m) k)) /\
    (forall k, ci_argc c0 + 2 <= k < ir_nregs ir ->
       load (mem m') (ptr_add (stack m') k) = Some mrb_nil_value) /\
    heap m' = heap m /\ exc m' = exc m.
Proof.
  intros Hok Hc0 Hrecv Hpr Hbc Henv He Hnn Hown Hv0 Hir Hnregs Hargc.
  destruct (call_frame_setup m c0 (mrb_object recv) pr e (ir_nregs ir) Hc0 He Henv Hnn)
    as (m1 & m2 & m3 & Hu1 & Hm2 & Hu3 & Hk3 & Ho3 & Hm3 & Hl3).
  assert (Hok3 : stack_ok m3 cells) by (rewrite Hm3; exact Hok).
  destruct (stack_extend_spec host m3 cells (ir_nregs ir) (ci_argc c0 + 2) Hok3)
    as (m4 & cells4 & Hext & Hok4 & Hoff4 & Hroom4 & Hle4 & Hkeep4 & Hzero4 & Hoth4 & Hfresh4
        & Hm4 & _); [lia|done|].
  assert (Hf3 : stack m3 = stack m /\ stbase m3 = stbase m /\ mem m3 = mem m /\
                heap m3 = heap m /\ exc m3 = exc m /\ ci m3 = ci m /\ irep m3 = irep m)
    by (rewrite Hm3; done).
  destruct Hf3 as (Hst3 & Hsb3 & Hmem3 & Hheap3 & Hexc3 & Hci3 & Hirep3).
  assert (Hf4 : cibase m4 = cibase m3 /\ ci m4 = ci m3 /\ heap m4 = heap m3 /\ exc m4 = exc m3)
    by (rewrite Hm4; done).
  destruct Hf4 as (Hcb4 & Hci4 & Hheap4 & Hexc4).
  pose proof Hok as (Hb & Hnn0 & Hb0 & Hsk & Hsend & Hend & Hrng).
  pose proof Hok4 as (Hb4 & Hnn4 & Hb04 & Hsk4 & Hsend4 & Hend4 & Hrng4).
  (* the environment's buffer is untouched *)
  assert (Henv4 : load (mem m4) (env_stack e) = Some v0).
  { rewrite <- Hv0. apply load_same_block. rewrite Hoth4, Hmem3; [done|by rewrite Hsb3|].
    destruct Hfresh4 as [Heq|[Hnew _]]; [rewrite Heq, Hsb3; done|].
    intros Heq. rewrite <- Heq, Hmem3 in Hnew.
    destruct (load_is_Some_block (mem m) (env_stack e)) as (cs & Hcs & _); [by eexists|].
    rewrite Hcs in Hnew. done. }
  assert (Hin : off (stack m) < Z.of_nat (length cells)).
  { destruct (load_is_Some_block (mem m) (stack m)) as (cs & Hcs & Hlt); [by eexists|].
    rewrite Hsk, Hb in Hcs. simplify_eq. lia. }
  rewrite Hst3 in *.
  destruct (stack_store_n m4 cells4 0 [v0] Hok4) as (M1 & cs1 & HM1 & Hok1 & Hlen1 & HL1);
    [lia|simpl; lia|].
  rewrite ptr_add_0 in HM1. rewrite Z.add_0_r in HL1.
  exists (set_mem M1 m4), cs1. split.
  { unfold L_OP_CALL. rewrite Hrecv. cbn [mbind option_bind]. rewrite Hpr.
    cbn [mbind option_bind]. rewrite Hu1. cbn [mbind option_bind].
    rewrite decide_True by done. rewrite Hm2. cbn [mbind option_bind].
    rewrite Hbc.
    assert (Hir2 : irep_at m2 (proc_body pr) = Some ir).
    { apply ci_upd_same in Hu3 as (_ & _ & _ & _ & _ & _ & _ & _ & Hi & _).
      unfold irep_at in *. rewrite <- Hi, Hirep3. done. }
    rewrite Hir2. cbn [mbind option_bind]. rewrite Hu3. cbn [mbind option_bind].
    rewrite Hk3. cbn [mbind option_bind]. unfold extend_for_callee, call_frame.
    cbn [ci_argc with_nregs with_mid with_proc with_target_class].
    rewrite decide_False by lia. rewrite Hext. cbn [mbind option_bind].
    assert (He4 : env_at m4 (proc_env pr) = Some e).
    { unfold env_at, obj_at in *. by rewrite Hheap4, Hheap3. }
    rewrite He4. cbn [mbind option_bind]. rewrite Henv4. cbn [mbind option_bind].
    unfold store. rewrite HM1. cbn [mbind option_bind]. done. }
  st_simpl. split; [lia|]. split.
  { unfold ci_at in *. st_simpl. rewrite Hcb4. done. }
  split.
  { intros j Hj. unfold ci_at in *. st_simpl. rewrite Hcb4. by apply Ho3. }
  split; [done|]. split; [done|]. split.
  { rewrite HL1. rewrite decide_True by (simpl; lia).
    replace (off (stack m4) - off (stack m4)) with 0 by lia. done. }
  split.
  { intros k Hk [w Hw]. rewrite HL1. st_simpl. rewrite decide_False by (simpl; lia).
    rewrite !load_block in *. st_simpl. rewrite Hsk4, Hb4. rewrite Hsk, Hb in Hw |- *.
    unfold zlookup in *. rewrite decide_True by lia. rewrite decide_True in Hw |- * by lia.
    pose proof (lookup_lt_Some _ _ _ Hw). rewrite Hoff4. apply Hkeep4; lia. }
  split.
  { intros k Hk. rewrite HL1. st_simpl. rewrite decide_False by (simpl; lia).
    rewrite load_block. st_simpl. rewrite Hsk4, Hb4. unfold zlookup.
    rewrite decide_True by lia. rewrite Hoff4. apply Hzero4. lia. }
  rewrite Hheap4, Hexc4. done.
Qed.

(** OP_CALL with a bytecode procedure whose environment still points into
    the operand stack, when the callee needs more room than the stack has:
    [stack_extend] moves the stack to a new buffer and releases the old
    one, and the read of [m->env->stack[0]] that follows goes through the
    environment's pointer into the released buffer.  The case has no
    defined result. *)
Theorem call_after_growth_reads_old_stack (m : mrb_state) (L : locals)
    (cells : list mrb_value) (c0 : mrb_callinfo) (recv : mrb_value) (pr : RProc)
    (e : REnv) (ir : mrb_irep) :
  stack_ok m cells -> ci_at m (ci m) = Some c0 ->
  load (mem m) (stack m) = Some recv ->
  proc_at m (mrb_object recv) = Some pr -> proc_cfunc pr = false ->
  proc_env pr <> 0 -> env_at m (proc_env pr) = Some e ->
  env_stack e <> NULL -> blk (env_stack e) = blk (stbase m) ->
  irep_at m (proc_body pr) = Some ir -> 0 <= ci_argc c0 ->
  off (stack m) + ir_nregs ir > off (stend m) ->
  L_OP_CALL host m L = None.
Proof.
  intros Hok Hc0 Hrecv Hpr Hbc Henv He Hnn Hattached Hir Hargc Hgrow.
  destruct (call_frame_setup m c0 (mrb_object recv) pr e (ir_nregs ir) Hc0 He Henv Hnn)
    as (m1 & m2 & m3 & Hu1 & Hm2 & Hu3 & Hk3 & Ho3 & Hm3 & Hl3).
  assert (Hok3 : stack_ok m3 cells) by (rewrite Hm3; exact Hok).
  pose proof Hok as (Hb & Hnn0 & Hb0 & Hsk & Hsend & Hend & Hrng).
  assert (Hnregs : 0 <= ir_nregs ir) by lia.
  destruct (stack_extend_spec host m3 cells (ir_nregs ir) (ci_argc c0 + 2) Hok3)
    as (m4 & cells4 & Hext & Hok4 & Hoff4 & Hroom4 & Hle4 & Hkeep4 & Hzero4 & Hoth4 & Hfresh4
        & Hm4 & Hfreed & _); [lia|done|].
  assert (Hf3 : stack m3 = stack m /\ stbase m3 = stbase m /\ stend m3 = stend m /\
                heap m3 = heap m /\ irep m3 = irep m) by (rewrite Hm3; done).
  destruct Hf3 as (Hst3 & Hsb3 & Hse3 & Hheap3 & Hirep3).
  assert (Hheap4 : heap m4 = heap m3) by (rewrite Hm4; done).
  unfold L_OP_CALL. rewrite Hrecv. cbn [mbind option_bind]. rewrite Hpr.
  cbn [mbind option_bind]. rewrite Hu1. cbn [mbind option_bind].
  rewrite decide_True by done. rewrite Hm2. cbn [mbind option_bind]. rewrite Hbc.
  assert (Hir2 : irep_at m2 (proc_body pr) = Some ir).
  { apply ci_upd_same in Hu3 as (_ & _ & _ & _ & _ & _ & _ & _ & Hi & _).
    unfold irep_at in *. rewrite <- Hi, Hirep3. done. }
  rewrite Hir2. cbn [mbind option_bind]. rewrite Hu3. cbn [mbind option_bind].
  rewrite Hk3. cbn [mbind option_bind]. unfold extend_for_callee, call_frame.
  cbn [ci_argc with_nregs with_mid with_proc with_target_class].
  rewrite decide_False by lia. rewrite Hext. cbn [mbind option_bind].
  assert (He4 : env_at m4 (proc_env pr) = Some e).
  { unfold env_at, obj_at in *. by rewrite Hheap4, Hheap3. }
  rewrite He4. cbn [mbind option_bind].
  assert (Hgone : load (mem m4) (env_stack e) = None).
  { rewrite load_block, Hattached, <- Hsb3. rewrite Hfreed; [done|]. rewrite Hst3, Hse3. lia. }
  rewrite Hgone. done.
Qed.

End Call.

Section Exec.
Variable host : mrb_host.

(** OP_EXEC A Bx runs the child irep Bx as the body of the class in R(A):
    a frame is pushed for a procedure made on the spot, whose body is the
    child irep and whose target class, like the frame's, is the object
    R(A) points to; the frame has no method name, returns into R(A)
    ([acc = A]) and keeps the [nregs] of the caller's frame.  The window
    starts at R(A), so R(0) of the body is the class, and the registers
    from 1 up to the child's [nregs] are cleared. *)
Theorem exec_enters_body (m : mrb_state) (L : locals) (a bx : Z) (cells : list mrb_value)
    (c0 : mrb_callinfo) (recv : mrb_value) (ir0 ir : mrb_irep) :
  frames_ok m -> stack_ok m cells -> l_regs L = stack m ->
  ci_at m (ci m) = Some c0 -> reg m L a = Some recv ->
  irep_at m (l_irep L) = Some ir0 -> irep_at m (ir_idx ir0 + bx) = Some ir ->
  0 <= a -> 0 <= ir_nregs ir ->
  let child := ir_idx ir0 + bx in
  exists (m' : mrb_state) (cells' : list mrb_value) (p : Z),
    L_OP_EXEC host m L a bx =
      Some (Dispatch m' (upd_pc (CPtr child 0) (upd_regs (stack m') (upd_irep child L)))) /\
    ci m' = ci m + 1 /\ frames_ok m' /\ stack_ok m' cells' /\
    (forall j, 0 <= j <= ci m -> ci_at m' j = ci_at m j) /\
    ci_at m' (ci m + 1) =
      Some (MkCallinfo 0 p (ptr_diff (stack m) (stbase m)) (ci_nregs c0) 0
              (code_add (l_pc L) 1) a (mrb_object recv) (ci_ridx c0) (ci_eidx c0) 0) /\
    obj_at m p = None /\
    proc_at m' p = Some (MkProc false false child (mrb_object recv) 0) /\
    (forall q o, obj_at m q = Some o -> obj_at m' q = Some o) /\
    off (stack m') = off (stack m) + a /\
    off (stack m') + ir_nregs ir <= off (stend m') /\
    load (mem m') (stack m') = Some recv /\
    (forall k, 1 <= k < ir_nregs ir ->
       load (mem m') (ptr_add (stack m') k) = Some mrb_nil_value) /\
    (forall j, 0 <= j <= off (stack m) + a ->
       load (mem m') (ptr_add (stbase m') j) = load (mem m) (ptr_add (stbase m) j)) /\
    exc m' = exc m.
Proof.
  intros Hfr Hok Hregs Hc0 Hrecv Hir0 Hir Ha Hnregs child.
  destruct (cipush_frames host m c0 Hfr Hc0)
    as (fresh & m1 & Hpush & Hci1 & Hfr1 & Hlow1 & Hfresh & Hf1 & Hf2 & Hf3 & Hf4).
  destruct (cipush_same host _ _ Hpush)
    as (Hst1 & Hsb1 & Hse1 & Hheap1 & Hmem1 & Hexc1 & _ & Hirep1 & _).
  set (k := ci m + 1) in *.
  set (F := fun f => with_target_class (mrb_object recv) (with_argc 0
              (with_stackidx (ptr_diff (stack m1) (stbase m1))
                (with_mid 0 (with_acc a (with_pc (code_add (l_pc L) 1) f)))))).
  destruct (ci_upd_ex m1 k F fresh Hfresh) as (m2 & Hu2 & Hk2 & Hoth2).
  destruct (ci_upd_frame _ _ _ _ Hu2) as (? & _ & Hm2).
  destruct (ci_upd_same _ _ _ _ Hu2)
    as (Hst2 & Hsb2 & Hse2 & Hheap2 & Hmem2 & Hexc2 & Hci2 & Hend2 & Hirep2 & Hlen2).
  (* the procedure *)
  destruct (obj_alloc (O_proc (MkProc false false child (mrb_object recv) 0)) m2)
    as [m3 p] eqn:Ealloc.
  destruct (obj_alloc_spec _ _ _ _ Ealloc) as (Hp & Hat3 & Hold3 & Hm3).
  assert (Hnew3 : obj_at m2 p = None).
  { assert (Hpe : p = Z.of_nat (length (match heap m2 with [] => [O_free] | _ :: _ => heap m2 end)))
      by (unfold obj_alloc in Ealloc; congruence).
    unfold obj_at. rewrite decide_True by lia. apply lookup_ge_None.
    rewrite Hpe, Nat2Z.id. destruct (heap m2); simpl; lia. }
  pose proof (obj_set_is_Some m3 p (O_proc (MkProc false false child (mrb_object recv) 0)) _ Hat3)
    as Hset4.
  set (m4 := set_heap (<[Z.to_nat p := O_proc (MkProc false false child (mrb_object recv) 0)]>
                        (heap m3)) m3) in *.
  assert (Hat4 : forall q, obj_at m4 q = obj_at m3 q).
  { intros q. rewrite (obj_at_obj_set _ _ _ q _ Hset4). case_decide; [by subst|done]. }
  assert (Hk4 : ci_at m4 k = Some (F fresh)).
  { unfold m4, ci_at. st_simpl. rewrite Hm3. exact Hk2. }
  destruct (ci_upd_ex m4 k (with_proc p) _ Hk4) as (m5 & Hu5 & Hk5 & Hoth5).
  destruct (ci_upd_frame _ _ _ _ Hu5) as (? & _ & Hm5).
  destruct (ci_upd_same _ _ _ _ Hu5)
    as (Hst5 & Hsb5 & Hse5 & Hheap5 & Hmem5 & Hexc5 & Hci5 & Hend5 & Hirep5 & Hlen5).
  assert (Hf4' : stack m4 = stack m /\ stbase m4 = stbase m /\ stend m4 = stend m /\
                 mem m4 = mem m /\ exc m4 = exc m /\ irep m4 = irep m /\ ci m4 = k /\
                 ciend m4 = ciend m2 /\ cibase m4 = cibase m2).
  { unfold m4. st_simpl. rewrite Hm3. st_simpl.
    rewrite Hst2, Hst1, Hsb2, Hsb1, Hse2, Hse1, Hmem2, Hmem1, Hexc2, Hexc1, Hirep2, Hirep1, Hci2.
    done. }
  destruct Hf4' as (Hst4 & Hsb4 & Hse4 & Hmem4 & Hexc4 & Hirep4 & Hci4 & Hend4 & Hcb4).
  pose proof Hok as (Hb & Hnn & Hb0 & Hsk & Hsend & Hend & Hrng).
  assert (Hrecv' : load (mem m) (ptr_add (stack m) a) = Some recv).
  { unfold reg in Hrecv. by rewrite Hregs in Hrecv. }
  assert (Hin : off (stack m) + a < Z.of_nat (length cells)).
  { destruct (load_is_Some_block (mem m) (ptr_add (stack m) a)) as (cs & Hcs & Hlt);
      [by eexists|]. st_simpl. rewrite Hsk, Hb in Hcs. simplify_eq. lia. }
  set (ms := set_stack (ptr_add (stack m5) a) m5).
  assert (Hoks : stack_ok ms cells).
  { unfold stack_ok, ms. st_simpl. rewrite Hmem5, Hmem4, Hsb5, Hsb4, Hse5, Hse4, Hst5, Hst4.
    st_simpl. repeat split; try done; lia. }
  destruct (stack_extend_spec host ms cells (ir_nregs ir) 1 Hoks)
    as (m6 & cells6 & Hext & Hok6 & Hoff6 & Hroom6 & Hle6 & Hkeep6 & Hzero6 & _ & _ & Hm6 & _);
    [lia|done|].
  assert (Hoffs : off (stack ms) = off (stack m) + a).
  { unfold ms. st_simpl. rewrite Hst5, Hst4. done. }
  pose proof Hok6 as (Hb6 & Hnn6 & Hb06 & Hsk6 & Hsend6 & Hend6 & Hrng6).
  assert (Hf6 : cibase m6 = cibase m5 /\ ci m6 = ci m5 /\ ciend m6 = ciend m5 /\
                heap m6 = heap m5 /\ exc m6 = exc m5) by (rewrite Hm6; done).
  destruct Hf6 as (Hcb6 & Hci6 & Hend6' & Hheap6 & Hexc6).
  assert (Hcell : forall j, 0 <= j <= off (stack m) + a ->
            load (mem m6) (ptr_add (stbase m6) j) = load (mem m) (ptr_add (stbase m) j)).
  { intros j Hj. rewrite !load_block. st_simpl. rewrite Hb6, Hb, Hb06, Hb0. unfold zlookup.
    rewrite !decide_True by lia. apply Hkeep6; lia. }
  exists m6, cells6, p. split.
  { subst child. unfold L_OP_EXEC. rewrite Hrecv. cbn [mbind option_bind]. rewrite Hpush.
    cbn [mbind option_bind]. unfold reg in *. rewrite Hmem1, Hrecv.
    cbn [mbind option_bind]. rewrite Hci1. fold k. fold F. rewrite Hu2.
    cbn [mbind option_bind]. unfold irep_at in *. rewrite Hirep2, Hirep1, Hir0.
    cbn [mbind option_bind]. rewrite Hir. cbn [mbind option_bind].
    unfold mrb_proc_new. rewrite Hci2, Hci1. fold k. rewrite Hk2. cbn [mbind option_bind].
    replace (ci_target_class (F fresh)) with (mrb_object recv) by reflexivity.
    rewrite Ealloc. cbn [mbind option_bind].
    unfold proc_at. rewrite Hat3. cbn [mbind option_bind proc_cfunc proc_strict proc_body proc_env].
    rewrite Hset4. cbn [mbind option_bind]. fold m4. rewrite Hu5. cbn [mbind option_bind].
    rewrite Hirep5, Hirep4, Hir. cbn [mbind option_bind]. fold ms. rewrite Hext.
    cbn [mbind option_bind]. done. }
  split; [rewrite Hci6, Hci5, Hci4; done|]. split.
  { unfold frames_ok in *. rewrite Hci6, Hend6', Hcb6, Hci5, Hend5, Hlen5, Hci4, Hend4, Hcb4.
    rewrite Hend2, Hlen2. unfold k. lia. }
  split; [done|]. split.
  { intros j Hj. unfold ci_at in *. rewrite Hcb6, Hoth5 by (unfold k; lia). rewrite Hcb4.
    rewrite Hoth2 by (unfold k; lia). by apply Hlow1. }
  split.
  { unfold ci_at in *. rewrite Hcb6, Hk5. f_equal. unfold F. rewrite Hst1, Hsb1.
    destruct fresh. cbn in Hf1, Hf2, Hf3, Hf4. subst. reflexivity. }
  split.
  { unfold obj_at in *. rewrite <- Hheap1, <- Hheap2. exact Hnew3. }
  split.
  { unfold proc_at, obj_at in *. rewrite Hheap6, Hheap5.
    specialize (Hat4 p). unfold obj_at in Hat4. rewrite Hat4, Hat3. done. }
  split.
  { intros q o Hq. unfold obj_at in *. rewrite Hheap6, Hheap5.
    specialize (Hat4 q). unfold obj_at in Hat4. rewrite Hat4. apply Hold3.
    rewrite Hheap2, Hheap1. done. }
  split; [lia|]. split; [lia|]. split.
  { rewrite <- Hrecv'. replace (stack m6) with (ptr_add (stbase m6) (off (stack m) + a)).
    - rewrite Hcell by lia. f_equal. destruct (stack m) as [bs os] eqn:Es.
      destruct (stbase m) eqn:Eb. unfold ptr_add. cbn in *. f_equal; [done|lia].
    - destruct (stack m6) as [b6 o6] eqn:Es. destruct (stbase m6). unfold ptr_add.
      cbn in *. f_equal; [done|lia]. }
  split.
  { intros j Hj. rewrite load_block. st_simpl. rewrite Hsk6, Hb6. unfold zlookup.
    rewrite decide_True by lia. apply Hzero6. lia. }
  split; [done|]. rewrite Hexc6, Hexc5, Hexc4. done.
Qed.

End Exec.

Section Super.
Variable host : mrb_host.
Variable more : mrb_host_more.

(** OP_SUPER A C looks the running frame's own method name up from the
    superclass of the running procedure's target class.  When a bytecode
    method is found, a frame is pushed for it under that same name, the
    window moves to R(A), and R(0) of the callee is the caller's R(0), its
    self, whatever R(A) held; the arguments after it are kept and the
    registers past them are cleared.  The dispatch loop's own [proc] is
    left as it was. *)
Theorem super_enters_callee (m : mrb_state) (L : locals) (a n : Z) (cells : list mrb_value)
    (c0 : mrb_callinfo) (self old : mrb_value) (cur : RProc) (mth : Z) (pr : RProc)
    (ir : mrb_irep) :
  frames_ok m -> stack_ok m cells -> l_regs L = stack m ->
  ci_at m (ci m) = Some c0 ->
  reg m L 0 = Some self -> reg m L a = Some old ->
  proc_at m (ci_proc c0) = Some cur ->
  mrb_method_search_vm host m (class_super more m (proc_target_class cur)) (ci_mid c0) = mth ->
  mth <> 0 ->
  proc_at m mth = Some pr -> proc_cfunc pr = false ->
  irep_at m (proc_body pr) = Some ir ->
  0 <= a -> 0 <= n -> n <> CALL_MAXARGS -> 0 <= ir_nregs ir ->
  exists (m' : mrb_state) (cells' : list mrb_value),
    L_OP_SUPER host more m L a n =
      Some (Dispatch m' (upd_pc (CPtr (proc_body pr) 0) (upd_regs (stack m')
              (upd_irep (proc_body pr) L)))) /\
    ci m' = ci m + 1 /\ frames_ok m' /\ stack_ok m' cells' /\
    (forall j, 0 <= j <= ci m -> ci_at m' j = ci_at m j) /\
    ci_at m' (ci m + 1) =
      Some (MkCallinfo (ci_mid c0) mth (ptr_diff (stack m) (stbase m)) (ir_nregs ir) n
              (code_add (l_pc L) 1) a (proc_target_class pr)
              (ci_ridx c0) (ci_eidx c0) 0) /\
    off (stack m') = off (stack m) + a /\
    off (stack m') + ir_nregs ir <= off (stend m') /\
    load (mem m') (stack m') = Some self /\
    (forall j v, 1 <= j < n + 2 ->
       load (mem m) (ptr_add (stack m) (a + j)) = Some v ->
       load (mem m') (ptr_add (stack m') j) = Some v) /\
    (forall j, n + 2 <= j < ir_nregs ir ->
       load (mem m') (ptr_add (stack m') j) = Some mrb_nil_value) /\
    (forall j, 0 <= j < off (stack m) + a ->
       load (mem m') (ptr_add (stbase m') j) = load (mem m) (ptr_add (stbase m) j)) /\
    heap m' = heap m /\ exc m' = exc m /\ irep m' = irep m.
Proof.
  intros Hfr Hok Hregs Hc0 Hself Hold Hcur Hsearch Hfound Hpr Hbc Hir Ha Hn Hn127 Hnregs.
  destruct (cipush_frames host m c0 Hfr Hc0)
    as (fresh & m2 & Hpush & Hci2 & Hfr2 & Hlow2 & Hfresh & Hf1 & Hf2 & Hf3 & Hf4).
  destruct (cipush_same host _ _ Hpush)
    as (Hst2 & Hsb2 & Hse2 & Hheap2 & Hmem2 & Hexc2 & _ & Hirep2 & _).
  set (k := ci m + 1) in *.
  set (F1 := fun f => with_pc (code_add (l_pc L) 1) (with_target_class (proc_target_class pr)
                (with_argc (if decide (n = CALL_MAXARGS) then -1 else n)
                  (with_stackidx (ptr_diff (stack m2) (stbase m2))
                    (with_proc mth (with_mid (ci_mid c0) f)))))).
  destruct (ci_upd_ex m2 k F1 fresh Hfresh) as (m3 & Hu3 & Hk3 & Hoth3).
  destruct (ci_upd_same _ _ _ _ Hu3)
    as (Hst3 & Hsb3 & Hse3 & Hheap3 & Hmem3 & Hexc3 & Hci3 & Hend3 & Hirep3 & Hlen3).
  pose proof Hok as (Hb & Hnn & Hb0 & Hsk & Hsend & Hend & Hrng).
  assert (Hin : off (stack m) + a < Z.of_nat (length cells)).
  { unfold reg in Hold. rewrite Hregs in Hold.
    destruct (load_is_Some_block (mem m) (ptr_add (stack m) a)) as (cs & Hcs & Hlt);
      [by eexists|].
    st_simpl. rewrite Hsk, Hb in Hcs. simplify_eq. lia. }
  assert (Hok3 : stack_ok m3 cells).
  { unfold stack_ok. rewrite Hmem3, Hmem2, Hsb3, Hsb2, Hse3, Hse2, Hst3, Hst2. done. }
  destruct (stack_store_n m3 cells a [self] Hok3) as (M0 & cells0 & Hstore & Hok0 & Hlen0 & Hload0).
  { rewrite Hst3, Hst2. lia. }
  { rewrite Hst3, Hst2, Hse3, Hse2. simpl. lia. }
  set (m4 := set_mem M0 (set_stack (ptr_add (stack m3) a) m3)).
  assert (Hk4 : ci_at m4 k = Some (F1 fresh)) by exact Hk3.
  destruct (ci_upd_ex m4 k (with_acc a) _ Hk4) as (m5 & Hu5 & Hk5 & Hoth5).
  destruct (ci_upd_same _ _ _ _ Hu5)
    as (Hst5 & Hsb5 & Hse5 & Hheap5 & Hmem5 & Hexc5 & Hci5 & Hend5 & Hirep5 & Hlen5).
  destruct (ci_upd_ex m5 k (with_proc mth) _ Hk5) as (m6 & Hu6 & Hk6 & Hoth6).
  destruct (ci_upd_same _ _ _ _ Hu6)
    as (Hst6 & Hsb6 & Hse6 & Hheap6 & Hmem6 & Hexc6 & Hci6 & Hend6 & Hirep6 & Hlen6).
  destruct (ci_upd_ex m6 k (with_nregs (ir_nregs ir)) _ Hk6) as (m7 & Hu7 & Hk7 & Hoth7).
  destruct (ci_upd_same _ _ _ _ Hu7)
    as (Hst7 & Hsb7 & Hse7 & Hheap7 & Hmem7 & Hexc7 & Hci7 & Hend7 & Hirep7 & Hlen7).
  assert (Hf4' : stack m4 = ptr_add (stack m) a /\ stbase m4 = stbase m /\ stend m4 = stend m /\
                 mem m4 = M0 /\ heap m4 = heap m /\ exc m4 = exc m /\ irep m4 = irep m /\
                 ci m4 = k /\ ciend m4 = ciend m3 /\ cibase m4 = cibase m3).
  { unfold m4. st_simpl. rewrite Hst3, Hst2, Hsb3, Hsb2, Hse3, Hse2, Hheap3, Hheap2, Hexc3, Hexc2,
      Hirep3, Hirep2, Hci3. done. }
  destruct Hf4' as (Hst4 & Hsb4 & Hse4 & Hmem4 & Hheap4 & Hexc4 & Hirep4 & Hci4 & Hend4 & Hcb4).
  pose proof Hok0 as (Hb' & _ & _ & _ & _ & Hend' & _). st_simpl.
  rewrite Hsb3, Hsb2 in Hb'. rewrite Hse3, Hse2 in Hend'.
  assert (Hok7 : stack_ok m7 cells0).
  { unfold stack_ok. rewrite Hst7, Hst6, Hst5, Hst4, Hmem7, Hmem6, Hmem5, Hmem4,
      Hsb7, Hsb6, Hsb5, Hsb4, Hse7, Hse6, Hse5, Hse4. st_simpl.
    repeat split; try done; lia. }
  destruct (stack_extend_spec host m7 cells0 (ir_nregs ir) (n + 2) Hok7)
    as (m8 & cells8 & Hext & Hok8 & Hoff8 & Hroom8 & Hle8 & Hkeep8 & Hzero8 & _ & _ & Hm8 & _);
    [lia|done|].
  assert (Hfields8 : cibase m8 = cibase m7 /\ ci m8 = ci m7 /\ ciend m8 = ciend m7 /\
                     heap m8 = heap m7 /\ exc m8 = exc m7 /\ irep m8 = irep m7).
  { rewrite Hm8. done. }
  destruct Hfields8 as (Hcb8 & Hci8 & Hend8 & Hheap8 & Hexc8 & Hirep8).
  assert (Hstack7 : stack m7 = ptr_add (stack m) a) by (by rewrite Hst7, Hst6, Hst5).
  rewrite Hstack7 in Hkeep8, Hzero8, Hoff8. st_simpl.
  pose proof Hok8 as (Hb8 & Hnn8 & Hb08 & Hsk8 & Hsend8 & Hlen8 & Hrng8).
  assert (Hcells0 : forall j : Z, 0 <= j < Z.of_nat (length cells) ->
            cells0 !! Z.to_nat j =
              if decide (j = off (stack m) + a) then Some self else cells !! Z.to_nat j).
  { intros j Hj. pose proof (Hload0 (ptr_add (stbase m) j)) as Hq.
    rewrite !load_block in Hq. st_simpl. rewrite Hb' in Hq.
    rewrite Hmem3, Hmem2, Hb, Hst3, Hst2, Hb0 in Hq. unfold zlookup in Hq.
    rewrite !decide_True in Hq by lia. replace (0 + j) with j in Hq by lia. rewrite Hq.
    destruct (decide (j = off (stack m) + a)) as [->|Hne].
    - rewrite decide_True by (split; [done|simpl; lia]).
      replace (off (stack m) + a - (off (stack m) + a)) with 0 by lia. done.
    - rewrite decide_False by (simpl; lia). rewrite decide_True by lia. done. }
  assert (Hnew : forall j : Z, 0 <= j -> load (mem m8) (ptr_add (stack m8) j) =
                   cells8 !! Z.to_nat (off (stack m) + a + j)).
  { intros j Hj. rewrite load_block. st_simpl. rewrite Hsk8, Hb8. unfold zlookup.
    rewrite decide_True by lia. rewrite Hoff8. done. }
  exists m8, cells8. split.
  { unfold L_OP_SUPER. rewrite Hc0. cbn [mbind option_bind]. rewrite Hself.
    cbn [mbind option_bind]. rewrite Hcur. cbn [mbind option_bind]. rewrite Hsearch.
    rewrite decide_False by done. cbn [mbind option_bind]. rewrite Hpush.
    cbn [mbind option_bind].
    unfold proc_at, obj_at in *. rewrite Hheap2, Hpr. cbn [mbind option_bind].
    rewrite Hci2. fold k. fold F1. rewrite Hu3. cbn [mbind option_bind].
    st_simpl. unfold store. rewrite Hstore. cbn [mbind option_bind].
    rewrite Hbc. fold m4. rewrite Hu5. cbn [mbind option_bind].
    rewrite Hu6. cbn [mbind option_bind].
    unfold irep_at in *. rewrite Hirep6, Hirep5, Hirep4, Hir. cbn [mbind option_bind].
    rewrite Hu7. cbn [mbind option_bind]. rewrite Hk7. cbn [mbind option_bind].
    assert (Hargc : ci_argc (with_nregs (ir_nregs ir) (with_proc mth (with_acc a (F1 fresh)))) = n).
    { unfold F1. rewrite (decide_False (P := n = CALL_MAXARGS)) by done. reflexivity. }
    rewrite Hargc. unfold extend_for_callee.
    rewrite decide_False by lia. rewrite Hext. cbn [mbind option_bind]. done. }
  split.
  { rewrite Hci8, Hci7, Hci6, Hci5, Hci4. done. }
  split.
  { unfold frames_ok in *. rewrite Hci8, Hend8, Hcb8, Hci7, Hend7, Hlen7, Hci6, Hend6, Hlen6,
      Hci5, Hend5, Hlen5, Hci4, Hend4, Hcb4. rewrite Hend3, Hlen3. unfold k. lia. }
  split; [done|]. split.
  { intros j Hj. unfold ci_at in *. rewrite Hcb8.
    rewrite Hoth7, Hoth6, Hoth5 by (unfold k; lia). rewrite Hcb4.
    rewrite Hoth3 by (unfold k; lia). by apply Hlow2. }
  split.
  { unfold ci_at in *. rewrite Hcb8, Hk7. f_equal. unfold F1.
    rewrite decide_False by done. rewrite Hst2, Hsb2.
    destruct fresh as [f1 f2 f3 f4 f5 f6 f7 f8 f9 f10 f11]. cbn in Hf1, Hf2, Hf3, Hf4.
    subst f4 f9 f10 f11. reflexivity. }
  split; [done|]. split; [lia|]. split.
  { replace (stack m8) with (ptr_add (stack m8) 0)
      by (destruct (stack m8); unfold ptr_add; simpl; f_equal; lia).
    rewrite Hnew by lia. rewrite Hkeep8 by lia.
    rewrite Hcells0 by lia. rewrite decide_True by lia. done. }
  split.
  { intros j v Hj Hv. rewrite Hnew by lia.
    rewrite load_block in Hv. st_simpl. rewrite Hsk, Hb in Hv.
    pose proof (zlookup_lt _ _ _ Hv) as Hlt. unfold zlookup in Hv.
    rewrite decide_True in Hv by lia.
    rewrite Hkeep8 by lia. rewrite Hcells0 by lia. rewrite decide_False by lia.
    rewrite <- Hv. f_equal. lia. }
  split.
  { intros j Hj. rewrite Hnew by lia. apply Hzero8. lia. }
  split.
  { intros j Hj. rewrite !load_block. st_simpl. rewrite Hb8, Hb, Hb08, Hb0. unfold zlookup.
    rewrite !decide_True by lia. rewrite Hkeep8 by lia.
    replace (0 + j) with j by lia. rewrite Hcells0 by lia. rewrite decide_False by lia. done. }
  rewrite Hheap8, Hheap7, Hheap6, Hheap5, Hexc8, Hexc7, Hexc6, Hexc5, Hirep8, Hirep7, Hirep6, Hirep5.
  done.
Qed.

End Super.

Lemma set_reg_blocks (m : mrb_state) (L : locals) (k : Z) (v old : mrb_value) :
  reg m L k = Some old ->
  exists m', set_reg m L k v = Some m' /\
    m' = set_mem (mem m') m /\
    reg m' L k = Some v /\
    (forall q, q <> ptr_add (l_regs L) k -> load (mem m') q = load (mem m) q) /\
    (forall b, b <> blk (l_regs L) -> block_of (mem m') b = block_of (mem m) b).
Proof.
  intros Hold. unfold reg in Hold.
  destruct (store_is_Some (mem m) _ v old Hold) as [M1 HM1].
  exists (set_mem M1 m). unfold set_reg, reg. rewrite HM1. split; [done|]. split; [done|].
  st_simpl. split; [|split].
  - rewrite (load_store _ _ _ _ _ HM1). by rewrite decide_True.
  - intros q Hq. rewrite (load_store _ _ _ _ _ HM1). by rewrite decide_False.
  - intros b Hb. unfold store in HM1.
    destruct (store_n_block _ _ _ _ HM1) as (cs & _ & _ & _ & _ & HM').
    rewrite HM'. st_simpl. by rewrite decide_False.
Qed.

Lemma load_n_slice (M : memory) (p : ptr) (n : Z) (vs : list mrb_value) (from len : Z) :
  load_n M p n = Some vs -> 0 <= from -> 0 <= len -> from + len <= n ->
  load_n M (ptr_add p from) len = Some (take (Z.to_nat len) (drop (Z.to_nat from) vs)).
Proof.
  intros (cells & Hb & H0 & Hn & Hfit & ->)%load_n_block Hfrom Hlen Hle.
  unfold load_n. st_simpl. rewrite Hb. rewrite decide_True by lia. f_equal.
  apply list_eq. intros i. destruct (decide (i < Z.to_nat len)%nat).
  - rewrite !lookup_take_lt by lia. rewrite !lookup_drop. rewrite lookup_take_lt by lia.
    rewrite lookup_drop. f_equal. lia.
  - rewrite !lookup_take_ge by lia. done.
Qed.

Section Apost.
Variable host : mrb_host.

Lemma mrb_ary_new_elts_spec (m : mrb_state) (n : Z) (p : ptr) (vs : list mrb_value) :
  load_n (mem m) p n = Some vs ->
  exists (m1 : mrb_state) (a : Z) (buf : ptr),
    mrb_ary_new_elts host m n p = Some (m1, MkValue MRB_TT_ARRAY a) /\
    obj_at m a = None /\
    ary_at m1 a = Some (MkArray n n buf) /\
    load_n (mem m1) buf n = Some vs /\
    block_of (mem m) (blk buf) = None /\
    (forall b, b <> blk buf -> block_of (mem m1) b = block_of (mem m) b) /\
    (forall q o, obj_at m q = Some o -> obj_at m1 q = Some o) /\
    m1 = set_heap (heap m1) (set_mem (mem m1) m).
Proof.
  intros Hvs. destruct (load_n_Some _ _ _ _ Hvs) as [Hlen _].
  destruct (mrb_malloc_is_Some (uninit_value host) (mem m) n) as (M1 & buf & Hmal); [lia|].
  destruct (mrb_malloc_spec _ _ _ _ _ Hmal) as (_ & Hoff & Hnz & Hfresh & HM1).
  destruct (store_n_fresh M1 buf vs (fresh_cells (uninit_value host) (blk buf) 0 (Z.to_nat n)))
    as (M2 & Hst & HM2).
  { rewrite HM1. by rewrite decide_True. }
  { done. }
  { rewrite length_fresh_cells. lia. }
  destruct (obj_alloc (O_array (MkArray n n buf)) (set_mem M2 m)) as [m1 a] eqn:Ealloc.
  destruct (obj_alloc_spec _ _ _ _ Ealloc) as (Hp & Hat & Hold & Hm1).
  assert (Hmem1 : mem m1 = M2) by (rewrite Hm1; done).
  exists m1, a, buf. split.
  { unfold mrb_ary_new_elts. rewrite Hvs. cbn [mbind option_bind]. rewrite Hmal.
    cbn [mbind option_bind]. rewrite Hst. cbn [mbind option_bind]. rewrite Ealloc. done. }
  split.
  { assert (Hpe : a = Z.of_nat (length (match heap m with [] => [O_free] | _ :: _ => heap m end)))
      by (unfold obj_alloc in Ealloc; st_simpl; congruence).
    unfold obj_at. rewrite decide_True by lia. apply lookup_ge_None.
    rewrite Hpe, Nat2Z.id. destruct (heap m); simpl; lia. }
  split; [unfold ary_at; by rewrite Hat|]. split.
  { unfold load_n. rewrite Hmem1, HM2, decide_True by done. rewrite Hoff.
    rewrite decide_True by lia. f_equal. rewrite drop_0. apply take_ge. lia. }
  split; [done|]. split.
  { intros b Hb. rewrite Hmem1, HM2, decide_False by done. rewrite HM1.
    by rewrite decide_False. }
  split; [exact Hold|]. rewrite Hm1 at 1. rewrite Hmem1. done.
Qed.

Lemma apost_tail_spec (L : locals) (p len : Z) (ary : RArray) (elts : list mrb_value)
    (k : nat) :
  forall (m : mrb_state) (a0 : Z),
  ary_at m p = Some ary ->
  load_n (mem m) (ary_buf ary) len = Some elts ->
  blk (ary_buf ary) <> blk (l_regs L) ->
  Z.of_nat k <= len ->
  (forall i, 0 <= i < Z.of_nat k -> is_Some (reg m L (a0 + i))) ->
  exists m',
    apost_tail k m L p a0 len = Some m' /\
    m' = set_mem (mem m') m /\
    (forall i, 0 <= i < Z.of_nat k ->
       reg m' L (a0 + i) = elts !! Z.to_nat (len - Z.of_nat k + i)) /\
    (forall i, i < 0 -> reg m' L (a0 + i) = reg m L (a0 + i)) /\
    (forall b, b <> blk (l_regs L) -> block_of (mem m') b = block_of (mem m) b).
Proof.
  induction k as [|k IH]; intros m a0 Hary Helts Hblk Hk Hregs.
  { exists m. simpl. split; [done|]. split; [by destruct m|]. split; [intros; lia|]. done. }
  destruct (load_n_Some _ _ _ _ Helts) as [Hlen Hnth].
  assert (Hidx : 0 <= len - Z.of_nat k - 1 < len) by lia.
  destruct (lookup_lt_is_Some_2 elts (Z.to_nat (len - Z.of_nat k - 1))) as [x Hx]; [lia|].
  destruct (Hregs 0) as [old Hold]; [lia|]. rewrite Z.add_0_r in Hold.
  destruct (set_reg_blocks m L a0 x old Hold) as (m1 & Hset & Hm1 & Hnew & Hoth & Hblocks).
  assert (Hary1 : ary_at m1 p = Some ary).
  { rewrite Hm1. unfold ary_at, obj_at in *. st_simpl. done. }
  assert (Helts1 : load_n (mem m1) (ary_buf ary) len = Some elts).
  { rewrite <- Helts. apply load_n_same_block. by apply Hblocks. }
  destruct (IH m1 (a0 + 1) Hary1 Helts1 Hblk) as (m' & Hrun & Hm' & Hres & Hbelow & Hblocks').
  { lia. }
  { intros i Hi. replace (a0 + 1 + i) with (a0 + (1 + i)) by lia.
    rewrite (reg_other m m1 L a0) by (done || lia). apply Hregs. lia. }
  exists m'. split.
  { cbn [apost_tail]. rewrite Hary. cbn [mbind option_bind]. rewrite Hnth by lia.
    rewrite Hx. cbn [mbind option_bind]. rewrite Hset. cbn [mbind option_bind]. done. }
  split.
  { rewrite Hm', Hm1. done. }
  split.
  { intros i Hi. destruct (decide (i = 0)) as [->|Hne].
    - specialize (Hbelow (-1)). replace (a0 + 1 + -1) with a0 in Hbelow by lia.
      rewrite Z.add_0_r, Hbelow by lia. rewrite Hnew, <- Hx. f_equal. lia.
    - replace (a0 + i) with (a0 + 1 + (i - 1)) by lia. rewrite Hres by lia. f_equal. lia. }
  split.
  { intros i Hi. replace (a0 + i) with (a0 + 1 + (i - 1)) by lia. rewrite Hbelow by lia.
    apply (reg_other m m1 L a0); [done|lia]. }
  intros b Hb. rewrite Hblocks' by done. by apply Hblocks.
Qed.

(** OP_APOST A B C on an array with more than B + C elements splits it:
    R(A) becomes a new array holding the elements from index B up to the
    last C, and R(A+1) .. R(A+C) receive the last C elements in order.
    The array that was destructured is unchanged. *)
Theorem apost_splits_long_array (m : mrb_state) (L : locals) (a pre post : Z) (v : mrb_value)
    (ary : RArray) (elts : list mrb_value) :
  reg m L a = Some v -> tt v = MRB_TT_ARRAY ->
  ary_at m (mrb_object v) = Some ary ->
  load_n (mem m) (ary_buf ary) (ary_len ary) = Some elts ->
  blk (ary_buf ary) <> blk (l_regs L) ->
  0 <= pre -> 0 <= post -> ary_len ary > pre + post ->
  (forall i, 1 <= i <= post -> is_Some (reg m L (a + i))) ->
  exists (m' : mrb_state) (rest : mrb_value) (r : RArray),
    L_OP_APOST host m L a pre post =
      Some (Dispatch (set_arena_idx (l_ai L) m') (upd_pc (code_add (l_pc L) 1) L)) /\
    reg m' L a = Some rest /\ tt rest = MRB_TT_ARRAY /\
    obj_at m (mrb_object rest) = None /\
    ary_at m' (mrb_object rest) = Some r /\
    ary_len r = ary_len ary - pre - post /\
    load_n (mem m') (ary_buf r) (ary_len r) =
      Some (take (Z.to_nat (ary_len ary - pre - post)) (drop (Z.to_nat pre) elts)) /\
    (forall i, 0 <= i < post ->
       reg m' L (a + 1 + i) = elts !! Z.to_nat (ary_len ary - post + i)) /\
    ary_at m' (mrb_object v) = Some ary /\
    load_n (mem m') (ary_buf ary) (ary_len ary) = Some elts.
Proof.
  intros Hv Htt Hary Helts Hblk Hpre Hpost Hlong Hregs.
  set (len := ary_len ary) in *.
  assert (Hslice : load_n (mem m) (ptr_add (ary_buf ary) pre) (len - pre - post) =
            Some (take (Z.to_nat (len - pre - post)) (drop (Z.to_nat pre) elts)))
    by (apply (load_n_slice _ _ _ _ pre (len - pre - post) Helts); lia).
  destruct (mrb_ary_new_elts_spec m (len - pre - post) (ptr_add (ary_buf ary) pre) _ Hslice)
    as (m1 & p' & buf & Hnew & Hfresh & Hat1 & Hload1 & Hfb & Hblocks1 & Hold1 & Hm1).
  (* the registers are not in the new buffer *)
  assert (Hrb : blk (l_regs L) <> blk buf).
  { intros E. unfold reg in Hv. destruct (load_is_Some_block (mem m) (ptr_add (l_regs L) a))
      as (cs & Hcs & _); [by eexists|]. st_simpl. rewrite E, Hfb in Hcs. done. }
  assert (Hab : blk (ary_buf ary) <> blk buf).
  { intros E. destruct (load_n_block _ _ _ _ Helts) as (cs & Hcs & _).
    rewrite E, Hfb in Hcs. done. }
  assert (Hreg1 : forall j, reg m1 L j = reg m L j).
  { intros j. unfold reg. rewrite !load_block. st_simpl. by rewrite Hblocks1. }
  assert (Hv1 : reg m1 L a = Some v) by (by rewrite Hreg1).
  destruct (set_reg_blocks m1 L a (MkValue MRB_TT_ARRAY p') v Hv1)
    as (m2 & Hset & Hm2 & Hnew2 & Hoth2 & Hblocks2).
  assert (Hheap2 : forall q, obj_at m2 q = obj_at m1 q).
  { intros q. rewrite Hm2. done. }
  assert (Hary2 : ary_at m2 (mrb_object v) = Some ary).
  { unfold ary_at. rewrite Hheap2. by rewrite (Hold1 _ _ (ary_at_obj _ _ _ Hary)). }
  assert (Helts2 : load_n (mem m2) (ary_buf ary) len = Some elts).
  { rewrite <- Helts. unfold load_n. rewrite Hblocks2, Hblocks1 by done. done. }
  destruct (apost_tail_spec L (mrb_object v) len ary elts (Z.to_nat post) m2 (a + 1)
              Hary2 Helts2 Hblk)
    as (m3 & Htail & Hm3 & Hres & Hbelow & Hblocks3).
  { lia. }
  { intros i Hi. replace (a + 1 + i) with (a + (1 + i)) by lia.
    rewrite (reg_other m1 m2 L a) by (done || lia). rewrite Hreg1. apply Hregs. lia. }
  assert (Hheap3 : forall q, obj_at m3 q = obj_at m1 q).
  { intros q. rewrite Hm3. unfold obj_at. st_simpl. apply Hheap2. }
  exists m3, (MkValue MRB_TT_ARRAY p'), (MkArray (len - pre - post) (len - pre - post) buf).
  split.
  { unfold L_OP_APOST. rewrite Hv. cbn [mbind option_bind].
    rewrite decide_False by (intros E; by apply E). rewrite Hary. cbn [mbind option_bind].
    fold len. rewrite decide_True by lia. rewrite Hnew. cbn [mbind option_bind].
    rewrite Hset. cbn [mbind option_bind]. rewrite Htail. cbn [mbind option_bind]. done. }
  split.
  { specialize (Hbelow (-1)). replace (a + 1 + -1) with a in Hbelow by lia.
    rewrite Hbelow by lia. done. }
  split; [done|]. split; [done|]. split.
  { unfold ary_at in *. cbn [mrb_object value]. rewrite Hheap3. exact Hat1. }
  split; [done|]. split.
  { cbn [ary_len ary_buf]. rewrite <- Hload1. unfold load_n.
    rewrite Hblocks3, Hblocks2 by done. done. }
  split.
  { intros i Hi. rewrite Hres by lia. f_equal. lia. }
  split.
  { unfold ary_at in *. rewrite Hheap3, <- Hheap2. exact Hary2. }
  rewrite <- Helts2. unfold load_n. rewrite Hblocks3 by done. done.
Qed.

End Apost.

Lemma apost_nils_spec (L : locals) (k : nat) :
  forall (m : mrb_state) (a0 : Z),
  (forall j, 0 <= j < Z.of_nat k -> is_Some (reg m L (a0 + j))) ->
  exists m',
    apost_nils k m L a0 = Some m' /\
    m' = set_mem (mem m') m /\
    (forall j, 0 <= j < Z.of_nat k -> reg m' L (a0 + j) = Some mrb_nil_value) /\
    (forall j, ~ 0 <= j < Z.of_nat k -> reg m' L (a0 + j) = reg m L (a0 + j)) /\
    (forall b, b <> blk (l_regs L) -> block_of (mem m') b = block_of (mem m) b).
Proof.
  induction k as [|k IH]; intros m a0 Hregs.
  { exists m. simpl. split; [done|]. split; [by destruct m|]. split; [intros; lia|]. done. }
  destruct (Hregs 0) as [old Hold]; [lia|]. rewrite Z.add_0_r in Hold.
  destruct (set_reg_blocks m L a0 mrb_nil_value old Hold)
    as (m1 & Hset & Hm1 & Hnew & Hoth & Hblocks).
  destruct (IH m1 (a0 + 1)) as (m' & Hrun & Hm' & Hres & Hframe & Hblocks').
  { intros j Hj. replace (a0 + 1 + j) with (a0 + (1 + j)) by lia.
    rewrite (reg_other m m1 L a0) by (done || lia). apply Hregs. lia. }
  exists m'. split.
  { cbn [apost_nils]. rewrite Hset. cbn [mbind option_bind]. done. }
  split; [rewrite Hm', Hm1; done|]. split.
  { intros j Hj. destruct (decide (j = 0)) as [->|Hne].
    - specialize (Hframe (-1)). replace (a0 + 1 + -1) with a0 in Hframe by lia.
      rewrite Z.add_0_r, Hframe by lia. done.
    - replace (a0 + j) with (a0 + 1 + (j - 1)) by lia. apply Hres. lia. }
  split.
  { intros j Hj. replace (a0 + j) with (a0 + 1 + (j - 1)) by lia. rewrite Hframe by lia.
    apply (reg_other m m1 L a0); [done|lia]. }
  intros b Hb. rewrite Hblocks' by done. by apply Hblocks.
Qed.

Lemma apost_head_spec (L : locals) (p len pre a0 : Z) (ary : RArray) (elts : list mrb_value)
    (todo : nat) :
  forall (m : mrb_state) (i : Z),
  ary_at m p = Some ary ->
  load_n (mem m) (ary_buf ary) len = Some elts ->
  blk (ary_buf ary) <> blk (l_regs L) ->
  0 <= pre -> 0 <= i -> (todo <> 0%nat -> pre + i + Z.of_nat todo <= len) ->
  (forall j, i <= j < i + Z.of_nat todo -> is_Some (reg m L (a0 + j))) ->
  exists m',
    apost_head todo m L p a0 pre i = Some (m', i + Z.of_nat todo) /\
    m' = set_mem (mem m') m /\
    (forall j, i <= j < i + Z.of_nat todo ->
       reg m' L (a0 + j) = elts !! Z.to_nat (pre + j)) /\
    (forall j, ~ i <= j < i + Z.of_nat todo -> reg m' L (a0 + j) = reg m L (a0 + j)) /\
    (forall b, b <> blk (l_regs L) -> block_of (mem m') b = block_of (mem m) b).
Proof.
  induction todo as [|k IH]; intros m i Hary Helts Hblk Hpre Hi Hfit Hregs.
  { exists m. simpl. rewrite Z.add_0_r. split; [done|]. split; [by destruct m|].
    split; [intros; lia|]. done. }
  destruct (load_n_Some _ _ _ _ Helts) as [Hlen Hnth].
  specialize (Hfit ltac:(done)).
  destruct (lookup_lt_is_Some_2 elts (Z.to_nat (pre + i))) as [x Hx]; [lia|].
  destruct (Hregs i) as [old Hold]; [lia|].
  destruct (set_reg_blocks m L (a0 + i) x old Hold)
    as (m1 & Hset & Hm1 & Hnew & Hoth & Hblocks).
  assert (Hary1 : ary_at m1 p = Some ary).
  { rewrite Hm1. unfold ary_at, obj_at in *. st_simpl. done. }
  assert (Helts1 : load_n (mem m1) (ary_buf ary) len = Some elts).
  { rewrite <- Helts. apply load_n_same_block. by apply Hblocks. }
  destruct (IH m1 (i + 1) Hary1 Helts1 Hblk) as (m' & Hrun & Hm' & Hres & Hframe & Hblocks').
  { done. } { lia. } { lia. }
  { intros j Hj. rewrite (reg_other m m1 L (a0 + i)) by (done || lia). apply Hregs. lia. }
  exists m'. split.
  { cbn [apost_head]. rewrite Hary. cbn [mbind option_bind]. rewrite Hnth by lia.
    rewrite Hx. cbn [mbind option_bind]. rewrite Hset. cbn [mbind option_bind].
    rewrite Hrun. f_equal. f_equal. lia. }
  split; [rewrite Hm', Hm1; done|]. split.
  { intros j Hj. destruct (decide (j = i)) as [->|Hne].
    - rewrite Hframe by lia. rewrite Hnew. done.
    - apply Hres. lia. }
  split.
  { intros j Hj. rewrite Hframe by lia. apply (reg_other m m1 L (a0 + i)); [done|lia]. }
  intros b Hb. rewrite Hblocks' by done. by apply Hblocks.
Qed.

Section ApostShort.
Variable host : mrb_host.

Lemma mrb_ary_new_capa_spec (m : mrb_state) (n : Z) :
  0 <= n ->
  exists (m1 : mrb_state) (a : Z) (buf : ptr),
    mrb_ary_new_capa host m n = Some (m1, MkValue MRB_TT_ARRAY a) /\
    obj_at m a = None /\
    ary_at m1 a = Some (MkArray 0 n buf) /\
    block_of (mem m) (blk buf) = None /\
    (forall b, b <> blk buf -> block_of (mem m1) b = block_of (mem m) b) /\
    (forall q o, obj_at m q = Some o -> obj_at m1 q = Some o) /\
    m1 = set_heap (heap m1) (set_mem (mem m1) m).
Proof.
  intros Hn.
  destruct (mrb_malloc_is_Some (uninit_value host) (mem m) n) as (M1 & buf & Hmal); [lia|].
  destruct (mrb_malloc_spec _ _ _ _ _ Hmal) as (_ & Hoff & Hnz & Hfresh & HM1).
  destruct (obj_alloc (O_array (MkArray 0 n buf)) (set_mem M1 m)) as [m1 a] eqn:Ealloc.
  destruct (obj_alloc_spec _ _ _ _ Ealloc) as (Hp & Hat & Hold & Hm1).
  assert (Hmem1 : mem m1 = M1) by (rewrite Hm1; done).
  exists m1, a, buf. split.
  { unfold mrb_ary_new_capa. rewrite Hmal. cbn [mbind option_bind]. rewrite Ealloc. done. }
  split.
  { assert (Hpe : a = Z.of_nat (length (match heap m with [] => [O_free] | _ :: _ => heap m end)))
      by (unfold obj_alloc in Ealloc; st_simpl; congruence).
    unfold obj_at. rewrite decide_True by lia. apply lookup_ge_None.
    rewrite Hpe, Nat2Z.id. destruct (heap m); simpl; lia. }
  split; [unfold ary_at; by rewrite Hat|]. split; [done|]. split.
  { intros b Hb. rewrite Hmem1, HM1. by rewrite decide_False. }
  split; [exact Hold|]. rewrite Hm1 at 1. rewrite Hmem1. done.
Qed.

(** OP_APOST A B C on an array with at most B + C elements leaves nothing
    for the splat: R(A) becomes a new empty array, R(A+1+i) receives the
    element at index B + i where the array has one, and nil where it has
    not. *)
Theorem apost_short_array_pads_nil (m : mrb_state) (L : locals) (a pre post : Z)
    (v : mrb_value) (ary : RArray) (elts : list mrb_value) :
  reg m L a = Some v -> tt v = MRB_TT_ARRAY ->
  ary_at m (mrb_object v) = Some ary ->
  load_n (mem m) (ary_buf ary) (ary_len ary) = Some elts ->
  blk (ary_buf ary) <> blk (l_regs L) ->
  0 <= pre -> 0 <= post -> ary_len ary <= pre + post ->
  (forall i, 1 <= i <= post -> is_Some (reg m L (a + i))) ->
  exists (m' : mrb_state) (rest : mrb_value) (r : RArray),
    L_OP_APOST host m L a pre post =
      Some (Dispatch (set_arena_idx (l_ai L) m') (upd_pc (code_add (l_pc L) 1) L)) /\
    reg m' L a = Some rest /\ tt rest = MRB_TT_ARRAY /\
    obj_at m (mrb_object rest) = None /\
    ary_at m' (mrb_object rest) = Some r /\ ary_len r = 0 /\
    (forall i, 0 <= i < post ->
       reg m' L (a + 1 + i) = Some (default mrb_nil_value (elts !! Z.to_nat (pre + i)))) /\
    ary_at m' (mrb_object v) = Some ary /\
    load_n (mem m') (ary_buf ary) (ary_len ary) = Some elts.
Proof.
  intros Hv Htt Hary Helts Hblk Hpre Hpost Hshort Hregs.
  set (len := ary_len ary) in *.
  destruct (load_n_Some _ _ _ _ Helts) as [Hlen _].
  destruct (mrb_ary_new_capa_spec m 0) as (m1 & p' & buf & Hnew & Hfresh & Hat1 & Hfb &
    Hblocks1 & Hold1 & Hm1); [lia|].
  assert (Hrb : blk (l_regs L) <> blk buf).
  { intros E. unfold reg in Hv. destruct (load_is_Some_block (mem m) (ptr_add (l_regs L) a))
      as (cs & Hcs & _); [by eexists|]. st_simpl. rewrite E, Hfb in Hcs. done. }
  assert (Hab : blk (ary_buf ary) <> blk buf).
  { intros E. destruct (load_n_block _ _ _ _ Helts) as (cs & Hcs & _).
    rewrite E, Hfb in Hcs. done. }
  assert (Hreg1 : forall j, reg m1 L j = reg m L j).
  { intros j. unfold reg. rewrite !load_block. st_simpl. by rewrite Hblocks1. }
  assert (Hv1 : reg m1 L a = Some v) by (by rewrite Hreg1).
  destruct (set_reg_blocks m1 L a (MkValue MRB_TT_ARRAY p') v Hv1)
    as (m2 & Hset & Hm2 & Hnew2 & Hoth2 & Hblocks2).
  assert (Hheap2 : forall q, obj_at m2 q = obj_at m1 q).
  { intros q. rewrite Hm2. done. }
  assert (Hary2 : ary_at m2 (mrb_object v) = Some ary).
  { unfold ary_at. rewrite Hheap2. by rewrite (Hold1 _ _ (ary_at_obj _ _ _ Hary)). }
  assert (Helts2 : load_n (mem m2) (ary_buf ary) len = Some elts).
  { rewrite <- Helts. unfold load_n. rewrite Hblocks2, Hblocks1 by done. done. }
  assert (Hreg2 : forall j, j <> 0 -> reg m2 L (a + j) = reg m L (a + j)).
  { intros j Hj. rewrite (reg_other m1 m2 L a) by (done || lia). apply Hreg1. }
  set (todo := Z.to_nat (len - pre)).
  destruct (apost_head_spec L (mrb_object v) len pre (a + 1) ary elts todo m2 0
              Hary2 Helts2 Hblk)
    as (m3 & Hhead & Hm3 & Hres3 & Hframe3 & Hblocks3).
  { done. } { lia. } { unfold todo. lia. }
  { intros j Hj. replace (a + 1 + j) with (a + (1 + j)) by lia. rewrite Hreg2 by lia.
    apply Hregs. unfold todo in Hj. lia. }
  rewrite Z.add_0_l in Hhead.
  destruct (apost_nils_spec L (Z.to_nat (post - Z.of_nat todo)) m3 (a + 1 + Z.of_nat todo))
    as (m4 & Hnils & Hm4 & Hres4 & Hframe4 & Hblocks4).
  { intros j Hj. replace (a + 1 + Z.of_nat todo + j) with (a + 1 + (Z.of_nat todo + j)) by lia.
    rewrite Hframe3 by lia.
    replace (a + 1 + (Z.of_nat todo + j)) with (a + (1 + Z.of_nat todo + j)) by lia.
    rewrite Hreg2 by lia. apply Hregs. lia. }
  assert (Hheap4 : forall q, obj_at m4 q = obj_at m1 q).
  { intros q. rewrite Hm4, Hm3. unfold obj_at. st_simpl. apply Hheap2. }
  exists m4, (MkValue MRB_TT_ARRAY p'), (MkArray 0 0 buf).
  split.
  { unfold L_OP_APOST. rewrite Hv. cbn [mbind option_bind].
    rewrite decide_False by (intros E; by apply E). rewrite Hary. cbn [mbind option_bind].
    fold len. rewrite decide_False by lia. rewrite Hnew. cbn [mbind option_bind].
    rewrite Hset. cbn [mbind option_bind]. fold todo. rewrite Hhead. cbn [mbind option_bind].
    rewrite Hnils. cbn [mbind option_bind]. done. }
  split.
  { replace a with (a + 1 + Z.of_nat todo + (- 1 - Z.of_nat todo)) at 1 by lia.
    rewrite Hframe4 by lia.
    replace (a + 1 + Z.of_nat todo + (- 1 - Z.of_nat todo)) with (a + 1 + -1) by lia.
    rewrite Hframe3 by lia. replace (a + 1 + -1) with a by lia. done. }
  split; [done|]. split; [done|]. split.
  { unfold ary_at in *. cbn [mrb_object value]. rewrite Hheap4. exact Hat1. }
  split; [done|]. split.
  { intros i Hi. destruct (decide (i < Z.of_nat todo)) as [Hlt|Hge].
    - replace (a + 1 + i) with (a + 1 + Z.of_nat todo + (i - Z.of_nat todo)) by lia.
      rewrite Hframe4 by lia.
      replace (a + 1 + Z.of_nat todo + (i - Z.of_nat todo)) with (a + 1 + i) by lia.
      rewrite Hres3 by lia.
      destruct (lookup_lt_is_Some_2 elts (Z.to_nat (pre + i))) as [x Hx];
        [unfold todo in Hlt; lia|].
      rewrite Hx. done.
    - replace (a + 1 + i) with (a + 1 + Z.of_nat todo + (i - Z.of_nat todo)) by lia.
      rewrite Hres4 by lia. rewrite lookup_ge_None_2; [done|]. unfold todo in Hge. lia. }
  split.
  { unfold ary_at in *. rewrite Hheap4, <- Hheap2. exact Hary2. }
  rewrite <- Helts2. unfold load_n. rewrite Hblocks4, Hblocks3 by done. done.
Qed.

(** OP_APOST A B C on a value that is not an array gives R(A) a new empty
    array and sets R(A+1) .. R(A+C) to nil. *)
Theorem apost_non_array (m : mrb_state) (L : locals) (a pre post : Z) (v : mrb_value) :
  reg m L a = Some v -> tt v <> MRB_TT_ARRAY ->
  0 <= post ->
  (forall i, 1 <= i <= post -> is_Some (reg m L (a + i))) ->
  exists (m' : mrb_state) (rest : mrb_value) (r : RArray),
    L_OP_APOST host m L a pre post =
      Some (Dispatch (set_arena_idx (l_ai L) m') (upd_pc (code_add (l_pc L) 1) L)) /\
    reg m' L a = Some rest /\ tt rest = MRB_TT_ARRAY /\
    obj_at m (mrb_object rest) = None /\
    ary_at m' (mrb_object rest) = Some r /\ ary_len r = 0 /\
    (forall i, 0 <= i < post -> reg m' L (a + 1 + i) = Some mrb_nil_value).
Proof.
  intros Hv Htt Hpost Hregs.
  destruct (mrb_ary_new_capa_spec m 0) as (m1 & p' & buf & Hnew & Hfresh & Hat1 & Hfb &
    Hblocks1 & Hold1 & Hm1); [lia|].
  assert (Hrb : blk (l_regs L) <> blk buf).
  { intros E. unfold reg in Hv. destruct (load_is_Some_block (mem m) (ptr_add (l_regs L) a))
      as (cs & Hcs & _); [by eexists|]. st_simpl. rewrite E, Hfb in Hcs. done. }
  assert (Hreg1 : forall j, reg m1 L j = reg m L j).
  { intros j. unfold reg. rewrite !load_block. st_simpl. by rewrite Hblocks1. }
  assert (Hv1 : reg m1 L a = Some v) by (by rewrite Hreg1).
  destruct (set_reg_blocks m1 L a (MkValue MRB_TT_ARRAY p') v Hv1)
    as (m2 & Hset & Hm2 & Hnew2 & Hoth2 & Hblocks2).
  assert (Hheap2 : forall q, obj_at m2 q = obj_at m1 q).
  { intros q. rewrite Hm2. done. }
  destruct (apost_nils_spec L (Z.to_nat post) m2 (a + 1))
    as (m4 & Hnils & Hm4 & Hres4 & Hframe4 & Hblocks4).
  { intros j Hj. replace (a + 1 + j) with (a + (1 + j)) by lia.
    rewrite (reg_other m1 m2 L a) by (done || lia). rewrite Hreg1. apply Hregs. lia. }
  exists m4, (MkValue MRB_TT_ARRAY p'), (MkArray 0 0 buf).
  split.
  { unfold L_OP_APOST. rewrite Hv. cbn [mbind option_bind].
    rewrite decide_True by done. rewrite Hnew. cbn [mbind option_bind].
    rewrite Hset. cbn [mbind option_bind]. rewrite Hnils. cbn [mbind option_bind]. done. }
  split.
  { specialize (Hframe4 (-1)). replace (a + 1 + -1) with a in Hframe4 by lia.
    rewrite Hframe4 by lia. done. }
  split; [done|]. split; [done|]. split.
  { unfold ary_at in *. cbn [mrb_object value]. rewrite Hm4. unfold obj_at. st_simpl.
    pose proof (Hheap2 p') as E. unfold obj_at in E. rewrite E. exact Hat1. }
  split; [done|]. intros i Hi. apply Hres4. lia.
Qed.

End ApostShort.

Lemma ptr_add_add (p : ptr) (i j : Z) : ptr_add (ptr_add p i) j = ptr_add p (i + j).
Proof. unfold ptr_add. simpl. f_equal. lia. Qed.

(* memmove of a region onto itself *)
Lemma memmove_self (M : memory) (p : ptr) (n : Z) (vs : list mrb_value) :
  load_n M p n = Some vs ->
  exists M', memmove M p p n = Some M' /\ forall b, block_of M' b = block_of M b.
Proof.
  intros Hvs. destruct (load_n_Some _ _ _ _ Hvs) as [Hlen _].
  destruct (load_n_block _ _ _ _ Hvs) as (cells & Hb & H0 & Hn & Hfit & Heq).
  destruct (store_n_is_Some M p vs cells Hb H0) as [M' HM']; [lia|].
  exists M'. unfold memmove. rewrite Hvs. split; [done|].
  destruct (store_n_block _ _ _ _ HM') as (cs & Hcs & _ & _ & _ & Hblocks).
  rewrite Hb in Hcs. simplify_eq. intros b. rewrite Hblocks. case_decide as E; [|done].
  subst b. rewrite Hb. f_equal. apply list_eq. intros i.
  rewrite lookup_splice by (rewrite length_take, length_drop; lia).
  case_decide as Hi; [|done].
  rewrite length_take, length_drop in Hi.
  rewrite lookup_take_lt by lia. rewrite lookup_drop. f_equal. lia.
Qed.

(* memmove of no cells inside live blocks *)
Lemma memmove_nothing (M : memory) (dst src : ptr) (cs cd : list mrb_value) :
  block_of M (blk src) = Some cs -> 0 <= off src <= Z.of_nat (length cs) ->
  block_of M (blk dst) = Some cd -> 0 <= off dst <= Z.of_nat (length cd) ->
  exists M', memmove M dst src 0 = Some M' /\ forall b, block_of M' b = block_of M b.
Proof.
  intros Hs Hso Hd Hdo.
  assert (Hl : load_n M src 0 = Some []).
  { unfold load_n. rewrite Hs. rewrite decide_True by lia. done. }
  destruct (store_n_is_Some M dst [] cd Hd) as [M' HM']; [lia|simpl; lia|].
  exists M'. unfold memmove. rewrite Hl. split; [done|].
  destruct (store_n_block _ _ _ _ HM') as (c & Hc & _ & _ & _ & Hblocks).
  rewrite Hd in Hc. simplify_eq. intros b. rewrite Hblocks. case_decide as E; [|done].
  subst b. rewrite Hd. f_equal. simpl. rewrite Nat.add_0_r. apply take_drop.
Qed.

Section EnterLayout.
Variable host : mrb_host.

Lemma enter_layout_optional (m : mrb_state) (L : locals) (argc m1 o : Z) (c : mrb_callinfo) :
  ci_at m (ci m) = Some c ->
  0 <= m1 -> 0 <= o -> m1 <= argc <= m1 + o ->
  (forall i, 1 <= i <= m1 + o + 1 -> is_Some (reg m L i)) ->
  exists m',
    enter_layout host m L (ptr_add (l_regs L) 1) argc m1 o 0 0 =
      Some (Dispatch m' (upd_pc (code_add (l_pc L) (argc - m1 + 1)) L)) /\
    ci m' = ci m /\
    ci_at m' (ci m) = Some (with_argc (m1 + o) c) /\
    (forall j, j <> ci m -> ci_at m' j = ci_at m j) /\
    (forall i, i <> m1 + o + 1 -> reg m' L i = reg m L i) /\
    reg m' L (m1 + o + 1) = reg m L (argc + 1) /\
    exc m' = exc m /\ heap m' = heap m.
Proof.
  intros Hc Hm1 Ho Hargc Hregs.
  set (len := m1 + o).
  destruct (ci_upd_ex m (ci m) (with_argc (len + 0 + 0)) c Hc) as (ma & Hupd & Hk & Hoth).
  destruct (ci_upd_same _ _ _ _ Hupd)
    as (Hst & Hsb & Hse & Hheap & Hmem & Hexc & Hci & Hend & Hirep & Hlen).
  set (regs := l_regs L).
  (* the register block *)
  destruct (Hregs (len + 1)) as [top Htop]; [unfold len; lia|].
  destruct (load_is_Some_block (mem m) (ptr_add regs (len + 1))) as (cells & Hb & Hin);
    [by eexists|]. st_simpl.
  destruct (Hregs 1) as [first Hfirst]; [lia|].
  destruct (load_is_Some_block (mem m) (ptr_add regs 1)) as (cells1 & Hb1 & Hin1);
    [by eexists|]. st_simpl. rewrite Hb in Hb1. injection Hb1 as <-.
  assert (Hrega : forall M, (forall b, block_of M b = block_of (mem m) b) ->
            forall q, load M q = load (mem m) q).
  { intros M HM q. rewrite !load_block. by rewrite HM. }
  destruct (Hregs (argc + 1)) as [bv Hbv]; [unfold len; lia|].
  unfold enter_layout. cbv zeta. fold len. rewrite Hupd. cbn [mbind option_bind].
  rewrite !ptr_add_add. fold regs.
  destruct (decide (argc < len + 0 + 0)) as [Hlt|Hge].
  - (* fewer arguments than parameters *)
    rewrite Hmem. unfold reg in Hbv. fold regs in Hbv.
    replace (1 + argc) with (argc + 1) by lia. rewrite Hbv. cbn [mbind option_bind].
    assert (Htop' : reg ma L (len + 0 + 0 + 1) = Some top).
    { unfold reg. rewrite Hmem. replace (len + 0 + 0 + 1) with (len + 1) by lia. exact Htop. }
    destruct (set_reg_blocks ma L (len + 0 + 0 + 1) bv top Htop')
      as (mb & Hset & Hmb & Hnew & Hothr & Hblocks).
    rewrite Hset. cbn [mbind option_bind].
    destruct (load_is_Some_block (mem mb) (ptr_add regs (len + 0 + 0 + 1)))
      as (cb & Hcb & Hinb); [unfold reg in Hnew; by eexists|]. st_simpl.
    assert (Hln : is_Some (load_n (mem mb) (ptr_add regs 1) (argc - 0))).
    { unfold load_n. st_simpl. rewrite Hcb. rewrite decide_True by lia. by eexists. }
    destruct Hln as [vs Hvs].
    destruct (memmove_self _ _ _ _ Hvs) as (M1 & Hmv1 & HM1).
    rewrite Hmv1. cbn [mbind option_bind].
    destruct (memmove_nothing M1 (ptr_add regs (len + 0 + 0 - 0 + 1))
                (ptr_add regs (1 + (argc - 0))) cb cb) as (M2 & Hmv2 & HM2).
    { st_simpl. by rewrite HM1. } { st_simpl. lia. }
    { st_simpl. by rewrite HM1. } { st_simpl. lia. }
    rewrite Hmv2. cbn [mbind option_bind]. rewrite decide_False by lia.
    unfold JUMP. eexists. split.
    { replace (argc - m1 - 0 + 1) with (argc - m1 + 1) by lia. reflexivity. }
    assert (Hload : forall q, load M2 q = load (mem mb) q).
    { intros q. rewrite !load_block. by rewrite HM2, HM1. }
    st_simpl. rewrite Hmb. st_simpl.
    split; [done|]. split.
    { unfold ci_at in *. st_simpl. rewrite Hk. f_equal. unfold len. f_equal. lia. }
    split.
    { intros j Hj. unfold ci_at in *. st_simpl. by apply Hoth. }
    split.
    { intros i Hi. unfold reg. st_simpl. rewrite Hload. fold regs.
      rewrite Hothr; [by rewrite Hmem|]. fold regs. unfold ptr_add. intros [= E]. lia. }
    split.
    { unfold reg in *. st_simpl. rewrite Hload. fold regs in Hnew |- *.
      replace (len + 1) with (len + 0 + 0 + 1) by lia. rewrite Hnew. done. }
    done.
  - (* as many arguments as parameters *)
    assert (Hal : argc = len) by (unfold len in *; lia).
    assert (Hln : is_Some (load_n (mem ma) (ptr_add regs 1) len)).
    { unfold load_n. st_simpl. rewrite Hmem, Hb.
      rewrite decide_True by (unfold len; lia). by eexists. }
    destruct Hln as [vs Hvs].
    destruct (memmove_self _ _ _ _ Hvs) as (M1 & Hmv1 & HM1).
    rewrite Hmv1. cbn [mbind option_bind]. rewrite decide_False by lia.
    cbn [mbind option_bind]. st_simpl.
    destruct (memmove_nothing M1 (ptr_add regs (len + 0 + 1))
                (ptr_add regs (1 + (argc - 0))) cells cells) as (M2 & Hmv2 & HM2).
    { st_simpl. by rewrite HM1, Hmem. } { st_simpl. lia. }
    { st_simpl. by rewrite HM1, Hmem. } { st_simpl. unfold len in *. lia. }
    rewrite Hmv2. cbn [mbind option_bind].
    assert (Hload : forall q, load M2 q = load (mem m) q).
    { intros q. rewrite !load_block. by rewrite HM2, HM1, Hmem. }
    rewrite Hload. unfold reg in Hbv. fold regs in Hbv.
    replace (1 + argc) with (argc + 1) by lia. rewrite Hbv. cbn [mbind option_bind].
    assert (Htop' : reg (set_mem M2 (set_mem M1 ma)) L (len + 0 + 0 + 1) = Some top).
    { unfold reg. st_simpl. rewrite Hload. replace (len + 0 + 0 + 1) with (len + 1) by lia.
      exact Htop. }
    destruct (set_reg_blocks _ L (len + 0 + 0 + 1) bv top Htop')
      as (mb & Hset & Hmb & Hnew & Hothr & Hblocks).
    rewrite Hset. cbn [mbind option_bind]. unfold JUMP. eexists. split.
    { replace (o + 1) with (argc - m1 + 1) by (unfold len in *; lia). reflexivity. }
    rewrite Hmb. st_simpl. split; [done|]. split.
    { unfold ci_at in *. st_simpl. rewrite Hk. f_equal. unfold len. f_equal. lia. }
    split.
    { intros j Hj. unfold ci_at in *. st_simpl. by apply Hoth. }
    split.
    { intros i Hi. unfold reg. st_simpl. fold regs.
      rewrite Hothr; [st_simpl; by rewrite Hload|]. fold regs. unfold ptr_add.
      intros [= E]. unfold len in *. lia. }
    split.
    { unfold reg in *. st_simpl. fold regs in Hnew |- *.
      replace (len + 1) with (len + 0 + 0 + 1) by lia. rewrite Hnew. done. }
    done.
Qed.

(** OP_ENTER in a strict procedure that declares [m1] required and [o]
    optional parameters and nothing else, entered with [argc] plain
    arguments, [m1 <= argc <= m1 + o]: the arguments stay where they are,
    the block moves from R(argc+1) to R(m1+o+1), the frame's [argc]
    becomes [m1 + o], and execution goes on [argc - m1 + 1] instructions
    further, at the jump-table entry of the first optional parameter that
    was not supplied. *)
Theorem enter_optional_selects_entry (m : mrb_state) (L : locals) (ax m1 o : Z)
    (c : mrb_callinfo) (pr : RProc) :
  ci_at m (ci m) = Some c ->
  ci_proc c <> 0 -> proc_at m (ci_proc c) = Some pr -> proc_strict pr = true ->
  Z.land (Z.shiftr ax 18) 31 = m1 -> Z.land (Z.shiftr ax 13) 31 = o ->
  Z.land (Z.shiftr ax 12) 1 = 0 -> Z.land (Z.shiftr ax 7) 31 = 0 ->
  m1 <= ci_argc c <= m1 + o ->
  (forall i, 1 <= i <= m1 + o + 1 -> is_Some (reg m L i)) ->
  exists m',
    L_OP_ENTER host m L ax =
      Some (Dispatch m' (upd_pc (code_add (l_pc L) (ci_argc c - m1 + 1)) L)) /\
    ci m' = ci m /\
    ci_at m' (ci m) = Some (with_argc (m1 + o) c) /\
    (forall j, j <> ci m -> ci_at m' j = ci_at m j) /\
    (forall i, i <> m1 + o + 1 -> reg m' L i = reg m L i) /\
    reg m' L (m1 + o + 1) = reg m L (ci_argc c + 1) /\
    exc m' = exc m /\ heap m' = heap m.
Proof.
  intros Hc Hproc Hpr Hstrict Hm1 Ho Hr Hm2 Hargc Hregs.
  assert (H0m1 : 0 <= m1) by (rewrite <- Hm1; apply Z.land_nonneg; lia).
  assert (H0o : 0 <= o) by (rewrite <- Ho; apply Z.land_nonneg; lia).
  destruct (enter_layout_optional m L (ci_argc c) m1 o c Hc H0m1 H0o Hargc Hregs)
    as (m' & Hlay & Hrest).
  exists m'. split; [|exact Hrest].
  rewrite <- Hlay. unfold L_OP_ENTER. rewrite Hm1, Ho, Hr, Hm2, Hc. cbn [mbind option_bind].
  unfold enter_args. rewrite decide_False by lia.
  rewrite Hc. cbn [mbind option_bind]. unfold strict_frame.
  rewrite (decide_False (P := ci_proc c = 0)) by done. rewrite Hpr.
  cbn [mbind option_bind]. rewrite Hstrict.
  rewrite decide_False; [done|]. intros [_ Hbad]. apply arity_mismatch_spec in Hbad. lia.
Qed.

End EnterLayout.

Section CallReturn.
Variable host : mrb_host.
Variable run : mrb_state -> Z -> mrb_value -> option (mrb_state * mrb_value).

(** OP_RETURN A with OP_R_NORMAL, in a frame above the base frame that has
    no environment, no ensure entries of its own and a non-negative [acc],
    with no exception pending: the frame is popped, the stack pointer goes
    back to the caller's base (the frame's [stackidx]), R(A) is stored in
    the caller's register [acc], no other cell changes, and execution
    resumes at the frame's saved [pc] with the procedure and irep of the
    frame below. *)
Theorem return_resumes_caller (m : mrb_state) (L : locals) (a : Z)
    (c c' : mrb_callinfo) (pr : RProc) (ir : mrb_irep) (v old : mrb_value) :
  0 < ci m -> exc m = 0 ->
  ci_at m (ci m) = Some c -> ci_env c = 0 -> 0 <= ci_acc c ->
  ci_at m (ci m - 1) = Some c' -> ci_eidx c <= ci_eidx c' ->
  reg m L a = Some v ->
  proc_at m (ci_proc c') = Some pr -> irep_at m (proc_body pr) = Some ir ->
  load (mem m) (ptr_add (ptr_add (stbase m) (ci_stackidx c)) (ci_acc c)) = Some old ->
  exists m',
    L_RETURN host run m L a OP_R_NORMAL =
      Some (Dispatch m' (upd_pc (ci_pc c) (upd_regs (stack m')
              (upd_irep (proc_body pr) (upd_proc (ci_proc c') L))))) /\
    ci m' = ci m - 1 /\ cibase m' = cibase m /\
    stack m' = ptr_add (stbase m) (ci_stackidx c) /\
    load (mem m') (ptr_add (stack m') (ci_acc c)) = Some v /\
    (forall q, q <> ptr_add (stack m') (ci_acc c) -> load (mem m') q = load (mem m) q) /\
    heap m' = heap m /\ exc m' = 0 /\ stbase m' = stbase m /\ stend m' = stend m.
Proof. apply return_normal_spec. Qed.

(** OP_SEND A B C with fewer than 127 arguments, to a receiver whose class
    has a bytecode method for Sym(B): a frame is pushed that records the
    method name, the procedure, the caller's stack base, the callee's
    [nregs], the argument count, the return address [pc + 1], [acc = A]
    and the procedure's target class, and inherits [ridx] and [eidx]; the
    window moves up by A; the cells up to the block argument are kept and
    the callee's registers past it are cleared; the caller's frames are
    untouched. *)
Theorem send_enters_callee (m : mrb_state) (L : locals) (a b n : Z) (cells : list mrb_value)
    (c0 : mrb_callinfo) (mid : mrb_sym) (recv : mrb_value) (mth : Z) (pr : RProc)
    (ir : mrb_irep) :
  frames_ok m -> stack_ok m cells -> l_regs L = stack m ->
  ci_at m (ci m) = Some c0 ->
  sym_at m L b = Some mid -> reg m L a = Some recv ->
  mrb_method_search_vm host m (mrb_class host m recv) mid = mth -> mth <> 0 ->
  proc_at m mth = Some pr -> proc_cfunc pr = false ->
  irep_at m (proc_body pr) = Some ir ->
  0 <= a -> 0 <= n -> n <> CALL_MAXARGS -> 0 <= ir_nregs ir ->
  exists (m' : mrb_state) (cells' : list mrb_value),
    L_OP_SEND host m L a b n =
      Some (Dispatch m' (upd_pc (CPtr (proc_body pr) 0) (upd_regs (stack m')
              (upd_irep (proc_body pr) (upd_proc mth L))))) /\
    ci m' = ci m + 1 /\ frames_ok m' /\ stack_ok m' cells' /\
    (forall j, 0 <= j <= ci m -> ci_at m' j = ci_at m j) /\
    ci_at m' (ci m + 1) =
      Some (MkCallinfo mid mth (ptr_diff (stack m) (stbase m)) (ir_nregs ir) n
              (code_add (l_pc L) 1) a (proc_target_class pr)
              (ci_ridx c0) (ci_eidx c0) 0) /\
    off (stack m') = off (stack m) + a /\
    off (stack m') + ir_nregs ir <= off (stend m') /\
    (length cells <= length cells')%nat /\
    (forall j : nat, (j < length cells)%nat ->
       ~ (off (stack m) + a + (n + 2) <= Z.of_nat j < off (stack m) + a + ir_nregs ir) ->
       cells' !! j = cells !! j) /\
    (forall j : nat,
       off (stack m) + a + (n + 2) <= Z.of_nat j < off (stack m) + a + ir_nregs ir ->
       cells' !! j = Some zero_value) /\
    heap m' = heap m /\ exc m' = exc m /\ irep m' = irep m.
Proof. apply send_bytecode_spec. Qed.

End CallReturn.

(** * Ensure calls and sends that find no method *)

Lemma ecall_hands_over host run (m : mrb_state) (i : Z) :
  frames_ok m ->
  ecall host run m i =
    ('(m_in, p, self) ← ensure_entry host m i;
     r ← run m_in p self;
     Some (fst r)).
Proof.
  intros Hfr.
  assert (Hc : is_Some (ci_at m (ci m))).
  { destruct Hfr as (Hci & Hend & _). unfold ci_at, zlookup.
    rewrite decide_True by lia. apply lookup_lt_is_Some. lia. }
  destruct Hc as [c Hc].
  unfold ecall, ensure_entry. rewrite Hc. simpl.
  destruct (zlookup (ensure m) i) as [p|]; [simpl|done].
  destruct (cipush_frames host m c Hfr Hc)
    as (fresh & m1 & Hpush & Hci1 & Hfr1 & Hlow & Hfresh & Hn & Hr & He & Henv).
  destruct (cipush_same host _ _ Hpush)
    as (Hst1 & Hsb1 & _ & Hheap1 & Hmem1 & _ & _ & Hirep1 & Hec1).
  rewrite Hpush. simpl. rewrite Hci1.
  replace (ci m + 1 - 1) with (ci m) by lia.
  rewrite (Hlow (ci m)) by (destruct Hfr; lia). rewrite Hc, Hfresh. simpl.
  erewrite ci_upd_Some by exact Hfresh.
  simpl. rewrite Hst1, Hsb1.
  set (f1 := with_proc p _).
  assert (Hp : forall q, proc_at (set_cibase (<[Z.to_nat (ci m + 1) := f1]> (cibase m1)) m1) q
                         = proc_at m q).
  { intros q. unfold proc_at, obj_at. simpl. by rewrite Hheap1. }
  assert (Hi : forall q, irep_at (set_cibase (<[Z.to_nat (ci m + 1) := f1]> (cibase m1)) m1) q
                         = irep_at m q).
  { intros q. unfold irep_at. simpl. by rewrite Hirep1. }
  rewrite Hp. destruct (proc_at m p) as [pr|]; [simpl|done].
  rewrite Hi. destruct (irep_at m (proc_body pr)) as [ir|]; [simpl|done].
  assert (Hf1 : ci_at (set_cibase (<[Z.to_nat (ci m + 1) := f1]> (cibase m1)) m1) (ci m + 1)
                = Some f1).
  { unfold ci_at, zlookup. simpl. rewrite decide_True by (destruct Hfr; lia).
    apply list_lookup_insert_eq. destruct Hfr1 as (? & ? & ?). lia. }
  erewrite ci_upd_Some by exact Hf1. simpl.
  rewrite list_insert_insert_eq, Hmem1, Hec1, ?Hst1.
  destruct (load (mem m) (stack m)) as [self|]; [simpl|done].
  replace (with_target_class (proc_target_class pr) (with_nregs (ir_nregs ir) f1))
    with (MkCallinfo (ci_mid c) p (ptr_diff (stack m) (stbase m)) (ir_nregs ir) 0
                     (ci_pc fresh) (-1) (proc_target_class pr) (ci_ridx c) (ci_eidx c) 0).
  2: { subst f1. destruct fresh. simpl in *. by subst. }
  done.
Qed.

Lemma ensure_entry_Some host (m m_in : mrb_state) (i p : Z) (self : mrb_value) :
  ensure_entry host m i = Some (m_in, p, self) ->
  zlookup (ensure m) i = Some p.
Proof.
  unfold ensure_entry. intros H.
  destruct (ci_at m (ci m)); [simpl in H|done].
  destruct (zlookup (ensure m) i) as [q|]; [simpl in H|done].
  destruct (cipush host m); [simpl in H|done].
  destruct (ci_at _ (ci m + 1)); [simpl in H|done].
  destruct (proc_at m q); [simpl in H|done].
  destruct (irep_at m _); [simpl in H|done].
  destruct (load _ _); [simpl in H|done].
  congruence.
Qed.

Lemma epop_step host run (m : mrb_state) (L : locals) (c : mrb_callinfo) (n : nat) :
  frames_ok m ->
  ci_at m (ci m) = Some c ->
  L_OP_EPOP host run m L (Z.of_nat (S n)) =
    (m0 ← ci_upd (ci m) (with_eidx (ci_eidx c - 1)) m;
     '(m_in, p, self) ← ensure_entry host m0 (ci_eidx c - 1);
     r ← run m_in p self;
     L_OP_EPOP host run (fst r) L (Z.of_nat n)).
Proof.
  intros Hfr Hc. unfold L_OP_EPOP. rewrite !Nat2Z.id. simpl epop_loop.
  rewrite Hc. simpl.
  rewrite (ci_upd_Some _ _ _ _ Hc). simpl.
  rewrite ecall_hands_over.
  2: { destruct Hfr as (? & ? & ?). unfold frames_ok. simpl.
       rewrite length_insert. done. }
  destruct (ensure_entry _ _ _) as [[[m_in p] self]|]; [simpl|done].
  destruct (run m_in p self) as [r|]; done.
Qed.

Lemma epop_loop_runs host run (m m' : mrb_state) (ps : list Z) :
  ensure_runs host run m ps m' ->
  frames_ok m ->
  forall c, ci_at m (ci m) = Some c ->
    epop_loop host run (length ps) m = Some m' /\
    ci m' = ci m /\ frames_ok m' /\
    ci_at m' (ci m) = Some (with_eidx (ci_eidx c - Z.of_nat (length ps)) c) /\
    (forall k : nat, (k < length ps)%nat ->
       0 <= ci_eidx c - 1 - Z.of_nat k /\
       ps !! k = ensure m !! Z.to_nat (ci_eidx c - 1 - Z.of_nat k)).
Proof.
  induction 1 as [m|m m0 m_in m1 m' c0 p self v ps Hc0 Hupd Hent Hrun Hret Hrest IH];
    intros Hfr c Hc.
  - simpl. rewrite Z.sub_0_r.
    split; [done|]. split; [done|]. split; [done|]. split.
    + rewrite Hc. by destruct c.
    + intros k Hk. simpl in Hk. lia.
  - rewrite Hc in Hc0. injection Hc0 as <-.
    pose proof (ci_upd_Some _ _ (with_eidx (ci_eidx c - 1)) _ Hc) as Hupd'.
    rewrite Hupd in Hupd'. injection Hupd' as Hm0.
    assert (Hfr0 : frames_ok m0).
    { subst m0.  destruct Hfr as (? & ? & ?). unfold frames_ok. simpl.
      rewrite length_insert. done. }
    assert (Hci0 : ci m0 = ci m) by (subst m0; done).
    assert (Hens0 : ensure m0 = ensure m) by (subst m0; done).
    assert (Hc0 : ci_at m0 (ci m) = Some (with_eidx (ci_eidx c - 1) c)).
    { subst m0. unfold ci_at, zlookup. simpl.
      destruct Hfr as (? & ? & ?). rewrite decide_True by lia.
      apply list_lookup_insert_eq. lia. }
    destruct Hret as (Hci1 & Hfr1 & Hsame & Hlow).
    rewrite Hci0 in Hsame, Hci1. rewrite Hc0 in Hsame.
    rewrite <- Hci1 in Hsame.
    destruct (IH Hfr1 _ Hsame) as (Hloop & Hci' & Hfr' & Hc' & Hps).
    pose proof (ensure_entry_Some _ _ _ _ _ _ Hent) as Hp.
    rewrite Hens0 in Hp.
    assert (Hpos : 0 <= ci_eidx c - 1).
    { unfold zlookup in Hp. by case_decide. }
    simpl length. split.
    { simpl epop_loop. rewrite Hc. simpl. rewrite Hupd. simpl.
      rewrite ecall_hands_over by done. rewrite Hent. simpl. rewrite Hrun. simpl.
      exact Hloop. }
    split; [congruence|]. split; [done|]. split.
    { rewrite Hci1 in Hc'. rewrite Hc'. f_equal. clear. destruct c. unfold with_eidx. simpl. f_equal. lia. }
    intros [|k] Hk.
    + simpl. rewrite Z.sub_0_r. split; [done|].
      unfold zlookup in Hp. by rewrite decide_True in Hp by done.
    + destruct (Hps k ltac:(simpl in Hk; lia)) as (Hk0 & Hk1).
      replace (ci_eidx (with_eidx (ci_eidx c - 1) c)) with (ci_eidx c - 1) in *
        by (by destruct c).
      split; [lia|]. simpl. rewrite Hk1.
      replace (ci_eidx c - 1 - Z.of_nat (S k)) with (ci_eidx c - 1 - 1 - Z.of_nat k) by lia.
      rewrite <- Hens0.
      rewrite <- (lookup_take_lt (ensure m1) (Z.to_nat (ci_eidx c - 1))) by lia.
      rewrite <- (lookup_take_lt (ensure m0) (Z.to_nat (ci_eidx c - 1))) by lia.
      by rewrite Hlow.
Qed.

Lemma newest_first (l ps : list Z) (e : Z) :
  (forall k : nat, (k < length ps)%nat ->
     0 <= e - 1 - Z.of_nat k /\ ps !! k = l !! Z.to_nat (e - 1 - Z.of_nat k)) ->
  ps = rev (take (length ps) (drop (Z.to_nat (e - Z.of_nat (length ps))) l)).
Proof.
  intros H. rewrite rev_alt. change (rev_append ?x []) with (reverse x).
  destruct (decide (ps = [])) as [->|Hne]; [done|].
  assert (Hn : (0 < length ps)%nat) by (destruct ps; simpl; [done|lia]).
  destruct (H (length ps - 1)%nat ltac:(lia)) as (Hlast & Hl).
  assert (Hin : (Z.to_nat (e - Z.of_nat (length ps)) < length l)%nat).
  { apply lookup_lt_is_Some. 
    replace (Z.to_nat (e - Z.of_nat (length ps)))
      with (Z.to_nat (e - 1 - Z.of_nat (length ps - 1))) by lia.
    rewrite <- Hl. apply lookup_lt_is_Some. lia. }
  assert (He : Z.of_nat (length ps) <= e) by lia.
  assert (Hlen : length (take (length ps) (drop (Z.to_nat (e - Z.of_nat (length ps))) l))
                 = length ps).
  { rewrite length_take, length_drop.
    assert (Z.to_nat (e - 1) < length l)%nat; [|lia].
    apply lookup_lt_is_Some. destruct (H 0%nat Hn) as (_ & H0).
    rewrite Z.sub_0_r in H0. rewrite <- H0.
    apply lookup_lt_is_Some. done. }
  apply list_eq. intros k.
  destruct (decide (k < length ps)%nat) as [Hk|Hk].
  - rewrite reverse_lookup by lia. rewrite Hlen.
    rewrite lookup_take_lt by lia. rewrite lookup_drop.
    destruct (H k Hk) as (? & ->). f_equal. lia.
  - rewrite !lookup_ge_None_2; [done| |lia].
    rewrite length_reverse. lia.
Qed.

Lemma epop_runs_spec host run (m m' : mrb_state) (L : locals) (c : mrb_callinfo)
    (ps : list Z) :
  frames_ok m ->
  ci_at m (ci m) = Some c ->
  ensure_runs host run m ps m' ->
  let a := Z.of_nat (length ps) in
  L_OP_EPOP host run m L a = NEXT m' L /\
  ps = rev (take (length ps) (drop (Z.to_nat (ci_eidx c - a)) (ensure m))) /\
  (ps <> [] -> a <= ci_eidx c) /\
  ci m' = ci m /\
  ci_at m' (ci m') = Some (with_eidx (ci_eidx c - a) c).
Proof.
  intros Hfr Hc Hruns a.
  destruct (epop_loop_runs _ _ _ _ _ Hruns Hfr c Hc) as (Hloop & Hci & _ & Hc' & Hps).
  split.
  { unfold L_OP_EPOP. subst a. rewrite Nat2Z.id, Hloop. done. }
  split; [by apply newest_first|].
  split.
  { intros Hne. destruct ps as [|p ps']; [done|].
    destruct (Hps (length ps') ltac:(simpl; lia)). subst a. simpl length. lia. }
  split; [done|]. by rewrite Hci.
Qed.

(** C5: OP_EPOP takes the ensure procedures off the current frame from
    the top.  One pass of its loop lowers the frame's [eidx] by one and
    runs the entry that was on top, on the frame [ecall] builds for it
    (whatever the nested run does).  When each of the procedures [ps] so
    run comes back into the frame, OP_EPOP [length ps] goes on to the next
    instruction from the state the last one left; [ps] is the top
    [length ps] entries of the frame's ensure stack, newest first, and the
    frame's [eidx] is lower by [length ps].  In particular EPUSH body1;
    EPUSH body2; EPOP 2; RETURN r0 runs body2 (procedure 4, irep 2) and then
    body1 (procedure 2, irep 1) before it returns: of their shared window,
    r1 holds the 11 of body1 over the 22 of body2, and r2 the 22 of body2. *)
Theorem epop_runs_newest_first :
  (forall host run m L c n,
     frames_ok m ->
     ci_at m (ci m) = Some c ->
     L_OP_EPOP host run m L (Z.of_nat (S n)) =
       (m0 ← ci_upd (ci m) (with_eidx (ci_eidx c - 1)) m;
        '(m_in, p, self) ← ensure_entry host m0 (ci_eidx c - 1);
        r ← run m_in p self;
        L_OP_EPOP host run (fst r) L (Z.of_nat n))) /\
  (forall host run m L c ps m',
     frames_ok m ->
     ci_at m (ci m) = Some c ->
     ensure_runs host run m ps m' ->
     let a := Z.of_nat (length ps) in
     L_OP_EPOP host run m L a = NEXT m' L /\
     ps = rev (take (length ps) (drop (Z.to_nat (ci_eidx c - a)) (ensure m))) /\
     (ps <> [] -> a <= ci_eidx c) /\
     ci m' = ci m /\
     ci_at m' (ci m') = Some (with_eidx (ci_eidx c - a) c)) /\
  (exists m0 m' v cells body1 body2,
     stack_init ensure_host order_start = Some m0 /\
     mrb_yield_with_self ensure_host 20 m0 (MkValue MRB_TT_PROC 1) [] mrb_nil_value
       = Some (m', v) /\
     block_of (mem m') (blk (stbase m')) = Some cells /\
     cells !! 6%nat = Some (mrb_fixnum_value 11) /\
     cells !! 7%nat = Some (mrb_fixnum_value 22) /\
     ecalled m' = [4; 2] /\
     proc_at m' 4 = Some body2 /\ proc_body body2 = 2 /\
     proc_at m' 2 = Some body1 /\ proc_body body1 = 1 /\
     ci m' = 0 /\ exc m' = 0).
Proof.
  split; [|split].
  - intros. by apply epop_step.
  - intros. by apply epop_runs_spec.
  - eexists _, _, _, _, _, _. split; [vm_compute; reflexivity|].
    split; [vm_compute; reflexivity|].
    split; [vm_compute; reflexivity|].
    split; [vm_compute; reflexivity|].
    split; [vm_compute; reflexivity|].
    split; [vm_compute; reflexivity|].
    split; [vm_compute; reflexivity|].
    split; [vm_compute; reflexivity|].
    split; [vm_compute; reflexivity|].
    split; [vm_compute; reflexivity|].
    split; vm_compute; reflexivity.
Qed.

(** C5 (as stated, refuted): [f] holds body1 and body2 on its part of the
    ensure stack (three entries in all, [eidx] 3) when it comes to EPOP 2.
    body2 runs and raises; no frame has a handler, so the unwinding of its
    run leaves the base frame current.  The second pass of the loop then
    lowers the [eidx] of the base frame and runs body0, the entry of
    [main]: body1 is not run (no cell holds its 11, the 33 of body0 is
    there) and stays on the ensure stack, and the frame slot of [f] is
    taken by the call of body0. *)
Lemma epop_raising_body_skips_older :
  exists m L c m' L' c',
    raise_at_epop = Some (m, L) /\
    fetch m (l_pc L) = Some (OP_EPOP 2) /\
    ci m = 1 /\ ci_at m 1 = Some c /\ ci_eidx c = 3 /\
    take 3 (ensure m) = [4; 6; 8] /\
    (proc_body <$> proc_at m 4) = Some 2 /\
    (proc_body <$> proc_at m 6) = Some 3 /\
    (proc_body <$> proc_at m 8) = Some 4 /\
    step raise_host (mrb_run raise_host 20) m L = Some (Dispatch m' L') /\
    ecalled m' = ecalled m ++ [8; 4] /\
    block_of (mem m') (blk (stbase m')) =
      Some ([mrb_nil_value; MkValue MRB_TT_EXCEPTION 3; mrb_nil_value;
             MkValue MRB_TT_EXCEPTION 3; mrb_nil_value; mrb_nil_value;
             MkValue MRB_TT_EXCEPTION 3; mrb_fixnum_value 22] ++
            replicate 4 mrb_nil_value ++ [mrb_fixnum_value 33] ++
            replicate 115 mrb_nil_value) /\
    take 3 (ensure m') = [4; 6; 8] /\
    ci m' = 0 /\ exc m' = 3 /\
    ci_at m' 1 = Some c' /\ ci_proc c' = 4 /\ ci_eidx c' <> ci_eidx c - 2.
Proof.
  eexists _, _, _, _, _, _.
  split; [vm_compute; reflexivity|].
  split; [vm_compute; reflexivity|].
  split; [vm_compute; reflexivity|].
  split; [vm_compute; reflexivity|].
  split; [vm_compute; reflexivity|].
  split; [vm_compute; reflexivity|].
  split; [vm_compute; reflexivity|].
  split; [vm_compute; reflexivity|].
  split; [vm_compute; reflexivity|].
  split; [vm_compute; reflexivity|].
  split; [vm_compute; reflexivity|].
  split; [vm_compute; reflexivity|].
  split; [vm_compute; reflexivity|].
  split; [vm_compute; reflexivity|].
  split; [vm_compute; reflexivity|].
  split; [vm_compute; reflexivity|].
  split; [vm_compute; reflexivity|].
  vm_compute. discriminate.
Qed.

Section SendMissing.
Variable host : mrb_host.

Lemma send_after_lookup (m m1 : mrb_state) (L : locals) (a b n n1 : Z)
    (cells : list mrb_value) (c0 : mrb_callinfo) (mid0 mid1 : mrb_sym) (recv : mrb_value)
    (mth : Z) (pr : RProc) (ir : mrb_irep) :
  sym_at m L b = Some mid0 -> reg m L a = Some recv ->
  method_lookup host m L a n mid0 recv = Some (m1, mth, (mid1, n1)) ->
  frames_ok m1 -> stack_ok m1 cells ->
  ci_at m1 (ci m1) = Some c0 ->
  proc_at m1 mth = Some pr -> proc_cfunc pr = false ->
  irep_at m1 (proc_body pr) = Some ir ->
  0 <= a -> off (stack m1) + a < Z.of_nat (length cells) -> 0 <= n1 -> 0 <= ir_nregs ir ->
  let argc := if decide (n1 = CALL_MAXARGS) then -1 else n1 in
  let room := if decide (argc < 0)
              then (if decide (ir_nregs ir < 3) then 3 else ir_nregs ir)
              else ir_nregs ir in
  let keep := if decide (argc < 0) then 3 else argc + 2 in
  exists (m' : mrb_state) (cells' : list mrb_value),
    L_OP_SEND host m L a b n =
      Some (Dispatch m' (upd_pc (CPtr (proc_body pr) 0) (upd_regs (stack m')
              (upd_irep (proc_body pr) (upd_proc mth L))))) /\
    ci m' = ci m1 + 1 /\ frames_ok m' /\ stack_ok m' cells' /\
    (forall j, 0 <= j <= ci m1 -> ci_at m' j = ci_at m1 j) /\
    ci_at m' (ci m1 + 1) =
      Some (MkCallinfo mid1 mth (ptr_diff (stack m1) (stbase m1)) (ir_nregs ir) argc
              (code_add (l_pc L) 1) a (proc_target_class pr)
              (ci_ridx c0) (ci_eidx c0) 0) /\
    off (stack m') = off (stack m1) + a /\
    (length cells <= length cells')%nat /\
    (forall j : nat, (j < length cells)%nat ->
       ~ (off (stack m1) + a + keep <= Z.of_nat j < off (stack m1) + a + room) ->
       cells' !! j = cells !! j) /\
    (forall j : nat,
       off (stack m1) + a + keep <= Z.of_nat j < off (stack m1) + a + room ->
       cells' !! j = Some zero_value) /\
    heap m' = heap m1 /\ exc m' = exc m1 /\ irep m' = irep m1 /\
    (forall b0, b0 <> blk (stbase m1) -> b0 <> blk (stbase m') ->
       block_of (mem m') b0 = block_of (mem m1) b0) /\
    (blk (stbase m') = blk (stbase m1) \/ block_of (mem m1) (blk (stbase m')) = None).
Proof.
  intros Hsym Hrecv Hlook Hfr Hok Hc0 Hpr Hbc Hir Ha Hin Hn Hnregs argc room keep.
  destruct (cipush_frames host m1 c0 Hfr Hc0)
    as (fresh & m2 & Hpush & Hci2 & Hfr2 & Hlow2 & Hfresh & Hf1 & Hf2 & Hf3 & Hf4).
  destruct (cipush_same host _ _ Hpush)
    as (Hst2 & Hsb2 & Hse2 & Hheap2 & Hmem2 & Hexc2 & _ & Hirep2 & _).
  set (k := ci m1 + 1) in *.
  set (F1 := fun f => with_pc (code_add (l_pc L) 1) (with_target_class (proc_target_class pr)
                (with_argc (if decide (n1 = CALL_MAXARGS) then -1 else n1)
                  (with_stackidx (ptr_diff (stack m2) (stbase m2))
                    (with_proc mth (with_mid mid1 f)))))).
  destruct (ci_upd_ex m2 k F1 fresh Hfresh) as (m3 & Hu3 & Hk3 & Hoth3).
  destruct (ci_upd_same _ _ _ _ Hu3)
    as (Hst3 & Hsb3 & Hse3 & Hheap3 & Hmem3 & Hexc3 & Hci3 & Hend3 & Hirep3 & Hlen3).
  set (m4 := set_stack (ptr_add (stack m3) a) m3).
  assert (Hk4 : ci_at m4 k = Some (F1 fresh)) by exact Hk3.
  destruct (ci_upd_ex m4 k (with_acc a) _ Hk4) as (m5 & Hu5 & Hk5 & Hoth5).
  destruct (ci_upd_same _ _ _ _ Hu5)
    as (Hst5 & Hsb5 & Hse5 & Hheap5 & Hmem5 & Hexc5 & Hci5 & Hend5 & Hirep5 & Hlen5).
  assert (Hci5' : ci m5 = k) by (rewrite Hci5; unfold m4; st_simpl; lia).
  destruct (ci_upd_ex m5 (ci m5) (with_proc mth) _ ltac:(rewrite Hci5'; exact Hk5))
    as (m6 & Hu6 & Hk6 & Hoth6).
  destruct (ci_upd_same _ _ _ _ Hu6)
    as (Hst6 & Hsb6 & Hse6 & Hheap6 & Hmem6 & Hexc6 & Hci6 & Hend6 & Hirep6 & Hlen6).
  rewrite Hci5' in Hk6, Hoth6.
  destruct (ci_upd_ex m6 k (with_nregs (ir_nregs ir)) _ Hk6) as (m7 & Hu7 & Hk7 & Hoth7).
  destruct (ci_upd_same _ _ _ _ Hu7)
    as (Hst7 & Hsb7 & Hse7 & Hheap7 & Hmem7 & Hexc7 & Hci7 & Hend7 & Hirep7 & Hlen7).
  pose proof Hok as (Hb & Hnn & Hb0 & Hsk & Hsend & Hend & Hrng).
  assert (Hstack7 : stack m7 = ptr_add (stack m1) a).
  { rewrite Hst7, Hst6, Hst5. unfold m4. st_simpl. by rewrite Hst3, Hst2. }
  assert (Hok7 : stack_ok m7 cells).
  { unfold stack_ok. rewrite Hstack7, Hmem7, Hmem6, Hmem5, Hsb7, Hsb6, Hsb5, Hse7, Hse6, Hse5.
    unfold m4. st_simpl. rewrite Hmem3, Hmem2, Hsb3, Hsb2, Hse3, Hse2.
    repeat split; try done; lia. }
  assert (Hkeep0 : 0 <= keep) by (subst keep argc; repeat case_decide; lia).
  assert (Hroom0 : 0 <= room) by (subst room; repeat case_decide; lia).
  destruct (stack_extend_spec host m7 cells room keep Hok7)
    as (m8 & cells8 & Hext & Hok8 & Hoff8 & Hroom8 & Hle8 & Hkeep8 & Hzero8 & Hoth8 & Hblk8 &
        Hm8 & _);
    [lia|done|].
  assert (Hfields8 : cibase m8 = cibase m7 /\ ci m8 = ci m7 /\ ciend m8 = ciend m7 /\
                     heap m8 = heap m7 /\ exc m8 = exc m7 /\ irep m8 = irep m7).
  { rewrite Hm8. done. }
  destruct Hfields8 as (Hcb8 & Hci8 & Hend8 & Hheap8 & Hexc8 & Hirep8).
  exists m8, cells8. split.
  { unfold L_OP_SEND. rewrite Hsym. cbn [mbind option_bind]. rewrite Hrecv.
    cbn [mbind option_bind]. rewrite Hlook. rewrite Hpush. cbn [mbind option_bind].
    unfold proc_at, obj_at in *. rewrite Hheap2, Hpr. cbn [mbind option_bind].
    rewrite Hci2. fold k. fold F1. rewrite Hu3. cbn [mbind option_bind].
    rewrite Hbc. fold m4. rewrite Hu5. cbn [mbind option_bind].
    rewrite Hu6. cbn [mbind option_bind].
    unfold irep_at in *. rewrite Hirep6, Hirep5. unfold m4 at 1. st_simpl.
    rewrite Hirep3, Hirep2, Hir. cbn [mbind option_bind].
    rewrite Hu7. cbn [mbind option_bind]. rewrite Hk7. cbn [mbind option_bind].
    assert (Hargc : ci_argc (with_nregs (ir_nregs ir) (with_proc mth (with_acc a (F1 fresh))))
                    = argc) by reflexivity.
    rewrite Hargc. unfold extend_for_callee.
    subst room keep. destruct (decide (argc < 0)); rewrite Hext; done. }
  split.
  { rewrite Hci8, Hci7, Hci6, Hci5'. done. }
  split.
  { unfold frames_ok in *. rewrite Hci8, Hend8, Hcb8, Hci7, Hend7, Hlen7, Hci6, Hend6, Hlen6,
      Hci5', Hend5, Hlen5. unfold m4. st_simpl. rewrite Hend3, Hlen3. unfold k. lia. }
  split; [done|]. split.
  { intros j Hj. unfold ci_at in *. rewrite Hcb8.
    rewrite Hoth7, Hoth6, Hoth5 by (unfold k; lia). unfold m4. st_simpl.
    rewrite Hoth3 by (unfold k; lia). by apply Hlow2. }
  split.
  { unfold ci_at in *. rewrite Hcb8, Hk7. f_equal. unfold F1.
    rewrite Hst2, Hsb2.
    destruct fresh. cbn in Hf1, Hf2, Hf3, Hf4. subst.
    reflexivity. }
  split.
  { rewrite Hoff8, Hstack7. done. }
  split; [done|].
  rewrite Hstack7 in Hkeep8, Hzero8. st_simpl.
  split.
  { intros j Hj Hout. apply Hkeep8; [done|lia]. }
  split.
  { intros j Hj. apply Hzero8. lia. }
  assert (Hmem71 : mem m7 = mem m1).
  { rewrite Hmem7, Hmem6, Hmem5. unfold m4. st_simpl. by rewrite Hmem3, Hmem2. }
  assert (Hsb71 : stbase m7 = stbase m1).
  { rewrite Hsb7, Hsb6, Hsb5. unfold m4. st_simpl. by rewrite Hsb3, Hsb2. }
  rewrite Hmem71, Hsb71 in Hoth8, Hblk8.
  split; [|split; [|split; [|split]]].
  - rewrite Hheap8, Hheap7, Hheap6, Hheap5. unfold m4. st_simpl. by rewrite Hheap3, Hheap2.
  - rewrite Hexc8, Hexc7, Hexc6, Hexc5. unfold m4. st_simpl. by rewrite Hexc3, Hexc2.
  - rewrite Hirep8, Hirep7, Hirep6, Hirep5. unfold m4. st_simpl. by rewrite Hirep3, Hirep2.
  - done.
  - destruct Hblk8 as [?|[? _]]; [by left|by right].
Qed.


Lemma send_after_lookup_native (m m1 : mrb_state) (L : locals) (a b n n1 : Z)
    (c0 : mrb_callinfo) (mid0 mid1 : mrb_sym) (recv : mrb_value) (mth : Z) (pr : RProc) :
  sym_at m L b = Some mid0 -> reg m L a = Some recv ->
  method_lookup host m L a n mid0 recv = Some (m1, mth, (mid1, n1)) ->
  frames_ok m1 -> ci_at m1 (ci m1) = Some c0 ->
  proc_at m1 mth = Some pr -> proc_cfunc pr = true ->
  exists (m4 : mrb_state) (c : mrb_callinfo),
    L_OP_SEND host m L a b n = send_native host m4 L recv pr /\
    ci m4 = ci m1 + 1 /\ ci_at m4 (ci m4) = Some c /\
    ci_mid c = mid1 /\ ci_proc c = mth /\
    ci_argc c = (if decide (n1 = CALL_MAXARGS) then -1 else n1) /\
    ci_stackidx c = ptr_diff (stack m1) (stbase m1) /\
    ci_pc c = code_add (l_pc L) 1 /\
    stack m4 = ptr_add (stack m1) a /\ mem m4 = mem m1 /\ heap m4 = heap m1.
Proof.
  intros Hsym Hrecv Hlook Hfr Hc0 Hpr Hnat.
  destruct (cipush_frames host m1 c0 Hfr Hc0)
    as (fresh & m2 & Hpush & Hci2 & Hfr2 & Hlow2 & Hfresh & Hf1 & Hf2 & Hf3 & Hf4).
  destruct (cipush_same host _ _ Hpush)
    as (Hst2 & Hsb2 & Hse2 & Hheap2 & Hmem2 & Hexc2 & _ & Hirep2 & _).
  set (k := ci m1 + 1) in *.
  set (F1 := fun f => with_pc (code_add (l_pc L) 1) (with_target_class (proc_target_class pr)
                (with_argc (if decide (n1 = CALL_MAXARGS) then -1 else n1)
                  (with_stackidx (ptr_diff (stack m2) (stbase m2))
                    (with_proc mth (with_mid mid1 f)))))).
  destruct (ci_upd_ex m2 k F1 fresh Hfresh) as (m3 & Hu3 & Hk3 & Hoth3).
  destruct (ci_upd_same _ _ _ _ Hu3)
    as (Hst3 & Hsb3 & Hse3 & Hheap3 & Hmem3 & Hexc3 & Hci3 & Hend3 & Hirep3 & Hlen3).
  exists (set_stack (ptr_add (stack m3) a) m3), (F1 fresh).
  split.
  { unfold L_OP_SEND. rewrite Hsym. cbn [mbind option_bind]. rewrite Hrecv.
    cbn [mbind option_bind]. rewrite Hlook. rewrite Hpush. cbn [mbind option_bind].
    unfold proc_at, obj_at in *. rewrite Hheap2, Hpr. cbn [mbind option_bind].
    rewrite Hci2. fold k. fold F1. rewrite Hu3. cbn [mbind option_bind].
    rewrite Hnat. unfold send_native. st_simpl. rewrite Hci3, Hci2. done. }
  st_simpl. rewrite Hci3, Hci2, Hst3, Hst2, Hmem3, Hmem2, Hheap3, Hheap2.
  repeat split; try done.
  unfold F1. st_simpl. by rewrite Hst2, Hsb2.
Qed.

Lemma callee_reg (m m' : mrb_state) (cells cells' : list mrb_value) (a i : Z) :
  stack_ok m cells -> stack_ok m' cells' ->
  off (stack m') = off (stack m) + a ->
  0 <= a -> 0 <= i -> off (stack m) + a + i < Z.of_nat (length cells) ->
  cells' !! Z.to_nat (off (stack m) + a + i) = cells !! Z.to_nat (off (stack m) + a + i) ->
  load (mem m') (ptr_add (stack m') i) = load (mem m) (ptr_add (stack m) (a + i)).
Proof.
  intros Hok Hok' Hoff Ha Hi Hin Hsame.
  pose proof Hok as (_ & _ & _ & _ & _ & _ & Hrng).
  rewrite (load_stack_cell m' cells') by (done || lia).
  rewrite (load_stack_cell m cells) by (done || lia).
  rewrite Hoff. rewrite Z.add_assoc. done.
Qed.

Lemma callee_reg_zero (m' : mrb_state) (cells' : list mrb_value) (i : Z) :
  stack_ok m' cells' -> 0 <= i ->
  cells' !! Z.to_nat (off (stack m') + i) = Some zero_value ->
  load (mem m') (ptr_add (stack m') i) = Some zero_value.
Proof.
  intros Hok' Hi Hz.
  pose proof Hok' as (_ & _ & _ & _ & _ & _ & Hrng).
  rewrite (load_stack_cell m' cells') by (done || lia). done.
Qed.

(** The lookup of OP_SEND when nothing is found and the arguments are
    in registers: the state it goes on with. *)
Lemma missing_lookup_unpacked (m : mrb_state) (L : locals) (a n : Z)
    (cells : list mrb_value) (c0 : mrb_callinfo) (mid : mrb_sym) (recv : mrb_value)
    (pr : RProc) :
  let missing := mrb_intern host "method_missing" in
  let mth := mrb_method_search_vm host m (mrb_class host m recv) missing in
  frames_ok m -> stack_ok m cells -> l_regs L = stack m ->
  ci_at m (ci m) = Some c0 ->
  mrb_method_search_vm host m (mrb_class host m recv) mid = 0 ->
  proc_at m mth = Some pr ->
  0 <= a -> 0 <= n -> n <> CALL_MAXARGS ->
  off (stack m) + a + n + 2 < Z.of_nat (length cells) ->
  exists (m1 : mrb_state) (cells1 : list mrb_value),
    method_lookup host m L a n mid recv = Some (m1, mth, (missing, n + 1)) /\
    frames_ok m1 /\ stack_ok m1 cells1 /\ length cells1 = length cells /\
    ci_at m1 (ci m1) = Some c0 /\ proc_at m1 mth = Some pr /\
    ci m1 = ci m /\ irep m1 = irep m /\ stack m1 = stack m /\ stbase m1 = stbase m /\
    reg m1 L (a + 1) = Some (mrb_symbol_value mid) /\
    (forall k, 0 <= k <= n -> reg m1 L (a + 2 + k) = reg m L (a + 1 + k)) /\
    (forall k, k < a + 1 \/ a + n + 2 < k -> reg m1 L k = reg m L k).
Proof.
  intros missing mth Hfr Hok Hregs Hc0 Hnone Hpr Ha Hn Hn127 Hin.
  pose proof Hok as (Hb & Hnn & Hb0 & Hsk & Hsend & Hend & Hrng).
  assert (Hargs : is_Some (load_n (mem m) (ptr_add (l_regs L) (a + 1)) (n + 1))).
  { unfold load_n. rewrite Hregs. st_simpl. rewrite Hsk, Hb.
    rewrite decide_True by lia. done. }
  destruct Hargs as [args Hargs].
  assert (Hlast : is_Some (reg m L (a + n + 2))).
  { unfold reg. rewrite Hregs, (load_stack_cell m cells) by (done || lia).
    apply lookup_lt_is_Some. lia. }
  destruct (method_missing_shift host m L a n (mrb_symbol_value mid) args Hn127 Hargs Hlast)
    as (m1 & Hmm & Hr1 & Hshift & Hout & _ & Hm1).
  assert (Hok1 : exists cells1, stack_ok m1 cells1 /\ length cells1 = length cells).
  { pose proof Hmm as Hmm'. unfold method_missing_args in Hmm'.
    rewrite decide_False in Hmm' by done. unfold memmove in Hmm'. rewrite Hargs in Hmm'.
    destruct (store_n (mem m) _ args) as [M1|] eqn:E1; [|done]. simpl in Hmm'.
    destruct (store M1 _ _) as [M2|] eqn:E2; [|done]. simpl in Hmm'.
    injection Hmm' as <-.
    destruct (stack_ok_store_n m cells _ _ _ Hok E1) as (c1 & Hok1 & Hl1).
    destruct (stack_ok_store_n (set_mem M1 m) c1 _ [mrb_symbol_value mid] M2 Hok1 E2)
      as (c2 & Hok2 & Hl2).
    exists c2. split; [|lia]. by destruct m. }
  destruct Hok1 as (cells1 & Hok1 & Hlen1).
  assert (Hflds : cibase m1 = cibase m /\ ci m1 = ci m /\ ciend m1 = ciend m /\
                  heap m1 = heap m /\ irep m1 = irep m /\ stack m1 = stack m /\
                  stbase m1 = stbase m).
  { rewrite <- Hm1. done. }
  destruct Hflds as (Hcb1 & Hci1 & Hce1 & Hheap1 & Hirep1 & Hst1 & Hsb1).
  exists m1, cells1.
  split.
  { unfold method_lookup. cbv zeta. rewrite Hnone, decide_True by done.
    rewrite Hmm. done. }
  split; [unfold frames_ok; by rewrite Hci1, Hce1, Hcb1|].
  split; [done|]. split; [done|].
  split; [unfold ci_at; by rewrite Hcb1, Hci1|].
  split; [unfold proc_at, obj_at; by rewrite Hheap1|].
  done.
Qed.

(** OP_SEND with no method found, the arguments in registers and a
    bytecode method_missing: what the callee finds, for the count [n + 1]
    as the frame records it. *)
Lemma send_missing_unpacked (m : mrb_state) (L : locals) (a b n : Z)
    (cells : list mrb_value) (c0 : mrb_callinfo) (mid : mrb_sym) (recv : mrb_value)
    (pr : RProc) (ir : mrb_irep) :
  let missing := mrb_intern host "method_missing" in
  let mth := mrb_method_search_vm host m (mrb_class host m recv) missing in
  frames_ok m -> stack_ok m cells -> l_regs L = stack m ->
  ci_at m (ci m) = Some c0 ->
  sym_at m L b = Some mid -> reg m L a = Some recv ->
  mrb_method_search_vm host m (mrb_class host m recv) mid = 0 ->
  proc_at m mth = Some pr -> proc_cfunc pr = false ->
  irep_at m (proc_body pr) = Some ir ->
  0 <= a -> 0 <= n -> n <> CALL_MAXARGS -> 0 <= ir_nregs ir ->
  off (stack m) + a + n + 2 < Z.of_nat (length cells) ->
  let argc := if decide (n + 1 = CALL_MAXARGS) then -1 else n + 1 in
  let room := if decide (argc < 0)
              then (if decide (ir_nregs ir < 3) then 3 else ir_nregs ir)
              else ir_nregs ir in
  let keep := if decide (argc < 0) then 3 else argc + 2 in
  exists (m' : mrb_state) (L' : locals),
    L' = upd_pc (CPtr (proc_body pr) 0) (upd_regs (stack m')
           (upd_irep (proc_body pr) (upd_proc mth L))) /\
    L_OP_SEND host m L a b n = Some (Dispatch m' L') /\
    ci m' = ci m + 1 /\
    ci_at m' (ci m') =
      Some (MkCallinfo missing mth (ptr_diff (stack m) (stbase m)) (ir_nregs ir) argc
              (code_add (l_pc L) 1) a (proc_target_class pr)
              (ci_ridx c0) (ci_eidx c0) 0) /\
    reg m' L' 0 = Some recv /\
    reg m' L' 1 = Some (mrb_symbol_value mid) /\
    (forall i, 2 <= i <= n + 2 -> ~ (keep <= i < room) ->
       reg m' L' i = reg m L (a + i - 1)) /\
    (forall i, keep <= i < room -> reg m' L' i = Some zero_value).
Proof.
  intros missing mth Hfr Hok Hregs Hc0 Hsym Hrecv Hnone Hpr Hbc Hir Ha Hn Hn127 Hnregs Hin
         argc room keep.
  destruct (missing_lookup_unpacked m L a n cells c0 mid recv pr)
    as (m1 & cells1 & Hlook & Hfr1 & Hok1 & Hlen1 & Hc1 & Hpr1 & Hci1 & Hirep1 & Hst1 & Hsb1 &
        Hr1 & Hshift & Hout); try done.
  pose proof Hok as (_ & _ & _ & _ & _ & _ & Hrng).
  destruct (send_after_lookup m m1 L a b n (n + 1) cells1 c0 mid missing recv mth pr ir)
    as (m' & cells' & Hsnd & Hci' & Hfr' & Hok' & _ & Hframe & Hoff' & Hle' & Hkeep' & Hzero' & _);
    try done.
  { unfold irep_at. by rewrite Hirep1. }
  { rewrite Hst1. lia. }
  { lia. }
  rewrite Hst1, Hsb1, Hci1 in *.
  fold argc room keep in Hframe, Hkeep', Hzero'.
  assert (Hkr : keep <= n + 3).
  { subst keep argc. repeat case_decide; lia. }
  assert (Hk3 : 3 <= keep).
  { subst keep argc. repeat case_decide; lia. }
  assert (Hcallee : forall i, 0 <= i <= n + 2 -> ~ (keep <= i < room) ->
            load (mem m') (ptr_add (stack m') i) = load (mem m1) (ptr_add (stack m) (a + i))).
  { intros i Hi Hni.
    rewrite <- Hst1.
    apply (callee_reg m1 m' cells1 cells'); try done; rewrite ?Hst1; try lia.
    apply Hkeep'; lia. }
  eexists m', _. split; [reflexivity|]. split; [exact Hsnd|]. split; [done|].
  split; [by rewrite Hci'|].
  unfold reg in *. cbn [l_regs upd_pc upd_regs]. rewrite Hregs in *.
  split; [|split; [|split]].
  - rewrite Hcallee by lia. rewrite Z.add_0_r.
    rewrite Hout by lia. done.
  - rewrite Hcallee by lia. done.
  - intros i Hi Hni. rewrite Hcallee by (done || lia).
    replace (a + i) with (a + 2 + (i - 2)) by lia.
    rewrite Hshift by lia. f_equal. f_equal. lia.
  - intros i Hi. apply (callee_reg_zero m' cells'); [done|lia|].
    apply Hzero'. rewrite Hoff'. lia.
Qed.

(** The same with a native method_missing: what the function is called
    on. *)
Lemma send_missing_unpacked_native (m : mrb_state) (L : locals) (a b n : Z)
    (cells : list mrb_value) (c0 : mrb_callinfo) (mid : mrb_sym) (recv : mrb_value)
    (pr : RProc) :
  let missing := mrb_intern host "method_missing" in
  let mth := mrb_method_search_vm host m (mrb_class host m recv) missing in
  frames_ok m -> stack_ok m cells -> l_regs L = stack m ->
  ci_at m (ci m) = Some c0 ->
  sym_at m L b = Some mid -> reg m L a = Some recv ->
  mrb_method_search_vm host m (mrb_class host m recv) mid = 0 ->
  proc_at m mth = Some pr -> proc_cfunc pr = true ->
  0 <= a -> 0 <= n -> n <> CALL_MAXARGS ->
  off (stack m) + a + n + 2 < Z.of_nat (length cells) ->
  exists (m4 : mrb_state) (c : mrb_callinfo),
    L_OP_SEND host m L a b n = send_native host m4 L recv pr /\
    ci m4 = ci m + 1 /\ ci_at m4 (ci m4) = Some c /\
    ci_mid c = missing /\ ci_proc c = mth /\
    ci_argc c = (if decide (n + 1 = CALL_MAXARGS) then -1 else n + 1) /\
    ci_stackidx c = ptr_diff (stack m) (stbase m) /\
    ci_pc c = code_add (l_pc L) 1 /\
    stack m4 = ptr_add (stack m) a /\
    load (mem m4) (stack m4) = Some recv /\
    load (mem m4) (ptr_add (stack m4) 1) = Some (mrb_symbol_value mid) /\
    (forall k, 0 <= k <= n ->
       load (mem m4) (ptr_add (stack m4) (2 + k)) = reg m L (a + 1 + k)).
Proof.
  intros missing mth Hfr Hok Hregs Hc0 Hsym Hrecv Hnone Hpr Hnat Ha Hn Hn127 Hin.
  destruct (missing_lookup_unpacked m L a n cells c0 mid recv pr)
    as (m1 & cells1 & Hlook & Hfr1 & Hok1 & Hlen1 & Hc1 & Hpr1 & Hci1 & Hirep1 & Hst1 & Hsb1 &
        Hr1 & Hshift & Hout); try done.
  destruct (send_after_lookup_native m m1 L a b n (n + 1) c0 mid missing recv mth pr)
    as (m4 & c & Hsnd & Hci4 & Hc4 & Hmid & Hproc & Hargc & Hsi & Hpc & Hst4 & Hmem4 & _);
    try done.
  rewrite Hst1, Hsb1, Hci1 in *.
  exists m4, c. split; [exact Hsnd|]. split; [done|]. split; [done|].
  split; [done|]. split; [done|]. split; [done|]. split; [done|]. split; [done|].
  split; [done|].
  rewrite Hst4, Hmem4. unfold reg in *. rewrite Hregs in *.
  split; [|split].
  - rewrite <- (ptr_add_0 (ptr_add (stack m) a)), ptr_add_add, Z.add_0_r.
    rewrite Hout by lia. done.
  - rewrite ptr_add_add. done.
  - intros k Hk. rewrite ptr_add_add.
    replace (a + (2 + k)) with (a + 2 + k) by lia. by apply Hshift.
Qed.

Lemma block_of_same_loads (M M' : memory) (b : nat) (cells : list mrb_value) :
  block_of M b = Some cells -> cells <> [] ->
  (forall q, blk q = b -> load M' q = load M q) ->
  block_of M' b = Some cells.
Proof.
  intros Hb Hne H.
  assert (H0 : is_Some (load M' (Ptr b 0))).
  { rewrite H by done. rewrite load_block. simpl. rewrite Hb. unfold zlookup. simpl.
    destruct cells; [done|]. eauto. }
  destruct (load_is_Some_block _ _ H0) as (cells' & Hb' & _). simpl in Hb'.
  rewrite Hb'. f_equal. apply list_eq. intros i.
  specialize (H (Ptr b (Z.of_nat i)) eq_refl). rewrite !load_block in H. simpl in H.
  rewrite Hb, Hb' in H. unfold zlookup in H. rewrite !decide_True in H by lia.
  rewrite Nat2Z.id in H. done.
Qed.

Lemma mrb_ary_unshift_others (m m' : mrb_state) (v item : mrb_value) :
  mrb_ary_unshift host m v item = Some m' ->
  forall p, p <> mrb_object v -> obj_at m' p = obj_at m p.
Proof.
  unfold mrb_ary_unshift, obj_set. intros H p Hp. unbind.
  destruct (obj_at (set_mem _ m) (mrb_object v)) eqn:E; [|done]. simplify_eq.
  unfold obj_at in *. st_simpl. case_decide; [|done].
  case_decide; [|done].
  apply list_lookup_insert_ne. lia.
Qed.

(** The lookup of OP_SEND when nothing is found and the arguments are
    packed in the array of R(A+1): the state it goes on with. *)
Lemma missing_lookup_packed (m : mrb_state) (L : locals) (a : Z)
    (cells : list mrb_value) (c0 : mrb_callinfo) (mid : mrb_sym) (recv v : mrb_value)
    (pr : RProc) (ary : RArray) (elts : list mrb_value) :
  let missing := mrb_intern host "method_missing" in
  let mth := mrb_method_search_vm host m (mrb_class host m recv) missing in
  frames_ok m -> stack_ok m cells -> l_regs L = stack m ->
  ci_at m (ci m) = Some c0 ->
  mrb_method_search_vm host m (mrb_class host m recv) mid = 0 ->
  proc_at m mth = Some pr ->
  0 <= a ->
  off (stack m) + a + 2 < Z.of_nat (length cells) ->
  reg m L (a + 1) = Some v ->
  ary_at m (mrb_object v) = Some ary ->
  load_n (mem m) (ary_buf ary) (ary_len ary) = Some elts ->
  ary_buf ary <> NULL -> off (ary_buf ary) = 0 ->
  blk (ary_buf ary) <> blk (stbase m) ->
  exists (m1 : mrb_state) (buf : ptr),
    method_lookup host m L a CALL_MAXARGS mid recv
      = Some (m1, mth, (missing, CALL_MAXARGS)) /\
    frames_ok m1 /\ stack_ok m1 cells /\
    ci_at m1 (ci m1) = Some c0 /\ proc_at m1 mth = Some pr /\
    ci m1 = ci m /\ irep m1 = irep m /\ stack m1 = stack m /\ stbase m1 = stbase m /\
    ary_at m1 (mrb_object v) = Some (MkArray (ary_len ary + 1) (ary_len ary + 1) buf) /\
    load_n (mem m1) buf (ary_len ary + 1) = Some (mrb_symbol_value mid :: elts) /\
    blk buf <> blk (stbase m) /\
    (forall q, blk q = blk (stbase m) -> load (mem m1) q = load (mem m) q).
Proof.
  intros missing mth Hfr Hok Hregs Hc0 Hnone Hpr Ha Hin Hv Hary Helts Hbnn Hb0 Hbs.
  pose proof Hok as (Hb & Hnn & Hsb0 & Hsk & Hsend & Hend & Hrng).
  destruct (method_missing_unshift host m L a (mrb_symbol_value mid) v ary elts
              Hv Hary Helts Hbnn Hb0)
    as (m1 & buf & Hmm & Hary1 & Hload1 & Hfresh & Hoth).
  pose proof (method_missing_args_frames host _ _ _ _ _ _ _ Hmm) as Hsame.
  assert (Hflds : cibase m1 = cibase m /\ ci m1 = ci m /\ ciend m1 = ciend m /\
                  irep m1 = irep m /\ stack m1 = stack m /\
                  stbase m1 = stbase m /\ stend m1 = stend m).
  { rewrite Hsame. done. }
  destruct Hflds as (Hcb1 & Hci1 & Hce1 & Hirep1 & Hst1 & Hsb1 & Hse1).
  assert (Hbufs : blk buf <> blk (stbase m)).
  { intros E. rewrite E, Hb in Hfresh. done. }
  assert (Hloads : forall q, blk q = blk (stbase m) -> load (mem m1) q = load (mem m) q).
  { intros q Hq. apply Hoth; rewrite Hq; congruence. }
  exists m1, buf.
  split.
  { unfold method_lookup. cbv zeta. rewrite Hnone, decide_True by done.
    rewrite Hmm. done. }
  split; [unfold frames_ok; by rewrite Hci1, Hce1, Hcb1|].
  split.
  { unfold stack_ok. rewrite Hst1, Hsb1, Hse1. repeat split; try done; try lia.
    apply (block_of_same_loads (mem m)); [done| |done].
    intros ->. simpl in Hin. lia. }
  split; [unfold ci_at; by rewrite Hcb1, Hci1|].
  split.
  { unfold method_missing_args in Hmm. rewrite decide_True in Hmm by done.
    rewrite Hv in Hmm. simpl in Hmm.
    destruct (mrb_ary_unshift host m v _) as [mx|] eqn:E; [|done]. simpl in Hmm.
    injection Hmm as <-.
    unfold proc_at. rewrite (mrb_ary_unshift_others _ _ _ _ E); [done|].
    intros ->. unfold proc_at, ary_at in *.
    destruct (obj_at m (mrb_object v)) as [[]|]; done. }
  done.
Qed.

(** OP_SEND with no method found, the arguments packed in the array of
    R(A+1) and a bytecode method_missing. *)
Lemma send_missing_packed (m : mrb_state) (L : locals) (a b : Z)
    (cells : list mrb_value) (c0 : mrb_callinfo) (mid : mrb_sym) (recv v : mrb_value)
    (pr : RProc) (ir : mrb_irep) (ary : RArray) (elts : list mrb_value) :
  let missing := mrb_intern host "method_missing" in
  let mth := mrb_method_search_vm host m (mrb_class host m recv) missing in
  frames_ok m -> stack_ok m cells -> l_regs L = stack m ->
  ci_at m (ci m) = Some c0 ->
  sym_at m L b = Some mid -> reg m L a = Some recv ->
  mrb_method_search_vm host m (mrb_class host m recv) mid = 0 ->
  proc_at m mth = Some pr -> proc_cfunc pr = false ->
  irep_at m (proc_body pr) = Some ir ->
  0 <= a -> 0 <= ir_nregs ir ->
  off (stack m) + a + 2 < Z.of_nat (length cells) ->
  reg m L (a + 1) = Some v ->
  ary_at m (mrb_object v) = Some ary ->
  load_n (mem m) (ary_buf ary) (ary_len ary) = Some elts ->
  ary_buf ary <> NULL -> off (ary_buf ary) = 0 ->
  blk (ary_buf ary) <> blk (stbase m) ->
  exists (m' : mrb_state) (L' : locals) (buf : ptr),
    L' = upd_pc (CPtr (proc_body pr) 0) (upd_regs (stack m')
           (upd_irep (proc_body pr) (upd_proc mth L))) /\
    L_OP_SEND host m L a b CALL_MAXARGS = Some (Dispatch m' L') /\
    ci m' = ci m + 1 /\
    ci_at m' (ci m') =
      Some (MkCallinfo missing mth (ptr_diff (stack m) (stbase m)) (ir_nregs ir) (-1)
              (code_add (l_pc L) 1) a (proc_target_class pr)
              (ci_ridx c0) (ci_eidx c0) 0) /\
    reg m' L' 0 = Some recv /\
    reg m' L' 1 = Some v /\
    reg m' L' 2 = reg m L (a + 2) /\
    ary_at m' (mrb_object v) = Some (MkArray (ary_len ary + 1) (ary_len ary + 1) buf) /\
    load_n (mem m') buf (ary_len ary + 1) = Some (mrb_symbol_value mid :: elts).
Proof.
  intros missing mth Hfr Hok Hregs Hc0 Hsym Hrecv Hnone Hpr Hbc Hir Ha Hnregs Hin
         Hv Hary Helts Hbnn Hb0 Hbs.
  pose proof Hok as (Hb & Hnn & Hsb0 & Hsk & Hsend & Hend & Hrng).
  destruct (missing_lookup_packed m L a cells c0 mid recv v pr ary elts)
    as (m1 & buf & Hlook & Hfr1 & Hok1 & Hc1 & Hpr1 & Hci1 & Hirep1 & Hst1 & Hsb1 &
        Hary1 & Hload1 & Hbufs & Hloads); try done.
  destruct (send_after_lookup m m1 L a b CALL_MAXARGS CALL_MAXARGS cells c0 mid missing recv
              mth pr ir)
    as (m' & cells' & Hsnd & Hci' & Hfr' & Hok' & _ & Hframe & Hoff' & Hle' & Hkeep' & _ &
        Hheap' & _ & _ & Hblocks & Hmoved);
    try done.
  { unfold irep_at. by rewrite Hirep1. }
  { rewrite Hst1. lia. }
  rewrite decide_True in Hframe, Hkeep' by done.
  rewrite decide_True in Hkeep' by lia.
  rewrite Hst1, Hsb1, Hci1 in *.
  assert (Hcallee : forall i, 0 <= i <= 2 ->
            load (mem m') (ptr_add (stack m') i) = load (mem m) (ptr_add (stack m) (a + i))).
  { intros i Hi.
    transitivity (load (mem m1) (ptr_add (stack m1) (a + i))).
    - apply (callee_reg m1 m' cells cells'); try done; rewrite ?Hst1; try lia.
      apply Hkeep'; lia.
    - rewrite Hst1. apply Hloads. st_simpl. done. }
  eexists m', _, buf. split; [reflexivity|]. split; [exact Hsnd|]. split; [done|].
  split; [by rewrite Hci'|].
  unfold reg in *. cbn [l_regs upd_pc upd_regs]. rewrite Hregs in *.
  split; [|split; [|split; [|split]]].
  - rewrite Hcallee by lia. by rewrite Z.add_0_r.
  - rewrite Hcallee by lia. done.
  - rewrite Hcallee by lia. done.
  - unfold ary_at, obj_at in *. by rewrite Hheap'.
  - rewrite <- Hload1. apply load_n_same_block.
    destruct (load_n_block _ _ _ _ Hload1) as (cs & Hcs & _).
    apply Hblocks; [done|].
    destruct Hmoved as [->|Hnone']; [done|].
    intros E. rewrite <- E, Hcs in Hnone'. done.
Qed.

(** The same with a native method_missing. *)
Lemma send_missing_packed_native (m : mrb_state) (L : locals) (a b : Z)
    (cells : list mrb_value) (c0 : mrb_callinfo) (mid : mrb_sym) (recv v : mrb_value)
    (pr : RProc) (ary : RArray) (elts : list mrb_value) :
  let missing := mrb_intern host "method_missing" in
  let mth := mrb_method_search_vm host m (mrb_class host m recv) missing in
  frames_ok m -> stack_ok m cells -> l_regs L = stack m ->
  ci_at m (ci m) = Some c0 ->
  sym_at m L b = Some mid -> reg m L a = Some recv ->
  mrb_method_search_vm host m (mrb_class host m recv) mid = 0 ->
  proc_at m mth = Some pr -> proc_cfunc pr = true ->
  0 <= a ->
  off (stack m) + a + 2 < Z.of_nat (length cells) ->
  reg m L (a + 1) = Some v ->
  ary_at m (mrb_object v) = Some ary ->
  load_n (mem m) (ary_buf ary) (ary_len ary) = Some elts ->
  ary_buf ary <> NULL -> off (ary_buf ary) = 0 ->
  blk (ary_buf ary) <> blk (stbase m) ->
  exists (m4 : mrb_state) (c : mrb_callinfo) (buf : ptr),
    L_OP_SEND host m L a b CALL_MAXARGS = send_native host m4 L recv pr /\
    ci m4 = ci m + 1 /\ ci_at m4 (ci m4) = Some c /\
    ci_mid c = missing /\ ci_proc c = mth /\ ci_argc c = -1 /\
    ci_stackidx c = ptr_diff (stack m) (stbase m) /\
    ci_pc c = code_add (l_pc L) 1 /\
    stack m4 = ptr_add (stack m) a /\
    load (mem m4) (stack m4) = Some recv /\
    load (mem m4) (ptr_add (stack m4) 1) = Some v /\
    ary_at m4 (mrb_object v) = Some (MkArray (ary_len ary + 1) (ary_len ary + 1) buf) /\
    load_n (mem m4) buf (ary_len ary + 1) = Some (mrb_symbol_value mid :: elts).
Proof.
  intros missing mth Hfr Hok Hregs Hc0 Hsym Hrecv Hnone Hpr Hnat Ha Hin
         Hv Hary Helts Hbnn Hb0 Hbs.
  pose proof Hok as (Hb & Hnn & Hsb0 & Hsk & Hsend & Hend & Hrng).
  destruct (missing_lookup_packed m L a cells c0 mid recv v pr ary elts)
    as (m1 & buf & Hlook & Hfr1 & Hok1 & Hc1 & Hpr1 & Hci1 & Hirep1 & Hst1 & Hsb1 &
        Hary1 & Hload1 & Hbufs & Hloads); try done.
  destruct (send_after_lookup_native m m1 L a b CALL_MAXARGS CALL_MAXARGS c0 mid missing recv
              mth pr)
    as (m4 & c & Hsnd & Hci4 & Hc4 & Hmid & Hproc & Hargc & Hsi & Hpc & Hst4 & Hmem4 & Hheap4);
    try done.
  rewrite decide_True in Hargc by done.
  rewrite Hst1, Hsb1, Hci1 in *.
  exists m4, c, buf. split; [exact Hsnd|]. split; [done|]. split; [done|].
  split; [done|]. split; [done|]. split; [done|]. split; [done|]. split; [done|].
  split; [done|].
  rewrite Hst4, Hmem4. unfold reg in *. rewrite Hregs in *.
  split; [|split; [|split]].
  - rewrite Hloads by (st_simpl; done). done.
  - rewrite ptr_add_add, Hloads by (st_simpl; done). done.
  - unfold ary_at, obj_at in *. by rewrite Hheap4.
  - done.
Qed.

End SendMissing.

(** C7: OP_SEND A B C whose method search finds nothing for the class of
    R(A) and the selector calls what the search finds for method_missing;
    the callee's frame has method_missing as its [mid], and the callee's
    R(0) is the receiver.

    A bytecode method_missing is entered.  With C from 0 to 125 its frame
    records C+1 arguments, its R(1) is the selector as a symbol, and
    R(2)..R(C+2) are the caller's C arguments and block slot, each one
    register up.  With C = 127 the frame records -1, the packed count,
    R(1) is the same array, now with the selector in front of its
    elements, and R(2) is the block slot.  With C = 126 the registers are
    shifted as for the smaller counts, yet the count C+1 is the packed
    mark itself: the frame records -1 although R(1) is the symbol and no
    array, and the registers from R(3) on that the callee owns are
    cleared, the shifted arguments among them.

    A native method_missing is called on the receiver from a state whose
    current frame and window are the callee's: the same frame fields and
    registers, -1 for C = 126 and C = 127, before any clearing. *)
Theorem send_method_missing_rewrite (host : mrb_host) (m : mrb_state) (L : locals)
    (a b n : Z) (cells : list mrb_value) (c0 : mrb_callinfo) (mid : mrb_sym)
    (recv : mrb_value) (pr : RProc) :
  let missing := mrb_intern host "method_missing" in
  let mth := mrb_method_search_vm host m (mrb_class host m recv) missing in
  frames_ok m -> stack_ok m cells -> l_regs L = stack m ->
  ci_at m (ci m) = Some c0 ->
  sym_at m L b = Some mid -> reg m L a = Some recv ->
  mrb_method_search_vm host m (mrb_class host m recv) mid = 0 ->
  proc_at m mth = Some pr ->
  0 <= a ->
  (forall ir,
     proc_cfunc pr = false -> irep_at m (proc_body pr) = Some ir -> 0 <= ir_nregs ir ->
     let callee argc :=
       MkCallinfo missing mth (ptr_diff (stack m) (stbase m)) (ir_nregs ir) argc
                  (code_add (l_pc L) 1) a (proc_target_class pr)
                  (ci_ridx c0) (ci_eidx c0) 0 in
     (0 <= n <= 125 ->
      off (stack m) + a + n + 2 < Z.of_nat (length cells) ->
      exists m' L',
        L_OP_SEND host m L a b n = Some (Dispatch m' L') /\
        l_regs L' = stack m' /\ l_pc L' = CPtr (proc_body pr) 0 /\
        ci m' = ci m + 1 /\
        ci_at m' (ci m') = Some (callee (n + 1)) /\
        reg m' L' 0 = Some recv /\
        reg m' L' 1 = Some (mrb_symbol_value mid) /\
        (forall k, 0 <= k <= n -> reg m' L' (2 + k) = reg m L (a + 1 + k))) /\
     (n = CALL_MAXARGS ->
      off (stack m) + a + 2 < Z.of_nat (length cells) ->
      forall v ary elts,
        reg m L (a + 1) = Some v ->
        ary_at m (mrb_object v) = Some ary ->
        load_n (mem m) (ary_buf ary) (ary_len ary) = Some elts ->
        ary_buf ary <> NULL -> off (ary_buf ary) = 0 ->
        blk (ary_buf ary) <> blk (stbase m) ->
        exists m' L' buf,
          L_OP_SEND host m L a b n = Some (Dispatch m' L') /\
          l_regs L' = stack m' /\ l_pc L' = CPtr (proc_body pr) 0 /\
          ci m' = ci m + 1 /\
          ci_at m' (ci m') = Some (callee (-1)) /\
          reg m' L' 0 = Some recv /\
          reg m' L' 1 = Some v /\
          reg m' L' 2 = reg m L (a + 2) /\
          ary_at m' (mrb_object v)
            = Some (MkArray (ary_len ary + 1) (ary_len ary + 1) buf) /\
          load_n (mem m') buf (ary_len ary + 1) = Some (mrb_symbol_value mid :: elts)) /\
     (n = 126 ->
      off (stack m) + a + n + 2 < Z.of_nat (length cells) ->
      exists m' L',
        L_OP_SEND host m L a b n = Some (Dispatch m' L') /\
        l_regs L' = stack m' /\ l_pc L' = CPtr (proc_body pr) 0 /\
        ci m' = ci m + 1 /\
        ci_at m' (ci m') = Some (callee (-1)) /\
        reg m' L' 0 = Some recv /\
        reg m' L' 1 = Some (mrb_symbol_value mid) /\
        reg m' L' 2 = reg m L (a + 1) /\
        (forall i, 3 <= i < ir_nregs ir -> reg m' L' i = Some zero_value))) /\
  (proc_cfunc pr = true ->
     (0 <= n <= 126 ->
      off (stack m) + a + n + 2 < Z.of_nat (length cells) ->
      exists m4 c,
        L_OP_SEND host m L a b n = send_native host m4 L recv pr /\
        ci m4 = ci m + 1 /\ ci_at m4 (ci m4) = Some c /\
        ci_mid c = missing /\ ci_proc c = mth /\
        ci_argc c = (if decide (n = 126) then -1 else n + 1) /\
        stack m4 = ptr_add (stack m) a /\
        load (mem m4) (stack m4) = Some recv /\
        load (mem m4) (ptr_add (stack m4) 1) = Some (mrb_symbol_value mid) /\
        (forall k, 0 <= k <= n ->
           load (mem m4) (ptr_add (stack m4) (2 + k)) = reg m L (a + 1 + k))) /\
     (n = CALL_MAXARGS ->
      off (stack m) + a + 2 < Z.of_nat (length cells) ->
      forall v ary elts,
        reg m L (a + 1) = Some v ->
        ary_at m (mrb_object v) = Some ary ->
        load_n (mem m) (ary_buf ary) (ary_len ary) = Some elts ->
        ary_buf ary <> NULL -> off (ary_buf ary) = 0 ->
        blk (ary_buf ary) <> blk (stbase m) ->
        exists m4 c buf,
          L_OP_SEND host m L a b n = send_native host m4 L recv pr /\
          ci m4 = ci m + 1 /\ ci_at m4 (ci m4) = Some c /\
          ci_mid c = missing /\ ci_proc c = mth /\ ci_argc c = -1 /\
          stack m4 = ptr_add (stack m) a /\
          load (mem m4) (stack m4) = Some recv /\
          load (mem m4) (ptr_add (stack m4) 1) = Some v /\
          ary_at m4 (mrb_object v)
            = Some (MkArray (ary_len ary + 1) (ary_len ary + 1) buf) /\
          load_n (mem m4) buf (ary_len ary + 1) = Some (mrb_symbol_value mid :: elts))).
Proof.
  intros missing mth Hfr Hok Hregs Hc0 Hsym Hrecv Hnone Hpr Ha.
  split.
  - intros ir Hbc Hir Hnregs callee. split; [|split].
    + intros Hn Hin.
      destruct (send_missing_unpacked host m L a b n cells c0 mid recv pr ir)
        as (m' & L' & -> & Hsnd & Hci & Hframe & H0 & H1 & Hargs & _); try done;
        try (unfold CALL_MAXARGS; lia).
      rewrite (decide_False (P := n + 1 = CALL_MAXARGS)) in Hframe, Hargs
        by (unfold CALL_MAXARGS; lia).
      rewrite !(decide_False (P := n + 1 < 0)) in Hargs by lia.
      eexists m', _. split; [exact Hsnd|]. split; [reflexivity|]. split; [reflexivity|].
      split; [done|]. split; [exact Hframe|]. split; [done|]. split; [done|].
      intros k Hk. rewrite Hargs by lia. f_equal. lia.
    + intros -> Hin v ary elts Hv Hary Helts Hbnn Hb0 Hbs.
      destruct (send_missing_packed host m L a b cells c0 mid recv v pr ir ary elts)
        as (m' & L' & buf & -> & Hsnd & Hci & Hframe & H0 & H1 & H2 & Ha' & Hl'); try done.
      eexists m', _, buf. split; [exact Hsnd|]. split; [reflexivity|]. split; [reflexivity|].
      done.
    + intros -> Hin.
      destruct (send_missing_unpacked host m L a b 126 cells c0 mid recv pr ir)
        as (m' & L' & -> & Hsnd & Hci & Hframe & H0 & H1 & Hargs & Hzero); try done.
      rewrite (decide_True (P := 126 + 1 = CALL_MAXARGS)) in Hframe, Hargs, Hzero by done.
      rewrite !(decide_True (P := -1 < 0)) in Hargs, Hzero by lia.
      eexists m', _. split; [exact Hsnd|]. split; [reflexivity|]. split; [reflexivity|].
      split; [done|]. split; [exact Hframe|]. split; [done|]. split; [done|].
      split.
      * rewrite (Hargs 2) by lia. f_equal. lia.
      * intros i Hi. apply Hzero. case_decide; lia.
  - intros Hnat. split.
    + intros Hn Hin.
      destruct (send_missing_unpacked_native host m L a b n cells c0 mid recv pr)
        as (m4 & c & Hsnd & Hci & Hc & Hmid & Hproc & Hargc & _ & _ & Hst & H0 & H1 & Hargs);
        try done; try (unfold CALL_MAXARGS; lia).
      exists m4, c. split; [exact Hsnd|]. split; [done|]. split; [done|].
      split; [done|]. split; [done|]. split; [|done].
      rewrite Hargc. unfold CALL_MAXARGS. repeat case_decide; lia.
    + intros -> Hin v ary elts Hv Hary Helts Hbnn Hb0 Hbs.
      destruct (send_missing_packed_native host m L a b cells c0 mid recv v pr ary elts)
        as (m4 & c & buf & Hsnd & Hci & Hc & Hmid & Hproc & Hargc & _ & _ & Hst & H0 & H1 &
            Ha' & Hl'); try done.
      exists m4, c, buf. done.
Qed.

(** * Instances of the further properties *)

Lemma mrb_checkstack_room_witness :
  exists m',
    mrb_checkstack ensure_host
      (small_state (small_frame 0 1 0 0 0) [] ensure_ireps [small_main]) 12 = Some (m', 0) /\
    off (stack m') + 12 + 1 <= off (stend m') /\
    load (mem m') (ptr_add (stack m') 12) = Some mrb_nil_value.
Proof.
  set (m := small_state (small_frame 0 1 0 0 0) [] ensure_ireps [small_main]).
  destruct (mrb_checkstack_room ensure_host m small_cells 12)
    as (m' & cells' & H1 & _ & _ & H4 & _ & H6).
  - unfold stack_ok. simpl. repeat split; try reflexivity; try discriminate; lia.
  - lia.
  - exists m'. split; [exact H1|]. split; [exact H4|]. apply H6. lia.
Defined.

Lemma uvset_then_uvget_witness :
  exists m',
    uvset (small_state (small_frame 0 1 0 0 0) [] ensure_ireps
             [O_proc (MkProc false false 0 1 2); O_env (MkEnv 0 3 0 0 (Ptr 1 0))])
          0 1 (mrb_fixnum_value 7) = Some m' /\
    uvget m' 0 1 = Some (mrb_fixnum_value 7).
Proof.
  destruct (uvset_then_uvget
              (small_state (small_frame 0 1 0 0 0) [] ensure_ireps
                 [O_proc (MkProc false false 0 1 2); O_env (MkEnv 0 3 0 0 (Ptr 1 0))])
              0 1 (mrb_fixnum_value 7) (mrb_fixnum_value 1) 2 (MkEnv 0 3 0 0 (Ptr 1 0))
              eq_refl ltac:(discriminate) eq_refl eq_refl)
    as (m' & H1 & H2 & _).
  exists m'. split; [exact H1|exact H2].
Defined.

Lemma onerr_pushes_poperr_pops_witness :
  exists m' m'',
    L_OP_ONERR ensure_host
      (small_state (small_frame 0 1 0 0 0) [] ensure_ireps [small_main]) small_locals 4
      = Some (Dispatch m' (upd_pc (CPtr 0 1) small_locals)) /\
    zlookup (rescue m') 0 = Some (CPtr 0 4) /\ rsize m' = 16 /\
    L_OP_POPERR m' (upd_pc (CPtr 0 1) small_locals) 1
      = Some (Dispatch m'' (upd_pc (CPtr 0 2) small_locals)) /\
    ci_at m'' 0 = Some (small_frame 0 1 0 0 0).
Proof.
  set (m := small_state (small_frame 0 1 0 0 0) [] ensure_ireps [small_main]).
  destruct (onerr_pushes_poperr_pops ensure_host m small_locals 4 (small_frame 0 1 0 0 0))
    as (m' & m'' & H1 & _ & _ & _ & H5 & _ & _ & H8 & H9 & H10 & H11 & _).
  - reflexivity.
  - simpl. lia.
  - reflexivity.
  - exists m', m''. split; [exact H1|]. split; [exact H5|]. split; [exact H8|].
    split; [exact H9|]. unfold ci_at. rewrite H10. reflexivity.
Defined.

Lemma raise_resumes_nearest_handler_witness :
  exists m',
    L_RAISE (two_frames 0 1 [CPtr 1 0] []) small_locals =
      Some (Dispatch m' (upd_pc (CPtr 1 0) (upd_regs (stack m') (upd_irep 1 small_locals)))) /\
    ci m' = 1 /\ stack m' = Ptr 1 0.
Proof.
  destruct (raise_resumes_nearest_handler (two_frames 0 1 [CPtr 1 0] []) small_locals 1
              (demo_frame 10 2 0 1 1 (CPtr 0 2)) (MkProc false false 1 1 0)
              (MkIrep 1 2 [OP_RETURN 0 OP_R_NORMAL] [] []) (CPtr 1 0))
    as (m' & H1 & H2 & _ & _ & H5 & _).
  - simpl. lia.
  - simpl. lia.
  - intros k Hk. simpl in Hk. lia.
  - split; [reflexivity|]. right. exists (demo_frame 0 1 0 0 0 CNull).
    split; [reflexivity|]. simpl. lia.
  - intros H. discriminate H.
  - reflexivity.
  - reflexivity.
  - reflexivity.
  - exists m'. split; [exact H1|]. split; [exact H2|exact H5].
Defined.

Lemma raise_without_handler_stops_witness :
  L_RAISE (two_frames 0 0 [] []) small_locals =
    Some (Returned (set_jmp 0 (set_ci 0 (two_frames 0 0 [] []))) mrb_nil_value).
Proof.
  apply (raise_without_handler_stops (two_frames 0 0 [] []) small_locals
           (demo_frame 0 1 0 0 0 CNull)).
  - simpl. lia.
  - intros k Hk. simpl in Hk. assert (k = 1) as -> by lia.
    eexists _, _. split; [reflexivity|]. split; reflexivity.
  - reflexivity.
  - reflexivity.
Defined.

Lemma return_resumes_caller_witness :
  exists m',
    L_RETURN send_host (fun _ _ _ => None) (two_frames 0 0 [] [])
             (MkLocals 2 1 (CPtr 1 0) (Ptr 1 1) 0 0) 1 OP_R_NORMAL =
      Some (Dispatch m' (MkLocals 1 0 (CPtr 0 2) (Ptr 1 0) 0 0)) /\
    ci m' = 0 /\
    load (mem m') (Ptr 1 1) = Some (mrb_fixnum_value 2).
Proof.
  destruct (return_resumes_caller send_host (fun _ _ _ => None) (two_frames 0 0 [] [])
              (MkLocals 2 1 (CPtr 1 0) (Ptr 1 1) 0 0) 1
              (demo_frame 10 2 0 1 0 (CPtr 0 2)) (demo_frame 0 1 0 0 0 CNull)
              (MkProc false false 0 1 0)
              (MkIrep 0 4 [OP_LOADSELF 1; OP_SEND 1 0 0; OP_STOP] [] [10])
              (mrb_fixnum_value 2) (mrb_fixnum_value 1))
    as (m' & H1 & H2 & _ & H4 & H5 & _).
  - simpl. lia.
  - reflexivity.
  - reflexivity.
  - reflexivity.
  - simpl. lia.
  - reflexivity.
  - simpl. lia.
  - reflexivity.
  - reflexivity.
  - reflexivity.
  - reflexivity.
  - exists m'. rewrite H4 in H1, H5. split; [exact H1|]. split; [exact H2|exact H5].
Defined.

Lemma return_break_leaves_home_call_witness :
  exists m',
    L_RETURN send_host (fun _ _ _ => None)
             (three_frames [O_proc (MkProc false false 1 1 4);
                            O_env (MkEnv 0 3 0 0 (Ptr 1 0))])
             (MkLocals 3 1 (CPtr 1 0) (Ptr 1 2) 0 0) 0 OP_R_BREAK =
      Some (Dispatch m' (MkLocals 1 0 (CPtr 0 2) (Ptr 1 0) 0 0)) /\
    ci m' = 0 /\
    load (mem m') (Ptr 1 1) = Some (mrb_fixnum_value 2).
Proof.
  destruct (return_break_leaves_home_call send_host (fun _ _ _ => None)
              (three_frames [O_proc (MkProc false false 1 1 4);
                             O_env (MkEnv 0 3 0 0 (Ptr 1 0))])
              (MkLocals 3 1 (CPtr 1 0) (Ptr 1 2) 0 0) 0 OP_R_BREAK
              (demo_frame 0 3 1 0 0 (CPtr 1 0)) (demo_frame 10 2 0 1 0 (CPtr 0 2))
              (demo_frame 0 1 0 0 0 CNull)
              (MkProc false false 1 1 4) (MkProc false false 0 1 0)
              (MkEnv 0 3 0 0 (Ptr 1 0))
              (MkIrep 0 4 [OP_LOADSELF 1; OP_SEND 1 0 0; OP_STOP] [] [10])
              (mrb_fixnum_value 2) (mrb_fixnum_value 1))
    as (m' & H1 & H2 & _ & H4 & H5 & _).
  - reflexivity.
  - reflexivity.
  - reflexivity.
  - reflexivity.
  - reflexivity.
  - reflexivity.
  - simpl. lia.
  - left. reflexivity.
  - reflexivity.
  - simpl. lia.
  - reflexivity.
  - simpl. lia.
  - reflexivity.
  - reflexivity.
  - reflexivity.
  - exists m'. rewrite H4 in H1, H5. split; [exact H1|]. split; [exact H2|exact H5].
Defined.

Lemma return_from_dead_scope_witness :
  exists mb,
    L_RETURN send_host (fun _ _ _ => None)
             (three_frames [O_proc (MkProc false false 1 1 4);
                            O_env (MkEnv 0 3 0 (-1) (Ptr 1 0))])
             (MkLocals 3 1 (CPtr 1 0) (Ptr 1 2) 0 0) 0 OP_R_RETURN =
      L_RAISE mb (MkLocals 3 1 (CPtr 1 0) (Ptr 1 2) 0 0) /\
    obj_at mb (exc mb) = Some (O_exception 21 "unexpected return").
Proof.
  destruct (return_from_dead_scope send_host (fun _ _ _ => None)
              (three_frames [O_proc (MkProc false false 1 1 4);
                             O_env (MkEnv 0 3 0 (-1) (Ptr 1 0))])
              (MkLocals 3 1 (CPtr 1 0) (Ptr 1 2) 0 0) 0 OP_R_RETURN
              (demo_frame 0 3 1 0 0 (CPtr 1 0))
              (MkProc false false 1 1 4) (MkEnv 0 3 0 (-1) (Ptr 1 0))
              (mrb_fixnum_value 2))
    as (mb & H1 & _ & H3 & _).
  - reflexivity.
  - reflexivity.
  - reflexivity.
  - reflexivity.
  - reflexivity.
  - reflexivity.
  - simpl. lia.
  - right. reflexivity.
  - exists mb. split; [exact H1|exact H3].
Defined.

Lemma send_enters_callee_witness :
  exists m',
    L_OP_SEND send_host
      (small_state (small_frame 0 1 0 0 0) [] send_ireps
                   [small_main; O_proc (MkProc false false 1 1 0)])
      small_locals 1 0 0 =
      Some (Dispatch m' (MkLocals 2 1 (CPtr 1 0) (stack m') 0 0)) /\
    ci m' = 1 /\
    ci_at m' 1 = Some (MkCallinfo 10 2 0 2 0 (CPtr 0 1) 1 1 0 0 0) /\
    off (stack m') = 1.
Proof.
  set (m := small_state (small_frame 0 1 0 0 0) [] send_ireps
                        [small_main; O_proc (MkProc false false 1 1 0)]).
  destruct (send_enters_callee send_host m small_locals 1 0 0 small_cells
              (small_frame 0 1 0 0 0) 10 (mrb_fixnum_value 1) 2 (MkProc false false 1 1 0)
              (MkIrep 1 2 [OP_RETURN 0 OP_R_NORMAL] [] []))
    as (m' & cells' & H1 & H2 & _ & _ & _ & H6 & H7 & _).
  - unfold frames_ok. simpl. lia.
  - unfold stack_ok. simpl. repeat split; try reflexivity; try discriminate; lia.
  - reflexivity.
  - reflexivity.
  - reflexivity.
  - reflexivity.
  - reflexivity.
  - discriminate.
  - reflexivity.
  - reflexivity.
  - reflexivity.
  - lia.
  - lia.
  - discriminate.
  - simpl. lia.
  - exists m'. split; [exact H1|]. split; [exact H2|]. split; [exact H6|exact H7].
Defined.

Lemma send_then_return_witness :
  exists m1 L1 m2 L2,
    let m := small_state (small_frame 0 1 0 0 0) [] send_ireps
                         [small_main; O_proc (MkProc false false 1 1 0)] in
    let L := upd_pc (CPtr 0 1) small_locals in
    step send_host (fun _ _ _ => None) m L = Some (Dispatch m1 L1) /\
    step send_host (fun _ _ _ => None) m1 L1 = Some (Dispatch m2 L2) /\
    ci m2 = 0 /\ l_pc L2 = CPtr 0 2 /\
    reg m2 L2 1 = Some (mrb_fixnum_value 1).
Proof.
  set (m := small_state (small_frame 0 1 0 0 0) [] send_ireps
                        [small_main; O_proc (MkProc false false 1 1 0)]).
  destruct (send_then_return send_host (fun _ _ _ => None) m (upd_pc (CPtr 0 1) small_locals)
              1 0 0 0 small_cells (small_frame 0 1 0 0 0) 10
              (mrb_fixnum_value 1) (mrb_fixnum_value 1) 2
              (MkProc false false 1 1 0) (MkProc false false 0 1 0)
              (MkIrep 1 2 [OP_RETURN 0 OP_R_NORMAL] [] [])
              (MkIrep 0 4 [OP_LOADSELF 1; OP_SEND 1 0 0; OP_STOP] [] [10]))
    as (m1 & L1 & m2 & L2 & H1 & H2 & H3 & _ & _ & _ & H7 & _ & _ & H10 & _).
  - unfold frames_ok. simpl. lia.
  - unfold stack_ok. simpl. repeat split; try reflexivity; try discriminate; lia.
  - reflexivity.
  - reflexivity.
  - reflexivity.
  - reflexivity.
  - reflexivity.
  - reflexivity.
  - reflexivity.
  - reflexivity.
  - reflexivity.
  - discriminate.
  - reflexivity.
  - reflexivity.
  - reflexivity.
  - reflexivity.
  - lia.
  - lia.
  - discriminate.
  - lia.
  - simpl. lia.
  - reflexivity.
  - exists m1, L1, m2, L2. cbv zeta. split; [exact H1|]. split; [exact H2|].
    split; [exact H3|]. split; [exact H7|exact H10].
Defined.

Lemma add_then_sub_restores_witness :
  exists m1 m2,
    let m := small_state (small_frame 0 1 0 0 0) [] ensure_ireps [small_main] in
    L_OP_ADD ensure_host example_more m small_locals 1 0 0 =
      Some (Dispatch m1 (upd_pc (CPtr 0 1) small_locals)) /\
    reg m1 small_locals 1 = Some (mrb_fixnum_value 3) /\
    L_OP_SUB ensure_host example_more m1 (upd_pc (CPtr 0 1) small_locals) 1 0 0 =
      Some (Dispatch m2 (upd_pc (CPtr 0 2) small_locals)) /\
    reg m2 small_locals 1 = Some (mrb_fixnum_value 1).
Proof.
  set (m := small_state (small_frame 0 1 0 0 0) [] ensure_ireps [small_main]).
  destruct (add_then_sub_restores ensure_host example_more m small_locals 1 0 0 1 2)
    as (m1 & m2 & H1 & H2 & _ & _ & H5 & H6 & _).
  - reflexivity.
  - reflexivity.
  - unfold INT_MIN, INT_MAX. lia.
  - unfold INT_MIN, INT_MAX. lia.
  - exists m1, m2. cbv zeta. split; [exact H1|]. split; [exact H2|]. split; [exact H5|].
    unfold reg. rewrite H6. reflexivity.
Defined.

Lemma addi_then_subi_restores_witness :
  exists m1 m2,
    let m := small_state (small_frame 0 1 0 0 0) [] ensure_ireps [small_main] in
    L_OP_ADDI ensure_host example_more m small_locals 2 0 5 =
      Some (Dispatch m1 (upd_pc (CPtr 0 1) small_locals)) /\
    reg m1 small_locals 2 = Some (mrb_fixnum_value 7) /\
    L_OP_SUBI ensure_host example_more m1 (upd_pc (CPtr 0 1) small_locals) 2 0 5 =
      Some (Dispatch m2 (upd_pc (CPtr 0 2) small_locals)) /\
    reg m2 small_locals 2 = Some (mrb_fixnum_value 2).
Proof.
  set (m := small_state (small_frame 0 1 0 0 0) [] ensure_ireps [small_main]).
  destruct (addi_then_subi_restores ensure_host example_more m small_locals 2 0 5 2)
    as (m1 & m2 & H1 & H2 & H3 & H4 & _).
  - reflexivity.
  - unfold INT_MIN, INT_MAX. lia.
  - unfold INT_MIN, INT_MAX. lia.
  - exists m1, m2. cbv zeta. split; [exact H1|]. split; [exact H2|]. split; [exact H3|].
    unfold reg. rewrite H4. reflexivity.
Defined.

Lemma div_on_fixnums_witness :
  exists m' q r,
    L_OP_DIV ensure_host example_more
      (small_state (small_frame 0 1 0 0 0) [] ensure_ireps [small_main]) small_locals 1 0 0 =
      Some (Dispatch m' (upd_pc (CPtr 0 1) small_locals)) /\
    reg m' small_locals 1 = Some (mrb_fixnum_value q) /\
    1 = 2 * q + r /\ Z.abs r < 2.
Proof.
  set (m := small_state (small_frame 0 1 0 0 0) [] ensure_ireps [small_main]).
  destruct (proj2 (div_on_fixnums ensure_host example_more m small_locals 1 0 0 1 2
                     eq_refl eq_refl
                     ltac:(unfold INT_MIN, INT_MAX; lia) ltac:(unfold INT_MIN, INT_MAX; lia)))
    as (m' & q & r & H1 & H2 & H3 & H4 & _).
  - lia.
  - unfold INT_MIN. lia.
  - exists m', q, r. split; [exact H1|]. split; [exact H2|]. split; [exact H3|exact H4].
Defined.

Lemma cmp_on_fixnums_witness :
  exists m',
    L_OP_LT ensure_host example_more
      (small_state (small_frame 0 1 0 0 0) [] ensure_ireps [small_main]) small_locals 1 0 0 =
      Some (Dispatch m' (upd_pc (CPtr 0 1) small_locals)) /\
    reg m' small_locals 1 = Some mrb_true_value.
Proof.
  set (m := small_state (small_frame 0 1 0 0 0) [] ensure_ireps [small_main]).
  destruct (proj1 (cmp_on_fixnums ensure_host example_more m small_locals 1 0 0 1 2
                     eq_refl eq_refl) CMP_LT)
    as (m' & H1 & H2 & _).
  exists m'. split; [exact H1|exact H2].
Defined.

Lemma yield_enters_block_witness :
  exists m4,
    let m := small_state (small_frame 0 1 0 0 0) [] send_ireps
                         [small_main; O_proc (MkProc false false 1 1 0)] in
    mrb_yield_argv send_host 5 m (MkValue MRB_TT_PROC 2) [mrb_fixnum_value 5] =
      host_call send_host 5 m4 1 2 (MkProc false false 1 1 0) mrb_nil_value /\
    ci m4 = 1 /\ off (stack m4) = 4 /\
    load_n (mem m4) (stack m4) 3 = Some [mrb_nil_value; mrb_fixnum_value 5; mrb_nil_value].
Proof.
  set (m := small_state (small_frame 0 1 0 0 0) [] send_ireps
                        [small_main; O_proc (MkProc false false 1 1 0)]).
  destruct (yield_enters_block send_host 5 m (MkValue MRB_TT_PROC 2) [mrb_fixnum_value 5]
              small_cells (small_frame 0 1 0 0 0) (MkProc false false 1 1 0) mrb_nil_value)
    as (m4 & H1 & _ & H3 & _ & _ & _ & _ & H8 & H9 & _).
  - unfold frames_ok. simpl. lia.
  - unfold stack_ok. simpl. repeat split; try reflexivity; try discriminate; lia.
  - reflexivity.
  - simpl. lia.
  - simpl. lia.
  - reflexivity.
  - reflexivity.
  - exists m4. cbv zeta. split; [exact H1|]. split; [exact H3|]. split; [exact H8|exact H9].
Defined.

Lemma funcall_enters_method_witness :
  exists m4,
    let m := small_state (small_frame 0 1 0 0 0) [] send_ireps
                         [small_main; O_proc (MkProc false false 1 1 0)] in
    mrb_funcall_with_block funcall_host 5 m (mrb_fixnum_value 3) "f" [mrb_fixnum_value 5] 0 =
      host_call funcall_host 5 m4 1 2 (MkProc false false 1 1 0) (mrb_fixnum_value 3) /\
    ci m4 = 1 /\
    load_n (mem m4) (stack m4) 3 =
      Some [mrb_fixnum_value 3; mrb_fixnum_value 5; mrb_nil_value].
Proof.
  set (m := small_state (small_frame 0 1 0 0 0) [] send_ireps
                        [small_main; O_proc (MkProc false false 1 1 0)]).
  destruct (funcall_enters_method funcall_host 5 m (mrb_fixnum_value 3) "f"
              [mrb_fixnum_value 5] 0 small_cells (small_frame 0 1 0 0 0) 2
              (MkProc false false 1 1 0))
    as (m4 & b & H1 & _ & Hb & H3 & _ & _ & _ & _ & _ & H9 & _).
  - unfold frames_ok. simpl. lia.
  - unfold stack_ok. simpl. repeat split; try reflexivity; try discriminate; lia.
  - reflexivity.
  - simpl. lia.
  - simpl. lia.
  - reflexivity.
  - discriminate.
  - reflexivity.
  - intros H. exfalso. apply H. reflexivity.
  - simpl in Hb. subst b. exists m4. cbv zeta. split; [exact H1|]. split; [exact H3|exact H9].
Defined.

Lemma funcall_method_missing_witness :
  exists m4 c,
    let m := small_state (small_frame 0 1 0 0 0) [] send_ireps
                         [small_main; O_proc (MkProc false false 1 1 0)] in
    mrb_funcall_with_block missing_host 5 m (mrb_fixnum_value 3) "f" [mrb_fixnum_value 5] 0 =
      host_call missing_host 5 m4 1 2 (MkProc false false 1 1 0) (mrb_fixnum_value 3) /\
    ci_at m4 1 = Some c /\ ci_mid c = 99 /\ ci_argc c = 2 /\
    load_n (mem m4) (stack m4) 4 =
      Some [mrb_fixnum_value 3; mrb_symbol_value 98; mrb_fixnum_value 5; mrb_nil_value].
Proof.
  set (m := small_state (small_frame 0 1 0 0 0) [] send_ireps
                        [small_main; O_proc (MkProc false false 1 1 0)]).
  destruct (funcall_method_missing missing_host 5 m (mrb_fixnum_value 3) "f"
              [mrb_fixnum_value 5] 0 small_cells (small_frame 0 1 0 0 0) 2
              (MkProc false false 1 1 0))
    as (m4 & b & H1 & Hb & _ & _ & _ & _ & (pc0 & H7) & _ & H9 & _).
  - unfold frames_ok. simpl. lia.
  - unfold stack_ok. simpl. repeat split; try reflexivity; try discriminate; lia.
  - reflexivity.
  - simpl. lia.
  - simpl. lia.
  - reflexivity.
  - discriminate.
  - reflexivity.
  - reflexivity.
  - intros H. exfalso. apply H. reflexivity.
  - simpl in Hb. subst b. eexists m4, _. cbv zeta. split; [exact H1|].
    split; [exact H7|]. split; [reflexivity|]. split; [reflexivity|exact H9].
Defined.

Lemma host_call_native_returns_witness :
  exists m4 m',
    let m := small_state (small_frame 0 1 0 0 0) [] send_ireps [small_main; native_proc] in
    funcall_setup funcall_host m (mrb_fixnum_value 3) 98 2 4 1 0 [mrb_fixnum_value 5] 0 =
      Some (m4, 1, MkProc true false 0 1 0) /\
    host_call funcall_host 5 m4 1 2 (MkProc true false 0 1 0) (mrb_fixnum_value 3) =
      Some (m', mrb_fixnum_value 3) /\
    ci m' = 0 /\ stack m' = Ptr 1 0.
Proof.
  set (m := small_state (small_frame 0 1 0 0 0) [] send_ireps [small_main; native_proc]).
  eassert (E : funcall_setup funcall_host m (mrb_fixnum_value 3) 98 2 4 1 0
                 [mrb_fixnum_value 5] 0 = Some (_, 1, MkProc true false 0 1 0))
    by (vm_compute; reflexivity).
  match type of E with
  | _ = Some (?m4, _, _) =>
      destruct (host_call_native_returns funcall_host 5 m m4 m4 (small_frame 0 1 0 0 0) 4 98 2
                  (MkProc true false 0 1 0)
                  [mrb_fixnum_value 3; mrb_fixnum_value 5; mrb_nil_value]
                  (mrb_fixnum_value 3) (mrb_fixnum_value 3))
        as (m' & H1 & H2 & _ & H4 & _);
      [ | | | | | exists m4, m'; cbv zeta; split; [exact E|]; split; [exact H1|];
                  split; [exact H2|exact H4] ]
  end.
  - unfold callee_entered. split; [reflexivity|]. split.
    { unfold frames_ok. simpl. lia. }
    split.
    { eexists. unfold stack_ok. simpl.
      repeat split; try reflexivity; try discriminate; lia. }
    split.
    { intros j Hj. simpl in Hj. assert (j = 0) as -> by lia. reflexivity. }
    split; [eexists; reflexivity|]. split; [reflexivity|]. split; [reflexivity|].
    split.
    { intros j Hj. simpl in Hj.
      assert (Hc : j = 0 \/ j = 1 \/ j = 2 \/ j = 3) by lia.
      destruct Hc as [-> | [-> | [-> | ->]]]; reflexivity. }
    repeat split; reflexivity.
  - reflexivity.
  - reflexivity.
  - reflexivity.
  - reflexivity.
Defined.

Lemma call_enters_closure_witness :
  exists m',
    L_OP_CALL ensure_host (closure_state (Ptr 2 0) 4) small_locals =
      Some (Dispatch m' (MkLocals 1 0 (CPtr 0 0) (stack m') 0 0)) /\
    ci m' = 0 /\
    load (mem m') (stack m') = Some (mrb_fixnum_value 9) /\
    load (mem m') (ptr_add (stack m') 1) = Some (mrb_fixnum_value 1) /\
    load (mem m') (ptr_add (stack m') 2) = Some mrb_nil_value.
Proof.
  destruct (call_enters_closure ensure_host (closure_state (Ptr 2 0) 4) small_locals
              closure_cells (small_frame 0 1 0 0 0) (MkValue MRB_TT_PROC 1)
              (mrb_fixnum_value 9) (MkProc false false 0 1 2) (MkEnv 0 3 0 0 (Ptr 2 0))
              (MkIrep 0 4 [OP_RETURN 0 OP_R_NORMAL] [] []))
    as (m' & cells' & H1 & H2 & _ & _ & _ & _ & H7 & H8 & H9 & _).
  - unfold stack_ok. simpl. repeat split; try reflexivity; try discriminate; lia.
  - reflexivity.
  - reflexivity.
  - reflexivity.
  - reflexivity.
  - discriminate.
  - reflexivity.
  - discriminate.
  - simpl. lia.
  - reflexivity.
  - reflexivity.
  - simpl. lia.
  - simpl. lia.
  - exists m'. split; [exact H1|]. split; [exact H2|]. split; [exact H7|]. split.
    + rewrite H8; [reflexivity|simpl; lia|eexists; reflexivity].
    + apply H9. simpl. lia.
Defined.

Lemma call_after_growth_reads_old_stack_witness :
  L_OP_CALL ensure_host (closure_state (Ptr 1 0) 20) small_locals = None.
Proof.
  apply (call_after_growth_reads_old_stack ensure_host (closure_state (Ptr 1 0) 20)
           small_locals closure_cells (small_frame 0 1 0 0 0) (MkValue MRB_TT_PROC 1)
           (MkProc false false 0 1 2) (MkEnv 0 3 0 0 (Ptr 1 0))
           (MkIrep 0 20 [OP_RETURN 0 OP_R_NORMAL] [] [])).
  - unfold stack_ok. simpl. repeat split; try reflexivity; try discriminate; lia.
  - reflexivity.
  - reflexivity.
  - reflexivity.
  - reflexivity.
  - discriminate.
  - reflexivity.
  - discriminate.
  - reflexivity.
  - reflexivity.
  - simpl. lia.
  - simpl. lia.
Defined.

Lemma exec_enters_body_witness :
  exists m' p,
    L_OP_EXEC ensure_host
      (small_state (small_frame 0 1 0 0 0) [] send_ireps [small_main]) small_locals 1 1 =
      Some (Dispatch m' (MkLocals 1 1 (CPtr 1 0) (stack m') 0 0)) /\
    ci_at m' 1 = Some (MkCallinfo 0 p 0 4 0 (CPtr 0 1) 1 1 0 0 0) /\
    proc_at m' p = Some (MkProc false false 1 1 0) /\
    load (mem m') (stack m') = Some (mrb_fixnum_value 1).
Proof.
  set (m := small_state (small_frame 0 1 0 0 0) [] send_ireps [small_main]).
  destruct (exec_enters_body ensure_host m small_locals 1 1 small_cells
              (small_frame 0 1 0 0 0) (mrb_fixnum_value 1)
              (MkIrep 0 4 [OP_LOADSELF 1; OP_SEND 1 0 0; OP_STOP] [] [10])
              (MkIrep 1 2 [OP_RETURN 0 OP_R_NORMAL] [] []))
    as (m' & cells' & p & H1 & _ & _ & _ & _ & H6 & _ & H8 & _ & _ & _ & H12 & _).
  - unfold frames_ok. simpl. lia.
  - unfold stack_ok. simpl. repeat split; try reflexivity; try discriminate; lia.
  - reflexivity.
  - reflexivity.
  - reflexivity.
  - reflexivity.
  - reflexivity.
  - lia.
  - simpl. lia.
  - exists m', p. split; [exact H1|]. split; [exact H6|]. split; [exact H8|exact H12].
Defined.

Lemma super_enters_callee_witness :
  exists m',
    L_OP_SUPER send_host example_more
      (small_state (small_frame 10 1 0 0 0) [] send_ireps
                   [small_main; O_proc (MkProc false false 1 1 0)]) small_locals 1 0 =
      Some (Dispatch m' (MkLocals 1 1 (CPtr 1 0) (stack m') 0 0)) /\
    ci_at m' 1 = Some (MkCallinfo 10 2 0 2 0 (CPtr 0 1) 1 1 0 0 0) /\
    load (mem m') (stack m') = Some mrb_nil_value.
Proof.
  set (m := small_state (small_frame 10 1 0 0 0) [] send_ireps
                        [small_main; O_proc (MkProc false false 1 1 0)]).
  destruct (super_enters_callee send_host example_more m small_locals 1 0 small_cells
              (small_frame 10 1 0 0 0) mrb_nil_value (mrb_fixnum_value 1)
              (MkProc false false 0 1 0) 2 (MkProc false false 1 1 0)
              (MkIrep 1 2 [OP_RETURN 0 OP_R_NORMAL] [] []))
    as (m' & cells' & H1 & _ & _ & _ & _ & H6 & _ & _ & H9 & _).
  - unfold frames_ok. simpl. lia.
  - unfold stack_ok. simpl. repeat split; try reflexivity; try discriminate; lia.
  - reflexivity.
  - reflexivity.
  - reflexivity.
  - reflexivity.
  - reflexivity.
  - reflexivity.
  - discriminate.
  - reflexivity.
  - reflexivity.
  - reflexivity.
  - lia.
  - lia.
  - discriminate.
  - simpl. lia.
  - exists m'. split; [exact H1|]. split; [exact H6|exact H9].
Defined.

Lemma apost_splits_long_array_witness :
  exists m' rest r,
    L_OP_APOST ensure_host array_state small_locals 1 1 1 =
      Some (Dispatch (set_arena_idx 0 m') (upd_pc (CPtr 0 1) small_locals)) /\
    reg m' small_locals 1 = Some rest /\
    ary_at m' (mrb_object rest) = Some r /\
    load_n (mem m') (ary_buf r) (ary_len r) =
      Some [mrb_fixnum_value 20; mrb_fixnum_value 30] /\
    reg m' small_locals 2 = Some (mrb_fixnum_value 40).
Proof.
  destruct (apost_splits_long_array ensure_host array_state small_locals 1 1 1
              (MkValue MRB_TT_ARRAY 2) (MkArray 4 4 (Ptr 2 0)) four_elts)
    as (m' & rest & r & H1 & H2 & _ & _ & H5 & _ & H7 & H8 & _).
  - reflexivity.
  - reflexivity.
  - reflexivity.
  - reflexivity.
  - simpl. lia.
  - lia.
  - lia.
  - simpl. lia.
  - intros i Hi. assert (i = 1) as -> by lia. eexists. reflexivity.
  - exists m', rest, r. split; [exact H1|]. split; [exact H2|]. split; [exact H5|].
    split; [exact H7|]. exact (H8 0 ltac:(lia)).
Defined.

Lemma apost_short_array_pads_nil_witness :
  exists m' rest r,
    L_OP_APOST ensure_host array_state small_locals 1 3 2 =
      Some (Dispatch (set_arena_idx 0 m') (upd_pc (CPtr 0 1) small_locals)) /\
    reg m' small_locals 1 = Some rest /\
    ary_at m' (mrb_object rest) = Some r /\ ary_len r = 0 /\
    reg m' small_locals 2 = Some (mrb_fixnum_value 40) /\
    reg m' small_locals 3 = Some mrb_nil_value.
Proof.
  destruct (apost_short_array_pads_nil ensure_host array_state small_locals 1 3 2
              (MkValue MRB_TT_ARRAY 2) (MkArray 4 4 (Ptr 2 0)) four_elts)
    as (m' & rest & r & H1 & H2 & _ & _ & H5 & H6 & H7 & _).
  - reflexivity.
  - reflexivity.
  - reflexivity.
  - reflexivity.
  - simpl. lia.
  - lia.
  - lia.
  - simpl. lia.
  - intros i Hi. assert (Hc : i = 1 \/ i = 2) by lia.
    destruct Hc as [-> | ->]; eexists; reflexivity.
  - exists m', rest, r. split; [exact H1|]. split; [exact H2|]. split; [exact H5|].
    split; [exact H6|]. split.
    + exact (H7 0 ltac:(lia)).
    + exact (H7 1 ltac:(lia)).
Defined.

Lemma apost_non_array_witness :
  exists m' rest r,
    L_OP_APOST ensure_host
      (small_state (small_frame 0 1 0 0 0) [] ensure_ireps [small_main]) small_locals 1 0 2 =
      Some (Dispatch (set_arena_idx 0 m') (upd_pc (CPtr 0 1) small_locals)) /\
    reg m' small_locals 1 = Some rest /\
    ary_at m' (mrb_object rest) = Some r /\ ary_len r = 0 /\
    reg m' small_locals 2 = Some mrb_nil_value /\
    reg m' small_locals 3 = Some mrb_nil_value.
Proof.
  set (m := small_state (small_frame 0 1 0 0 0) [] ensure_ireps [small_main]).
  destruct (apost_non_array ensure_host m small_locals 1 0 2 (mrb_fixnum_value 1))
    as (m' & rest & r & H1 & H2 & _ & _ & H5 & H6 & H7).
  - reflexivity.
  - discriminate.
  - lia.
  - intros i Hi. assert (Hc : i = 1 \/ i = 2) by lia.
    destruct Hc as [-> | ->]; eexists; reflexivity.
  - exists m', rest, r. split; [exact H1|]. split; [exact H2|]. split; [exact H5|].
    split; [exact H6|]. split.
    + exact (H7 0 ltac:(lia)).
    + exact (H7 1 ltac:(lia)).
Defined.

Lemma enter_optional_selects_entry_witness :
  exists m',
    L_OP_ENTER (arity_host "foo")
      (small_state (small_frame 10 2 1 0 0) [] arity_ireps
                   [small_main; O_proc (MkProc false true 1 1 0)]) small_locals 270336 =
      Some (Dispatch m' (upd_pc (CPtr 0 1) small_locals)) /\
    ci_at m' 0 = Some (small_frame 10 2 2 0 0) /\
    reg m' small_locals 1 = Some (mrb_fixnum_value 1) /\
    reg m' small_locals 3 = Some (mrb_fixnum_value 2).
Proof.
  set (m := small_state (small_frame 10 2 1 0 0) [] arity_ireps
                        [small_main; O_proc (MkProc false true 1 1 0)]).
  destruct (enter_optional_selects_entry (arity_host "foo") m small_locals 270336 1 1
              (small_frame 10 2 1 0 0) (MkProc false true 1 1 0))
    as (m' & H1 & _ & H3 & _ & H5 & H6 & _).
  - reflexivity.
  - discriminate.
  - reflexivity.
  - reflexivity.
  - reflexivity.
  - reflexivity.
  - reflexivity.
  - reflexivity.
  - simpl. lia.
  - intros i Hi. assert (Hc : i = 1 \/ i = 2 \/ i = 3) by lia.
    destruct Hc as [-> | [-> | ->]]; eexists; reflexivity.
  - exists m'. split; [exact H1|]. split; [exact H3|]. split.
    + rewrite H5 by lia. reflexivity.
    + exact H6.
Defined.

Lemma epop_runs_newest_first_witness :
  exists m L c m' cells,
    order_at_epop = Some (m, L) /\
    frames_ok m /\
    ci_at m (ci m) = Some c /\ ci_eidx c = 2 /\
    ensure_runs ensure_host (mrb_run ensure_host 10) m [4; 2] m' /\
    L_OP_EPOP ensure_host (mrb_run ensure_host 10) m L 2 = NEXT m' L /\
    ci_at m' (ci m') = Some (with_eidx 0 c) /\
    block_of (mem m') (blk (stbase m')) = Some cells /\
    cells !! 6%nat = Some (mrb_fixnum_value 11) /\
    cells !! 7%nat = Some (mrb_fixnum_value 22).
Proof.
  eexists _, _, _, _, _.
  split; [vm_compute; reflexivity|].
  match goal with
  | |- frames_ok ?m /\ ci_at ?m _ = Some ?c /\ _ /\ ensure_runs ?h ?r ?m ?ps ?m' /\ _ =>
      assert (Hfr : frames_ok m) by (unfold frames_ok; vm_compute; repeat split; discriminate);
      assert (Hc : ci_at m (ci m) = Some c) by (vm_compute; reflexivity);
      assert (Hruns : ensure_runs h r m ps m')
  end.
  { eapply ensure_runs_cons;
      [vm_compute; reflexivity|vm_compute; reflexivity|vm_compute; reflexivity
      |vm_compute; reflexivity| |].
    { unfold returned_into, frames_ok. vm_compute. repeat split; try reflexivity; discriminate. }
    eapply ensure_runs_cons;
      [vm_compute; reflexivity|vm_compute; reflexivity|vm_compute; reflexivity
      |vm_compute; reflexivity| |].
    { unfold returned_into, frames_ok. vm_compute. repeat split; try reflexivity; discriminate. }
    apply ensure_runs_nil. }
  split; [exact Hfr|]. split; [exact Hc|]. split; [reflexivity|].
  split; [exact Hruns|].
  destruct (proj1 (proj2 epop_runs_newest_first) _ _ _
              (MkLocals 1 0 (CPtr 0 2) (Ptr 1 0) 0 0) _ _ _ Hfr Hc Hruns)
    as (H1 & _ & _ & _ & H5).
  split; [exact H1|]. split; [exact H5|].
  split; [vm_compute; reflexivity|].
  split; vm_compute; reflexivity.
Defined.

Lemma send_method_missing_rewrite_witness :
  (exists m' L' c,
     L_OP_SEND missing_host
       (small_state (small_frame 0 1 0 0 0) [] send_ireps
                    [small_main; O_proc (MkProc false false 1 1 0)])
       small_locals 0 0 1 = Some (Dispatch m' L') /\
     ci_at m' (ci m') = Some c /\ ci_mid c = 99 /\ ci_argc c = 2 /\
     reg m' L' 1 = Some (mrb_symbol_value 10) /\
     reg m' L' 2 = Some (mrb_fixnum_value 1) /\
     reg m' L' 3 = Some (mrb_fixnum_value 2)) /\
  (exists m' L' c buf,
     L_OP_SEND missing_host packed_state small_locals 0 0 127 = Some (Dispatch m' L') /\
     ci_at m' (ci m') = Some c /\ ci_mid c = 99 /\ ci_argc c = -1 /\
     reg m' L' 1 = Some (MkValue MRB_TT_ARRAY 3) /\
     ary_at m' 3 = Some (MkArray 2 2 buf) /\
     load_n (mem m') buf 2 = Some [mrb_symbol_value 10; mrb_fixnum_value 5]) /\
  (exists m L m' L' c,
     wide_at_send = Some (m, L) /\
     fetch m (l_pc L) = Some (OP_SEND 0 0 126) /\
     reg m L 2 = Some (mrb_fixnum_value 43) /\
     L_OP_SEND wide_host m L 0 0 126 = Some (Dispatch m' L') /\
     ci_at m' (ci m') = Some c /\ ci_mid c = 99 /\ ci_argc c = -1 /\
     reg m' L' 1 = Some (mrb_symbol_value 11) /\
     reg m' L' 2 = Some (mrb_fixnum_value 41) /\
     reg m' L' 3 = Some zero_value) /\
  (exists m4 c,
     L_OP_SEND missing_host
       (small_state (small_frame 0 1 0 0 0) [] send_ireps
                    [small_main; O_proc (MkProc true false 0 1 0)])
       small_locals 0 0 1
       = send_native missing_host m4 small_locals mrb_nil_value (MkProc true false 0 1 0) /\
     ci_at m4 (ci m4) = Some c /\ ci_mid c = 99 /\ ci_argc c = 2 /\
     load (mem m4) (ptr_add (stack m4) 1) = Some (mrb_symbol_value 10) /\
     load (mem m4) (ptr_add (stack m4) 2) = Some (mrb_fixnum_value 1) /\
     load (mem m4) (ptr_add (stack m4) 3) = Some (mrb_fixnum_value 2)).
Proof.
  split; [|split; [|split]].
  - set (m := small_state (small_frame 0 1 0 0 0) [] send_ireps
                          [small_main; O_proc (MkProc false false 1 1 0)]).
    assert (Hfr : frames_ok m) by (unfold frames_ok; simpl; lia).
    assert (Hok : stack_ok m small_cells).
    { unfold stack_ok. simpl. repeat split; try reflexivity; try discriminate; lia. }
    destruct (proj1 (proj1 (send_method_missing_rewrite missing_host m small_locals 0 0 1
                small_cells (small_frame 0 1 0 0 0) 10 mrb_nil_value
                (MkProc false false 1 1 0)
                Hfr Hok eq_refl eq_refl eq_refl eq_refl eq_refl eq_refl ltac:(lia))
                (MkIrep 1 2 [OP_RETURN 0 OP_R_NORMAL] [] [])
                eq_refl eq_refl ltac:(simpl; lia))
              ltac:(lia) ltac:(simpl; lia))
      as (m' & L' & H1 & _ & _ & _ & H5 & _ & H7 & H8).
    eexists m', L', _. split; [exact H1|]. split; [exact H5|].
    split; [reflexivity|]. split; [reflexivity|]. split; [exact H7|]. split.
    + exact (H8 0 ltac:(lia)).
    + exact (H8 1 ltac:(lia)).
  - assert (Hfr : frames_ok packed_state) by (unfold frames_ok; simpl; lia).
    assert (Hok : stack_ok packed_state packed_cells).
    { unfold stack_ok. simpl. repeat split; try reflexivity; try discriminate; lia. }
    destruct (proj1 (proj2 (proj1 (send_method_missing_rewrite missing_host packed_state
                small_locals 0 0 127
                packed_cells (small_frame 0 1 0 0 0) 10 mrb_nil_value
                (MkProc false false 1 1 0)
                Hfr Hok eq_refl eq_refl eq_refl eq_refl eq_refl eq_refl ltac:(lia))
                (MkIrep 1 2 [OP_RETURN 0 OP_R_NORMAL] [] [])
                eq_refl eq_refl ltac:(simpl; lia)))
              eq_refl ltac:(simpl; lia)
              (MkValue MRB_TT_ARRAY 3) (MkArray 1 1 (Ptr 2 0)) [mrb_fixnum_value 5]
              eq_refl eq_refl eq_refl ltac:(discriminate) eq_refl ltac:(simpl; lia))
      as (m' & L' & buf & H1 & _ & _ & _ & H5 & _ & H7 & _ & H9 & H10).
    eexists m', L', _, buf. split; [exact H1|]. split; [exact H5|].
    split; [reflexivity|]. split; [reflexivity|]. split; [exact H7|].
    split; [exact H9|exact H10].
  - destruct wide_at_send as [[m L]|] eqn:E; [|vm_compute in E; discriminate].
    vm_compute in E. injection E as <- <-.
    match goal with
    | |- exists m0 L0 m' L' c, Some (?m, ?L) = _ /\ _ =>
        assert (Hfr : frames_ok m)
          by (unfold frames_ok; vm_compute; repeat split; discriminate);
        eassert (Hok : stack_ok m _)
          by (unfold stack_ok; vm_compute; repeat split; try reflexivity; discriminate);
        destruct (proj2 (proj2 (proj1 (send_method_missing_rewrite wide_host m L 0 0 126
                    _ _ 11 mrb_nil_value (MkProc false false 2 1 0)
                    Hfr Hok eq_refl ltac:(vm_compute; reflexivity) eq_refl
                    ltac:(vm_compute; reflexivity) eq_refl eq_refl ltac:(lia))
                    (MkIrep 2 6 [OP_RETURN 1 OP_R_NORMAL] [] [])
                    eq_refl eq_refl ltac:(simpl; lia)))
                  eq_refl ltac:(vm_compute; reflexivity))
          as (m' & L' & H1 & _ & _ & _ & H5 & _ & H7 & H8 & H9)
    end.
    eexists _, _, m', L', _. split; [reflexivity|].
    split; [vm_compute; reflexivity|]. split; [vm_compute; reflexivity|].
    split; [exact H1|]. split; [exact H5|].
    split; [reflexivity|]. split; [reflexivity|]. split; [exact H7|].
    split; [rewrite H8; vm_compute; reflexivity|].
    apply H9. simpl. lia.
  - set (m := small_state (small_frame 0 1 0 0 0) [] send_ireps
                          [small_main; O_proc (MkProc true false 0 1 0)]).
    assert (Hfr : frames_ok m) by (unfold frames_ok; simpl; lia).
    assert (Hok : stack_ok m small_cells).
    { unfold stack_ok. simpl. repeat split; try reflexivity; try discriminate; lia. }
    destruct (proj1 (proj2 (send_method_missing_rewrite missing_host m small_locals 0 0 1
                small_cells (small_frame 0 1 0 0 0) 10 mrb_nil_value
                (MkProc true false 0 1 0)
                Hfr Hok eq_refl eq_refl eq_refl eq_refl eq_refl eq_refl ltac:(lia))
                eq_refl)
              ltac:(lia) ltac:(simpl; lia))
      as (m4 & c & H1 & _ & H3 & H4 & _ & H6 & _ & _ & H9 & H10).
    exists m4, c. split; [exact H1|]. split; [exact H3|].
    split; [exact H4|]. split; [exact H6|]. split; [exact H9|]. split.
    + exact (H10 0 ltac:(lia)).
    + exact (H10 1 ltac:(lia)).
Defined.
